(** * zeroconf.py: wire codec, record model, cache and service checks

    A shallow embedding of the pure-Python multicast DNS service discovery
    module [zeroconf.py].

    Conventions of the embedding.
    - Python [int] values are [Z]; positions inside a packet, list lengths
      and the writer's [size] counter, which the code never makes negative,
      are [nat].
    - A Python [bytes] object is a [list byte].
    - A Python text string is a [string] holding its UTF-8 encoding, so
      [s.encode('utf-8')] is [list_byte_of_string] and decoding valid UTF-8 is
      [string_of_list_byte].  Splitting at ['.'] commutes with this encoding
      because the octet 0x2E occurs in UTF-8 only as the character ['.'].
      Decoding with ['replace'] of octets that are not valid UTF-8 is not
      modelled (the octets are kept).
    - [current_time_millis()] is an explicit argument [now], in whole
      milliseconds.
    - A raised exception is the [Raise] alternative of [result]. *)

From Stdlib Require Import ZArith List String Ascii Lia Bool.
From Stdlib.Strings Require Import Byte.
From stdpp Require Import base option list gmap strings.

Local Open Scope Z_scope.
Local Open Scope string_scope.
Local Open Scope list_scope.
Local Open Scope nat_scope.

(** ** Exceptions and the error monad *)

Inductive exn : Type :=
| Error
| NonLocalNameException
| NonUniqueNameException
| NamePartTooLongException
| AbstractMethodException
| BadTypeInNameException
| BadDomainNameCircular (off : nat)   (* Exception("Bad domain name (circular) at %s") *)
| BadDomainName (off : nat)           (* Exception("Bad domain name at %s") *)
| IndexError
| StructError
| AttributeError
| AssertionError
| FuelExhausted.   (* no Python exception: marks a loop of the model cut short *)

Inductive result (A : Type) : Type :=
| Ok (a : A)
| Raise (e : exn).
Arguments Ok {A} a.
Arguments Raise {A} e.

(** The same type, for the functions that have a variable called
    [result] as their source has. *)
Abbreviation returns := result.

Definition bind {A B} (r : result A) (k : A -> result B) : result B :=
  match r with
  | Ok a => k a
  | Raise e => Raise e
  end.

Notation "'let*' x ':=' e 'in' k" := (bind e (fun x => k))
  (at level 10, x pattern, e at level 100, k at level 200).

(** [for x in xs: f(x)] over a state that every call may replace or abort. *)
Fixpoint for_each {A S} (f : A -> S -> result S) (xs : list A) (s : S) : result S :=
  match xs with
  | [] => Ok s
  | x :: xs' => let* s' := f x s in for_each f xs' s'
  end.

(** The [logger] argument of the constructors of [ServiceInfo] and
    [ServiceBrowser].  Each of them runs
    [if logger is None: self.logger = logging.getLogger(...)] and nothing
    else with it, so that [self.logger] exists exactly when no logger was
    passed: with one, the attribute is missing, and a call of
    [self.logger.exception] or [self.logger.debug] raises
    [AttributeError]. *)
Inductive logger_arg : Type :=
| LoggerNone     (* logger=None, the default *)
| LoggerGiven.   (* a logging object *)

(** Whether [self.logger] is a logger after the constructor. *)
Definition self_logger (logger : logger_arg) : bool :=
  match logger with
  | LoggerNone => true
  | LoggerGiven => false
  end.

(** [self.logger.exception(...)], [self.logger.debug(...)] *)
Definition log (logger : bool) : result unit :=
  if logger then Ok tt else Raise AttributeError.

(** ** Bytes *)

Definition bytes := list byte.

#[global] Instance byte_eq_decision : EqDecision byte := byte_eq_dec.

#[global] Instance byte_countable : Countable byte :=
  inj_countable Byte.to_N Byte.of_N Byte.of_to_N.

Definition Z_of_byte (b : byte) : Z := Z.of_N (Byte.to_N b).

Definition byte_of_Z (z : Z) : byte :=
  match Byte.of_N (Z.to_N z) with
  | Some b => b
  | None => x00
  end.

(** [six.indexbytes(data, i)] for a position [i >= 0]. *)
Definition indexbytes (data : bytes) (i : nat) : result Z :=
  match data !! i with
  | Some b => Ok (Z_of_byte b)
  | None => Raise IndexError
  end.

(** [six.int2byte(value)]: fails outside [0, 256). *)
Definition int2byte (value : Z) : result byte :=
  if (0 <=? value)%Z && (value <? 256)%Z then Ok (byte_of_Z value)
  else Raise StructError.

(** [data[a:a+n]]: Python slices are cut at the end of the data. *)
Definition slice (data : bytes) (a n : nat) : bytes := take n (drop a data).

(** ** Strings *)

Definition lower_ascii (c : ascii) : ascii :=
  let n := nat_of_ascii c in
  if (65 <=? n) && (n <=? 90) then ascii_of_nat (n + 32) else c.

(** [str.lower()] of a text whose characters are ASCII: the letters A
    to Z are replaced.  On a text with other characters [str.lower()] also
    replaces the capital letters among them, which this function leaves as
    they are; the statements that depend on which characters are replaced
    are about ASCII names ([is_ascii]). *)
Fixpoint lower (s : string) : string :=
  match s with
  | EmptyString => EmptyString
  | String c s' => String (lower_ascii c) (lower s')
  end.

(** Every character of the text is an ASCII character. *)
Fixpoint is_ascii (s : string) : bool :=
  match s with
  | EmptyString => true
  | String c s' => (nat_of_ascii c <? 128) && is_ascii s'
  end.

Definition dot : ascii := "."%char.

(** [s.split('.')] *)
Fixpoint split_dot (s : string) : list string :=
  match s with
  | EmptyString => [EmptyString]
  | String c s' =>
      if Ascii.eqb c dot then EmptyString :: split_dot s'
      else match split_dot s' with
           | h :: t => String c h :: t
           | [] => [String c EmptyString]
           end
  end.

(** [s.find('.')]: the first position of a dot, or -1. *)
Fixpoint find_dot (s : string) : Z :=
  match s with
  | EmptyString => (-1)%Z
  | String c s' =>
      if Ascii.eqb c dot then 0%Z
      else let r := find_dot s' in
           if (r <? 0)%Z then (-1)%Z else (r + 1)%Z
  end.

(** [s.endswith(suffix)] *)
Definition endswith (s suffix : string) : bool :=
  let n := String.length s in
  let k := String.length suffix in
  (k <=? n) && String.eqb (substring (n - k) k s) suffix.

(** ** Constants *)

Definition _UNREGISTER_TIME : Z := 125.
Definition _CHECK_TIME : Z := 175.
Definition _REGISTER_TIME : Z := 225.
Definition _DNS_TTL : Z := 60 * 60.
Definition _MAX_MSG_ABSOLUTE : nat := 8972.

Definition _FLAGS_QR_MASK : Z := 0x8000.
Definition _FLAGS_QR_QUERY : Z := 0x0000.
Definition _FLAGS_QR_RESPONSE : Z := 0x8000.
Definition _FLAGS_AA : Z := 0x0400.

Definition _CLASS_IN : Z := 1.
Definition _CLASS_MASK : Z := 0x7FFF.
Definition _CLASS_UNIQUE : Z := 0x8000.

Definition _TYPE_A : Z := 1.
Definition _TYPE_CNAME : Z := 5.
Definition _TYPE_PTR : Z := 12.
Definition _TYPE_HINFO : Z := 13.
Definition _TYPE_TXT : Z := 16.
Definition _TYPE_AAAA : Z := 28.
Definition _TYPE_SRV : Z := 33.
Definition _TYPE_ANY : Z := 255.

(** ** DNSEntry, DNSQuestion *)

Module DNSEntry.

Record t : Type := mk {
  key : string;
  name : string;
  type : Z;
  class_ : Z;
  unique : bool
}.

Definition __init__ (name : string) (type class_ : Z) : t :=
  {| key := lower name;
     name := name;
     type := type;
     class_ := Z.land class_ _CLASS_MASK;
     unique := negb (Z.land class_ _CLASS_UNIQUE =? 0)%Z |}.

(** Equality test on name, type, and class *)
Definition __eq__ (self other : t) : bool :=
  String.eqb (name self) (name other) &&
  (type self =? type other)%Z &&
  (class_ self =? class_ other)%Z.

End DNSEntry.

Module DNSQuestion.

Definition __init__ := DNSEntry.__init__.

End DNSQuestion.

(** ** DNSRecord and its five subclasses

    The subclass of a record object is the constructor of its [rdata]. *)

Inductive rdata : Type :=
| Address (address : bytes)                              (* DNSAddress *)
| Hinfo (cpu os : bytes)                                 (* DNSHinfo *)
| Pointer (alias : string)                               (* DNSPointer *)
| Text (text : option bytes)                             (* DNSText *)
| Service (priority weight port : Z) (server : string).  (* DNSService *)

Module DNSRecord.

Record t : Type := mk {
  entry : DNSEntry.t;
  ttl : Z;
  created : Z;
  payload : rdata
}.

(** The attributes inherited from [DNSEntry]. *)
Definition key (self : t) : string := DNSEntry.key (entry self).
Definition name (self : t) : string := DNSEntry.name (entry self).
Definition type (self : t) : Z := DNSEntry.type (entry self).
Definition class_ (self : t) : Z := DNSEntry.class_ (entry self).
Definition unique (self : t) : bool := DNSEntry.unique (entry self).

Definition __init__ (now : Z) (name : string) (type class_ ttl : Z)
    (payload : rdata) : t :=
  {| entry := DNSEntry.__init__ name type class_;
     ttl := ttl;
     created := now;
     payload := payload |}.

(** [DNSRecord.__eq__]: the one the subclasses override. *)
Definition base__eq__ (self other : t) : bool :=
  DNSEntry.__eq__ (entry self) (entry other).

(** Returns the time at which this record will have expired by a certain
    percentage. *)
Definition get_expiration_time (self : t) (percent : Z) : Z :=
  (created self + percent * ttl self * 10)%Z.

(** The remaining TTL in seconds; the quotient is the one [write_int]
    sends after [int(...)]. *)
Definition get_remaining_ttl (self : t) (now : Z) : Z :=
  Z.max 0 (Z.quot (get_expiration_time self 100 - now) 1000).

Definition is_expired (self : t) (now : Z) : bool :=
  (get_expiration_time self 100 <=? now)%Z.

Definition is_stale (self : t) (now : Z) : bool :=
  (get_expiration_time self 50 <=? now)%Z.

Definition reset_ttl (self other : t) : t :=
  {| entry := entry self;
     ttl := ttl other;
     created := created other;
     payload := payload self |}.

(** [a == b] between record objects: Python calls [__eq__] of the class of
    [a], which tests [isinstance(other, <that class>)] and the payload. *)
Definition __eq__ (self other : t) : bool :=
  match payload self, payload other with
  | Address a, Address b => bool_decide (a = b)
  | Hinfo c o, Hinfo c' o' => bool_decide (c = c') && bool_decide (o = o')
  | Pointer a, Pointer b => String.eqb a b
  | Text a, Text b => bool_decide (a = b)
  | Service p w q s, Service p' w' q' s' =>
      (p =? p')%Z && (w =? w')%Z && (q =? q')%Z && String.eqb s s'
  | _, _ => false
  end.

(** Returns true if another record has same name, type and class, and if
    its TTL is at least half of this record's (so the docstring).  The
    source compares [other.ttl > self.ttl / 2] with true division. *)
Definition suppressed_by_answer (self other : t) : bool :=
  __eq__ self other && (ttl self <? 2 * ttl other)%Z.

End DNSRecord.

Definition DNSAddress now name type class_ ttl address :=
  DNSRecord.__init__ now name type class_ ttl (Address address).
Definition DNSHinfo now name type class_ ttl cpu os :=
  DNSRecord.__init__ now name type class_ ttl (Hinfo cpu os).
Definition DNSPointer now name type class_ ttl alias :=
  DNSRecord.__init__ now name type class_ ttl (Pointer alias).
Definition DNSText now name type class_ ttl text :=
  DNSRecord.__init__ now name type class_ ttl (Text text).
Definition DNSService now name type class_ ttl priority weight port server :=
  DNSRecord.__init__ now name type class_ ttl (Service priority weight port server).

(** [DNSQuestion.answered_by]: returns true if the question is answered by
    the record *)
Definition answered_by (self : DNSEntry.t) (rec : DNSRecord.t) : bool :=
  (DNSEntry.class_ self =? DNSRecord.class_ rec)%Z &&
  ((DNSEntry.type self =? DNSRecord.type rec)%Z || (DNSEntry.type self =? _TYPE_ANY)%Z) &&
  String.eqb (DNSEntry.name self) (DNSRecord.name rec).

(** ** struct.pack / struct.unpack, network byte order *)

Inductive field : Type :=
| fmt_H    (* 'H': unsigned short *)
| fmt_I    (* 'I': unsigned int *)
| fmt_i.   (* 'i': signed int *)

Definition field_size (f : field) : nat :=
  match f with
  | fmt_H => 2
  | fmt_I | fmt_i => 4
  end.

(** [struct.calcsize] *)
Definition calcsize (format : list field) : nat :=
  foldr (fun f n => field_size f + n) 0 format.

Fixpoint be_encode (n : nat) (v : Z) : bytes :=
  match n with
  | O => []
  | S n' => byte_of_Z ((v / 256 ^ Z.of_nat n') mod 256) :: be_encode n' v
  end.

Fixpoint be_decode (acc : Z) (bs : bytes) : Z :=
  match bs with
  | [] => acc
  | b :: bs' => be_decode (acc * 256 + Z_of_byte b) bs'
  end.

Definition pack_field (f : field) (v : Z) : result bytes :=
  match f with
  | fmt_H => if (0 <=? v)%Z && (v <? 2 ^ 16)%Z then Ok (be_encode 2 v) else Raise StructError
  | fmt_I => if (0 <=? v)%Z && (v <? 2 ^ 32)%Z then Ok (be_encode 4 v) else Raise StructError
  | fmt_i => if (- 2 ^ 31 <=? v)%Z && (v <? 2 ^ 31)%Z then Ok (be_encode 4 (v mod 2 ^ 32)) else Raise StructError
  end.

Arguments pack_field : simpl never.

Definition unpack_field (f : field) (bs : bytes) : Z :=
  let u := be_decode 0 bs in
  match f with
  | fmt_H | fmt_I => u
  | fmt_i => if (u <? 2 ^ 31)%Z then u else (u - 2 ^ 32)%Z
  end.

Fixpoint unpack_fields (format : list field) (bs : bytes) : list Z :=
  match format with
  | [] => []
  | f :: format' =>
      unpack_field f (take (field_size f) bs) :: unpack_fields format' (drop (field_size f) bs)
  end.

Arguments be_encode : simpl never.
Arguments unpack_field : simpl never.
Arguments unpack_fields : simpl never.

(** [struct.unpack(format, buffer)]: the buffer must have exactly the
    size of the format. *)
Definition struct_unpack (format : list field) (bs : bytes) : result (list Z) :=
  if Nat.eqb (List.length bs) (calcsize format) then Ok (unpack_fields format bs)
  else Raise StructError.

(** ** DNSOutgoing: the packet writer *)

Module DNSOutgoing.

Record t : Type := mk {
  finished : bool;
  id : Z;
  multicast : bool;
  flags : Z;
  names : gmap string nat;
  data : list bytes;
  size : nat;
  questions : list DNSEntry.t;
  answers : list (DNSRecord.t * Z);
  authorities : list DNSRecord.t;
  additionals : list DNSRecord.t
}.

Definition __init__ (flags : Z) (multicast : bool) : t :=
  {| finished := false; id := 0%Z; multicast := multicast; flags := flags;
     names := ∅; data := []; size := 12;
     questions := []; answers := []; authorities := []; additionals := [] |}.

(** Assignments to [self.data] and [self.size], to [self.names], to
    [self.finished]. *)
Definition set_data (d : list bytes) (n : nat) (self : t) : t :=
  mk (finished self) (id self) (multicast self) (flags self) (names self)
     d n (questions self) (answers self) (authorities self) (additionals self).

Definition set_names (m : gmap string nat) (self : t) : t :=
  mk (finished self) (id self) (multicast self) (flags self) m
     (data self) (size self) (questions self) (answers self)
     (authorities self) (additionals self).

Definition set_finished (b : bool) (self : t) : t :=
  mk b (id self) (multicast self) (flags self) (names self)
     (data self) (size self) (questions self) (answers self)
     (authorities self) (additionals self).

Definition add_question (record : DNSEntry.t) (self : t) : t :=
  mk (finished self) (id self) (multicast self) (flags self) (names self)
     (data self) (size self) (questions self ++ [record]) (answers self)
     (authorities self) (additionals self).

(** Adds an answer if it does not expire by a certain time *)
Definition add_answer_at_time (record : option DNSRecord.t) (now : Z) (self : t) : t :=
  match record with
  | Some record =>
      if (now =? 0)%Z || negb (DNSRecord.is_expired record now) then
        mk (finished self) (id self) (multicast self) (flags self) (names self)
           (data self) (size self) (questions self) (answers self ++ [(record, now)])
           (authorities self) (additionals self)
      else self
  | None => self
  end.

Definition add_authorative_answer (record : DNSRecord.t) (self : t) : t :=
  mk (finished self) (id self) (multicast self) (flags self) (names self)
     (data self) (size self) (questions self) (answers self)
     (authorities self ++ [record]) (additionals self).

Definition add_additional_answer (record : DNSRecord.t) (self : t) : t :=
  mk (finished self) (id self) (multicast self) (flags self) (names self)
     (data self) (size self) (questions self) (answers self)
     (authorities self) (additionals self ++ [record]).

(** [self.data.append(chunk); self.size += n] *)
Definition append (chunk : bytes) (n : nat) (self : t) : t :=
  set_data (data self ++ [chunk]) (size self + n) self.

Definition pack (f : field) (value : Z) (self : t) : result t :=
  let* chunk := pack_field f value in
  Ok (append chunk (field_size f) self).

(** Writes a single byte to the packet *)
Definition write_byte (value : Z) (self : t) : result t :=
  let* b := int2byte value in
  Ok (append [b] 1 self).

(** Inserts an unsigned short in a certain position in the packet;
    [list.insert] beyond the end appends. *)
Definition insert_short (index : nat) (value : Z) (self : t) : result t :=
  let* chunk := pack_field fmt_H value in
  Ok (set_data (take index (data self) ++ chunk :: drop index (data self))
               (size self + 2) self).

Definition write_short (value : Z) (self : t) : result t := pack fmt_H value self.

Definition write_int (value : Z) (self : t) : result t := pack fmt_I value self.

(** Writes a string to the packet *)
Definition write_string (value : bytes) (self : t) : result t :=
  Ok (append value (List.length value) self).

(** Writes a UTF-8 string of a given length to the packet *)
Definition write_utf (s : string) (self : t) : result t :=
  let utfstr := list_byte_of_string s in
  let length := List.length utfstr in
  if 64 <? length then Raise NamePartTooLongException
  else
    let* self := write_byte (Z.of_nat length) self in
    write_string utfstr self.

(** Writes a domain name to the packet *)
Definition write_name (name : string) (self : t) : result t :=
  match names self !! name with
  | Some index =>
      let* self := write_byte (Z.lor (Z.shiftr (Z.of_nat index) 8) 0xC0) self in
      write_byte (Z.land (Z.of_nat index) 0xFF) self
  | None =>
      let self := set_names (<[name := size self]> (names self)) self in
      let parts := split_dot name in
      let parts := if bool_decide (last parts = Some EmptyString)
                   then removelast parts else parts in
      let* self := for_each write_utf parts self in
      write_byte 0 self
  end.

(** Writes a question to the packet *)
Definition write_question (question : DNSEntry.t) (self : t) : result t :=
  let* self := write_name (DNSEntry.name question) self in
  let* self := write_short (DNSEntry.type question) self in
  write_short (DNSEntry.class_ question) self.

(** [record.write(out)], by the class of the record.  [DNSHinfo.write]
    reads the attribute [oso], which no object has.  [write_string]
    asserts that its argument is a bytes object, which the [None] text of
    a [DNSText] is not. *)
Definition record_write (record : DNSRecord.t) (self : t) : result t :=
  match DNSRecord.payload record with
  | Address address => write_string address self
  | Hinfo cpu os =>
      let* self := write_string cpu self in
      Raise AttributeError
  | Pointer alias => write_name alias self
  | Text (Some text) => write_string text self
  | Text None => Raise AssertionError
  | Service priority weight port server =>
      let* self := write_short priority self in
      let* self := write_short weight self in
      let* self := write_short port self in
      write_name server self
  end.

(** Writes a record (answer, authoritative answer, additional) to the
    packet *)
Definition write_record (record : DNSRecord.t) (now : Z) (self : t) : result t :=
  let* self := write_name (DNSRecord.name record) self in
  let* self := write_short (DNSRecord.type record) self in
  let* self :=
    if DNSRecord.unique record && multicast self
    then write_short (Z.lor (DNSRecord.class_ record) _CLASS_UNIQUE) self
    else write_short (DNSRecord.class_ record) self in
  let* self :=
    if (now =? 0)%Z then write_int (DNSRecord.ttl record) self
    else write_int (DNSRecord.get_remaining_ttl record now) self in
  let index := List.length (data self) in
  let self := set_data (data self) (size self + 2) self in
  let* self := record_write record self in
  let self := set_data (data self) (size self - 2) self in
  let length := List.length (concat (drop index (data self))) in
  insert_short index (Z.of_nat length) self.

(** The two halves of the [if not self.finished] block of [packet]: the
    four loops over the sections, and the six header fields put in front. *)
Definition write_sections (self : t) : result t :=
  let* self := for_each write_question (questions self) self in
  let* self := for_each (fun '(answer, time_) => write_record answer time_)
                        (answers self) self in
  let* self := for_each (fun authority => write_record authority 0)
                        (authorities self) self in
  for_each (fun additional => write_record additional 0) (additionals self) self.

Definition write_header (self : t) : result t :=
  let* self := insert_short 0 (Z.of_nat (List.length (additionals self))) self in
  let* self := insert_short 0 (Z.of_nat (List.length (authorities self))) self in
  let* self := insert_short 0 (Z.of_nat (List.length (answers self))) self in
  let* self := insert_short 0 (Z.of_nat (List.length (questions self))) self in
  let* self := insert_short 0 (flags self) self in
  if multicast self then insert_short 0 0 self
  else insert_short 0 (id self) self.

(** Returns a string containing the packet's bytes *)
Definition packet (self : t) : result (bytes * t) :=
  let* self :=
    if finished self then Ok self
    else
      let self := set_finished true self in
      let* self := write_sections self in
      write_header self in
  Ok (concat (data self), self).

End DNSOutgoing.

(** ** DNSIncoming: the packet parser *)

Module DNSIncoming.

Record t : Type := mk {
  offset : nat;
  data : bytes;
  questions : list DNSEntry.t;
  answers : list DNSRecord.t;
  id : Z;
  flags : Z;
  num_questions : Z;
  num_answers : Z;
  num_authorities : Z;
  num_quthorities : Z;   (* the attribute [read_header] assigns *)
  num_additionals : Z
}.

Definition set_offset (o : nat) (self : t) : t :=
  mk o (data self) (questions self) (answers self) (id self) (flags self)
     (num_questions self) (num_answers self) (num_authorities self)
     (num_quthorities self) (num_additionals self).

Definition unpack (format : list field) (self : t) : result (list Z * t) :=
  let length := calcsize format in
  let* info := struct_unpack format (slice (data self) (offset self) length) in
  Ok (info, set_offset (offset self + length) self).

(** Reads header portion of packet *)
Definition read_header (self : t) : result t :=
  let* (info, self) := unpack [fmt_H; fmt_H; fmt_H; fmt_H; fmt_H; fmt_H] self in
  match info with
  | [id; flags; num_questions; num_answers; num_quthorities; num_additionals] =>
      Ok (mk (offset self) (data self) (questions self) (answers self)
             id flags num_questions num_answers (num_authorities self)
             num_quthorities num_additionals)
  | _ => Raise StructError
  end.

(** Reads an integer from the packet *)
Definition read_int (self : t) : result (Z * t) :=
  let* (info, self) := unpack [fmt_I] self in
  match info with
  | [v] => Ok (v, self)
  | _ => Raise StructError
  end.

(** Reads a string of a given length from the packet *)
Definition read_string (length : nat) (self : t) : bytes * t :=
  (slice (data self) (offset self) length, set_offset (offset self + length) self).

(** Reads a character string from the packet *)
Definition read_character_string (self : t) : result (bytes * t) :=
  let* length := indexbytes (data self) (offset self) in
  let self := set_offset (offset self + 1) self in
  Ok (read_string (Z.to_nat length) self).

(** Reads an unsigned short from the packet *)
Definition read_unsigned_short (self : t) : result (Z * t) :=
  let* (info, self) := unpack [fmt_H] self in
  match info with
  | [v] => Ok (v, self)
  | _ => Raise StructError
  end.

(** Reads a UTF-8 string of a given length from the packet *)
Definition read_utf (data : bytes) (offset length : nat) : string :=
  string_of_list_byte (slice data offset length).

(** The [while True] loop of [read_name], one iteration per unit of
    [fuel]; [next] is [None] where the source holds -1.  The outcome is the
    name and the value assigned to [self.offset]. *)
Fixpoint read_name_loop (fuel : nat) (data : bytes) (result : string)
    (off : nat) (next : option nat) (first : nat) : returns (string * nat) :=
  match fuel with
  | O => Raise FuelExhausted
  | S fuel =>
      let* length := indexbytes data off in
      let off := off + 1 in
      if (length =? 0)%Z then
        Ok (result, match next with Some n => n | None => off end)
      else
        let t := Z.land length 0xC0 in
        if (t =? 0x00)%Z then
          read_name_loop fuel data
            (result +:+ read_utf data off (Z.to_nat length) +:+ ".")
            (off + Z.to_nat length) next first
        else if (t =? 0xC0)%Z then
          let next := match next with Some n => Some n | None => Some (off + 1) end in
          let* low := indexbytes data off in
          let off := Z.to_nat (Z.lor (Z.shiftl (Z.land length 0x3F) 8) low) in
          if first <=? off then Raise (BadDomainNameCircular off)
          else read_name_loop fuel data result off next off
        else Raise (BadDomainName off)
  end.

(** Iterations that [read_name] can need from position [off]. *)
Definition read_name_fuel (data : bytes) (off : nat) : nat :=
  off * S (List.length data) + (List.length data - off) + 1.

(** Reads a domain name from the packet *)
Definition read_name (self : t) : result (string * t) :=
  let* (result, offset') :=
    read_name_loop (read_name_fuel (data self) (offset self)) (data self)
                   EmptyString (offset self) None (offset self) in
  Ok (result, set_offset offset' self).

(** [for i in xrange(n): body], the body threading the parser state. *)
Fixpoint repeat_n (n : nat) (body : t -> result t) (self : t) : result t :=
  match n with
  | O => Ok self
  | S n' => let* self := body self in repeat_n n' body self
  end.

Definition append_question (q : DNSEntry.t) (self : t) : t :=
  mk (offset self) (data self) (questions self ++ [q]) (answers self) (id self)
     (flags self) (num_questions self) (num_answers self) (num_authorities self)
     (num_quthorities self) (num_additionals self).

Definition append_answer (r : DNSRecord.t) (self : t) : t :=
  mk (offset self) (data self) (questions self) (answers self ++ [r]) (id self)
     (flags self) (num_questions self) (num_answers self) (num_authorities self)
     (num_quthorities self) (num_additionals self).

Definition read_question (self : t) : result t :=
  let* (name, self) := read_name self in
  let* (info, self) := unpack [fmt_H; fmt_H] self in
  match info with
  | [type; class_] => Ok (append_question (DNSQuestion.__init__ name type class_) self)
  | _ => Raise StructError
  end.

(** Reads questions section of packet *)
Definition read_questions (self : t) : result t :=
  repeat_n (Z.to_nat (num_questions self)) read_question self.

(** The [if]/[elif] chain of [read_others]: the record of the type, or
    [None] and the payload skipped for a type that is not known; [now] is the
    clock that stamps the new record. *)
Definition read_rdata (now : Z) (domain : string) (type class_ ttl length : Z) (self : t)
    : result (option DNSRecord.t * t) :=
  if (type =? _TYPE_A)%Z then
    let '(address, self) := read_string 4 self in
    Ok (Some (DNSAddress now domain type class_ ttl address), self)
  else if (type =? _TYPE_CNAME)%Z || (type =? _TYPE_PTR)%Z then
    let* (alias, self) := read_name self in
    Ok (Some (DNSPointer now domain type class_ ttl alias), self)
  else if (type =? _TYPE_TXT)%Z then
    let '(text, self) := read_string (Z.to_nat length) self in
    Ok (Some (DNSText now domain type class_ ttl (Some text)), self)
  else if (type =? _TYPE_SRV)%Z then
    let* (priority, self) := read_unsigned_short self in
    let* (weight, self) := read_unsigned_short self in
    let* (port, self) := read_unsigned_short self in
    let* (server, self) := read_name self in
    Ok (Some (DNSService now domain type class_ ttl priority weight port server), self)
  else if (type =? _TYPE_HINFO)%Z then
    let* (cpu, self) := read_character_string self in
    let* (os, self) := read_character_string self in
    Ok (Some (DNSHinfo now domain type class_ ttl cpu os), self)
  else if (type =? _TYPE_AAAA)%Z then
    let '(address, self) := read_string 16 self in
    Ok (Some (DNSAddress now domain type class_ ttl address), self)
  else
    Ok (None, set_offset (offset self + Z.to_nat length) self).

(** One round of the loop of [read_others]. *)
Definition read_other (now : Z) (self : t) : result t :=
  let* (domain, self) := read_name self in
  let* (info, self) := unpack [fmt_H; fmt_H; fmt_i; fmt_H] self in
  match info with
  | [type; class_; ttl; length] =>
      let* (rec, self) := read_rdata now domain type class_ ttl length self in
      match rec with
      | Some rec => Ok (append_answer rec self)
      | None => Ok self
      end
  | _ => Raise StructError
  end.

(** Reads the answers, authorities and additionals section of the packet *)
Definition read_others (now : Z) (self : t) : result t :=
  let n := (num_answers self + num_authorities self + num_additionals self)%Z in
  repeat_n (Z.to_nat n) (read_other now) self.

(** Constructor from string holding bytes of packet *)
Definition __init__ (now : Z) (data : bytes) : result t :=
  let self := mk 0 data [] [] 0 0 0 0 0 0 0 in
  let* self := read_header self in
  let* self := read_questions self in
  read_others now self.

(** Returns true if this is a query *)
Definition is_query (self : t) : bool :=
  (Z.land (flags self) _FLAGS_QR_MASK =? _FLAGS_QR_QUERY)%Z.

(** Returns true if this is a response *)
Definition is_response (self : t) : bool :=
  (Z.land (flags self) _FLAGS_QR_MASK =? _FLAGS_QR_RESPONSE)%Z.

End DNSIncoming.

Arguments DNSIncoming.read_string : simpl never.
Arguments DNSIncoming.read_name : simpl never.
Arguments DNSIncoming.read_unsigned_short : simpl never.
Arguments DNSIncoming.read_character_string : simpl never.
Arguments DNSIncoming.unpack : simpl never.
Arguments DNSIncoming.set_offset : simpl never.

(** ** Known-answer suppression *)

(** [DNSRecord.suppressed_by]: returns true if any answer in a message can
    suffice for the information held in this record. *)
Fixpoint suppressed_by_answers (self : DNSRecord.t) (answers : list DNSRecord.t) : bool :=
  match answers with
  | [] => false
  | record :: answers' =>
      if DNSRecord.suppressed_by_answer self record then true
      else suppressed_by_answers self answers'
  end.

Definition suppressed_by (self : DNSRecord.t) (msg : DNSIncoming.t) : bool :=
  suppressed_by_answers self (DNSIncoming.answers msg).

(** [DNSOutgoing.add_answer]: adds an answer *)
Definition add_answer (inp : DNSIncoming.t) (record : DNSRecord.t) (self : DNSOutgoing.t)
    : DNSOutgoing.t :=
  if negb (suppressed_by record inp)
  then DNSOutgoing.add_answer_at_time (Some record) 0 self
  else self.

(** ** DNSCache

    [self.cache] is a dict from the lower-case name to the list of the
    records with that key. *)

Module DNSCache.

Abbreviation t := (gmap string (list DNSRecord.t)).

Definition __init__ : t := ∅.

(** [list.remove(x)]: drops the first item equal to [x]; [None] stands
    for the [ValueError] of a list without such an item. *)
Fixpoint list_remove (x : DNSRecord.t) (l : list DNSRecord.t) : option (list DNSRecord.t) :=
  match l with
  | [] => None
  | y :: l' =>
      if DNSRecord.__eq__ y x then Some l'
      else match list_remove x l' with
           | Some r => Some (y :: r)
           | None => None
           end
  end.

(** [l[l.index(x)]]: the first item equal to [x]. *)
Fixpoint list_find (x : DNSRecord.t) (l : list DNSRecord.t) : option DNSRecord.t :=
  match l with
  | [] => None
  | y :: l' => if DNSRecord.__eq__ y x then Some y else list_find x l'
  end.

(** [x in l] *)
Definition list_contains (x : DNSRecord.t) (l : list DNSRecord.t) : bool :=
  existsb (fun y => DNSRecord.__eq__ y x) l.

(** Adds an entry: [self.cache.setdefault(entry.key, []).append(entry)] *)
Definition add (entry : DNSRecord.t) (self : t) : t :=
  <[DNSRecord.key entry := default [] (self !! DNSRecord.key entry) ++ [entry]]> self.

(** Removes an entry; a missing key or a missing entry is passed over. *)
Definition remove (entry : DNSRecord.t) (self : t) : t :=
  match self !! DNSRecord.key entry with
  | Some list_ =>
      match list_remove entry list_ with
      | Some list_' => <[DNSRecord.key entry := list_']> self
      | None => self
      end
  | None => self
  end.

(** Gets an entry by key.  Will return None if there is no matching
    entry. *)
Definition get (entry : DNSRecord.t) (self : t) : option DNSRecord.t :=
  match self !! DNSRecord.key entry with
  | Some list_ => list_find entry list_
  | None => None
  end.

(** Returns a list of entries whose key matches the name. *)
Definition entries_with_name (name : string) (self : t) : list DNSRecord.t :=
  default [] (self !! name).

(** Returns a list of all entries, bucket after bucket. *)
Definition entries (self : t) : list DNSRecord.t :=
  concat (map snd (map_to_list self)).

(** [item == entry] for an item of a bucket and an [entry] that is a plain
    [DNSEntry]: Python calls the [__eq__] of the class of the item, one of
    the five subclasses of [DNSRecord], and each starts with
    [isinstance(other, <that class>)], which a plain [DNSEntry] fails. *)
Definition record__eq__entry (self : DNSRecord.t) (other : DNSEntry.t) : bool :=
  match DNSRecord.payload self with
  | Address _ => false          (* isinstance(other, DNSAddress) and ... *)
  | Hinfo _ _ => false          (* isinstance(other, DNSHinfo) and ... *)
  | Pointer _ => false          (* isinstance(other, DNSPointer) and ... *)
  | Text _ => false             (* isinstance(other, DNSText) and ... *)
  | Service _ _ _ _ => false    (* isinstance(other, DNSService) and ... *)
  end.

(** [list_[list_.index(entry)]] for a plain [DNSEntry]. *)
Fixpoint list_find_entry (x : DNSEntry.t) (l : list DNSRecord.t) : option DNSRecord.t :=
  match l with
  | [] => None
  | y :: l' => if record__eq__entry y x then Some y else list_find_entry x l'
  end.

(** [get], called with a plain [DNSEntry]. *)
Definition get_entry (entry : DNSEntry.t) (self : t) : option DNSRecord.t :=
  match self !! DNSEntry.key entry with
  | Some list_ => list_find_entry entry list_
  | None => None
  end.

(** Gets an entry by details.  Will return None if there is no matching
    entry. *)
Definition get_by_details (name : string) (type class_ : Z) (self : t)
    : option DNSRecord.t :=
  let entry := DNSEntry.__init__ name type class_ in
  get_entry entry self.

End DNSCache.

(** ** Reaper: the sweep that removes the expired entries *)

Module Reaper.

(** [for record in entries: if record.is_expired(now): ...] over a list
    [entries] that is an object of its own: the cache afterwards and the
    records handed to [update_record]. *)
Fixpoint sweep (now : Z) (records : list DNSRecord.t) (cache : DNSCache.t)
    (notified : list DNSRecord.t) : DNSCache.t * list DNSRecord.t :=
  match records with
  | [] => (cache, notified)
  | record :: records' =>
      if DNSRecord.is_expired record now
      then sweep now records' (DNSCache.remove record cache) (notified ++ [record])
      else sweep now records' cache notified
  end.

(** The same loop over the list object of the bucket [self.cache[name]],
    which [remove] changes while the loop runs: the iterator holds the
    position [i] and stops when the list has no item there.  [None] marks a
    loop cut short for lack of [fuel]. *)
Fixpoint sweep_bucket (fuel : nat) (now : Z) (name : string) (i : nat)
    (cache : DNSCache.t) (notified : list DNSRecord.t)
    : option (DNSCache.t * list DNSRecord.t) :=
  match DNSCache.entries_with_name name cache !! i with
  | None => Some (cache, notified)
  | Some record =>
      match fuel with
      | O => None
      | S fuel =>
          if DNSRecord.is_expired record now
          then sweep_bucket fuel now name (i + 1) (DNSCache.remove record cache)
                            (notified ++ [record])
          else sweep_bucket fuel now name (i + 1) cache notified
      end
  end.

(** One round of [run], after the wait.  [entries()] returns [[]] for an
    empty dict and [reduce(lambda a, b: a + b, self.cache.values())]
    otherwise: the list object of the bucket itself when the dict has one
    key, and a new list when it has more. *)
Definition run_once (now : Z) (cache : DNSCache.t)
    : option (DNSCache.t * list DNSRecord.t) :=
  match map_to_list cache with
  | [] => Some (cache, [])
  | [(name, bucket)] => sweep_bucket (List.length bucket) now name 0 cache []
  | _ => Some (sweep now (DNSCache.entries cache) cache [])
  end.

End Reaper.

(** ** ServiceInfo *)

(** The keys and values a properties dict can hold.  [True] and [False]
    are instances of [int] as well. *)
Inductive pkey : Type :=
| KText (s : string)
| KBytes (b : bytes).

Inductive pvalue : Type :=
| VNone
| VText (s : string)
| VBytes (b : bytes)
| VInt (z : Z)
| VBool (b : bool).

#[global] Instance pkey_eq_decision : EqDecision pkey.
Proof. solve_decision. Defined.

(** A dict, as the list of its items in the order of iteration. *)
Definition dict := list (pkey * pvalue).

(** [d.get(key)] *)
Fixpoint dict_get (key : pkey) (d : dict) : option pvalue :=
  match d with
  | [] => None
  | (k, v) :: d' => if bool_decide (k = key) then Some v else dict_get key d'
  end.

(** [d[key] = value] *)
Fixpoint dict_set (key : pkey) (value : pvalue) (d : dict) : dict :=
  match d with
  | [] => [(key, value)]
  | (k, v) :: d' =>
      if bool_decide (k = key) then (k, value) :: d' else (k, v) :: dict_set key value d'
  end.

Definition equals_sign : byte := "="%byte.

(** [s.split(b'=', 1)] unpacked into two names: [None] when there is no
    ['='] and the unpacking raises [ValueError]. *)
Fixpoint split_equals (s : bytes) : option (bytes * bytes) :=
  match s with
  | [] => None
  | b :: s' =>
      if bool_decide (b = equals_sign) then Some ([], s')
      else match split_equals s' with
           | Some (k, v) => Some (b :: k, v)
           | None => None
           end
  end.

Definition b_true : bytes := list_byte_of_string "true".
Definition b_false : bytes := list_byte_of_string "false".

Module ServiceInfo.

Record t : Type := mk {
  type : string;
  name : string;
  address : option bytes;
  port : option Z;
  weight : Z;
  priority : Z;
  server : string;
  _properties : option dict;
  text : option bytes;
  logger : bool   (* whether [self.logger] exists, see [self_logger] *)
}.

(** The [properties] argument: a dict, or anything else (a bytes object,
    [None]) that is stored as the text as it is. *)
Inductive properties_arg : Type :=
| OfDict (d : dict)
| OfText (text : option bytes).

(** The item [key=suffix] of one entry of the dict. *)
Definition item_of (key : pkey) (value : pvalue) : bytes :=
  let key := match key with
             | KText s => list_byte_of_string s
             | KBytes b => b
             end in
  let suffix := match value with
                | VNone => []
                | VText s => list_byte_of_string s
                | VInt z => if (z =? 0)%Z then b_false else b_true
                | VBool b => if b then b_true else b_false
                | VBytes _ => []
                end in
  key ++ equals_sign :: suffix.

(** [for item in list: result = b''.join((result, int2byte(len(item)), item))] *)
Fixpoint join_items (items : list bytes) (result : bytes) : returns bytes :=
  match items with
  | [] => Ok result
  | item :: items' =>
      let* b := int2byte (Z.of_nat (List.length item)) in
      join_items items' (result ++ b :: item)
  end.

(** Sets properties and text of this info from a dictionary: the values
    assigned to [self._properties] and [self.text]. *)
Definition _set_properties (properties : properties_arg)
    (old_properties : option dict) : result (option dict * option bytes) :=
  match properties with
  | OfDict d =>
      let list := map (fun '(key, value) => item_of key value) d in
      let* result := join_items list [] in
      Ok (Some d, Some result)
  | OfText text => Ok (old_properties, text)
  end.

(** The [while index < end] loop of [_set_text]. *)
Fixpoint split_strs (fuel : nat) (text : bytes) (index : nat) (strs : list bytes)
    : result (list bytes) :=
  if index <? List.length text then
    match fuel with
    | O => Raise FuelExhausted
    | S fuel =>
        let* length := indexbytes text index in
        let index := index + 1 in
        let strs := strs ++ [slice text index (Z.to_nat length)] in
        split_strs fuel text (index + Z.to_nat length) strs
    end
  else Ok strs.

(** The body of [for s in strs].  An item without an equals sign makes
    [s.split(b'=', 1)] raise; the handler calls [self.logger.exception] and
    goes on with the whole item as the key. *)
Definition parse_item (logger : bool) (s : bytes) (result : dict) : returns dict :=
  let* (key, value) :=
    match split_equals s with
    | Some (key, value) =>
        if bool_decide (value = b_true) then Ok (key, VBool true)
        else if bool_decide (value = b_false) || bool_decide (value = [])
             then Ok (key, VBool false)
             else Ok (key, VBytes value)
    | None =>
        let* _ := log logger in
        (* No equals sign at all *)
        Ok (s, VBool false)
    end in
  (* Only update non-existent properties *)
  if negb (bool_decide (key = [])) &&
     match dict_get (KBytes key) result with
     | None | Some VNone => true
     | Some _ => false
     end
  then Ok (dict_set (KBytes key) value result)
  else Ok result.

(** Sets properties and text given a text field: the value assigned to
    [self._properties].  An exception inside the outer [try] is met by a
    handler that calls [self.logger.exception] and leaves the properties
    [None]; without [self.logger] that call raises [AttributeError] out of
    [_set_text]. *)
Definition _set_text (logger : bool) (text : bytes) : result (option dict) :=
  match (let* strs := split_strs (List.length text) text 0 [] in
         for_each (parse_item logger) strs []) with
  | Ok result => Ok (Some result)
  | Raise _ => let* _ := log logger in Ok None
  end.

(** Create a service description. *)
Definition __init__ (type name : string) (address : option bytes) (port : option Z)
    (weight priority : Z) (properties : properties_arg) (server : option string)
    (logger : logger_arg) : result t :=
  if negb (endswith name type) then Raise BadTypeInNameException
  else
    let server := match server with
                  | Some s => if String.eqb s EmptyString then name else s
                  | None => name
                  end in
    let* (props, text) := _set_properties properties None in
    Ok (mk type name address port weight priority server props text (self_logger logger)).

Definition set_name (n : string) (self : t) : t :=
  mk (type self) n (address self) (port self) (weight self) (priority self)
     (server self) (_properties self) (text self) (logger self).

(** Name accessor *)
Definition get_name (self : t) : string :=
  if endswith (name self) ("." +:+ type self)
  then substring 0 (String.length (name self) - String.length (type self) - 1) (name self)
  else name self.

(** [self._set_text(record.text)]: the text is stored, and the properties
    are parsed from it; [len(None)] raises inside the [try], whose handler
    logs the exception and leaves the properties [None]. *)
Definition set_text (text : option bytes) (self : t) : result t :=
  let* properties :=
    match text with
    | Some text => _set_text (logger self) text
    | None => let* _ := log (logger self) in Ok None
    end in
  Ok (mk (type self) (name self) (address self) (port self) (weight self) (priority self)
         (server self) properties text (logger self)).

(** Updates service information from a DNS record.  [record.address],
    [record.server] and [record.text] exist on the records of one class
    only.  The call on itself, with the record that [get_by_details] returns,
    takes one unit of [fuel]. *)
Fixpoint update_record (fuel : nat) (cache : DNSCache.t) (now : Z)
    (record : option DNSRecord.t) (self : t) : result t :=
  match record with
  | None => Ok self
  | Some record =>
      if negb (DNSRecord.is_expired record now) then
        if (DNSRecord.type record =? _TYPE_A)%Z then
          if String.eqb (DNSRecord.name record) (server self) then
            match DNSRecord.payload record with
            | Address address =>
                Ok (mk (type self) (name self) (Some address) (port self) (weight self)
                       (priority self) (server self) (_properties self) (text self)
                       (logger self))
            | _ => Raise AttributeError
            end
          else Ok self
        else if (DNSRecord.type record =? _TYPE_SRV)%Z then
          if String.eqb (DNSRecord.name record) (name self) then
            match DNSRecord.payload record with
            | Service priority weight port server =>
                let self := mk (type self) (name self) (address self) (Some port) weight
                               priority server (_properties self) (text self)
                               (logger self) in
                match fuel with
                | O => Raise FuelExhausted
                | S fuel =>
                    update_record fuel cache now
                      (DNSCache.get_by_details (ServiceInfo.server self) _TYPE_A _CLASS_IN
                                               cache)
                      self
                end
            | _ => Raise AttributeError
            end
          else Ok self
        else if (DNSRecord.type record =? _TYPE_TXT)%Z then
          if String.eqb (DNSRecord.name record) (name self) then
            match DNSRecord.payload record with
            | Text text => set_text text self
            | _ => Raise AttributeError
            end
          else Ok self
        else Ok self
      else Ok self
  end.

(** Tests equality of service name *)
Definition __eq__ (self other : t) : bool := String.eqb (name other) (name self).

End ServiceInfo.

(** ** Zeroconf: the parts that read and write the cache *)

Module Zeroconf.

(** [entry.reset_ttl(record)] on the object [self.cache.get(record)]
    returns: the first item of the bucket equal to [record] is updated in
    place. *)
Fixpoint list_reset (record : DNSRecord.t) (l : list DNSRecord.t) : list DNSRecord.t :=
  match l with
  | [] => []
  | y :: l' =>
      if DNSRecord.__eq__ y record then DNSRecord.reset_ttl y record :: l'
      else y :: list_reset record l'
  end.

(** One round of the loop of [handle_response]: the cache afterwards and
    the record handed to [update_record]. *)
Definition handle_answer (now : Z) (record : DNSRecord.t) (cache : DNSCache.t)
    : DNSCache.t * DNSRecord.t :=
  let expired := DNSRecord.is_expired record now in
  if DNSCache.list_contains record (DNSCache.entries cache) then
    if expired then (DNSCache.remove record cache, record)
    else
      match DNSCache.get record cache with
      | Some entry =>
          (<[DNSRecord.key record :=
               list_reset record (DNSCache.entries_with_name (DNSRecord.key record) cache)]>
             cache,
           DNSRecord.reset_ttl entry record)
      | None => (cache, record)
      end
  else (DNSCache.add record cache, record).

(** Deal with incoming response packets.  All answers are held in the
    cache, and listeners are notified: the result is the cache and the
    records passed to [update_record], in order. *)
Fixpoint handle_records (now : Z) (records : list DNSRecord.t) (cache : DNSCache.t)
    : DNSCache.t * list DNSRecord.t :=
  match records with
  | [] => (cache, [])
  | record :: records' =>
      let '(cache, rec) := handle_answer now record cache in
      let '(cache, recs) := handle_records now records' cache in
      (cache, rec :: recs)
  end.

Definition handle_response (now : Z) (msg : DNSIncoming.t) (cache : DNSCache.t)
    : DNSCache.t * list DNSRecord.t :=
  handle_records now (DNSIncoming.answers msg) cache.

(** Adds a listener for a given question.  The listener will have its
    update_record method called when information is available to answer the
    question: the listener afterwards, for a listener whose [update_record]
    is [update]; [now] is the clock that [add_listener] reads. *)
Definition add_listener {L : Type} (update : Z -> DNSRecord.t -> L -> result L)
    (now : Z) (question : option DNSEntry.t) (cache : DNSCache.t) (listener : L)
    : result L :=
  match question with
  | Some question =>
      for_each
        (fun record listener =>
           if answered_by question record && negb (DNSRecord.is_expired record now)
           then update now record listener
           else Ok listener)
        (DNSCache.entries_with_name (DNSEntry.name question) cache)
        listener
  | None => Ok listener
  end.

(** What a thread inside [check_service] meets in one round of its
    loop: the cache the other threads have left, the clock read after a
    wait, and whether [send] transmits the whole packet. *)
Record observation : Type := {
  seen_cache : DNSCache.t;
  clock : Z;
  sent_whole : bool
}.

(** Sends an outgoing packet: the bytes of the packet, when every socket
    takes all of them. *)
Definition send (w : observation) (out : DNSOutgoing.t) : result bytes :=
  let* (packet, _) := DNSOutgoing.packet out in
  if sent_whole w then Ok packet else Raise Error.

Section check_service.

(** ['%s.[%s:%s].%s' % (info.name, info.address, info.port, info.type)] *)
Variable format_name : string -> option bytes -> option Z -> string -> string.

(** The [for record in ...] of [check_service]: [Ok true] when the
    renaming branch is entered, [Ok false] when the loop runs to its
    end.  [record.alias] exists on a [DNSPointer] only. *)
Fixpoint scan_records (info : ServiceInfo.t) (now : Z) (records : list DNSRecord.t)
    : result bool :=
  match records with
  | [] => Ok false
  | record :: records' =>
      let* hit :=
        if (DNSRecord.type record =? _TYPE_PTR)%Z
           && negb (DNSRecord.is_expired record now)
        then match DNSRecord.payload record with
             | Pointer alias => Ok (String.eqb alias (ServiceInfo.name info))
             | _ => Raise AttributeError
             end
        else Ok false in
      if hit then
        if (find_dot (ServiceInfo.name info) <? 0)%Z then Ok true
        else Raise NonUniqueNameException
      else scan_records info now records'
  end.

Definition probe (now : Z) (info : ServiceInfo.t) : DNSOutgoing.t :=
  let out := DNSOutgoing.__init__ (Z.lor _FLAGS_QR_QUERY _FLAGS_AA) true in
  let out := DNSOutgoing.add_question
               (DNSQuestion.__init__ (ServiceInfo.type info) _TYPE_PTR _CLASS_IN) out in
  DNSOutgoing.add_authorative_answer
    (DNSPointer now (ServiceInfo.type info) _TYPE_PTR _CLASS_IN _DNS_TTL
                (ServiceInfo.name info)) out.

(** The [while i < 3] loop of [check_service], one observation per
    round; the recursive call of the renaming branch goes on with the
    observations that are left.  The result is the [info] object as the
    call leaves it, and the packets that [send] has sent or the exception
    raised. *)
Fixpoint check_service_loop (world : list observation) (info : ServiceInfo.t)
    (now next_time : Z) (i : nat) (sent : list bytes)
    : ServiceInfo.t * result (list bytes) :=
  if i <? 3 then
    match world with
    | [] => (info, Raise FuelExhausted)
    | w :: world' =>
        match scan_records info now
                (DNSCache.entries_with_name (ServiceInfo.type info) (seen_cache w)) with
        | Raise e => (info, Raise e)
        | Ok true =>
            let info :=
              ServiceInfo.set_name
                (format_name (ServiceInfo.name info) (ServiceInfo.address info)
                             (ServiceInfo.port info) (ServiceInfo.type info)) info in
            check_service_loop world' info (clock w) (clock w) 0 sent
        | Ok false =>
            if (now <? next_time)%Z then
              check_service_loop world' info (clock w) next_time i sent
            else
              match send w (probe now info) with
              | Ok packet =>
                  check_service_loop world' info now (next_time + _CHECK_TIME)%Z (i + 1)
                                     (sent ++ [packet])
              | Raise e => (info, Raise e)
              end
        end
    end
  else (info, Ok sent).

(** Checks the network for a unique service name, modifying the
    ServiceInfo passed in if it is not unique. *)
Definition check_service (world : list observation) (now : Z) (info : ServiceInfo.t)
    : ServiceInfo.t * result (list bytes) :=
  check_service_loop world info now now 0 [].

End check_service.

(** [self.services] and [self.servicetypes]: dicts with strings as keys,
    as the lists of their items in the order of iteration. *)
Fixpoint dict_lookup {V : Type} (key : string) (d : list (string * V)) : option V :=
  match d with
  | [] => None
  | (k, v) :: d' => if String.eqb k key then Some v else dict_lookup key d'
  end.

(** [d[key] = value] *)
Fixpoint dict_store {V : Type} (key : string) (value : V) (d : list (string * V))
    : list (string * V) :=
  match d with
  | [] => [(key, value)]
  | (k, v) :: d' =>
      if String.eqb k key then (k, value) :: d' else (k, v) :: dict_store key value d'
  end.

(** [del d[key]]; [None] stands for the [KeyError]. *)
Fixpoint dict_del {V : Type} (key : string) (d : list (string * V))
    : option (list (string * V)) :=
  match d with
  | [] => None
  | (k, v) :: d' =>
      if String.eqb k key then Some d'
      else match dict_del key d' with
           | Some r => Some ((k, v) :: r)
           | None => None
           end
  end.

Record tables : Type := {
  services : list (string * ServiceInfo.t);
  servicetypes : list (string * Z)
}.

(** The [while i < 3] loop of [register_service], of
    [unregister_service] and of [unregister_all_services], one observation
    per round: [build now] is the message of a round, [interval] the time
    between two packets, and the result the packets sent. *)
Fixpoint send_loop (interval : Z) (build : Z -> DNSOutgoing.t) (world : list observation)
    (now next_time : Z) (i : nat) (sent : list bytes) : result (list bytes) :=
  if i <? 3 then
    match world with
    | [] => Raise FuelExhausted
    | w :: world' =>
        if (now <? next_time)%Z then
          send_loop interval build world' (clock w) next_time i sent
        else
          let* packet := send w (build now) in
          send_loop interval build world' now (next_time + interval)%Z (i + 1)
                    (sent ++ [packet])
    end
  else Ok sent.

(** The answers that announce a service with the TTL [ttl], added to
    [out]; the constructors of the records read the clock, which is taken to
    be [now].  [info.port] is handed to [DNSService] as it is, and a port of
    [None] is refused by [write_short] with the error of [struct.pack], as
    the port -1 is. *)
Definition add_service_answers (now ttl : Z) (server : string) (info : ServiceInfo.t)
    (out : DNSOutgoing.t) : DNSOutgoing.t :=
  let out := DNSOutgoing.add_answer_at_time
               (Some (DNSPointer now (ServiceInfo.type info) _TYPE_PTR _CLASS_IN ttl
                                 (ServiceInfo.name info))) 0 out in
  let out := DNSOutgoing.add_answer_at_time
               (Some (DNSService now (ServiceInfo.name info) _TYPE_SRV _CLASS_IN ttl
                                 (ServiceInfo.priority info) (ServiceInfo.weight info)
                                 (default (-1)%Z (ServiceInfo.port info)) server)) 0 out in
  let out := DNSOutgoing.add_answer_at_time
               (Some (DNSText now (ServiceInfo.name info) _TYPE_TXT _CLASS_IN ttl
                              (ServiceInfo.text info))) 0 out in
  match ServiceInfo.address info with
  | Some address =>
      if bool_decide (address = []) then out
      else DNSOutgoing.add_answer_at_time
             (Some (DNSAddress now (ServiceInfo.server info) _TYPE_A _CLASS_IN ttl address))
             0 out
  | None => out
  end.

Definition service_message (now ttl : Z) (server : string) (info : ServiceInfo.t)
    : DNSOutgoing.t :=
  add_service_answers now ttl server info
    (DNSOutgoing.__init__ (Z.lor _FLAGS_QR_RESPONSE _FLAGS_AA) true).

(** Registers service information to the network with a default TTL of
    60 seconds.  Zeroconf will then respond to requests for information for
    that service.  The name of the service may be changed if needed to make
    it unique on the network.  [world0] and [now0] are what [check_service]
    meets, [world] and [now] what the loop after it meets; the result is the
    info, the tables, and the packets sent, those of [check_service] first,
    or the exception. *)
Definition register_service
    (format_name : string -> option bytes -> option Z -> string -> string)
    (world0 : list observation) (now0 : Z) (world : list observation) (now : Z)
    (info : ServiceInfo.t) (ttl : Z) (self : tables)
    : ServiceInfo.t * tables * result (list bytes) :=
  match check_service format_name world0 now0 info with
  | (info, Raise e) => (info, self, Raise e)
  | (info, Ok probes) =>
      let services := dict_store (lower (ServiceInfo.name info)) info (services self) in
      let servicetypes :=
        match dict_lookup (ServiceInfo.type info) (servicetypes self) with
        | Some n => dict_store (ServiceInfo.type info) (n + 1)%Z (servicetypes self)
        | None => dict_store (ServiceInfo.type info) 1%Z (servicetypes self)
        end in
      (info, {| services := services; servicetypes := servicetypes |},
       let* announced :=
         send_loop _REGISTER_TIME
                   (fun now => service_message now ttl (ServiceInfo.server info) info)
                   world now now 0 [] in
       Ok (probes ++ announced))
  end.

(** The [try] block of [unregister_service]; a [KeyError] ends it.  The
    handler calls [self.logger.exception], which returns: on a [Zeroconf]
    object [self.logger] is a logger, for the constructor itself calls
    [self.logger.debug] and so only returns when it is. *)
Definition forget_service (info : ServiceInfo.t) (self : tables) : tables :=
  match dict_del (lower (ServiceInfo.name info)) (services self) with
  | None => self
  | Some services =>
      match dict_lookup (ServiceInfo.type info) (servicetypes self) with
      | None => {| services := services; servicetypes := servicetypes self |}
      | Some n =>
          if (1 <? n)%Z then
            {| services := services;
               servicetypes := dict_store (ServiceInfo.type info) (n - 1)%Z
                                          (servicetypes self) |}
          else
            {| services := services;
               servicetypes := default (servicetypes self)
                                 (dict_del (ServiceInfo.type info) (servicetypes self)) |}
      end
  end.

(** Unregister a service.  The service record of the farewell names the
    service itself as the server. *)
Definition unregister_service (world : list observation) (now : Z)
    (info : ServiceInfo.t) (self : tables) : tables * result (list bytes) :=
  (forget_service info self,
   send_loop _UNREGISTER_TIME
             (fun now => service_message now 0 (ServiceInfo.name info) info)
             world now now 0 []).

(** Unregister all registered services. *)
Definition unregister_all_services (world : list observation) (now : Z) (self : tables)
    : result (list bytes) :=
  match services self with
  | [] => Ok []
  | _ =>
      send_loop _UNREGISTER_TIME
        (fun now =>
           fold_left (fun out item =>
                        add_service_answers now 0 (ServiceInfo.server (snd item)) (snd item)
                                            out)
                     (services self)
                     (DNSOutgoing.__init__ (Z.lor _FLAGS_QR_RESPONSE _FLAGS_AA) true))
        world now now 0 []
  end.

End Zeroconf.

(** ** ServiceBrowser: the records of the services of a type *)

Definition _BROWSER_TIME : Z := 500.

Module ServiceBrowser.

(** The callbacks that [update_record] appends to [self.list]: a call of
    [listener.add_service] or of [listener.remove_service] with the type of
    the browser and the name of the service. *)
Inductive callback : Type :=
| add_service (name : string)
| remove_service (name : string).

(** The record objects in [services] are the ones the cache holds; the
    model keeps the values they have when they are stored or reset here. *)
Record t : Type := mk {
  type : string;
  services : gmap string DNSRecord.t;
  next_time : Z;
  delay : Z;
  list : list callback;
  done : bool;
  logger : bool   (* whether [self.logger] exists, see [self_logger] *)
}.

Definition set_services (d : gmap string DNSRecord.t) (self : t) : t :=
  mk (type self) d (next_time self) (delay self) (list self) (done self) (logger self).

Definition append_callback (c : callback) (self : t) : t :=
  mk (type self) (services self) (next_time self) (delay self) (list self ++ [c])
     (done self) (logger self).

(** [expires = record.get_expiration_time(75)] and the update of
    [self.next_time] that ends [update_record]. *)
Definition set_next_time (record : DNSRecord.t) (self : t) : t :=
  let expires := DNSRecord.get_expiration_time record 75 in
  if (expires <? next_time self)%Z
  then mk (type self) (services self) expires (delay self) (list self) (done self)
          (logger self)
  else self.

(** Callback invoked by Zeroconf when new information arrives.  Updates
    information required by browser in the Zeroconf cache.  [record.alias]
    exists on a [DNSPointer] only; the handler of the [KeyError] starts with
    a call of [self.logger.debug]. *)
Definition update_record (now : Z) (record : DNSRecord.t) (self : t) : result t :=
  if (DNSRecord.type record =? _TYPE_PTR)%Z
     && String.eqb (DNSRecord.name record) (type self)
  then
    let expired := DNSRecord.is_expired record now in
    match DNSRecord.payload record with
    | Pointer alias =>
        match services self !! lower alias with
        | Some oldrecord =>
            if negb expired then
              Ok (set_next_time record
                    (set_services
                       (<[lower alias := DNSRecord.reset_ttl oldrecord record]>
                          (services self)) self))
            else
              Ok (append_callback (remove_service alias)
                    (set_services (delete (lower alias) (services self)) self))
        | None =>
            let* _ := log (logger self) in
            if negb expired then
              Ok (set_next_time record
                    (append_callback (add_service alias)
                       (set_services (<[lower alias := record]> (services self)) self)))
            else Ok (set_next_time record self)
        end
    | _ => Raise AttributeError
    end
  else Ok self.

(** Creates a browser for a specific type: the fields, and the records
    of the cache that [add_listener] passes to [update_record]; [now] and
    [now'] are the clock read by the constructor and by [add_listener]. *)
Definition __init__ (now now' : Z) (cache : DNSCache.t) (type : string)
    (logger : logger_arg) : result t :=
  let self := mk type ∅ now _BROWSER_TIME [] false (self_logger logger) in
  Zeroconf.add_listener update_record now'
    (Some (DNSQuestion.__init__ type _TYPE_PTR _CLASS_IN)) cache self.

End ServiceBrowser.

(** ** The bytes of a message, as a function

    [Wire] describes what the writer appends as a function of the
    compression table [names] and of the position [pos] the writer has
    reached, raising where the writer raises.  It is the reference the writer
    is proved to follow and the parser is proved to invert. *)

Module Wire.

Definition enc : Type := gmap string nat -> nat -> result (bytes * gmap string nat).

(** Bytes that do not touch the table. *)
Definition lift (r : result bytes) : enc :=
  fun names _ => let* b := r in Ok (b, names).

(** One encoder after the other. *)
Definition seq (e1 e2 : enc) : enc :=
  fun names pos =>
    let* (b1, names1) := e1 names pos in
    let* (b2, names2) := e2 names1 (pos + List.length b1) in
    Ok (b1 ++ b2, names2).

Definition skip : enc := fun names _ => Ok ([], names).

Fixpoint seq_list {A} (f : A -> enc) (xs : list A) : enc :=
  match xs with
  | [] => skip
  | x :: xs' => seq (f x) (seq_list f xs')
  end.

Definition enc_byte (value : Z) : result bytes :=
  let* b := int2byte value in Ok [b].

Definition enc_utf (s : string) : result bytes :=
  let utfstr := list_byte_of_string s in
  if 64 <? List.length utfstr then Raise NamePartTooLongException
  else let* b := int2byte (Z.of_nat (List.length utfstr)) in Ok (b :: utfstr).

Fixpoint enc_labels (parts : list string) : result bytes :=
  match parts with
  | [] => Ok []
  | part :: parts' =>
      let* b := enc_utf part in
      let* r := enc_labels parts' in
      Ok (b ++ r)
  end.

(** The labels [write_name] writes: the parts of the name without the
    empty part a final dot leaves. *)
Definition labels_of (name : string) : list string :=
  let parts := split_dot name in
  if bool_decide (last parts = Some EmptyString) then removelast parts else parts.

Definition enc_pointer (index : nat) : result bytes :=
  let* hi := int2byte (Z.lor (Z.shiftr (Z.of_nat index) 8) 0xC0) in
  let* lo := int2byte (Z.land (Z.of_nat index) 0xFF) in
  Ok [hi; lo].

Definition enc_plain (name : string) : result bytes :=
  let* ls := enc_labels (labels_of name) in Ok (ls ++ [x00]).

Definition enc_name (name : string) : enc :=
  fun names pos =>
    match names !! name with
    | Some index => let* b := enc_pointer index in Ok (b, names)
    | None => let* b := enc_plain name in Ok (b, <[name := pos]> names)
    end.

Definition enc_short (v : Z) : enc := lift (pack_field fmt_H v).
Definition enc_int (v : Z) : enc := lift (pack_field fmt_I v).

Definition enc_question (q : DNSEntry.t) : enc :=
  seq (enc_name (DNSEntry.name q))
      (seq (enc_short (DNSEntry.type q)) (enc_short (DNSEntry.class_ q))).

Definition enc_rdata (payload : rdata) : enc :=
  match payload with
  | Address address => lift (Ok address)
  | Hinfo cpu os => seq (lift (Ok cpu)) (lift (Raise AttributeError))
  | Pointer alias => enc_name alias
  | Text (Some text) => lift (Ok text)
  | Text None => lift (Raise AssertionError)
  | Service priority weight port server =>
      seq (enc_short priority)
          (seq (enc_short weight) (seq (enc_short port) (enc_name server)))
  end.

(** The length field and the payload: the payload is laid out two bytes
    further, the length is packed once the payload is known. *)
Definition enc_rdata_sized (payload : rdata) : enc :=
  fun names pos =>
    let* (b, names') := enc_rdata payload names (pos + 2) in
    let* len := pack_field fmt_H (Z.of_nat (List.length b)) in
    Ok (len ++ b, names').

Definition wire_class (multicast : bool) (r : DNSRecord.t) : Z :=
  if DNSRecord.unique r && multicast
  then Z.lor (DNSRecord.class_ r) _CLASS_UNIQUE
  else DNSRecord.class_ r.

Definition wire_ttl (r : DNSRecord.t) (now : Z) : Z :=
  if (now =? 0)%Z then DNSRecord.ttl r else DNSRecord.get_remaining_ttl r now.

Definition enc_record (multicast : bool) (r : DNSRecord.t) (now : Z) : enc :=
  seq (enc_name (DNSRecord.name r))
      (seq (enc_short (DNSRecord.type r))
           (seq (enc_short (wire_class multicast r))
                (seq (enc_int (wire_ttl r now))
                     (enc_rdata_sized (DNSRecord.payload r))))).

Definition enc_body (m : DNSOutgoing.t) : enc :=
  seq (seq_list enc_question (DNSOutgoing.questions m))
      (seq (seq_list (fun '(answer, time_) => enc_record (DNSOutgoing.multicast m) answer time_)
                     (DNSOutgoing.answers m))
           (seq (seq_list (fun r => enc_record (DNSOutgoing.multicast m) r 0)
                          (DNSOutgoing.authorities m))
                (seq_list (fun r => enc_record (DNSOutgoing.multicast m) r 0)
                          (DNSOutgoing.additionals m)))).

(** The six shorts of the header, packed in the order of the calls of
    [insert_short], the last field first. *)
Definition enc_header (m : DNSOutgoing.t) : result bytes :=
  let* h6 := pack_field fmt_H (Z.of_nat (List.length (DNSOutgoing.additionals m))) in
  let* h5 := pack_field fmt_H (Z.of_nat (List.length (DNSOutgoing.authorities m))) in
  let* h4 := pack_field fmt_H (Z.of_nat (List.length (DNSOutgoing.answers m))) in
  let* h3 := pack_field fmt_H (Z.of_nat (List.length (DNSOutgoing.questions m))) in
  let* h2 := pack_field fmt_H (DNSOutgoing.flags m) in
  let* h1 := pack_field fmt_H (if DNSOutgoing.multicast m then 0%Z else DNSOutgoing.id m) in
  Ok (h1 ++ h2 ++ h3 ++ h4 ++ h5 ++ h6).

(** The packet of a message on which [packet()] has not been called. *)
Definition enc_packet (m : DNSOutgoing.t) : result bytes :=
  let* (body, _) := enc_body m (DNSOutgoing.names m) (DNSOutgoing.size m) in
  let* header := enc_header m in
  Ok (header ++ concat (DNSOutgoing.data m) ++ body).

(** Two writer states that hold the same message. *)
Definition same_message (s s' : DNSOutgoing.t) : Prop :=
  DNSOutgoing.questions s' = DNSOutgoing.questions s /\
  DNSOutgoing.answers s' = DNSOutgoing.answers s /\
  DNSOutgoing.authorities s' = DNSOutgoing.authorities s /\
  DNSOutgoing.additionals s' = DNSOutgoing.additionals s /\
  DNSOutgoing.flags s' = DNSOutgoing.flags s /\
  DNSOutgoing.id s' = DNSOutgoing.id s /\
  DNSOutgoing.multicast s' = DNSOutgoing.multicast s.

(** The writer after it has appended [chunks] and left the table
    [names']. *)
Definition emit (chunks : list bytes) (names' : gmap string nat) (out : DNSOutgoing.t)
    : DNSOutgoing.t :=
  DNSOutgoing.set_names names'
    (DNSOutgoing.set_data (DNSOutgoing.data out ++ chunks)
                          (DNSOutgoing.size out + List.length (concat chunks)) out).

(** A writer step follows an encoder: from every state of a writer whose
    [multicast] flag is [mc] it appends chunks that hold the encoder's
    bytes, or raises the same exception. *)
Definition refines (mc : bool) (w : DNSOutgoing.t -> result DNSOutgoing.t) (e : enc)
    : Prop :=
  forall out : DNSOutgoing.t,
    DNSOutgoing.multicast out = mc ->
    match e (DNSOutgoing.names out) (DNSOutgoing.size out) with
    | Ok (b, names') => exists chunks, concat chunks = b /\ w out = Ok (emit chunks names' out)
    | Raise x => w out = Raise x
    end.

(** An encoder only adds to the table. *)
Definition extends (e : enc) : Prop :=
  forall names pos b names', e names pos = Ok (b, names') -> names ⊆ names'.

End Wire.

(** The calls a caller can make on a writer between two calls of
    [write_name]. *)
Inductive writer_op : Type :=
| OpByte (value : Z)
| OpShort (value : Z)
| OpInt (value : Z)
| OpString (value : bytes)
| OpUtf (s : string)
| OpName (name : string)
| OpQuestion (question : DNSEntry.t)
| OpRecord (record : DNSRecord.t) (now : Z)
| OpInsertShort (index : nat) (value : Z).

Definition run_op (op : writer_op) (out : DNSOutgoing.t) : result DNSOutgoing.t :=
  match op with
  | OpByte v => DNSOutgoing.write_byte v out
  | OpShort v => DNSOutgoing.write_short v out
  | OpInt v => DNSOutgoing.write_int v out
  | OpString b => DNSOutgoing.write_string b out
  | OpUtf s => DNSOutgoing.write_utf s out
  | OpName n => DNSOutgoing.write_name n out
  | OpQuestion q => DNSOutgoing.write_question q out
  | OpRecord r now => DNSOutgoing.write_record r now out
  | OpInsertShort i v => DNSOutgoing.insert_short i v out
  end.

(** ** Vocabulary of the statements about the cache *)

(** The number of entries of a list that compare equal to [x]. *)
Definition count_equal (x : DNSRecord.t) (l : list DNSRecord.t) : nat :=
  List.length (List.filter (fun y => DNSRecord.__eq__ y x) l).

(** No two entries of the list compare equal. *)
Fixpoint distinct (l : list DNSRecord.t) : bool :=
  match l with
  | [] => true
  | x :: l' => negb (DNSCache.list_contains x l') && distinct l'
  end.

(** ** Vocabulary of the statements about properties *)

(** The bytes of a key of a properties dict. *)
Definition key_bytes (key : pkey) : bytes :=
  match key with
  | KText s => list_byte_of_string s
  | KBytes b => b
  end.

(** The normalization of the values as the specification words it:
    strings become bytes, ints become "true" or "false", [None] becomes the
    empty string. *)
Definition spec_normalize (value : pvalue) : pvalue :=
  match value with
  | VNone => VBytes []
  | VText s => VBytes (list_byte_of_string s)
  | VBytes b => VBytes b
  | VInt z => VBytes (if (z =? 0)%Z then b_false else b_true)
  | VBool b => VBytes (if b then b_true else b_false)
  end.

(** The value that parsing gives back for a value of the dict. *)
Definition parsed_value (value : pvalue) : pvalue :=
  match value with
  | VNone => VBool false
  | VText s =>
      let b := list_byte_of_string s in
      if bool_decide (b = b_true) then VBool true
      else if bool_decide (b = b_false) || bool_decide (b = []) then VBool false
      else VBytes b
  | VBytes _ => VBool false
  | VInt z => VBool (negb (z =? 0)%Z)
  | VBool b => VBool b
  end.

(** A properties dict that [_set_properties] can encode and [_set_text]
    can tell apart: keys that are not empty, hold no ['='] and differ as
    bytes; values that are [None], strings or ints; items of at most 255
    bytes. *)
Definition valid_item (item : pkey * pvalue) : bool :=
  let '(key, value) := item in
  negb (bool_decide (key_bytes key = [])) &&
  negb (bool_decide (equals_sign ∈ key_bytes key)) &&
  (List.length (ServiceInfo.item_of key value) <=? 255) &&
  match value with
  | VBytes _ => false
  | _ => true
  end.

(** The items of a text, each behind its length byte. *)
Definition framed (items : list bytes) : bytes :=
  concat (map (fun item => byte_of_Z (Z.of_nat (List.length item)) :: item) items).

Definition valid_properties (d : dict) : bool :=
  bool_decide (NoDup (map (fun item => key_bytes (fst item)) d)) && forallb valid_item d.

(** ** Vocabulary of the round trip: well-formed messages *)

(** Labels put together again, each followed by a dot. *)
Definition join_labels (labels : list string) : string :=
  foldr (fun label acc => label +:+ "." +:+ acc) EmptyString labels.

Definition label_ok (label : string) : bool :=
  (1 <=? String.length label) && (String.length label <=? 63).

(** A name that the wire format can carry and the parser gives back as it
    is: the labels it splits into have 1 to 63 bytes, and the name is these
    labels, each followed by a dot (so it is empty or ends with a dot). *)
Definition name_ok (name : string) : bool :=
  forallb label_ok (Wire.labels_of name) &&
  String.eqb (join_labels (Wire.labels_of name)) name.

Definition u16 (v : Z) : bool := (0 <=? v)%Z && (v <? 2 ^ 16)%Z.
Definition u32 (v : Z) : bool := (0 <=? v)%Z && (v <? 2 ^ 32)%Z.

(** A class as [DNSEntry.__init__] stores it, the top bit masked off. *)
Definition class_ok (class_ : Z) : bool := (0 <=? class_)%Z && (class_ <? 2 ^ 15)%Z.

Definition question_ok (q : DNSEntry.t) : bool :=
  name_ok (DNSEntry.name q) && u16 (DNSEntry.type q) && class_ok (DNSEntry.class_ q).

(** The payload is the one of the record type: the subclass that
    [read_others] builds for the type, with an address of the size of the
    type, names that are well formed and shorts that are shorts. *)
Definition payload_ok (type : Z) (payload : rdata) : bool :=
  match payload with
  | Address address =>
      ((type =? _TYPE_A)%Z && (List.length address =? 4)) ||
      ((type =? _TYPE_AAAA)%Z && (List.length address =? 16))
  | Hinfo _ _ => (type =? _TYPE_HINFO)%Z
  | Pointer alias => ((type =? _TYPE_CNAME)%Z || (type =? _TYPE_PTR)%Z) && name_ok alias
  | Text text => (type =? _TYPE_TXT)%Z && bool_decide (is_Some text)
  | Service priority weight port server =>
      (type =? _TYPE_SRV)%Z && u16 priority && u16 weight && u16 port && name_ok server
  end.

Definition answer_ok (answer : DNSRecord.t * Z) : bool :=
  let '(r, now) := answer in
  name_ok (DNSRecord.name r) && class_ok (DNSRecord.class_ r) &&
  payload_ok (DNSRecord.type r) (DNSRecord.payload r) &&
  u32 (Wire.wire_ttl r now).

(** A well-formed outgoing message: a writer as the constructor leaves
    it, to which questions and answers that are well formed have been added,
    and no authorities or additionals. *)
Definition well_formed (m : DNSOutgoing.t) : bool :=
  negb (DNSOutgoing.finished m) &&
  bool_decide (DNSOutgoing.data m = []) &&
  (DNSOutgoing.size m =? 12) &&
  bool_decide (DNSOutgoing.names m = ∅) &&
  u16 (DNSOutgoing.flags m) && u16 (DNSOutgoing.id m) &&
  forallb question_ok (DNSOutgoing.questions m) &&
  forallb answer_ok (DNSOutgoing.answers m) &&
  match DNSOutgoing.authorities m, DNSOutgoing.additionals m with
  | [], [] => true
  | _, _ => false
  end.

(** No answer is a host information record (whose writer raises). *)
Definition hinfo_free (m : DNSOutgoing.t) : bool :=
  forallb (fun answer : DNSRecord.t * Z =>
             match DNSRecord.payload (fst answer) with
             | Hinfo _ _ => false
             | _ => true
             end) (DNSOutgoing.answers m).

(** A bound on the size of the packet: every name counted in full. *)
Definition name_bound (name : string) : nat := String.length name + 2.

Definition payload_bound (payload : rdata) : nat :=
  match payload with
  | Address address => List.length address
  | Hinfo _ _ => 0
  | Pointer alias => name_bound alias
  | Text text => List.length (default [] text)
  | Service _ _ _ server => 6 + name_bound server
  end.

Definition wire_bound (m : DNSOutgoing.t) : nat :=
  12 + foldr (fun q n => name_bound (DNSEntry.name q) + 4 + n) 0 (DNSOutgoing.questions m)
     + foldr (fun (a : DNSRecord.t * Z) n =>
                name_bound (DNSRecord.name (fst a)) + 10
                + payload_bound (DNSRecord.payload (fst a)) + n)
             0 (DNSOutgoing.answers m).

(** The table holds positions of well-formed names written in full inside
    the bytes [pre] written so far. *)
Definition table_ok (names : gmap string nat) (pre : bytes) : Prop :=
  forall (name : string) (index : nat),
    names !! name = Some index ->
    name_ok name = true /\
    exists b pre1 rest1,
      Wire.enc_plain name = Ok b /\ pre = pre1 ++ b ++ rest1 /\ List.length pre1 = index.

(** A parser step reads what an encoder has written: on a packet of at
    most 2^14 bytes that holds the bytes of the encoder at the position of
    the cursor, it returns the value [v] and moves the cursor behind them. *)
Definition parses {V} (e : Wire.enc) (rd : DNSIncoming.t -> result (V * DNSIncoming.t))
    (v : V) : Prop :=
  forall names pos b names' pre rest (self : DNSIncoming.t),
    e names pos = Ok (b, names') ->
    table_ok names pre ->
    List.length pre = pos ->
    DNSIncoming.data self = pre ++ b ++ rest ->
    (Z.of_nat (List.length (DNSIncoming.data self)) <= 16384)%Z ->
    DNSIncoming.offset self = pos ->
    rd self = Ok (v, DNSIncoming.set_offset (pos + List.length b) self) /\
    table_ok names' (pre ++ b).

(** The parser after it has appended the questions [qs], and after it has
    appended the answers [rs]. *)
Definition with_questions (qs : list DNSEntry.t) (self : DNSIncoming.t) : DNSIncoming.t :=
  DNSIncoming.mk (DNSIncoming.offset self) (DNSIncoming.data self)
    (DNSIncoming.questions self ++ qs) (DNSIncoming.answers self)
    (DNSIncoming.id self) (DNSIncoming.flags self) (DNSIncoming.num_questions self)
    (DNSIncoming.num_answers self) (DNSIncoming.num_authorities self)
    (DNSIncoming.num_quthorities self) (DNSIncoming.num_additionals self).

Definition with_answers (rs : list DNSRecord.t) (self : DNSIncoming.t) : DNSIncoming.t :=
  DNSIncoming.mk (DNSIncoming.offset self) (DNSIncoming.data self)
    (DNSIncoming.questions self) (DNSIncoming.answers self ++ rs)
    (DNSIncoming.id self) (DNSIncoming.flags self) (DNSIncoming.num_questions self)
    (DNSIncoming.num_answers self) (DNSIncoming.num_authorities self)
    (DNSIncoming.num_quthorities self) (DNSIncoming.num_additionals self).

(** Equality of a record read back and the record written: the [__eq__] of
    the subclass and the one of [DNSEntry]. *)
Definition same_record (r' : DNSRecord.t) (answer : DNSRecord.t * Z) : Prop :=
  DNSRecord.__eq__ r' (fst answer) = true /\
  DNSRecord.base__eq__ r' (fst answer) = true.

Definition same_question (q' q : DNSEntry.t) : Prop := DNSEntry.__eq__ q' q = true.

(** The positions in the table lie before [pos]. *)
Definition table_lt (names : gmap string nat) (pos : nat) : Prop :=
  forall (name : string) (index : nat), names !! name = Some index -> index < pos.

(** An encoder that returns, and returns at most [n] bytes, wherever [n]
    bytes end inside the first 2^14 bytes of the packet. *)
Definition bounded (e : Wire.enc) (n : nat) : Prop :=
  forall names pos,
    table_lt names pos ->
    (Z.of_nat pos + Z.of_nat n <= 16384)%Z ->
    exists b names',
      e names pos = Ok (b, names') /\
      List.length b <= n /\
      table_lt names' (pos + List.length b).

(** ** Vocabulary of the parser's guarantees *)

(** The class [read_others] builds for a record type. *)
Definition payload_of_type (type : Z) (payload : rdata) : bool :=
  match payload with
  | Address _ => (type =? _TYPE_A)%Z || (type =? _TYPE_AAAA)%Z
  | Hinfo _ _ => (type =? _TYPE_HINFO)%Z
  | Pointer _ => (type =? _TYPE_CNAME)%Z || (type =? _TYPE_PTR)%Z
  | Text text => (type =? _TYPE_TXT)%Z && bool_decide (is_Some text)
  | Service _ _ _ _ => (type =? _TYPE_SRV)%Z
  end.

(** A record as the parser builds it at the time [now]. *)
Definition parsed_record (now : Z) (r : DNSRecord.t) : Prop :=
  DNSRecord.created r = now /\
  DNSRecord.key r = lower (DNSRecord.name r) /\
  (0 <= DNSRecord.class_ r < 2 ^ 15)%Z /\
  payload_of_type (DNSRecord.type r) (DNSRecord.payload r) = true.

(** Two parser states on the same packet that hold the same header
    fields. *)
Definition same_packet (s s' : DNSIncoming.t) : Prop :=
  DNSIncoming.data s' = DNSIncoming.data s /\
  DNSIncoming.id s' = DNSIncoming.id s /\
  DNSIncoming.flags s' = DNSIncoming.flags s /\
  DNSIncoming.num_questions s' = DNSIncoming.num_questions s /\
  DNSIncoming.num_answers s' = DNSIncoming.num_answers s /\
  DNSIncoming.num_authorities s' = DNSIncoming.num_authorities s /\
  DNSIncoming.num_quthorities s' = DNSIncoming.num_quthorities s /\
  DNSIncoming.num_additionals s' = DNSIncoming.num_additionals s.

(** A question as the parser builds it. *)
Definition parsed_question (q : DNSEntry.t) : Prop :=
  DNSEntry.key q = lower (DNSEntry.name q) /\
  (0 <= DNSEntry.class_ q < 2 ^ 15)%Z.

(** A step of the parser that only moves the cursor. *)
Definition moved (s s' : DNSIncoming.t) : Prop :=
  exists o, s' = DNSIncoming.set_offset o s.

(** ** Vocabulary of the round trip: the message received *)

(** A TTL written with the format ['!I'] and read with the format ['!i']. *)
Definition received_ttl (v : Z) : Z := if (v <? 2 ^ 31)%Z then v else (v - 2 ^ 32)%Z.

(** The question and the record that the parser builds, at the time
    [now], from a question and an answer of a message sent. *)
Definition received_question (q : DNSEntry.t) : DNSEntry.t :=
  DNSQuestion.__init__ (DNSEntry.name q) (DNSEntry.type q) (DNSEntry.class_ q).

Definition received_record (now : Z) (multicast : bool) (answer : DNSRecord.t * Z)
    : DNSRecord.t :=
  DNSRecord.__init__ now (DNSRecord.name (fst answer)) (DNSRecord.type (fst answer))
    (Wire.wire_class multicast (fst answer))
    (received_ttl (Wire.wire_ttl (fst answer) (snd answer)))
    (DNSRecord.payload (fst answer)).

(** The parser that has read the whole packet [p] of the message [m]. *)
Definition received (now : Z) (m : DNSOutgoing.t) (p : bytes) : DNSIncoming.t :=
  DNSIncoming.mk (List.length p) p
    (map received_question (DNSOutgoing.questions m))
    (map (received_record now (DNSOutgoing.multicast m)) (DNSOutgoing.answers m))
    (if DNSOutgoing.multicast m then 0%Z else DNSOutgoing.id m)
    (DNSOutgoing.flags m)
    (Z.of_nat (List.length (DNSOutgoing.questions m)))
    (Z.of_nat (List.length (DNSOutgoing.answers m)))
    0 0 0.

(** Every record of the cache lies in the bucket of its key. *)
Definition keyed (cache : DNSCache.t) : Prop :=
  forall (k : string) (l : list DNSRecord.t) (r : DNSRecord.t),
    cache !! k = Some l -> r ∈ l -> DNSRecord.key r = k.

(** An item of the properties that [_set_text] builds: a key of bytes
    that is not empty, with the value [True], [False], or bytes that are
    not empty and are neither [b'true'] nor [b'false']. *)
Definition parsed_property (item : pkey * pvalue) : Prop :=
  exists key : bytes,
    fst item = KBytes key /\ key <> [] /\
    (snd item = VBool true \/ snd item = VBool false \/
     exists v : bytes, snd item = VBytes v /\ v <> [] /\ v <> b_true /\ v <> b_false).

(** ** Vocabulary of the statements about the browser *)

(** What a listener that starts without services makes of the callbacks,
    for the service with the key [k]: whether it holds the service after
    them, and [None] when a service it holds is added or one it does not
    hold is removed. *)
Fixpoint replay (k : string) (present : bool) (callbacks : list ServiceBrowser.callback)
    : option bool :=
  match callbacks with
  | [] => Some present
  | ServiceBrowser.add_service name :: rest =>
      if String.eqb (lower name) k
      then if present then None else replay k true rest
      else replay k present rest
  | ServiceBrowser.remove_service name :: rest =>
      if String.eqb (lower name) k
      then if present then replay k false rest else None
      else replay k present rest
  end.

(** The callbacks tell the listener what the browser holds. *)
Definition in_step (self : ServiceBrowser.t) : Prop :=
  forall k : string,
    replay k false (ServiceBrowser.list self)
    = Some (bool_decide (is_Some (ServiceBrowser.services self !! k))).

(** ** Vocabulary of the statements about registration *)

(** The exceptions that the writer raises. *)
Definition writer_exn (e : exn) : Prop :=
  e = NamePartTooLongException \/ e = StructError \/
  e = AttributeError \/ e = AssertionError.

(** An encoder that raises these exceptions only. *)
Definition clean (e : Wire.enc) : Prop :=
  forall names pos x, e names pos = Raise x -> writer_exn x.

(** A service info that the wire format carries: names that are well
    formed, shorts that are shorts, a port and a text, and an address that
    is absent, empty or of four bytes. *)
Definition info_ok (info : ServiceInfo.t) : bool :=
  name_ok (ServiceInfo.type info) && name_ok (ServiceInfo.name info) &&
  name_ok (ServiceInfo.server info) &&
  u16 (ServiceInfo.priority info) && u16 (ServiceInfo.weight info) &&
  match ServiceInfo.port info with Some port => u16 port | None => false end &&
  bool_decide (is_Some (ServiceInfo.text info)) &&
  match ServiceInfo.address info with
  | Some address => (List.length address =? 0) || (List.length address =? 4)
  | None => true
  end.

(** ** Vocabulary of the statement about name compression

    The layout of a packet, as the specification describes it: the header,
    and then, in the order in which [packet()] writes them, the fields of
    the questions and of the records; a field is a name or some bytes that
    hold no name. *)
Inductive piece : Type :=
| Name (name : string)
| Other (size : nat).

(** name, type, class *)
Definition question_pieces (q : DNSEntry.t) : list piece :=
  [Name (DNSEntry.name q); Other 2; Other 2].

Definition payload_pieces (payload : rdata) : list piece :=
  match payload with
  | Address address => [Other (List.length address)]
  | Hinfo cpu _ => [Other (List.length cpu)]
  | Pointer alias => [Name alias]
  | Text text => [Other (List.length (default [] text))]
  | Service _ _ _ server => [Other 2; Other 2; Other 2; Name server]
  end.

(** name, type, class, TTL, length of the payload, payload *)
Definition record_pieces (r : DNSRecord.t) : list piece :=
  [Name (DNSRecord.name r); Other 2; Other 2; Other 4; Other 2]
  ++ payload_pieces (DNSRecord.payload r).

Definition body_pieces (m : DNSOutgoing.t) : list piece :=
  concat (map question_pieces (DNSOutgoing.questions m))
  ++ concat (map (fun answer : DNSRecord.t * Z => record_pieces (fst answer))
                 (DNSOutgoing.answers m))
  ++ concat (map record_pieces (DNSOutgoing.authorities m))
  ++ concat (map record_pieces (DNSOutgoing.additionals m)).

Definition message_pieces (m : DNSOutgoing.t) : list piece :=
  Other 12 :: body_pieces m.

(** The bytes [p] from the offset [pos] on are the fields [pieces], with
    the names compressed: [seen] maps the names met so far to the offset at
    which their first occurrence begins.  A name that was met before
    takes exactly two bytes, which hold, big end first, the number
    [0xC000 | first]; a name met for the first time is its labels in full,
    each behind its length byte, and a zero byte ([Wire.enc_plain]), and is
    entered in [seen] at its offset.  The fields end where [p] ends. *)
Fixpoint laid_out (pieces : list piece) (seen : gmap string nat) (pos : nat) (p : bytes)
    : Prop :=
  match pieces with
  | [] => pos = List.length p
  | Other size :: rest => laid_out rest seen (pos + size) p
  | Name name :: rest =>
      match seen !! name with
      | Some first =>
          (exists hi lo : byte,
             slice p pos 2 = [hi; lo] /\
             (Z_of_byte hi * 256 + Z_of_byte lo = Z.lor 0xC000 (Z.of_nat first))%Z) /\
          laid_out rest seen (pos + 2) p
      | None =>
          exists b : bytes,
            Wire.enc_plain name = Ok b /\
            slice p pos (List.length b) = b /\
            laid_out rest (<[name := pos]> seen) (pos + List.length b) p
      end
  end.

(** An encoder whose bytes are the fields [pieces]. *)
Definition lays (e : Wire.enc) (pieces : list piece) : Prop :=
  forall names pos b names' (p : bytes) (rest : list piece),
    e names pos = Ok (b, names') ->
    slice p pos (List.length b) = b ->
    laid_out rest names' (pos + List.length b) p ->
    laid_out (pieces ++ rest) names pos p.

(** An encoder of [size] bytes that leaves the table as it is. *)
Definition blind (e : Wire.enc) (size : nat) : Prop :=
  forall names pos b names',
    e names pos = Ok (b, names') -> names' = names /\ List.length b = size.

(* ================================================================== *)
(** * Properties *)
(* ================================================================== *)

Lemma bind_Ok {A B} (r : result A) (k : A -> result B) (b : B) :
  bind r k = Ok b -> exists a, r = Ok a /\ k a = Ok b.
Proof. destruct r as [a|e]; simpl; [eauto | discriminate]. Qed.

(** ** Record equality *)

Section record_equality.

Import DNSRecord.

Lemma record_eq_payload (a b : DNSRecord.t) :
  DNSRecord.__eq__ a b = true <-> payload a = payload b.
Proof.
  unfold DNSRecord.__eq__.
  destruct (payload a), (payload b); split; intros H; try discriminate;
    repeat match goal with
      | H : _ && _ = true |- _ => apply andb_prop in H; destruct H
      | H : bool_decide _ = true |- _ => apply bool_decide_eq_true in H
      | H : String.eqb _ _ = true |- _ => apply String.eqb_eq in H
      | H : (_ =? _)%Z = true |- _ => apply Z.eqb_eq in H
      end; subst; try reflexivity.
  - inversion H; subst. apply bool_decide_eq_true. reflexivity.
  - inversion H; subst. rewrite !bool_decide_eq_true_2 by reflexivity. reflexivity.
  - inversion H; subst. apply String.eqb_refl.
  - inversion H; subst. apply bool_decide_eq_true. reflexivity.
  - inversion H; subst. rewrite !Z.eqb_refl, String.eqb_refl. reflexivity.
Qed.

Lemma record_eq_refl (a : DNSRecord.t) : DNSRecord.__eq__ a a = true.
Proof. apply record_eq_payload. reflexivity. Qed.

Lemma record_eq_sym (a b : DNSRecord.t) :
  DNSRecord.__eq__ a b = DNSRecord.__eq__ b a.
Proof.
  destruct (DNSRecord.__eq__ a b) eqn:E1, (DNSRecord.__eq__ b a) eqn:E2; try reflexivity.
  - apply record_eq_payload in E1. symmetry in E1. apply record_eq_payload in E1. congruence.
  - apply record_eq_payload in E2. symmetry in E2. apply record_eq_payload in E2. congruence.
Qed.

Lemma record_eq_trans (a b c : DNSRecord.t) :
  DNSRecord.__eq__ a b = true -> DNSRecord.__eq__ b c = true -> DNSRecord.__eq__ a c = true.
Proof. rewrite !record_eq_payload. congruence. Qed.

(** The ttl and the creation time never influence [==]. *)
Lemma record_eq_reset_ttl (a b c : DNSRecord.t) :
  DNSRecord.__eq__ (reset_ttl a c) b = DNSRecord.__eq__ a b.
Proof. reflexivity. Qed.

End record_equality.

(** C2.  Two address records that differ in their names, with the same
    type, class and address, compare equal: [DNSAddress.__eq__] tests the
    class of the other object and the address only, and never reaches the
    comparison of name, type and class in [DNSEntry.__eq__]. *)
Theorem C2_eq_ignores_name :
  let a := DNSAddress 0 "a.local." _TYPE_A _CLASS_IN 60 [x01; x02; x03; x04] in
  let b := DNSAddress 0 "b.local." _TYPE_A _CLASS_IN 60 [x01; x02; x03; x04] in
  DNSRecord.__eq__ a b = true /\
  DNSRecord.name a <> DNSRecord.name b /\
  DNSRecord.base__eq__ a b = false.
Proof. repeat split. discriminate. Qed.

(** ** Expiration times *)

(** C5.  The expiration time at [percent] is [created + percent * ttl * 10];
    a record is expired from [created + ttl * 1000] on and is not stale
    before [created + ttl * 500]. *)
Theorem C5_expiration (R : DNSRecord.t) :
  (forall percent : Z,
     DNSRecord.get_expiration_time R percent
     = (DNSRecord.created R + percent * DNSRecord.ttl R * 10)%Z) /\
  (forall T : Z,
     (DNSRecord.created R + DNSRecord.ttl R * 1000 <= T)%Z ->
     DNSRecord.is_expired R T = true) /\
  (forall T : Z,
     (T < DNSRecord.created R + DNSRecord.ttl R * 500)%Z ->
     DNSRecord.is_stale R T = false).
Proof.
  unfold DNSRecord.is_expired, DNSRecord.is_stale, DNSRecord.get_expiration_time.
  repeat split.
  - intros T HT. apply Z.leb_le. lia.
  - intros T HT. apply Z.leb_gt. lia.
Qed.

Lemma C5_expiration_witness :
  let R := DNSPointer 1000 "_http._tcp.local." _TYPE_PTR _CLASS_IN 60 "x._http._tcp.local." in
  DNSRecord.get_expiration_time R 75 = 46000%Z /\
  DNSRecord.is_expired R 61000 = true /\
  DNSRecord.is_stale R 30999 = false.
Proof.
  intros R. destruct (C5_expiration R) as (H1 & H2 & H3).
  split; [exact (H1 75%Z) |].
  split; [apply H2; vm_compute; discriminate | apply H3; reflexivity].
Defined.

(** ** The writer follows [Wire] *)

Section writer_refinement.

Import DNSOutgoing Wire.

Variable mc : bool.

Lemma emit_nil (out : DNSOutgoing.t) : emit [] (names out) out = out.
Proof.
  destruct out. unfold emit, set_names, set_data. simpl.
  rewrite app_nil_r, Nat.add_0_r. reflexivity.
Qed.

Lemma emit_emit (c1 c2 : list bytes) (n1 n2 : gmap string nat) (out : DNSOutgoing.t) :
  emit c2 n2 (emit c1 n1 out) = emit (c1 ++ c2) n2 out.
Proof.
  unfold emit, set_names, set_data. simpl.
  rewrite concat_app, length_app, app_assoc, Nat.add_assoc. reflexivity.
Qed.

Lemma emit_set_names (c : list bytes) (n1 n2 : gmap string nat) (out : DNSOutgoing.t) :
  emit c n2 (set_names n1 out) = emit c n2 out.
Proof. reflexivity. Qed.

Lemma append_emit (chunk : bytes) (out : DNSOutgoing.t) :
  append chunk (List.length chunk) out = emit [chunk] (names out) out.
Proof.
  destruct out. unfold emit, append, set_names, set_data. simpl.
  rewrite app_nil_r. reflexivity.
Qed.

Lemma append1_emit (b : byte) (out : DNSOutgoing.t) :
  append [b] 1 out = emit [[b]] (names out) out.
Proof. exact (append_emit [b] out). Qed.

Lemma length_be_encode (n : nat) (v : Z) : List.length (be_encode n v) = n.
Proof. induction n; simpl; congruence. Qed.

Lemma length_pack_field (f : field) (v : Z) (b : bytes) :
  pack_field f v = Ok b -> List.length b = field_size f.
Proof.
  destruct f; unfold pack_field; intros H;
    match type of H with (if ?c then _ else _) = _ => destruct c end;
    try discriminate; injection H as <-; reflexivity.
Qed.

Lemma refines_seq w1 w2 e1 e2 :
  refines mc w1 e1 -> refines mc w2 e2 ->
  refines mc (fun out => let* out1 := w1 out in w2 out1) (seq e1 e2).
Proof.
  intros H1 H2 out Hmc. unfold seq. specialize (H1 out Hmc).
  destruct (e1 (names out) (size out)) as [[b1 n1]|x]; simpl.
  - destruct H1 as (c1 & Hc1 & Hw1). rewrite Hw1. simpl.
    specialize (H2 (emit c1 n1 out) Hmc). simpl in H2. rewrite Hc1 in H2.
    destruct (e2 n1 (size out + List.length b1)) as [[b2 n2]|y]; simpl.
    + destruct H2 as (c2 & Hc2 & Hw2). exists (c1 ++ c2). split.
      * rewrite concat_app. congruence.
      * rewrite Hw2. rewrite emit_emit. reflexivity.
    + exact H2.
  - rewrite H1. reflexivity.
Qed.

Lemma refines_ext w w' e :
  (forall out, w out = w' out) -> refines mc w' e -> refines mc w e.
Proof. intros He H out Hmc. rewrite He. apply H, Hmc. Qed.

Lemma refines_pack (f : field) (v : Z) : refines mc (pack f v) (lift (pack_field f v)).
Proof.
  intros out _. unfold lift, pack.
  destruct (pack_field f v) as [b|x] eqn:E; simpl; [| reflexivity].
  exists [b]. split; [apply app_nil_r |].
  rewrite <- (length_pack_field _ _ _ E). rewrite append_emit. reflexivity.
Qed.

Lemma refines_write_short v : refines mc (write_short v) (enc_short v).
Proof. apply refines_pack. Qed.

Lemma refines_write_int v : refines mc (write_int v) (enc_int v).
Proof. apply refines_pack. Qed.

Lemma refines_write_byte v : refines mc (write_byte v) (lift (enc_byte v)).
Proof.
  intros out _. unfold lift, enc_byte, write_byte.
  destruct (int2byte v) as [b|x]; simpl; [| reflexivity].
  exists [[b]]. split; [reflexivity |]. rewrite append1_emit. reflexivity.
Qed.

Lemma refines_write_string b : refines mc (write_string b) (lift (Ok b)).
Proof.
  intros out _. unfold lift, write_string. simpl.
  exists [b]. split; [apply app_nil_r |]. rewrite append_emit. reflexivity.
Qed.

Lemma refines_write_utf s : refines mc (write_utf s) (lift (enc_utf s)).
Proof.
  intros out _. unfold lift, enc_utf, write_utf, write_byte, write_string.
  destruct (64 <? List.length (list_byte_of_string s)); simpl; [reflexivity |].
  destruct (int2byte _) as [b|x]; simpl; [| reflexivity].
  exists [[b]; list_byte_of_string s]. split.
  - simpl. rewrite app_nil_r. reflexivity.
  - rewrite append1_emit, append_emit.
    simpl. rewrite emit_emit. reflexivity.
Qed.

Lemma refines_write_labels parts :
  refines mc (for_each write_utf parts) (lift (enc_labels parts)).
Proof.
  induction parts as [|p ps IH]; intros out Hmc.
  - simpl. exists []. split; [reflexivity |]. rewrite emit_nil. reflexivity.
  - pose proof (refines_write_utf p out Hmc) as Hp.
    unfold lift in *. simpl.
    destruct (enc_utf p) as [b|x]; simpl in *.
    + destruct Hp as (c1 & Hc1 & Hw1). rewrite Hw1. simpl.
      specialize (IH (emit c1 (names out) out) Hmc). simpl in IH.
      destruct (enc_labels ps) as [r|y]; simpl in *.
      * destruct IH as (c2 & Hc2 & Hw2). exists (c1 ++ c2). split.
        -- rewrite concat_app. congruence.
        -- rewrite Hw2, emit_emit. reflexivity.
      * exact IH.
    + rewrite Hp. reflexivity.
Qed.

Lemma refines_write_name name : refines mc (write_name name) (enc_name name).
Proof.
  intros out Hmc. unfold enc_name, write_name.
  destruct (names out !! name) as [index|] eqn:E.
  - unfold enc_pointer, write_byte.
    destruct (int2byte (Z.lor _ _)) as [hi|x]; simpl; [| reflexivity].
    destruct (int2byte (Z.land _ _)) as [lo|y]; simpl; [| reflexivity].
    exists [[hi]; [lo]]. split; [reflexivity |].
    rewrite !append1_emit.
    simpl. rewrite emit_emit. reflexivity.
  - unfold enc_plain. fold (labels_of name).
    pose proof (refines_write_labels (labels_of name)
                  (set_names (<[name := size out]> (names out)) out) Hmc) as Hl.
    unfold lift in Hl. simpl in Hl.
    destruct (enc_labels (labels_of name)) as [ls|x]; simpl in *.
    + destruct Hl as (c & Hc & Hw). rewrite Hw. simpl.
      exists (c ++ [[x00]]). split.
      * rewrite concat_app. simpl. congruence.
      * unfold write_byte. simpl. change (byte_of_Z 0) with x00.
        rewrite append1_emit.
        simpl. rewrite emit_emit, emit_set_names. reflexivity.
    + rewrite Hl. reflexivity.
Qed.

Lemma refines_write_question q : refines mc (write_question q) (enc_question q).
Proof.
  unfold write_question, enc_question.
  apply refines_seq; [apply refines_write_name |].
  apply refines_seq; apply refines_write_short.
Qed.

Lemma refines_raise x : refines mc (fun _ => Raise x) (lift (Raise x)).
Proof. intros out _. reflexivity. Qed.

Lemma refines_record_write r : refines mc (record_write r) (enc_rdata (DNSRecord.payload r)).
Proof.
  unfold record_write.
  destruct (DNSRecord.payload r) as [a|cpu os|alias|[text|]|p w q s];
    unfold enc_rdata; cbv beta iota.
  - apply refines_write_string.
  - apply refines_seq; [apply refines_write_string | apply refines_raise].
  - apply refines_write_name.
  - apply refines_write_string.
  - apply refines_raise.
  - apply refines_seq; [apply refines_write_short |].
    apply refines_seq; [apply refines_write_short |].
    apply refines_seq; [apply refines_write_short | apply refines_write_name].
Qed.

(** The payload between [self.size += 2] and [self.size -= 2], and the
    length inserted in front of it afterwards. *)
Lemma refines_sized r :
  refines mc
    (fun self =>
       let index := List.length (data self) in
       let self := set_data (data self) (size self + 2) self in
       let* self := record_write r self in
       let self := set_data (data self) (size self - 2) self in
       let length := List.length (concat (drop index (data self))) in
       insert_short index (Z.of_nat length) self)
    (enc_rdata_sized (DNSRecord.payload r)).
Proof.
  intros out Hmc. unfold enc_rdata_sized.
  pose proof (refines_record_write r (set_data (data out) (size out + 2) out) Hmc) as Hr.
  simpl in Hr. cbv zeta.
  destruct (enc_rdata (DNSRecord.payload r) (names out) (size out + 2)) as [[b n']|x].
  - destruct Hr as (c & Hc & Hw). simpl.
    assert (Hd : drop (List.length (data out)) (data out ++ c) = c)
      by apply drop_app_length.
    destruct (pack_field fmt_H (Z.of_nat (List.length b))) as [len|y] eqn:E.
    + simpl. exists (len :: c). split; [simpl; congruence |].
      rewrite Hw. simpl. rewrite Hd, Hc. unfold insert_short. rewrite E. simpl.
      rewrite take_app_length, Hd.
      unfold emit, set_names, set_data. simpl.
      rewrite Hc, length_app, (length_pack_field _ _ _ E). simpl.
      replace (size out + 2 + List.length b - 2 + 2) with (size out + S (S (List.length b)))
        by lia.
      reflexivity.
    + simpl. rewrite Hw. simpl. rewrite Hd, Hc. unfold insert_short. rewrite E. reflexivity.
  - simpl. rewrite Hr. reflexivity.
Qed.

Lemma refines_write_record r now :
  refines mc (write_record r now) (enc_record mc r now).
Proof.
  unfold write_record, enc_record.
  apply refines_seq; [apply refines_write_name |].
  apply refines_seq; [apply refines_write_short |].
  apply refines_seq.
  { intros out Hmc. unfold wire_class. rewrite Hmc.
    destruct (DNSRecord.unique r && mc); exact (refines_write_short _ out Hmc). }
  apply refines_seq.
  { intros out Hmc. unfold enc_int, wire_ttl.
    destruct (now =? 0)%Z; exact (refines_write_int _ out Hmc). }
  apply refines_sized.
Qed.

Lemma refines_for_each {A} (f : A -> DNSOutgoing.t -> result DNSOutgoing.t)
    (e : A -> enc) (xs : list A) :
  (forall x, refines mc (f x) (e x)) ->
  refines mc (for_each f xs) (seq_list e xs).
Proof.
  intros Hf. induction xs as [|x xs IH].
  - intros out _. simpl. exists []. split; [reflexivity |]. rewrite emit_nil. reflexivity.
  - simpl. apply refines_seq; [apply Hf | exact IH].
Qed.
End writer_refinement.


Section packet_refinement.

Import DNSOutgoing Wire.

Lemma same_message_refl s : same_message s s.
Proof. repeat split. Qed.

Lemma same_message_emit c n s : same_message s (emit c n s).
Proof. repeat split. Qed.

Lemma insert_short_0 v s :
  match insert_short 0 v s with
  | Ok s1 => exists chunk, pack_field fmt_H v = Ok chunk /\
                           data s1 = chunk :: data s /\ same_message s s1
  | Raise x => pack_field fmt_H v = Raise x
  end.
Proof.
  unfold insert_short. destruct (pack_field fmt_H v) as [chunk|x]; cbn [bind].
  - exists chunk. repeat split.
  - reflexivity.
Qed.

Lemma same_message_trans s1 s2 s3 :
  same_message s1 s2 -> same_message s2 s3 -> same_message s1 s3.
Proof. unfold same_message. intuition congruence. Qed.

Ltac header_step F :=
  match goal with
  | |- context [insert_short 0 ?v ?s] =>
      let H := fresh "H" in
      let s1 := fresh "s" in
      pose proof (insert_short_0 v s) as H;
      destruct (insert_short 0 v s) as [s1|?]; cbn [bind];
      [ let h := fresh "h" in
        let E := fresh "E" in
        let D := fresh "D" in
        let F1 := fresh "F" in
        destruct H as (h & E & D & F1);
        apply (same_message_trans _ _ _ F) in F1; clear F;
        rename F1 into F;
        let Fq := fresh "Fq" in let Fa := fresh "Fa" in let Fau := fresh "Fau" in
        let Fad := fresh "Fad" in let Ffl := fresh "Ffl" in let Fid := fresh "Fid" in
        let Fmc := fresh "Fmc" in
        pose proof F as (Fq & Fa & Fau & Fad & Ffl & Fid & Fmc);
        rewrite ?Fq, ?Fa, ?Fau, ?Fad, ?Ffl, ?Fid, ?Fmc;
        rewrite E; cbn [bind];
        clear Fq Fa Fau Fad Ffl Fid Fmc
      | rewrite H; reflexivity ]
  end.

Lemma write_header_spec s :
  match write_header s with
  | Ok s' => exists h, enc_header s = Ok h /\ concat (data s') = h ++ concat (data s)
  | Raise x => enc_header s = Raise x
  end.
Proof.
  unfold write_header, enc_header.
  pose proof (same_message_refl s) as F.
  do 5 header_step F.
  destruct (multicast s); header_step F;
    (eexists; split; [reflexivity |]);
    rewrite D4, D3, D2, D1, D0, D; simpl; rewrite <- !app_assoc; reflexivity.
Qed.

Lemma emit_answers c n s : answers (emit c n s) = answers s.
Proof. reflexivity. Qed.
Lemma emit_authorities c n s : authorities (emit c n s) = authorities s.
Proof. reflexivity. Qed.
Lemma emit_additionals c n s : additionals (emit c n s) = additionals s.
Proof. reflexivity. Qed.

Ltac stage R st Hws :=
  let H := fresh "H" in
  pose proof (R st eq_refl) as H; simpl in H;
  match type of H with
  | match ?e with _ => _ end =>
      destruct e as [[? ?]|?]; cbn [bind];
      [ let c := fresh "c" in
        let Hc := fresh "Hc" in
        let Hw := fresh "Hw" in
        destruct H as (c & Hc & Hw); subst
      | Hws; rewrite H; reflexivity ]
  end.

Lemma write_sections_spec s :
  match enc_body s (names s) (size s) with
  | Ok (b, n') => exists c, concat c = b /\ write_sections s = Ok (emit c n' s)
  | Raise x => write_sections s = Raise x
  end.
Proof.
  pose proof (refines_for_each (multicast s) write_question enc_question (questions s)
                (refines_write_question _)) as Rq.
  pose proof (refines_for_each (multicast s)
                (fun '(answer, time_) => write_record answer time_)
                (fun '(answer, time_) => enc_record (multicast s) answer time_)
                (answers s)
                (fun x => match x with (r, now) => refines_write_record _ r now end)) as Ra.
  pose proof (refines_for_each (multicast s)
                (fun r => write_record r 0) (fun r => enc_record (multicast s) r 0)
                (authorities s) (fun r => refines_write_record _ r 0)) as Rau.
  pose proof (refines_for_each (multicast s)
                (fun r => write_record r 0) (fun r => enc_record (multicast s) r 0)
                (additionals s) (fun r => refines_write_record _ r 0)) as Rad.
  unfold write_sections, enc_body, seq.
  stage Rq s idtac.
  stage Ra (emit c g s)
    ltac:(rewrite Hw; cbn [bind]; rewrite ?emit_answers).
  stage Rau (emit c0 g0 (emit c g s))
    ltac:(rewrite Hw; cbn [bind]; rewrite ?emit_answers, Hw0; cbn [bind];
          rewrite ?emit_authorities).
  stage Rad (emit c1 g1 (emit c0 g0 (emit c g s)))
    ltac:(rewrite Hw; cbn [bind]; rewrite ?emit_answers, Hw0; cbn [bind];
          rewrite ?emit_authorities, Hw1; cbn [bind]; rewrite ?emit_additionals).
  eexists. split.
  2:{ rewrite Hw; cbn [bind]; rewrite ?emit_answers, Hw0; cbn [bind];
      rewrite ?emit_authorities, Hw1; cbn [bind]; rewrite ?emit_additionals.
      rewrite Hw2, !emit_emit. reflexivity. }
  rewrite !concat_app. rewrite <- ?app_assoc. reflexivity.
Qed.

(** [packet()] on a message that is not finished returns the bytes of
    [enc_packet], or raises as [enc_packet] does. *)
Lemma packet_enc_packet (m : DNSOutgoing.t) :
  finished m = false ->
  match packet m with
  | Ok (p, _) => enc_packet m = Ok p
  | Raise x => enc_packet m = Raise x
  end.
Proof.
  intros Hf. unfold packet, enc_packet. rewrite Hf.
  pose proof (write_sections_spec (set_finished true m)) as Hs.
  change (enc_body (set_finished true m) (names (set_finished true m))
                   (size (set_finished true m)))
    with (enc_body m (names m) (size m)) in Hs.
  destruct (enc_body m (names m) (size m)) as [[b n']|x]; cbn [bind].
  - destruct Hs as (c & Hc & Hw). rewrite Hw. cbn [bind].
    pose proof (write_header_spec (emit c n' (set_finished true m))) as Hh.
    change (enc_header (emit c n' (set_finished true m))) with (enc_header m) in Hh.
    destruct (write_header (emit c n' (set_finished true m))) as [s'|y]; cbn [bind].
    + destruct Hh as (h & Eh & Hd). rewrite Eh. cbn [bind]. rewrite Hd.
      simpl. rewrite concat_app, Hc. reflexivity.
    + rewrite Hh. reflexivity.
  - rewrite Hs. reflexivity.
Qed.
End packet_refinement.

(** ** Bytes and pointers *)

Lemma Z_of_byte_range (b : byte) : (0 <= Z_of_byte b < 256)%Z.
Proof. unfold Z_of_byte. pose proof (Byte.to_N_bounded b). lia. Qed.

Lemma Z_of_byte_of_Z (v : Z) : (0 <= v < 256)%Z -> Z_of_byte (byte_of_Z v) = v.
Proof.
  intros Hv. unfold Z_of_byte, byte_of_Z.
  destruct (Byte.of_N (Z.to_N v)) as [b|] eqn:E.
  - apply Byte.to_of_N in E. lia.
  - apply Byte.of_N_None_iff in E. lia.
Qed.

Lemma byte_of_Z_of_byte (b : byte) : byte_of_Z (Z_of_byte b) = b.
Proof.
  unfold Z_of_byte, byte_of_Z. rewrite N2Z.id, Byte.of_to_N. reflexivity.
Qed.

Lemma int2byte_Ok (v : Z) (b : byte) :
  int2byte v = Ok b <-> (0 <= v < 256)%Z /\ b = byte_of_Z v.
Proof.
  unfold int2byte.
  destruct (Z.leb_spec 0 v); destruct (Z.ltb_spec v 256); simpl;
    split; intros Hb; try discriminate; try lia.
  - injection Hb as <-. split; [lia | reflexivity].
  - destruct Hb as [_ ->]. reflexivity.
Qed.

Lemma land_shiftl_low (x l : Z) :
  (0 <= l < 256)%Z -> Z.land (Z.shiftl x 8) l = 0%Z.
Proof.
  intros Hl. apply Z.bits_inj'. intros n Hn.
  rewrite Z.land_spec, Z.bits_0.
  destruct (Z.lt_ge_cases n 8) as [Hlt|Hge].
  - rewrite Z.shiftl_spec_low by lia. reflexivity.
  - replace l with (l mod 2 ^ 8)%Z by (apply Z.mod_small; lia).
    rewrite Z.mod_pow2_bits_high by lia. apply andb_false_r.
Qed.

Lemma lor_shiftl_low (x l : Z) :
  (0 <= l < 256)%Z -> Z.lor (Z.shiftl x 8) l = (x * 256 + l)%Z.
Proof.
  intros Hl. rewrite <- Z.add_nocarry_lor by (apply land_shiftl_low; exact Hl).
  rewrite Z.shiftl_mul_pow2 by lia. reflexivity.
Qed.

(** The two octets of a pointer, read as a 16-bit number, are
    [0xC000 | index]. *)
Lemma pointer_octets (index : Z) :
  (0 <= index)%Z ->
  (Z.lor (Z.shiftr index 8) 0xC0 * 256 + Z.land index 0xFF)%Z = Z.lor 0xC000 index.
Proof.
  intros Hi.
  assert (Hl : (0 <= Z.land index 0xFF < 256)%Z).
  { change 0xFF%Z with (Z.ones 8). rewrite Z.land_ones by lia.
    apply Z.mod_pos_bound. lia. }
  rewrite <- lor_shiftl_low by exact Hl.
  rewrite Z.shiftl_lor. change (Z.shiftl 0xC0 8) with 0xC000%Z.
  rewrite (Z.lor_comm _ 0xC000), <- Z.lor_assoc. f_equal.
  rewrite lor_shiftl_low by exact Hl.
  rewrite Z.shiftr_div_pow2 by lia.
  change 0xFF%Z with (Z.ones 8). rewrite Z.land_ones by lia.
  change (2 ^ 8)%Z with 256%Z. pose proof (Z.div_mod index 256). lia.
Qed.

(** Decoding a pointer to a position below 2^14. *)
Lemma pointer_decode (index : Z) :
  (0 <= index < 16384)%Z ->
  Z.lor (Z.shiftl (Z.land (Z.lor (Z.shiftr index 8) 0xC0) 0x3F) 8) (Z.land index 0xFF)
  = index.
Proof.
  intros Hi.
  assert (Hl : (0 <= Z.land index 0xFF < 256)%Z).
  { change 0xFF%Z with (Z.ones 8). rewrite Z.land_ones by lia.
    apply Z.mod_pos_bound. lia. }
  rewrite lor_shiftl_low by exact Hl.
  assert (Hh : Z.land (Z.lor (Z.shiftr index 8) 0xC0) 0x3F = Z.shiftr index 8).
  { rewrite Z.land_lor_distr_l. change (Z.land 0xC0 0x3F) with 0%Z.
    rewrite Z.lor_0_r. change 0x3F%Z with (Z.ones 6). rewrite Z.land_ones by lia.
    apply Z.mod_small. rewrite Z.shiftr_div_pow2 by lia.
    change (2 ^ 8)%Z with 256%Z. change (2 ^ 6)%Z with 64%Z.
    split; [apply Z.div_pos; lia | apply Z.div_lt_upper_bound; lia]. }
  rewrite Hh. rewrite Z.shiftr_div_pow2 by lia.
  change 0xFF%Z with (Z.ones 8). rewrite Z.land_ones by lia.
  change (2 ^ 8)%Z with 256%Z. pose proof (Z.div_mod index 256). lia.
Qed.

Lemma pointer_tag (index : Z) :
  (0 <= index < 16384)%Z ->
  Z.land (Z.lor (Z.shiftr index 8) 0xC0) 0xC0 = 0xC0%Z /\
  (0 <= Z.lor (Z.shiftr index 8) 0xC0 < 256)%Z.
Proof.
  intros Hi.
  assert (Hh : (0 <= Z.shiftr index 8 < 64)%Z).
  { rewrite Z.shiftr_div_pow2 by lia. change (2 ^ 8)%Z with 256%Z.
    split; [apply Z.div_pos; lia | apply Z.div_lt_upper_bound; lia]. }
  assert (Hd : Z.land (Z.shiftr index 8) 0xC0 = 0%Z).
  { replace (Z.shiftr index 8) with (Z.land (Z.shiftr index 8) (Z.ones 6)).
    - rewrite <- Z.land_assoc. change (Z.land (Z.ones 6) 0xC0) with 0%Z.
      apply Z.land_0_r.
    - rewrite Z.land_ones by lia. apply Z.mod_small. exact Hh. }
  split.
  - rewrite Z.land_lor_distr_l, Hd. reflexivity.
  - rewrite <- Z.add_nocarry_lor by exact Hd. lia.
Qed.

(** ** The compression table only grows *)

Section table_growth.

Import DNSOutgoing Wire.

Lemma extends_lift r : extends (lift r).
Proof.
  intros names pos b names' H. unfold lift in H.
  destruct r; simpl in H; [| discriminate]. injection H as _ <-. reflexivity.
Qed.

Lemma extends_seq e1 e2 : extends e1 -> extends e2 -> extends (seq e1 e2).
Proof.
  intros H1 H2 names pos b names' H. unfold seq in H.
  apply bind_Ok in H as ([b1 n1] & E1 & H).
  apply bind_Ok in H as ([b2 n2] & E2 & H).
  injection H as _ <-.
  transitivity n1; [eapply H1 | eapply H2]; eassumption.
Qed.

Lemma extends_seq_list {A} (f : A -> enc) xs :
  (forall x, extends (f x)) -> extends (seq_list f xs).
Proof.
  intros Hf. induction xs as [|x xs IH]; simpl.
  - intros names pos b names' H. injection H as _ <-. reflexivity.
  - apply extends_seq; [apply Hf | exact IH].
Qed.

Lemma extends_name name : extends (enc_name name).
Proof.
  intros names pos b names' H. unfold enc_name in H.
  destruct (names !! name) as [index|] eqn:E.
  - apply bind_Ok in H as (b' & _ & H). injection H as _ <-. reflexivity.
  - apply bind_Ok in H as (b' & _ & H). injection H as _ <-.
    apply insert_subseteq. exact E.
Qed.

Lemma extends_question q : extends (enc_question q).
Proof.
  unfold enc_question.
  repeat first [apply extends_seq | apply extends_name | apply extends_lift].
Qed.

Lemma extends_rdata rd : extends (enc_rdata rd).
Proof.
  destruct rd as [a|cpu os|alias|[text|]|p w q s]; simpl;
    repeat first [apply extends_seq | apply extends_name | apply extends_lift].
Qed.

Lemma extends_rdata_sized rd : extends (enc_rdata_sized rd).
Proof.
  intros names pos b names' H. unfold enc_rdata_sized in H.
  apply bind_Ok in H as ([b1 n1] & E1 & H).
  apply bind_Ok in H as (len & _ & H). injection H as _ <-.
  eapply extends_rdata. eassumption.
Qed.

Lemma extends_record mc r now : extends (enc_record mc r now).
Proof.
  unfold enc_record.
  repeat first [apply extends_seq | apply extends_name | apply extends_lift
               | apply extends_rdata_sized].
Qed.

Lemma refines_names mc w e out out' :
  refines mc w e -> extends e -> multicast out = mc ->
  w out = Ok out' -> names out ⊆ names out'.
Proof.
  intros Hr He Hmc Hw. specialize (Hr out Hmc).
  destruct (e (names out) (size out)) as [[b n']|x] eqn:E.
  - destruct Hr as (c & _ & Hw'). rewrite Hw in Hw'. injection Hw' as ->.
    simpl. eapply He. exact E.
  - congruence.
Qed.

Lemma run_op_names op out out' :
  run_op op out = Ok out' -> names out ⊆ names out'.
Proof.
  destruct op; simpl.
  - eapply refines_names; [apply refines_write_byte | apply extends_lift | reflexivity].
  - eapply refines_names; [apply refines_write_short | apply extends_lift | reflexivity].
  - eapply refines_names; [apply refines_write_int | apply extends_lift | reflexivity].
  - eapply refines_names; [apply refines_write_string | apply extends_lift | reflexivity].
  - eapply refines_names; [apply refines_write_utf | apply extends_lift | reflexivity].
  - eapply refines_names; [apply refines_write_name | apply extends_name | reflexivity].
  - eapply refines_names;
      [apply refines_write_question | apply extends_question | reflexivity].
  - eapply refines_names;
      [apply refines_write_record | apply extends_record | reflexivity].
  - unfold insert_short. intros H. apply bind_Ok in H as (ch & _ & H).
    injection H as <-. reflexivity.
Qed.

Lemma run_ops_names ops out out' :
  for_each run_op ops out = Ok out' -> names out ⊆ names out'.
Proof.
  revert out. induction ops as [|op ops IH]; intros out H; simpl in H.
  - injection H as <-. reflexivity.
  - apply bind_Ok in H as (out1 & E1 & H).
    transitivity (names out1); [eapply run_op_names | apply IH]; eassumption.
Qed.

End table_growth.

(** ** The name writer *)

Section name_writer.

Import DNSOutgoing Wire.

Lemma write_utf_threshold (s : string) (out : DNSOutgoing.t) :
  (List.length (list_byte_of_string s) <= 64 ->
   write_utf s out
   = Ok (append (list_byte_of_string s) (List.length (list_byte_of_string s))
           (append [byte_of_Z (Z.of_nat (List.length (list_byte_of_string s)))] 1 out))) /\
  (64 < List.length (list_byte_of_string s) ->
   write_utf s out = Raise NamePartTooLongException).
Proof.
  unfold write_utf, write_byte, write_string, int2byte.
  destruct (Nat.ltb_spec 64 (List.length (list_byte_of_string s))); split; intros Hl;
    try lia; try reflexivity.
  destruct (Z.leb_spec 0 (Z.of_nat (List.length (list_byte_of_string s)))); [| lia].
  destruct (Z.ltb_spec (Z.of_nat (List.length (list_byte_of_string s))) 256); [| lia].
  reflexivity.
Qed.

End name_writer.

(** C3.  A label of 64 bytes is written, length byte 0x40 first: the
    test of [write_utf] is [length > 64], so that it is the labels of more
    than 64 bytes that raise [NamePartTooLongException]. *)
Theorem C3_write_utf_accepts_64_bytes :
  let s := string_of_list_ascii (repeat "a"%char 64) in
  let out := DNSOutgoing.__init__ 0 true in
  List.length (list_byte_of_string s) = 64 /\
  DNSOutgoing.write_utf s out
  = Ok (DNSOutgoing.append (list_byte_of_string s) 64 (DNSOutgoing.append [x40] 1 out)).
Proof. split; reflexivity. Qed.

(** C9.  Writing a host information record raises [AttributeError], for the
    attribute [oso] that [DNSHinfo.write] reads does not exist (the cpu field
    has been appended without a length byte by then); no call of
    [write_record] on such a record returns. *)
Theorem C9_hinfo_write_raises (now : Z) (name : string) (type class_ ttl : Z)
    (cpu os : bytes) (out : DNSOutgoing.t) :
  DNSOutgoing.record_write (DNSHinfo now name type class_ ttl cpu os) out
  = Raise AttributeError /\
  forall (time_ : Z) (out' : DNSOutgoing.t),
    DNSOutgoing.write_record (DNSHinfo now name type class_ ttl cpu os) time_ out <> Ok out'.
Proof.
  split; [reflexivity |].
  intros time_ out' H. unfold DNSOutgoing.write_record in H.
  do 4 (apply bind_Ok in H as (? & _ & H)).
  apply bind_Ok in H as (? & E & H).
  unfold DNSOutgoing.record_write in E. simpl in E. discriminate.
Qed.

Lemma lor_byte_range (x y : Z) :
  (0 <= x < 256)%Z -> (0 <= y < 256)%Z -> (0 <= Z.lor x y < 256)%Z.
Proof.
  intros Hx Hy. split; [apply Z.lor_nonneg; lia |].
  destruct (Z.eq_dec (Z.lor x y) 0%Z) as [E|E]; [lia |].
  assert (H0 : (0 <= Z.lor x y)%Z) by (apply Z.lor_nonneg; lia).
  change 256%Z with (2 ^ 8)%Z. apply Z.log2_lt_pow2; [lia |].
  rewrite Z.log2_lor by lia.
  apply Z.max_lub_lt.
  - destruct (Z.eq_dec x 0%Z) as [->|]; [reflexivity |]. apply Z.log2_lt_pow2; lia.
  - destruct (Z.eq_dec y 0%Z) as [->|]; [reflexivity |]. apply Z.log2_lt_pow2; lia.
Qed.

(** Once [write_name] has entered a name in the table with the value
    [size out], below 2^16, whatever is written next, the following
    [write_name] of the same name appends exactly two bytes, and they hold,
    big end first, the 16-bit number [0xC000 | size out]. *)
Lemma write_name_known (name : string) (ops : list writer_op)
    (out out1 out2 : DNSOutgoing.t) :
  DNSOutgoing.names out !! name = None ->
  (Z.of_nat (DNSOutgoing.size out) < 65536)%Z ->
  DNSOutgoing.write_name name out = Ok out1 ->
  for_each run_op ops out1 = Ok out2 ->
  exists (out3 : DNSOutgoing.t) (hi lo : byte),
    DNSOutgoing.write_name name out2 = Ok out3 /\
    DNSOutgoing.data out3 = DNSOutgoing.data out2 ++ [[hi]; [lo]] /\
    DNSOutgoing.size out3 = DNSOutgoing.size out2 + 2 /\
    (Z_of_byte hi * 256 + Z_of_byte lo
     = Z.lor 0xC000 (Z.of_nat (DNSOutgoing.size out)))%Z.
Proof.
  intros Hfresh Hsize H1 Hops.
  assert (Hidx : DNSOutgoing.names out2 !! name = Some (DNSOutgoing.size out)).
  { apply run_ops_names in Hops.
    eapply lookup_weaken; [| exact Hops].
    pose proof (refines_write_name (DNSOutgoing.multicast out) name out eq_refl) as Hr.
    unfold Wire.enc_name in Hr. rewrite Hfresh in Hr.
    destruct (Wire.enc_plain name) as [b|x]; simpl in Hr; [| congruence].
    destruct Hr as (c & _ & Hw). rewrite H1 in Hw. injection Hw as ->.
    simpl. apply lookup_insert_eq. }
  set (index := Z.of_nat (DNSOutgoing.size out)).
  assert (Rlo : (0 <= Z.land index 0xFF < 256)%Z).
  { change 0xFF%Z with (Z.ones 8). rewrite Z.land_ones by lia.
    apply Z.mod_pos_bound. lia. }
  assert (Rhi : (0 <= Z.lor (Z.shiftr index 8) 0xC0 < 256)%Z).
  { apply lor_byte_range; [| lia]. rewrite Z.shiftr_div_pow2 by lia.
    change (2 ^ 8)%Z with 256%Z.
    split; [apply Z.div_pos; lia | apply Z.div_lt_upper_bound; lia]. }
  unfold DNSOutgoing.write_name. rewrite Hidx. fold index.
  unfold DNSOutgoing.write_byte.
  rewrite (proj2 (int2byte_Ok _ _) (conj Rhi eq_refl)). cbn [bind].
  rewrite (proj2 (int2byte_Ok _ _) (conj Rlo eq_refl)). cbn [bind].
  eexists _, _, _. split; [reflexivity |]. split; [| split].
  - simpl. rewrite <- app_assoc. reflexivity.
  - simpl. lia.
  - rewrite !Z_of_byte_of_Z by assumption. apply pointer_octets. lia.
Qed.

(** ** [read_name] terminates *)

Section read_name.

Import DNSIncoming.

Lemma indexbytes_Ok (data : bytes) (i : nat) (v : Z) :
  indexbytes data i = Ok v -> i < List.length data /\ (0 <= v < 256)%Z.
Proof.
  unfold indexbytes. destruct (data !! i) as [b|] eqn:E; [| discriminate].
  intros H. injection H as <-. split.
  - eapply lookup_lt_Some. exact E.
  - apply Z_of_byte_range.
Qed.

(** The pointer step of the loop. *)
Lemma read_name_loop_pointer (data : bytes) (fuel : nat) (result : string)
    (off : nat) (next : option nat) (first : nat) (length low : Z) :
  indexbytes data off = Ok length ->
  Z.land length 0xC0 = 0xC0%Z ->
  indexbytes data (off + 1) = Ok low ->
  let target := Z.to_nat (Z.lor (Z.shiftl (Z.land length 0x3F) 8) low) in
  read_name_loop (S fuel) data result off next first
  = if first <=? target then Raise (BadDomainNameCircular target)
    else read_name_loop fuel data result target
           (Some (match next with Some n => n | None => off + 2 end)) target.
Proof.
  intros Hl Ht Hlow target. simpl. rewrite Hl. cbn [bind].
  destruct (Z.eqb_spec length 0) as [->|_]; [discriminate |].
  rewrite Ht. change (0xC0 =? 0x00)%Z with false. change (0xC0 =? 0xC0)%Z with true.
  cbv iota. rewrite Hlow. cbn [bind]. fold target.
  destruct (first <=? target); [reflexivity |].
  destruct next; [reflexivity |].
  replace (off + 1 + 1) with (off + 2) by lia. reflexivity.
Qed.

(** Once a pointer has been followed, the offset returned is the one that
    the first pointer fixed. *)
Lemma read_name_loop_next (data : bytes) (fuel : nat) (result : string)
    (off n first : nat) (name : string) (off' : nat) :
  read_name_loop fuel data result off (Some n) first = Ok (name, off') -> off' = n.
Proof.
  revert result off first.
  induction fuel as [|fuel IH]; intros result off first H; simpl in H; [discriminate |].
  apply bind_Ok in H as (length & _ & H).
  destruct (length =? 0)%Z; [injection H as _ <-; reflexivity |].
  destruct (Z.land length 0xC0 =? 0x00)%Z; [eapply IH; exact H |].
  destruct (Z.land length 0xC0 =? 0xC0)%Z; [| discriminate].
  apply bind_Ok in H as (low & _ & H).
  destruct (first <=? _); [discriminate |]. eapply IH. exact H.
Qed.

(** The measure that every round of the loop decreases. *)
Lemma read_name_loop_fuel (data : bytes) (fuel : nat) (result : string)
    (off : nat) (next : option nat) (first : nat) :
  first * S (List.length data) + (List.length data - off) < fuel ->
  read_name_loop fuel data result off next first <> Raise FuelExhausted.
Proof.
  revert result off next first.
  induction fuel as [|fuel IH]; intros result off next first Hm; [lia |].
  simpl. destruct (indexbytes data off) as [length|x] eqn:El.
  2:{ simpl. unfold indexbytes in El. destruct (data !! off); [discriminate |].
      injection El as <-. discriminate. }
  cbn [bind]. apply indexbytes_Ok in El as [Hoff Hlen].
  destruct (length =? 0)%Z; [discriminate |].
  destruct (Z.land length 0xC0 =? 0x00)%Z.
  { apply IH. lia. }
  destruct (Z.land length 0xC0 =? 0xC0)%Z; [| discriminate].
  destruct (indexbytes data (off + 1)) as [low|x] eqn:Elow.
  2:{ simpl. unfold indexbytes in Elow. destruct (data !! (off + 1)); [discriminate |].
      injection Elow as <-. discriminate. }
  cbn [bind].
  destruct (Nat.leb_spec first
              (Z.to_nat (Z.lor (Z.shiftl (Z.land length 0x3F) 8) low))) as [|Hlt];
    [discriminate |].
  apply IH. nia.
Qed.

(** More fuel does not change an outcome. *)
Lemma read_name_loop_more (data : bytes) (fuel fuel' : nat) (result : string)
    (off : nat) (next : option nat) (first : nat) :
  fuel <= fuel' ->
  read_name_loop fuel data result off next first <> Raise FuelExhausted ->
  read_name_loop fuel' data result off next first
  = read_name_loop fuel data result off next first.
Proof.
  revert fuel' result off next first.
  induction fuel as [|fuel IH]; intros fuel' result off next first Hle H;
    [simpl in H; congruence |].
  destruct fuel' as [|fuel']; [lia |].
  simpl in *. destruct (indexbytes data off) as [length|x]; [| reflexivity].
  cbn [bind] in *.
  destruct (length =? 0)%Z; [reflexivity |].
  destruct (Z.land length 0xC0 =? 0x00)%Z; [apply IH; [lia | exact H] |].
  destruct (Z.land length 0xC0 =? 0xC0)%Z; [| reflexivity].
  destruct (indexbytes data (off + 1)) as [low|x]; [| reflexivity].
  cbn [bind] in *.
  destruct (first <=? _); [reflexivity |]. apply IH; [lia | exact H].
Qed.

Lemma read_name_fuel_enough (data : bytes) (off : nat) :
  off * S (List.length data) + (List.length data - off) < read_name_fuel data off.
Proof. unfold read_name_fuel. lia. Qed.

End read_name.

(** C4.  [read_name] returns or raises on every packet, from every
    position.  A pointer whose target is not below the anchor [first] raises
    the circular-name error; one whose target is below it moves both the
    cursor and the anchor to the target, and the first such pointer fixes the
    offset returned to the byte after its low octet. *)
Theorem C4_read_name_terminates (data : bytes) :
  (forall self : DNSIncoming.t,
     DNSIncoming.data self = data ->
     DNSIncoming.read_name self <> Raise FuelExhausted) /\
  (forall (fuel : nat) (result : string) (off : nat) (next : option nat) (first : nat)
          (length low : Z),
     indexbytes data off = Ok length ->
     Z.land length 0xC0 = 0xC0%Z ->
     indexbytes data (off + 1) = Ok low ->
     let target := Z.to_nat (Z.lor (Z.shiftl (Z.land length 0x3F) 8) low) in
     DNSIncoming.read_name_loop (S fuel) data result off next first
     = if first <=? target then Raise (BadDomainNameCircular target)
       else DNSIncoming.read_name_loop fuel data result target
              (Some (match next with Some n => n | None => off + 2 end)) target) /\
  (forall (fuel : nat) (result : string) (off n first : nat) (name : string) (off' : nat),
     DNSIncoming.read_name_loop fuel data result off (Some n) first = Ok (name, off') ->
     off' = n).
Proof.
  split; [| split].
  - intros self <- H. unfold DNSIncoming.read_name in H.
    destruct (DNSIncoming.read_name_loop _ _ _ _ _ _) as [[name off']|x] eqn:E;
      [discriminate |].
    simpl in H. injection H as ->.
    eapply read_name_loop_fuel; [| exact E]. apply read_name_fuel_enough.
  - intros. apply read_name_loop_pointer; assumption.
  - intros. eapply read_name_loop_next; eassumption.
Qed.

Lemma C4_read_name_terminates_witness :
  let data := [x01; "a"%byte; x00; xc0; x00; xc0; x05] in
  let self o := DNSIncoming.mk o data [] [] 0 0 0 0 0 0 0 in
  DNSIncoming.read_name (self 3) <> Raise FuelExhausted /\
  DNSIncoming.read_name_loop 3 data EmptyString 3 None 3
  = DNSIncoming.read_name_loop 2 data EmptyString 0 (Some 5) 0 /\
  DNSIncoming.read_name_loop 3 data EmptyString 5 None 5
  = Raise (BadDomainNameCircular 5) /\
  (forall (name : string) (off' : nat),
     DNSIncoming.read_name_loop 2 data EmptyString 0 (Some 5) 0 = Ok (name, off') ->
     off' = 5) /\
  DNSIncoming.read_name (self 3) = Ok ("a.", self 5).
Proof.
  intros data self.
  destruct (C4_read_name_terminates data) as (H1 & H2 & H3).
  split; [apply H1; reflexivity |].
  split; [exact (H2 2 EmptyString 3 None 3 192%Z 0%Z eq_refl eq_refl eq_refl) |].
  split; [exact (H2 2 EmptyString 5 None 5 192%Z 5%Z eq_refl eq_refl eq_refl) |].
  split; [exact (H3 2 EmptyString 0 5 0) | reflexivity].
Defined.

(** ** [check_service] *)

Section check_service_props.

Import Zeroconf.

Lemma find_dot_range (s : string) : (-1 <= find_dot s)%Z.
Proof.
  induction s as [|c s IH]; simpl; [lia |].
  destruct (Ascii.eqb c dot); [lia |]. destruct (find_dot s <? 0)%Z eqn:E; lia.
Qed.

Lemma find_dot_cons (c : ascii) (s : string) :
  (0 <= find_dot s)%Z -> (0 <= find_dot (String c s))%Z.
Proof.
  intros H. simpl. destruct (Ascii.eqb c dot); [lia |].
  destruct (Z.ltb_spec (find_dot s) 0); lia.
Qed.

Lemma find_dot_substring (s : string) (a k : nat) :
  (0 <= find_dot (substring a k s))%Z -> (0 <= find_dot s)%Z.
Proof.
  revert a k. induction s as [|c s IH]; intros a k H.
  - destruct a, k; simpl in H; lia.
  - destruct a as [|a].
    + destruct k as [|k]; simpl in H; [lia |].
      simpl. destruct (Ascii.eqb c dot); [lia |].
      destruct (Z.ltb_spec (find_dot (substring 0 k s)) 0) as [|Hk]; [lia |].
      apply IH in Hk. destruct (Z.ltb_spec (find_dot s) 0); lia.
    + simpl in H. apply IH in H. apply find_dot_cons. exact H.
Qed.

(** A name that ends with a dotted type has a dot. *)
Lemma endswith_find_dot (name type : string) :
  endswith name type = true -> (0 <= find_dot type)%Z -> (0 <= find_dot name)%Z.
Proof.
  unfold endswith. intros H Ht. apply andb_prop in H as [_ H].
  apply String.eqb_eq in H. rewrite <- H in Ht.
  eapply find_dot_substring. exact Ht.
Qed.

Variable format_name : string -> option bytes -> option Z -> string -> string.

Lemma scan_records_no_rename (info : ServiceInfo.t) (now : Z)
    (records : list DNSRecord.t) :
  (0 <= find_dot (ServiceInfo.name info))%Z ->
  scan_records info now records <> Ok true.
Proof.
  intros Hdot. induction records as [|r records IH]; simpl; [discriminate |].
  destruct ((DNSRecord.type r =? _TYPE_PTR)%Z && negb (DNSRecord.is_expired r now)).
  - destruct (DNSRecord.payload r); simpl; try discriminate.
    destruct (String.eqb alias (ServiceInfo.name info)); [| exact IH].
    destruct (Z.ltb_spec (find_dot (ServiceInfo.name info)) 0); [lia | discriminate].
  - simpl. exact IH.
Qed.

Lemma scan_records_collision (info : ServiceInfo.t) (now : Z)
    (records : list DNSRecord.t) :
  (0 <= find_dot (ServiceInfo.name info))%Z ->
  (forall r, In r records -> DNSRecord.type r = _TYPE_PTR ->
             exists alias, DNSRecord.payload r = Pointer alias) ->
  (exists r, In r records /\ DNSRecord.type r = _TYPE_PTR /\
             DNSRecord.is_expired r now = false /\
             DNSRecord.payload r = Pointer (ServiceInfo.name info)) ->
  scan_records info now records = Raise NonUniqueNameException.
Proof.
  intros Hdot Hptr (r0 & Hin & Hty & Hexp & Hpay).
  induction records as [|r records IH]; [destruct Hin |].
  simpl. destruct (Z.eqb_spec (DNSRecord.type r) _TYPE_PTR) as [Et|Et]; simpl.
  - destruct (DNSRecord.is_expired r now) eqn:Ee; simpl.
    + apply IH; [intros; apply Hptr; [right |]; assumption |].
      destruct Hin as [->|Hin]; [congruence | exact Hin].
    + destruct (Hptr r (or_introl eq_refl) Et) as (alias & Ea). rewrite Ea. simpl.
      destruct (String.eqb_spec alias (ServiceInfo.name info)) as [->|Hne].
      * destruct (Z.ltb_spec (find_dot (ServiceInfo.name info)) 0); [lia | reflexivity].
      * apply IH; [intros; apply Hptr; [right |]; assumption |].
        destruct Hin as [->|Hin]; [congruence | exact Hin].
  - apply IH; [intros; apply Hptr; [right |]; assumption |].
    destruct Hin as [->|Hin]; [congruence | exact Hin].
Qed.

Lemma check_service_loop_info (world : list observation) (info : ServiceInfo.t)
    (now next_time : Z) (i : nat) (sent : list bytes) :
  (0 <= find_dot (ServiceInfo.name info))%Z ->
  fst (check_service_loop format_name world info now next_time i sent) = info.
Proof.
  intros Hdot. revert now next_time i sent.
  induction world as [|w world IH]; intros now next_time i sent; simpl;
    destruct (i <? 3); try reflexivity.
  pose proof (scan_records_no_rename info now
                (DNSCache.entries_with_name (ServiceInfo.type info) (seen_cache w)) Hdot)
    as Hs.
  destruct (scan_records _ _ _) as [[|]|e]; [congruence | | reflexivity].
  destruct (now <? next_time)%Z; [apply IH |].
  destruct (send w (probe now info)); [apply IH | reflexivity].
Qed.

Lemma check_service_collision (w : observation) (world : list observation)
    (info : ServiceInfo.t) (now next_time : Z) (i : nat) (sent : list bytes) :
  i < 3 ->
  (0 <= find_dot (ServiceInfo.name info))%Z ->
  (forall r, In r (DNSCache.entries_with_name (ServiceInfo.type info) (seen_cache w)) ->
             DNSRecord.type r = _TYPE_PTR ->
             exists alias, DNSRecord.payload r = Pointer alias) ->
  (exists r, In r (DNSCache.entries_with_name (ServiceInfo.type info) (seen_cache w)) /\
             DNSRecord.type r = _TYPE_PTR /\
             DNSRecord.is_expired r now = false /\
             DNSRecord.payload r = Pointer (ServiceInfo.name info)) ->
  check_service_loop format_name (w :: world) info now next_time i sent
  = (info, Raise NonUniqueNameException).
Proof.
  intros Hi Hdot Hptr Hcol. cbn [check_service_loop].
  destruct (Nat.ltb_spec i 3) as [_|Hge]; [| lia].
  rewrite (scan_records_collision _ now _ Hdot Hptr Hcol). reflexivity.
Qed.

End check_service_props.

(** ** The cache *)

Section cache_props.

Import DNSCache.

Lemma list_contains_payload (x : DNSRecord.t) (l : list DNSRecord.t) :
  list_contains x l = true <-> DNSRecord.payload x ∈ map DNSRecord.payload l.
Proof.
  unfold list_contains. induction l as [|y l IH]; simpl.
  - split; [discriminate | intros H; inversion H].
  - rewrite orb_true_iff, IH, elem_of_cons, record_eq_payload.
    split; intros [H|H]; auto.
Qed.

Lemma distinct_NoDup (l : list DNSRecord.t) :
  distinct l = true <-> NoDup (map DNSRecord.payload l).
Proof.
  induction l as [|x l IH]; simpl.
  - split; [constructor | reflexivity].
  - rewrite andb_true_iff, negb_true_iff, NoDup_cons, IH.
    rewrite <- not_true_iff_false, list_contains_payload. reflexivity.
Qed.

Lemma concat_Permutation {A} (l l' : list (list A)) :
  l ≡ₚ l' -> concat l ≡ₚ concat l'.
Proof.
  induction 1; simpl.
  - reflexivity.
  - apply Permutation_app_head. assumption.
  - rewrite !app_assoc. apply Permutation_app_tail, Permutation_app_comm.
  - etransitivity; eassumption.
Qed.

Lemma entries_insert (cache : DNSCache.t) (k : string) (l : list DNSRecord.t) :
  entries (<[k := l]> cache) ≡ₚ l ++ entries (delete k cache).
Proof.
  unfold entries. rewrite <- insert_delete_eq.
  change (l ++ concat (map snd (map_to_list (delete k cache))))
    with (concat (map snd ((k, l) :: map_to_list (delete k cache)))).
  apply concat_Permutation, Permutation_map, map_to_list_insert, lookup_delete_eq.
Qed.

Lemma entries_lookup (cache : DNSCache.t) (k : string) :
  entries cache ≡ₚ entries_with_name k cache ++ entries (delete k cache).
Proof.
  unfold entries_with_name. destruct (cache !! k) as [l|] eqn:E; simpl.
  - unfold entries.
    change (l ++ concat (map snd (map_to_list (delete k cache))))
      with (concat (map snd ((k, l) :: map_to_list (delete k cache)))).
    apply concat_Permutation, Permutation_map. symmetry.
    apply map_to_list_delete. exact E.
  - rewrite delete_id by exact E. reflexivity.
Qed.

Lemma list_remove_Permutation (x : DNSRecord.t) (l l' : list DNSRecord.t) :
  list_remove x l = Some l' -> exists y, DNSRecord.__eq__ y x = true /\ l ≡ₚ y :: l'.
Proof.
  revert l'. induction l as [|z l IH]; intros l' H; simpl in H; [discriminate |].
  destruct (DNSRecord.__eq__ z x) eqn:E.
  - injection H as <-. exists z. split; [exact E | reflexivity].
  - destruct (list_remove x l) as [r|]; [| discriminate]. injection H as <-.
    destruct (IH r eq_refl) as (y & Hy & Hp). exists y. split; [exact Hy |].
    rewrite Hp. apply perm_swap.
Qed.

Lemma list_reset_payload (x : DNSRecord.t) (l : list DNSRecord.t) :
  map DNSRecord.payload (Zeroconf.list_reset x l) = map DNSRecord.payload l.
Proof.
  induction l as [|y l IH]; simpl; [reflexivity |].
  destruct (DNSRecord.__eq__ y x); simpl; [reflexivity | congruence].
Qed.

(** [handle_response] keeps equal records from coexisting. *)
Lemma handle_answer_distinct (now : Z) (record : DNSRecord.t) (cache : DNSCache.t) :
  distinct (entries cache) = true ->
  distinct (entries (fst (Zeroconf.handle_answer now record cache))) = true.
Proof.
  rewrite !distinct_NoDup. intros Hd. unfold Zeroconf.handle_answer.
  pose proof (entries_lookup cache (DNSRecord.key record)) as Hl.
  destruct (list_contains record (entries cache)) eqn:Ec.
  - destruct (DNSRecord.is_expired record now); simpl.
    + unfold remove. unfold entries_with_name in Hl.
      destruct (cache !! DNSRecord.key record) as [l|] eqn:E; [| exact Hd].
      destruct (list_remove record l) as [l'|] eqn:Er; [| exact Hd].
      simpl in Hl. apply list_remove_Permutation in Er as (y & _ & Hp).
      rewrite entries_insert. rewrite Hl, Hp in Hd. simpl in Hd.
      apply NoDup_cons in Hd as [_ Hd]. exact Hd.
    + destruct (get record cache); simpl; [| exact Hd].
      rewrite entries_insert, map_app, list_reset_payload, <- map_app, <- Hl.
      exact Hd.
  - simpl. unfold add. rewrite entries_insert.
    fold (entries_with_name (DNSRecord.key record) cache).
    replace ((entries_with_name (DNSRecord.key record) cache ++ [record])
             ++ entries (delete (DNSRecord.key record) cache))
      with (entries_with_name (DNSRecord.key record) cache
            ++ record :: entries (delete (DNSRecord.key record) cache))
      by (rewrite <- app_assoc; reflexivity).
    rewrite <- Permutation_middle, <- Hl. simpl.
    apply NoDup_cons. split; [| exact Hd].
    rewrite <- list_contains_payload, Ec. discriminate.
Qed.

Lemma handle_records_distinct (now : Z) (records : list DNSRecord.t)
    (cache : DNSCache.t) :
  distinct (entries cache) = true ->
  distinct (entries (fst (Zeroconf.handle_records now records cache))) = true.
Proof.
  revert cache. induction records as [|r records IH]; intros cache Hd; simpl;
    [exact Hd |].
  pose proof (handle_answer_distinct now r cache Hd) as H1.
  destruct (Zeroconf.handle_answer now r cache) as [cache1 rec]. simpl in H1.
  specialize (IH cache1 H1).
  destruct (Zeroconf.handle_records now records cache1) as [cache2 recs].
  exact IH.
Qed.

Lemma add_bucket (entry : DNSRecord.t) (cache : DNSCache.t) :
  entries_with_name (DNSRecord.key entry) (add entry cache)
  = entries_with_name (DNSRecord.key entry) cache ++ [entry].
Proof.
  unfold entries_with_name, add. rewrite lookup_insert_eq. reflexivity.
Qed.

Lemma list_remove_app_first (x : DNSRecord.t) (l k : list DNSRecord.t) :
  list_contains x l = false -> DNSRecord.__eq__ x x = true ->
  list_remove x (l ++ x :: k) = Some (l ++ k).
Proof.
  intros Hc Hx. induction l as [|y l IH]; simpl.
  - rewrite Hx. reflexivity.
  - simpl in Hc. apply orb_false_iff in Hc as [Hy Hc].
    rewrite Hy, (IH Hc). reflexivity.
Qed.

Lemma filter_not_contained (x : DNSRecord.t) (l : list DNSRecord.t) :
  list_contains x l = false ->
  List.filter (fun y => DNSRecord.__eq__ y x) l = [].
Proof.
  unfold list_contains. induction l as [|y l IH]; intros Hc; [reflexivity |].
  simpl in *. apply orb_false_iff in Hc as [Hy Hc]. rewrite Hy. apply IH, Hc.
Qed.

End cache_props.

(** C6, as stated, fails: [DNSCache.add] does not look for an equal
    entry.  After [add(R)] and [add(R')] with [R == R'] the bucket holds two
    entries equal to [R], and after [remove(R)] it still holds one. *)
Lemma C6_add_twice_counterexample :
  let R := DNSAddress 0 "host.local." _TYPE_A _CLASS_IN 60 [x0a; x00; x00; x01] in
  let R' := DNSAddress 5000 "host.local." _TYPE_A _CLASS_IN 120 [x0a; x00; x00; x01] in
  let cache := DNSCache.add R' (DNSCache.add R DNSCache.__init__) in
  DNSRecord.__eq__ R R' = true /\
  count_equal R (DNSCache.entries_with_name (DNSRecord.key R) cache) <> 1 /\
  count_equal R (DNSCache.entries_with_name (DNSRecord.key R) (DNSCache.remove R cache)) <> 0.
Proof. vm_compute. repeat split; discriminate. Qed.

(** C6, amended.  [DNSCache.add] appends: after [add(R)] and [add(R')] on
    one key the bucket ends with [R], [R'].  When [R == R'] and the bucket had
    no entry equal to [R], a following [remove(R)] takes out [R] and leaves
    [R'], one entry equal to [R].  It is [handle_response] that keeps equal
    records apart: a cache without two equal entries is one afterwards. *)
Theorem C6_cache_discipline :
  (forall (R R' : DNSRecord.t) (cache : DNSCache.t),
     DNSRecord.key R' = DNSRecord.key R ->
     DNSCache.entries_with_name (DNSRecord.key R) (DNSCache.add R' (DNSCache.add R cache))
     = DNSCache.entries_with_name (DNSRecord.key R) cache ++ [R; R']) /\
  (forall (R R' : DNSRecord.t) (cache : DNSCache.t),
     DNSRecord.__eq__ R R' = true ->
     DNSRecord.key R' = DNSRecord.key R ->
     DNSCache.list_contains R (DNSCache.entries_with_name (DNSRecord.key R) cache) = false ->
     let bucket :=
       DNSCache.entries_with_name (DNSRecord.key R)
         (DNSCache.remove R (DNSCache.add R' (DNSCache.add R cache))) in
     bucket = DNSCache.entries_with_name (DNSRecord.key R) cache ++ [R'] /\
     count_equal R bucket = 1) /\
  (forall (now : Z) (msg : DNSIncoming.t) (cache : DNSCache.t),
     distinct (DNSCache.entries cache) = true ->
     distinct (DNSCache.entries (fst (Zeroconf.handle_response now msg cache))) = true).
Proof.
  assert (Hadd : forall R R' cache, DNSRecord.key R' = DNSRecord.key R ->
            DNSCache.entries_with_name (DNSRecord.key R)
              (DNSCache.add R' (DNSCache.add R cache))
            = DNSCache.entries_with_name (DNSRecord.key R) cache ++ [R; R']).
  { intros R R' cache Hk. rewrite <- Hk at 1. rewrite add_bucket, Hk, add_bucket.
    rewrite <- app_assoc. reflexivity. }
  split; [exact Hadd |]. split.
  - intros R R' cache Heq Hk Hc bucket.
    assert (Hb : bucket = DNSCache.entries_with_name (DNSRecord.key R) cache ++ [R']).
    { subst bucket. unfold DNSCache.remove.
      pose proof (Hadd R R' cache Hk) as Ha. unfold DNSCache.entries_with_name in Ha at 1.
      destruct (DNSCache.add R' (DNSCache.add R cache) !! DNSRecord.key R) as [l|] eqn:E;
        simpl in Ha.
      2:{ destruct (DNSCache.entries_with_name (DNSRecord.key R) cache); discriminate. }
      subst l. rewrite list_remove_app_first by (auto using record_eq_refl).
      unfold DNSCache.entries_with_name at 1. rewrite lookup_insert_eq. reflexivity. }
    split; [exact Hb |]. rewrite Hb. unfold count_equal.
    rewrite List.filter_app, length_app. simpl.
    rewrite record_eq_sym, Heq. simpl.
    rewrite (filter_not_contained _ _ Hc). reflexivity.
  - intros now msg cache. apply handle_records_distinct.
Qed.

Lemma C6_cache_discipline_witness :
  let R := DNSAddress 0 "host.local." _TYPE_A _CLASS_IN 60 [x0a; x00; x00; x01] in
  let R' := DNSAddress 5000 "host.local." _TYPE_A _CLASS_IN 120 [x0a; x00; x00; x01] in
  let msg := DNSIncoming.mk 0 [] [] [R; R'] 0 0 0 0 0 0 0 in
  DNSCache.entries_with_name "host.local." (DNSCache.add R' (DNSCache.add R DNSCache.__init__))
  = [R; R'] /\
  DNSCache.entries_with_name "host.local."
    (DNSCache.remove R (DNSCache.add R' (DNSCache.add R DNSCache.__init__))) = [R'] /\
  distinct (DNSCache.entries (fst (Zeroconf.handle_response 100 msg DNSCache.__init__))) = true.
Proof.
  intros R R' msg. destruct C6_cache_discipline as (H1 & H2 & H3).
  split; [exact (H1 R R' DNSCache.__init__ eq_refl) |].
  split; [exact (proj1 (H2 R R' DNSCache.__init__ eq_refl eq_refl eq_refl)) |].
  apply H3. reflexivity.
Defined.

(** ** Properties and the text of a service *)

Section properties.

Import ServiceInfo.

Lemma join_items_framed (items : list bytes) (result : bytes) :
  Forall (fun item => List.length item <= 255) items ->
  join_items items result = Ok (result ++ framed items).
Proof.
  intros H. revert result. induction H as [|item items Hi _ IH]; intros result; simpl.
  - rewrite app_nil_r. reflexivity.
  - assert (Hr : (0 <= Z.of_nat (List.length item) < 256)%Z) by lia.
    rewrite (proj2 (int2byte_Ok _ _) (conj Hr eq_refl)). cbn [bind].
    rewrite IH. unfold framed. simpl. rewrite <- app_assoc. reflexivity.
Qed.

Lemma slice_middle (pre item rest : bytes) :
  slice (pre ++ item ++ rest) (List.length pre) (List.length item) = item.
Proof.
  unfold slice. rewrite drop_app_length. apply take_app_length.
Qed.

Lemma split_strs_framed (items : list bytes) (pre : bytes) (strs : list bytes)
    (fuel : nat) :
  Forall (fun item => List.length item <= 255) items ->
  List.length (framed items) <= fuel ->
  split_strs fuel (pre ++ framed items) (List.length pre) strs = Ok (strs ++ items).
Proof.
  intros H. revert pre strs fuel.
  induction H as [|item items Hi _ IH]; intros pre strs fuel Hf.
  - unfold framed. simpl. rewrite !app_nil_r.
    destruct fuel; simpl; rewrite Nat.ltb_irrefl; reflexivity.
  - unfold framed in Hf |- *. simpl in Hf |- *. fold (framed items) in Hf |- *.
    rewrite length_app in Hf.
    destruct fuel as [|fuel]; [simpl in Hf; lia |].
    cbn [split_strs].
    destruct (Nat.ltb_spec (List.length pre)
                (List.length (pre ++ byte_of_Z (Z.of_nat (List.length item))
                                :: item ++ framed items))) as [_|Hge].
    2:{ rewrite length_app in Hge. simpl in Hge. lia. }
    assert (Hb : indexbytes (pre ++ byte_of_Z (Z.of_nat (List.length item))
                              :: item ++ framed items) (List.length pre)
                 = Ok (Z.of_nat (List.length item))).
    { unfold indexbytes.
      pose proof (list_lookup_middle pre (item ++ framed items)
                    (byte_of_Z (Z.of_nat (List.length item))) (List.length pre) eq_refl)
        as Hm.
      unfold bytes in *. rewrite Hm.
      rewrite Z_of_byte_of_Z by lia. reflexivity. }
    rewrite Hb. cbn [bind]. rewrite Nat2Z.id.
    replace (pre ++ byte_of_Z (Z.of_nat (List.length item)) :: item ++ framed items)
      with ((pre ++ [byte_of_Z (Z.of_nat (List.length item))]) ++ item ++ framed items)
      by (rewrite <- app_assoc; reflexivity).
    replace (List.length pre + 1)
      with (List.length (pre ++ [byte_of_Z (Z.of_nat (List.length item))]))
      by (rewrite length_app; reflexivity).
    rewrite slice_middle.
    replace ((pre ++ [byte_of_Z (Z.of_nat (List.length item))]) ++ item ++ framed items)
      with (((pre ++ [byte_of_Z (Z.of_nat (List.length item))]) ++ item) ++ framed items)
      by (rewrite <- !app_assoc; reflexivity).
    rewrite <- length_app.
    rewrite IH by (simpl in Hf; lia).
    rewrite <- app_assoc. reflexivity.
Qed.

Lemma split_equals_item (key suffix : bytes) :
  equals_sign ∉ key ->
  split_equals (key ++ equals_sign :: suffix) = Some (key, suffix).
Proof.
  induction key as [|b key IH]; intros Hk; cbn [split_equals app].
  - rewrite bool_decide_eq_true_2 by reflexivity. reflexivity.
  - rewrite bool_decide_eq_false_2.
    + rewrite IH; [reflexivity |]. intros Hin. apply Hk. right. exact Hin.
    + intros ->. apply Hk. left.
Qed.

Lemma dict_set_fresh (key : pkey) (value : pvalue) (d : dict) :
  dict_get key d = None -> dict_set key value d = d ++ [(key, value)].
Proof.
  induction d as [|[k v] d IH]; intros H; simpl in *; [reflexivity |].
  destruct (bool_decide (k = key)); [discriminate |]. rewrite IH by exact H.
  reflexivity.
Qed.

Lemma dict_get_None (key : pkey) (d : dict) :
  key ∉ map fst d -> dict_get key d = None.
Proof.
  induction d as [|[k v] d IH]; intros H; simpl in *; [reflexivity |].
  rewrite bool_decide_eq_false_2.
  - apply IH. intros Hin. apply H. right. exact Hin.
  - intros ->. apply H. left.
Qed.

Lemma parse_item_split (logger : bool) (key suffix : bytes) (result : dict) :
  key <> [] -> equals_sign ∉ key -> KBytes key ∉ map fst result ->
  parse_item logger (key ++ equals_sign :: suffix) result
  = Ok (result ++ [(KBytes key,
                    if bool_decide (suffix = b_true) then VBool true
                    else if bool_decide (suffix = b_false) || bool_decide (suffix = [])
                         then VBool false else VBytes suffix)]).
Proof.
  intros Hne Heq Hfresh. unfold parse_item.
  rewrite split_equals_item by exact Heq.
  assert (Hset : forall v,
            (if negb (bool_decide (key = []))
                && match dict_get (KBytes key) result with
                   | None | Some VNone => true
                   | Some _ => false
                   end
             then Ok (dict_set (KBytes key) v result) else Ok result)
            = Ok (result ++ [(KBytes key, v)])).
  { intros v. rewrite bool_decide_eq_false_2 by exact Hne.
    rewrite dict_get_None by exact Hfresh. simpl.
    f_equal. apply dict_set_fresh, dict_get_None, Hfresh. }
  destruct (bool_decide (suffix = b_true)); [apply Hset |].
  destruct (bool_decide (suffix = b_false) || bool_decide (suffix = [])); apply Hset.
Qed.

(** Parsing the item of an entry sets its key to the parsed value. *)
Lemma parse_item_of (logger : bool) (key : pkey) (value : pvalue) (result : dict) :
  valid_item (key, value) = true ->
  KBytes (key_bytes key) ∉ map fst result ->
  parse_item logger (item_of key value) result
  = Ok (result ++ [(KBytes (key_bytes key), parsed_value value)]).
Proof.
  intros Hv Hfresh. unfold valid_item in Hv.
  repeat (apply andb_prop in Hv as [Hv ?]).
  apply negb_true_iff, bool_decide_eq_false in Hv.
  match goal with H : negb _ = true |- _ =>
    apply negb_true_iff, bool_decide_eq_false in H; rename H into Heq end.
  unfold item_of. fold (key_bytes key).
  rewrite parse_item_split by assumption.
  destruct value as [|s|b|z|b]; try discriminate; try reflexivity.
  - unfold parsed_value. destruct (z =? 0)%Z; reflexivity.
  - destruct b; reflexivity.
Qed.

Lemma parse_items_of (logger : bool) (d : dict) (result : dict) :
  forallb valid_item d = true ->
  NoDup (map (fun item => key_bytes (fst item)) d) ->
  (forall item, item ∈ d -> KBytes (key_bytes (fst item)) ∉ map fst result) ->
  for_each (parse_item logger) (map (fun '(key, value) => item_of key value) d) result
  = Ok (result
        ++ map (fun '(key, value) => (KBytes (key_bytes key), parsed_value value)) d).
Proof.
  revert result. induction d as [|[k v] d IH]; intros result Hv Hnd Hfresh;
    cbn [map for_each].
  - rewrite app_nil_r. reflexivity.
  - simpl in Hv. apply andb_prop in Hv as [Hv1 Hv2].
    simpl in Hnd. apply NoDup_cons in Hnd as [Hk Hnd].
    rewrite parse_item_of; [| exact Hv1 | apply (Hfresh (k, v)); left].
    cbn [bind].
    rewrite IH; [rewrite <- app_assoc; reflexivity | exact Hv2 | exact Hnd |].
    intros item Hin. rewrite map_app. simpl. intros Hc.
    apply elem_of_app in Hc as [Hc|Hc].
    + apply (Hfresh item); [right; exact Hin | exact Hc].
    + apply list_elem_of_singleton in Hc. injection Hc as Hc.
      apply Hk. rewrite <- Hc.
      apply (list_elem_of_fmap_2 (fun item => key_bytes (fst item)) d item Hin).
Qed.

End properties.

(** C7, as stated, fails: a [None] value comes back as [False], not as
    the empty string of the normalization that the specification gives. *)
Lemma C7_none_value_counterexample :
  let P := [(KBytes ["k"%byte], VNone)] in
  exists text : bytes,
    ServiceInfo._set_properties (ServiceInfo.OfDict P) None = Ok (Some P, Some text) /\
    ServiceInfo._set_text true text = Ok (Some [(KBytes ["k"%byte], VBool false)]) /\
    ServiceInfo._set_text true text
    <> Ok (Some (map (fun '(key, value) => (KBytes (key_bytes key), spec_normalize value))
                     P)).
Proof.
  intros P. exists [x02; "k"%byte; "="%byte].
  split; [reflexivity |]. split; [reflexivity |]. vm_compute. discriminate.
Qed.

(** C7, amended.  For a valid properties dict, the text that
    [_set_properties] builds is parsed by [_set_text] into the dict of the
    same keys, as bytes and in the same order, where a string other than
    "true", "false" and "" is its bytes, the string "true" and a nonzero int
    are [True], and the strings "false" and "", a zero int and [None] are
    [False]. *)
Theorem C7_properties_roundtrip (d : dict) (old : option dict) (logger : bool) :
  valid_properties d = true ->
  exists text : bytes,
    ServiceInfo._set_properties (ServiceInfo.OfDict d) old = Ok (Some d, Some text) /\
    ServiceInfo._set_text logger text
    = Ok (Some (map (fun '(key, value) => (KBytes (key_bytes key), parsed_value value))
                    d)).
Proof.
  intros Hv. unfold valid_properties in Hv. apply andb_prop in Hv as [Hnd Hv].
  apply bool_decide_eq_true in Hnd.
  set (items := map (fun '(key, value) => ServiceInfo.item_of key value) d).
  assert (Hlen : Forall (fun item => List.length item <= 255) items).
  { subst items. clear Hnd. induction d as [|[k v] d IH]; simpl; constructor.
    - simpl in Hv. apply andb_prop in Hv as [Hv _]. unfold valid_item in Hv.
      repeat (apply andb_prop in Hv as [Hv ?]).
      match goal with H : (_ <=? _) = true |- _ => apply Nat.leb_le in H; exact H end.
    - apply IH. simpl in Hv. apply andb_prop in Hv as [_ Hv]. exact Hv. }
  exists (framed items). split.
  - unfold ServiceInfo._set_properties. fold items.
    rewrite (join_items_framed items [] Hlen). reflexivity.
  - unfold ServiceInfo._set_text.
    pose proof (split_strs_framed items [] [] _ Hlen (le_n _)) as Hs.
    simpl in Hs. rewrite Hs. cbn [bind].
    subst items. rewrite parse_items_of; [reflexivity | exact Hv | exact Hnd |].
    intros item _ Hin. inversion Hin.
Qed.

Lemma C7_properties_roundtrip_witness :
  let P := [(KText "version", VText "0.10"); (KText "a", VText "test value");
            (KBytes (list_byte_of_string "flag"), VInt 1); (KText "none", VNone)] in
  exists text : bytes,
    ServiceInfo._set_properties (ServiceInfo.OfDict P) None = Ok (Some P, Some text) /\
    ServiceInfo._set_text true text
    = Ok (Some [(KBytes (list_byte_of_string "version"),
                 VBytes (list_byte_of_string "0.10"));
                (KBytes (list_byte_of_string "a"), VBytes (list_byte_of_string "test value"));
                (KBytes (list_byte_of_string "flag"), VBool true);
                (KBytes (list_byte_of_string "none"), VBool false)]).
Proof.
  intros P. apply (C7_properties_roundtrip P None true). vm_compute. reflexivity.
Defined.

(** ** Reading back a name written in full *)

Section read_plain.

Import DNSIncoming.

Lemma string_append_cons (x : ascii) (a b : string) :
  String x a +:+ b = String x (a +:+ b).
Proof. reflexivity. Qed.

Lemma string_append_assoc (a b c : string) : (a +:+ b) +:+ c = a +:+ b +:+ c.
Proof.
  induction a as [|x a IH]; [reflexivity |].
  rewrite !string_append_cons, IH. reflexivity.
Qed.

Lemma string_append_nil_r (a : string) : a +:+ EmptyString = a.
Proof.
  induction a as [|x a IH]; [reflexivity |].
  rewrite string_append_cons, IH. reflexivity.
Qed.

Lemma length_list_byte_of_string (s : string) :
  List.length (list_byte_of_string s) = String.length s.
Proof.
  unfold list_byte_of_string. rewrite length_map.
  induction s as [|c s IH]; simpl; [reflexivity | rewrite IH; reflexivity].
Qed.

Lemma land_small_tag (v : Z) : (0 <= v < 64)%Z -> Z.land v 0xC0 = 0%Z.
Proof.
  intros Hv. replace v with (Z.land v (Z.ones 6)).
  - rewrite <- Z.land_assoc. change (Z.land (Z.ones 6) 0xC0) with 0%Z.
    apply Z.land_0_r.
  - rewrite Z.land_ones by lia. apply Z.mod_small. exact Hv.
Qed.

Lemma enc_utf_ok (label : string) :
  label_ok label = true ->
  Wire.enc_utf label
  = Ok (byte_of_Z (Z.of_nat (String.length label)) :: list_byte_of_string label).
Proof.
  unfold label_ok, Wire.enc_utf. intros H. apply andb_prop in H as [H1 H2].
  apply Nat.leb_le in H1, H2. rewrite length_list_byte_of_string.
  destruct (Nat.ltb_spec 64 (String.length label)); [lia |].
  assert (Hr : (0 <= Z.of_nat (String.length label) < 256)%Z) by lia.
  rewrite (proj2 (int2byte_Ok _ _) (conj Hr eq_refl)). reflexivity.
Qed.

Lemma indexbytes_middle (pre rest : bytes) (b : byte) :
  indexbytes (pre ++ b :: rest) (List.length pre) = Ok (Z_of_byte b).
Proof.
  unfold indexbytes.
  pose proof (list_lookup_middle pre rest b (List.length pre) eq_refl) as Hm.
  unfold bytes in *. rewrite Hm. reflexivity.
Qed.

Lemma slice_app (pre item rest : bytes) :
  slice (pre ++ item ++ rest) (List.length pre) (List.length item) = item.
Proof. unfold slice. rewrite drop_app_length. apply take_app_length. Qed.

(** The labels of a name and the zero byte behind them are read as the
    labels joined, and the cursor ends behind the zero byte. *)
Lemma read_labels (labels : list string) :
  forall (ls : bytes) (data pre rest : bytes) (result : string)
         (next : option nat) (first fuel : nat),
    Wire.enc_labels labels = Ok ls ->
    forallb label_ok labels = true ->
    data = pre ++ ls ++ x00 :: rest ->
    List.length labels < fuel ->
    read_name_loop fuel data result (List.length pre) next first
    = Ok (result +:+ join_labels labels,
          match next with
          | Some k => k
          | None => List.length pre + List.length ls + 1
          end).
Proof.
  induction labels as [|label labels IH];
    intros ls data pre rest result next first fuel Henc Hok Hdata Hfuel.
  - simpl in Henc. injection Henc as <-. simpl in Hdata. subst data.
    destruct fuel as [|fuel]; [simpl in Hfuel; lia |].
    cbn [read_name_loop]. rewrite indexbytes_middle. cbn [bind].
    change (Z_of_byte x00 =? 0)%Z with true. cbv iota.
    simpl. rewrite string_append_nil_r.
    replace (List.length pre + 0 + 1) with (List.length pre + 1) by lia. reflexivity.
  - simpl in Hok. apply andb_prop in Hok as [Hl Hok].
    simpl in Henc. rewrite (enc_utf_ok _ Hl) in Henc. cbn [bind] in Henc.
    apply bind_Ok in Henc as (r & Hr & Henc). injection Henc as <-.
    pose proof Hl as Hl'. unfold label_ok in Hl'. apply andb_prop in Hl' as [H1 H2].
    apply Nat.leb_le in H1, H2.
    set (len := Z.of_nat (String.length label)) in *.
    assert (Hlen : (0 < len < 64)%Z) by (subst len; lia).
    destruct fuel as [|fuel]; [simpl in Hfuel; lia |]. simpl in Hfuel.
    subst data. cbn [read_name_loop].
    change ((byte_of_Z len :: list_byte_of_string label ++ r) ++ x00 :: rest)
      with (byte_of_Z len :: (list_byte_of_string label ++ r) ++ x00 :: rest).
    rewrite indexbytes_middle. cbn [bind].
    rewrite Z_of_byte_of_Z by lia.
    destruct (Z.eqb_spec len 0); [lia |].
    rewrite land_small_tag by lia. change (0 =? 0x00)%Z with true. cbv iota.
    assert (Hdec : pre ++ byte_of_Z len :: (list_byte_of_string label ++ r) ++ x00 :: rest
                   = (pre ++ [byte_of_Z len]) ++ list_byte_of_string label
                     ++ (r ++ x00 :: rest)).
    { rewrite <- !app_assoc. reflexivity. }
    assert (Hutf : read_utf (pre ++ byte_of_Z len
                               :: (list_byte_of_string label ++ r) ++ x00 :: rest)
                            (List.length pre + 1) (Z.to_nat len) = label).
    { unfold read_utf. rewrite Hdec.
      replace (List.length pre + 1) with (List.length (pre ++ [byte_of_Z len]))
        by (rewrite length_app; reflexivity).
      replace (Z.to_nat len) with (List.length (list_byte_of_string label))
        by (rewrite length_list_byte_of_string; subst len; lia).
      rewrite slice_app. apply string_of_list_byte_of_string. }
    rewrite Hutf.
    assert (Hdec2 : pre ++ byte_of_Z len
                      :: (list_byte_of_string label ++ r) ++ x00 :: rest
                    = (pre ++ byte_of_Z len :: list_byte_of_string label)
                      ++ r ++ x00 :: rest).
    { rewrite <- !app_assoc. reflexivity. }
    assert (Hoff : List.length pre + 1 + Z.to_nat len
                   = List.length (pre ++ byte_of_Z len :: list_byte_of_string label)).
    { rewrite length_app. simpl. rewrite length_list_byte_of_string. subst len. lia. }
    rewrite Hoff.
    rewrite (IH r _ (pre ++ byte_of_Z len :: list_byte_of_string label) rest
               _ next first fuel Hr Hok Hdec2 ltac:(lia)).
    f_equal. f_equal.
    + simpl. rewrite !string_append_assoc. reflexivity.
    + destruct next; [reflexivity |]. rewrite !length_app. simpl.
      rewrite !length_app. lia.
Qed.

End read_plain.

(** ** The parser reads the names that the writer writes *)

Section parse_names.

Import DNSIncoming.

Lemma read_name_loop_Ok (data : bytes) (fuel fuel' : nat) (result : string)
    (off : nat) (next : option nat) (first : nat) (r : string * nat) :
  read_name_loop fuel data result off next first = Ok r ->
  read_name_loop fuel' data result off next first <> Raise FuelExhausted ->
  read_name_loop fuel' data result off next first = Ok r.
Proof.
  intros H H'. destruct (Nat.le_ge_cases fuel fuel') as [Hle|Hle].
  - rewrite (read_name_loop_more data fuel fuel') by (rewrite ?H; auto; discriminate).
    exact H.
  - rewrite <- (read_name_loop_more data fuel' fuel) by assumption. exact H.
Qed.

Lemma read_name_of_loop (self : DNSIncoming.t) (fuel : nat) (name : string) (off' : nat) :
  read_name_loop fuel (data self) EmptyString (offset self) None (offset self)
  = Ok (name, off') ->
  read_name self = Ok (name, set_offset off' self).
Proof.
  intros H. unfold read_name.
  rewrite (read_name_loop_Ok _ _ _ _ _ _ _ _ H); [reflexivity |].
  apply read_name_loop_fuel, read_name_fuel_enough.
Qed.

Lemma table_ok_app (names : gmap string nat) (pre more : bytes) :
  table_ok names pre -> table_ok names (pre ++ more).
Proof.
  intros H name index E. destruct (H name index E) as (Hok & b & pre1 & rest1 & Hb & Hp & Hl).
  split; [exact Hok |]. exists b, pre1, (rest1 ++ more). repeat split; try assumption.
  rewrite Hp, <- !app_assoc. reflexivity.
Qed.

Lemma table_ok_insert (names : gmap string nat) (pre b : bytes) (name : string) :
  table_ok names pre -> name_ok name = true -> Wire.enc_plain name = Ok b ->
  table_ok (<[name := List.length pre]> names) (pre ++ b).
Proof.
  intros H Hok Hb n index E. destruct (decide (name = n)) as [<-|Hne].
  - rewrite lookup_insert_eq in E. injection E as <-. split; [exact Hok |].
    exists b, pre, []. rewrite app_nil_r. repeat split. exact Hb.
  - rewrite lookup_insert_ne in E by exact Hne. exact (table_ok_app _ _ b H n index E).
Qed.

Lemma table_ok_empty (pre : bytes) : table_ok ∅ pre.
Proof. intros name index E. rewrite lookup_empty in E. discriminate. Qed.

Lemma enc_plain_inv (name : string) (b : bytes) :
  Wire.enc_plain name = Ok b ->
  exists ls, Wire.enc_labels (Wire.labels_of name) = Ok ls /\ b = ls ++ [x00].
Proof.
  unfold Wire.enc_plain. intros H. apply bind_Ok in H as (ls & Hls & H).
  injection H as <-. exists ls. split; [exact Hls | reflexivity].
Qed.

Lemma name_ok_inv (name : string) :
  name_ok name = true ->
  forallb label_ok (Wire.labels_of name) = true /\
  join_labels (Wire.labels_of name) = name.
Proof.
  unfold name_ok. intros H. apply andb_prop in H as [H1 H2].
  apply String.eqb_eq in H2. split; assumption.
Qed.

Lemma parses_name (name : string) :
  name_ok name = true -> parses (Wire.enc_name name) read_name name.
Proof.
  intros Hok names pos b names' pre rest self Henc Htab Hpos Hdata Hlen Hoff.
  destruct (name_ok_inv name Hok) as [Hlab Hjoin].
  unfold Wire.enc_name in Henc. destruct (names !! name) as [index|] eqn:E.
  - apply bind_Ok in Henc as (b' & Hptr & Henc). injection Henc as -> <-.
    split; [| apply table_ok_app, Htab].
    destruct (Htab name index E) as (_ & bn & pre1 & rest1 & Hbn & Hpre & Hidx).
    apply enc_plain_inv in Hbn as (ls & Hls & ->).
    unfold Wire.enc_pointer in Hptr.
    apply bind_Ok in Hptr as (hi & Hhi & Hptr). apply bind_Ok in Hptr as (lo & Hlo & Hptr).
    injection Hptr as <-.
    apply int2byte_Ok in Hhi as [Rhi ->]. apply int2byte_Ok in Hlo as [Rlo ->].
    subst index.
    assert (Hlt : List.length pre1 < List.length pre).
    { rewrite Hpre, !length_app. simpl. lia. }
    assert (Hsmall : (0 <= Z.of_nat (List.length pre1) < 16384)%Z).
    { rewrite Hdata, !length_app in Hlen. lia. }
    destruct (pointer_tag _ Hsmall) as [Htag _].
    apply (read_name_of_loop self (S (S (List.length (Wire.labels_of name))))).
    rewrite Hoff, Hdata, <- Hpos.
    rewrite (read_name_loop_pointer _ _ _ _ _ _
               (Z.lor (Z.shiftr (Z.of_nat (List.length pre1)) 8) 0xC0)
               (Z.land (Z.of_nat (List.length pre1)) 0xFF)).
    + rewrite pointer_decode by exact Hsmall. rewrite Nat2Z.id.
      destruct (Nat.leb_spec (List.length pre) (List.length pre1)); [lia |].
      rewrite (read_labels (Wire.labels_of name) ls _ pre1
                 (rest1 ++ [byte_of_Z (Z.lor (Z.shiftr (Z.of_nat (List.length pre1)) 8) 0xC0);
                            byte_of_Z (Z.land (Z.of_nat (List.length pre1)) 0xFF)] ++ rest)
                 _ _ _ _ Hls Hlab).
      * rewrite Hjoin. simpl. f_equal.
      * rewrite Hpre, <- !app_assoc. reflexivity.
      * lia.
    + simpl. rewrite indexbytes_middle, Z_of_byte_of_Z by exact Rhi. reflexivity.
    + exact Htag.
    + set (hi := byte_of_Z (Z.lor (Z.shiftr (Z.of_nat (List.length pre1)) 8) 0xC0)).
      replace (pre ++ [hi; byte_of_Z (Z.land (Z.of_nat (List.length pre1)) 0xFF)] ++ rest)
        with ((pre ++ [hi])
              ++ byte_of_Z (Z.land (Z.of_nat (List.length pre1)) 0xFF) :: rest)
        by (rewrite <- app_assoc; reflexivity).
      replace (List.length pre + 1) with (List.length (pre ++ [hi]))
        by (rewrite length_app; reflexivity).
      rewrite indexbytes_middle, Z_of_byte_of_Z by exact Rlo. reflexivity.
  - apply bind_Ok in Henc as (b' & Hplain & Henc). injection Henc as -> <-.
    split; [| rewrite <- Hpos; apply table_ok_insert; assumption].
    apply enc_plain_inv in Hplain as (ls & Hls & ->).
    apply (read_name_of_loop self (S (List.length (Wire.labels_of name)))).
    rewrite Hoff, Hdata, <- Hpos.
    rewrite (read_labels (Wire.labels_of name) ls _ pre rest _ _ _ _ Hls Hlab).
    + rewrite Hjoin, length_app. simpl. f_equal. f_equal. lia.
    + rewrite <- !app_assoc. reflexivity.
    + lia.
Qed.

End parse_names.

(** ** Packing and unpacking *)

Section unpacking.

Import DNSIncoming Wire.

Lemma seq_Ok (e1 e2 : enc) names pos b names' :
  seq e1 e2 names pos = Ok (b, names') ->
  exists b1 n1 b2,
    e1 names pos = Ok (b1, n1) /\ e2 n1 (pos + List.length b1) = Ok (b2, names') /\
    b = b1 ++ b2.
Proof.
  unfold seq. intros H. apply bind_Ok in H as ([b1 n1] & E1 & H).
  apply bind_Ok in H as ([b2 n2] & E2 & H). injection H as <- <-.
  exists b1, n1, b2. repeat split; assumption.
Qed.

Lemma lift_Ok (r : result bytes) names pos b names' :
  lift r names pos = Ok (b, names') -> r = Ok b /\ names' = names.
Proof.
  unfold lift. intros H. apply bind_Ok in H as (b' & E & H). injection H as <- <-.
  split; [exact E | reflexivity].
Qed.

Lemma pack_H_Ok (v : Z) (b : bytes) :
  pack_field fmt_H v = Ok b -> u16 v = true /\ b = be_encode 2 v.
Proof.
  unfold pack_field, u16. destruct ((0 <=? v)%Z && (v <? 2 ^ 16)%Z); [| discriminate].
  intros H. injection H as <-. split; reflexivity.
Qed.

Lemma pack_I_Ok (v : Z) (b : bytes) :
  pack_field fmt_I v = Ok b -> u32 v = true /\ b = be_encode 4 v.
Proof.
  unfold pack_field, u32. destruct ((0 <=? v)%Z && (v <? 2 ^ 32)%Z); [| discriminate].
  intros H. injection H as <-. split; reflexivity.
Qed.

Lemma enc_short_Ok (v : Z) names (pos : nat) b names' :
  enc_short v names pos = Ok (b, names') ->
  u16 v = true /\ b = be_encode 2 v /\ names' = names.
Proof.
  intros H. apply (lift_Ok _ names pos) in H as [H ->].
  apply pack_H_Ok in H as [H ->]. repeat split. exact H.
Qed.

Lemma enc_int_Ok (v : Z) names (pos : nat) b names' :
  enc_int v names pos = Ok (b, names') ->
  u32 v = true /\ b = be_encode 4 v /\ names' = names.
Proof.
  intros H. apply (lift_Ok _ names pos) in H as [H ->].
  apply pack_I_Ok in H as [H ->]. repeat split. exact H.
Qed.

Lemma u16_range (v : Z) : u16 v = true -> (0 <= v < 65536)%Z.
Proof. unfold u16. intros H. apply andb_prop in H as [H1 H2]. lia. Qed.

Lemma unpack_H_encode (v : Z) :
  u16 v = true -> unpack_field fmt_H (be_encode 2 v) = v.
Proof.
  intros H. apply u16_range in H. unfold unpack_field, be_encode, be_decode.
  change (256 ^ Z.of_nat 1)%Z with 256%Z. change (256 ^ Z.of_nat 0)%Z with 1%Z.
  rewrite Z.div_1_r.
  rewrite !Z_of_byte_of_Z by (apply Z.mod_pos_bound; lia).
  rewrite (Z.mod_small (v / 256)) by
    (split; [apply Z.div_pos; lia | apply Z.div_lt_upper_bound; lia]).
  pose proof (Z.div_mod v 256). lia.
Qed.

Lemma unpack_at (format : list field) (pre bs rest : bytes) (self : DNSIncoming.t) :
  data self = pre ++ bs ++ rest ->
  offset self = List.length pre ->
  List.length bs = calcsize format ->
  unpack format self
  = Ok (unpack_fields format bs, set_offset (List.length pre + List.length bs) self).
Proof.
  intros Hd Ho Hl. unfold unpack, struct_unpack.
  rewrite Hd, Ho, <- Hl, slice_app, Nat.eqb_refl. reflexivity.
Qed.

Lemma land_class_mask (c : Z) :
  class_ok c = true -> Z.land c _CLASS_MASK = c.
Proof.
  unfold class_ok. intros H. apply andb_prop in H as [H1 H2].
  change _CLASS_MASK with (Z.ones 15). rewrite Z.land_ones by lia.
  apply Z.mod_small. lia.
Qed.

Lemma land_unique_class_mask (c : Z) :
  class_ok c = true -> Z.land (Z.lor c _CLASS_UNIQUE) _CLASS_MASK = c.
Proof.
  intros H. rewrite Z.land_lor_distr_l, (land_class_mask c H).
  change (Z.land _CLASS_UNIQUE _CLASS_MASK) with 0%Z. apply Z.lor_0_r.
Qed.

Lemma set_offset_set_offset (a b : nat) (self : DNSIncoming.t) :
  set_offset a (set_offset b self) = set_offset a self.
Proof. reflexivity. Qed.

(** A question is read back as an equal question. *)
Lemma read_question_step (q : DNSEntry.t) names pos b names' pre rest
    (self : DNSIncoming.t) :
  question_ok q = true ->
  enc_question q names pos = Ok (b, names') ->
  table_ok names pre ->
  List.length pre = pos ->
  data self = pre ++ b ++ rest ->
  (Z.of_nat (List.length (data self)) <= 16384)%Z ->
  offset self = pos ->
  exists q',
    read_question self = Ok (append_question q' (set_offset (pos + List.length b) self)) /\
    DNSEntry.__eq__ q' q = true /\
    table_ok names' (pre ++ b).
Proof.
  intros Hq Henc Htab Hpos Hdata Hlen Hoff.
  unfold question_ok in Hq. apply andb_prop in Hq as [Hq Hc].
  apply andb_prop in Hq as [Hn Ht].
  unfold enc_question in Henc.
  apply seq_Ok in Henc as (nb & n1 & b2 & En & E2 & ->).
  apply seq_Ok in E2 as (tb & n2 & cb & Et & Ec & ->).
  apply enc_short_Ok in Et as (_ & -> & ->). apply enc_short_Ok in Ec as (Hc16 & -> & ->).
  destruct (parses_name _ Hn names pos nb n1 pre
              ((be_encode 2 (DNSEntry.type q) ++ be_encode 2 (DNSEntry.class_ q)) ++ rest)
              self En Htab Hpos) as [Hr Htab'];
    [rewrite Hdata, <- !app_assoc; reflexivity | exact Hlen | exact Hoff |].
  exists (DNSQuestion.__init__ (DNSEntry.name q) (DNSEntry.type q) (DNSEntry.class_ q)).
  split; [| split].
  - unfold read_question. rewrite Hr. cbn [bind].
    rewrite (unpack_at [fmt_H; fmt_H] (pre ++ nb)
               (be_encode 2 (DNSEntry.type q) ++ be_encode 2 (DNSEntry.class_ q)) rest).
    + cbn [bind].
      change (unpack_fields [fmt_H; fmt_H]
                (be_encode 2 (DNSEntry.type q) ++ be_encode 2 (DNSEntry.class_ q)))
        with [unpack_field fmt_H (be_encode 2 (DNSEntry.type q));
              unpack_field fmt_H (be_encode 2 (DNSEntry.class_ q))].
      rewrite !unpack_H_encode by assumption.
      rewrite set_offset_set_offset. do 3 f_equal.
      rewrite !length_app. simpl. lia.
    + simpl. rewrite Hdata, <- !app_assoc. reflexivity.
    + simpl. rewrite length_app. lia.
    + reflexivity.
  - unfold DNSEntry.__eq__, DNSQuestion.__init__, DNSEntry.__init__. simpl.
    rewrite String.eqb_refl, Z.eqb_refl, (land_class_mask _ Hc), Z.eqb_refl. reflexivity.
  - rewrite app_assoc. apply table_ok_app. exact Htab'.
Qed.

End unpacking.

(** ** The parser reads the records that the writer writes *)

Section parse_records.

Import DNSIncoming Wire.

Lemma data_set_offset (a : nat) (self : DNSIncoming.t) :
  data (set_offset a self) = data self.
Proof. reflexivity. Qed.

Lemma offset_set_offset (a : nat) (self : DNSIncoming.t) :
  offset (set_offset a self) = a.
Proof. reflexivity. Qed.

Lemma read_unsigned_short_at (v : Z) (pre rest : bytes) (self : DNSIncoming.t) :
  u16 v = true ->
  data self = pre ++ be_encode 2 v ++ rest ->
  offset self = List.length pre ->
  read_unsigned_short self = Ok (v, set_offset (List.length pre + 2) self).
Proof.
  intros Hv Hd Ho. unfold read_unsigned_short.
  rewrite (unpack_at [fmt_H] pre (be_encode 2 v) rest self Hd Ho eq_refl). cbn [bind].
  change (unpack_fields [fmt_H] (be_encode 2 v)) with [unpack_field fmt_H (be_encode 2 v)].
  rewrite unpack_H_encode by exact Hv. reflexivity.
Qed.

Lemma read_string_at (n : nat) (pre bs rest : bytes) (self : DNSIncoming.t) :
  data self = pre ++ bs ++ rest ->
  offset self = List.length pre ->
  List.length bs = n ->
  read_string n self = (bs, set_offset (List.length pre + n) self).
Proof.
  intros Hd Ho <-. unfold read_string. rewrite Hd, Ho, slice_app. reflexivity.
Qed.

Lemma read_rdata_step (now : Z) (domain : string) (type class_ ttl : Z)
    (payload : rdata) names pos rd names' pre rest (self : DNSIncoming.t) :
  payload_ok type payload = true ->
  enc_rdata payload names pos = Ok (rd, names') ->
  table_ok names pre ->
  List.length pre = pos ->
  data self = pre ++ rd ++ rest ->
  (Z.of_nat (List.length (data self)) <= 16384)%Z ->
  offset self = pos ->
  exists r',
    read_rdata now domain type class_ ttl (Z.of_nat (List.length rd)) self
    = Ok (Some r', set_offset (pos + List.length rd) self) /\
    DNSRecord.payload r' = payload /\
    DNSRecord.entry r' = DNSEntry.__init__ domain type class_ /\
    table_ok names' (pre ++ rd).
Proof.
  intros Hp Henc Htab Hpos Hdata Hlen Hoff. subst pos.
  destruct payload as [a|cpu os|alias|[text|]|p w q s]; simpl in Hp;
    unfold enc_rdata in Henc.
  - (* DNSAddress *)
    apply (lift_Ok _ names (List.length pre)) in Henc as [Henc ->].
    injection Henc as <-.
    exists (DNSAddress now domain type class_ ttl a).
    split; [| split; [reflexivity | split; [reflexivity | apply table_ok_app; exact Htab]]].
    apply orb_prop in Hp as [Hp|Hp]; apply andb_prop in Hp as [Ht Hl];
      apply Z.eqb_eq in Ht; apply Nat.eqb_eq in Hl; subst type;
      unfold read_rdata;
      rewrite (read_string_at _ pre a rest self Hdata Hoff Hl), Hl; reflexivity.
  - (* DNSHinfo *)
    apply seq_Ok in Henc as (b1 & n1 & b2 & _ & E2 & _).
    apply (lift_Ok _ n1 (List.length pre + List.length b1)) in E2 as [E2 _].
    discriminate.
  - (* DNSPointer *)
    apply andb_prop in Hp as [Ht Hn].
    destruct (parses_name _ Hn names _ rd names' pre rest self Henc Htab eq_refl
                Hdata Hlen Hoff) as [Hr Htab'].
    exists (DNSPointer now domain type class_ ttl alias).
    split; [| split; [reflexivity | split; [reflexivity | exact Htab']]].
    unfold read_rdata. rewrite Ht, Hr.
    destruct (type =? _TYPE_A)%Z eqn:Ea; [| reflexivity].
    apply Z.eqb_eq in Ea. subst type. discriminate.
  - (* DNSText *)
    apply andb_prop in Hp as [Ht _]. apply Z.eqb_eq in Ht. subst type.
    apply (lift_Ok _ names (List.length pre)) in Henc as [Henc ->].
    injection Henc as <-.
    exists (DNSText now domain _TYPE_TXT class_ ttl (Some text)).
    split; [| split; [reflexivity | split; [reflexivity | apply table_ok_app; exact Htab]]].
    unfold read_rdata. rewrite Nat2Z.id.
    rewrite (read_string_at _ pre text rest self Hdata Hoff eq_refl). reflexivity.
  - apply andb_prop in Hp as [_ Hp]. discriminate.
  - (* DNSService *)
    repeat (apply andb_prop in Hp as [Hp ?]).
    apply Z.eqb_eq in Hp. subst type.
    apply seq_Ok in Henc as (pb & n1 & b1 & Ep & Henc & ->).
    apply seq_Ok in Henc as (wb & n2 & b2 & Ew & Henc & ->).
    apply seq_Ok in Henc as (qb & n3 & sb & Eq & Es & ->).
    apply enc_short_Ok in Ep as (Hp16 & -> & ->).
    apply enc_short_Ok in Ew as (Hw16 & -> & ->).
    apply enc_short_Ok in Eq as (Hq16 & -> & ->).
    change (List.length (be_encode 2 p)) with 2 in Es.
    change (List.length (be_encode 2 w)) with 2 in Es.
    change (List.length (be_encode 2 q)) with 2 in Es.
    exists (DNSService now domain _TYPE_SRV class_ ttl p w q s).
    assert (Hr1 : read_unsigned_short self
                  = Ok (p, set_offset (List.length pre + 2) self)).
    { apply (read_unsigned_short_at p pre (be_encode 2 w ++ be_encode 2 q ++ sb ++ rest));
        [assumption | | exact Hoff].
      rewrite Hdata, <- !app_assoc. reflexivity. }
    assert (Hr2 : read_unsigned_short (set_offset (List.length pre + 2) self)
                  = Ok (w, set_offset (List.length pre + 2 + 2) self)).
    { rewrite (read_unsigned_short_at w (pre ++ be_encode 2 p)
                 (be_encode 2 q ++ sb ++ rest)); [| assumption | |].
      - rewrite set_offset_set_offset, length_app, length_be_encode. reflexivity.
      - rewrite data_set_offset, Hdata, <- !app_assoc. reflexivity.
      - rewrite offset_set_offset, length_app, length_be_encode. reflexivity. }
    assert (Hr3 : read_unsigned_short (set_offset (List.length pre + 2 + 2) self)
                  = Ok (q, set_offset (List.length pre + 2 + 2 + 2) self)).
    { rewrite (read_unsigned_short_at q (pre ++ be_encode 2 p ++ be_encode 2 w)
                 (sb ++ rest)); [| assumption | |].
      - rewrite set_offset_set_offset, !length_app, !length_be_encode.
        do 3 f_equal. lia.
      - rewrite data_set_offset, Hdata, <- !app_assoc. reflexivity.
      - rewrite offset_set_offset, !length_app, !length_be_encode. lia. }
    destruct (parses_name _ H names (List.length pre + 2 + 2 + 2) sb names'
                (pre ++ be_encode 2 p ++ be_encode 2 w ++ be_encode 2 q) rest
                (set_offset (List.length pre + 2 + 2 + 2) self) Es)
      as [Hr4 Htab'].
    { apply table_ok_app, Htab. }
    { rewrite !length_app, !length_be_encode. lia. }
    { rewrite data_set_offset, Hdata, <- !app_assoc. reflexivity. }
    { exact Hlen. }
    { reflexivity. }
    split; [| split; [reflexivity | split; [reflexivity |]]].
    + unfold read_rdata. rewrite Hr1. cbn [bind]. rewrite Hr2. cbn [bind].
      rewrite Hr3. cbn [bind]. rewrite Hr4. cbn [bind].
      rewrite set_offset_set_offset. do 3 f_equal.
      rewrite !length_app, !length_be_encode. lia.
    + rewrite <- !app_assoc in Htab'. exact Htab'.
Qed.

End parse_records.

Section parse_record.

Import DNSIncoming Wire.

(** A record is read back as a record of the same name, type and class
    that holds the same payload. *)
Lemma read_other_step (now : Z) (mc : bool) (r : DNSRecord.t) (time_ : Z)
    names pos b names' pre rest (self : DNSIncoming.t) :
  answer_ok (r, time_) = true ->
  enc_record mc r time_ names pos = Ok (b, names') ->
  table_ok names pre ->
  List.length pre = pos ->
  data self = pre ++ b ++ rest ->
  (Z.of_nat (List.length (data self)) <= 16384)%Z ->
  offset self = pos ->
  exists r',
    read_other now self
    = Ok (append_answer r' (set_offset (pos + List.length b) self)) /\
    DNSRecord.payload r' = DNSRecord.payload r /\
    DNSEntry.__eq__ (DNSRecord.entry r') (DNSRecord.entry r) = true /\
    table_ok names' (pre ++ b).
Proof.
  intros Hok Henc Htab Hpos Hdata Hlen Hoff. subst pos.
  unfold answer_ok in Hok.
  apply andb_prop in Hok as [Hok Httl]. apply andb_prop in Hok as [Hok Hp].
  apply andb_prop in Hok as [Hn Hc].
  unfold enc_record in Henc.
  apply seq_Ok in Henc as (nb & n1 & b1 & En & Henc & ->).
  apply seq_Ok in Henc as (tb & n2 & b2 & Et & Henc & ->).
  apply seq_Ok in Henc as (cb & n3 & b3 & Ec & Henc & ->).
  apply seq_Ok in Henc as (ib & n4 & sb & Ei & Es & ->).
  apply enc_short_Ok in Et as (Ht16 & -> & ->).
  apply enc_short_Ok in Ec as (Hc16 & -> & ->).
  apply enc_int_Ok in Ei as (_ & -> & ->).
  unfold enc_rdata_sized in Es.
  apply bind_Ok in Es as ([rd nr] & Erd & Es).
  apply bind_Ok in Es as (lb & El & Es).
  injection Es as <- <-. apply pack_H_Ok in El as (Hl16 & ->).
  rewrite !length_be_encode in Erd.
  set (ty := DNSRecord.type r) in *. set (cl := wire_class mc r) in *.
  set (tl := wire_ttl r time_) in *. set (ln := Z.of_nat (List.length rd)) in *.
  set (info := be_encode 2 ty ++ be_encode 2 cl ++ be_encode 4 tl ++ be_encode 2 ln).
  assert (Hinfo : List.length info = 10).
  { unfold info. rewrite !length_app, !length_be_encode. reflexivity. }
  assert (Hdata' : data self = pre ++ nb ++ info ++ rd ++ rest).
  { rewrite Hdata. unfold info. rewrite <- !app_assoc. reflexivity. }
  destruct (parses_name _ Hn names _ nb n1 pre (info ++ rd ++ rest) self
              En Htab eq_refl Hdata' Hlen Hoff) as [Hr Htab1].
  destruct (read_rdata_step now (DNSRecord.name r) ty cl (unpack_field fmt_i (be_encode 4 tl))
              (DNSRecord.payload r) n1 (List.length pre + List.length nb + 2 + 2 + 4 + 2) rd nr
              ((pre ++ nb) ++ info) rest
              (set_offset (List.length pre + List.length nb + 10) self) Hp Erd)
    as (r' & Hrd & Hpay & Hent & Htab2).
  { apply table_ok_app. exact Htab1. }
  { rewrite !length_app, Hinfo. lia. }
  { rewrite data_set_offset, Hdata', <- !app_assoc. reflexivity. }
  { exact Hlen. }
  { rewrite offset_set_offset. lia. }
  exists r'. split; [| split; [exact Hpay | split]].
  - unfold read_other. rewrite Hr. cbn [bind].
    rewrite (unpack_at [fmt_H; fmt_H; fmt_i; fmt_H] (pre ++ nb) info (rd ++ rest)).
    + cbn [bind].
      change (unpack_fields [fmt_H; fmt_H; fmt_i; fmt_H] info)
        with [unpack_field fmt_H (be_encode 2 ty); unpack_field fmt_H (be_encode 2 cl);
              unpack_field fmt_i (be_encode 4 tl); unpack_field fmt_H (be_encode 2 ln)].
      rewrite !unpack_H_encode by assumption.
      fold ln in Hrd.
      rewrite set_offset_set_offset, length_app, Hinfo, Hrd. cbn [bind].
      rewrite set_offset_set_offset. do 3 f_equal.
      unfold info. rewrite !length_app, !length_be_encode. lia.
    + rewrite data_set_offset, Hdata', <- !app_assoc. reflexivity.
    + rewrite offset_set_offset, length_app. lia.
    + exact Hinfo.
  - rewrite Hent. unfold DNSEntry.__eq__, DNSEntry.__init__. cbn [DNSEntry.name DNSEntry.type DNSEntry.class_].
    change (DNSEntry.name (DNSRecord.entry r)) with (DNSRecord.name r).
    change (DNSEntry.type (DNSRecord.entry r)) with ty.
    change (DNSEntry.class_ (DNSRecord.entry r)) with (DNSRecord.class_ r).
    rewrite String.eqb_refl, Z.eqb_refl. simpl.
    apply Z.eqb_eq. unfold cl, wire_class.
    destruct (DNSRecord.unique r && mc);
      [apply land_unique_class_mask | apply land_class_mask]; exact Hc.
  - unfold info in Htab2. rewrite <- !app_assoc in Htab2. exact Htab2.
Qed.

End parse_record.

(** ** The parser reads the sections that the writer writes *)

Section parse_sections.

Import DNSIncoming Wire.

Lemma with_questions_cons (q : DNSEntry.t) (qs : list DNSEntry.t) (o o' : nat)
    (self : DNSIncoming.t) :
  with_questions qs (set_offset o' (append_question q (set_offset o self)))
  = with_questions (q :: qs) (set_offset o' self).
Proof.
  unfold with_questions, append_question, set_offset. cbn [offset data questions answers
    id flags num_questions num_answers num_authorities num_quthorities num_additionals].
  rewrite <- app_assoc. reflexivity.
Qed.

Lemma with_answers_cons (r : DNSRecord.t) (rs : list DNSRecord.t) (o o' : nat)
    (self : DNSIncoming.t) :
  with_answers rs (set_offset o' (append_answer r (set_offset o self)))
  = with_answers (r :: rs) (set_offset o' self).
Proof.
  unfold with_answers, append_answer, set_offset. cbn [offset data questions answers
    id flags num_questions num_answers num_authorities num_quthorities num_additionals].
  rewrite <- app_assoc. reflexivity.
Qed.

Lemma with_questions_nil (self : DNSIncoming.t) : with_questions [] self = self.
Proof. destruct self. unfold with_questions. cbn. rewrite app_nil_r. reflexivity. Qed.

Lemma with_answers_nil (self : DNSIncoming.t) : with_answers [] self = self.
Proof. destruct self. unfold with_answers. cbn. rewrite app_nil_r. reflexivity. Qed.

Lemma set_offset_same (self : DNSIncoming.t) : set_offset (offset self) self = self.
Proof. destruct self. reflexivity. Qed.

(** The questions section. *)
Lemma read_questions_loop (qs : list DNSEntry.t) :
  forall names pos b names' pre rest (self : DNSIncoming.t),
    forallb question_ok qs = true ->
    seq_list enc_question qs names pos = Ok (b, names') ->
    table_ok names pre ->
    List.length pre = pos ->
    data self = pre ++ b ++ rest ->
    (Z.of_nat (List.length (data self)) <= 16384)%Z ->
    offset self = pos ->
    exists qs',
      repeat_n (List.length qs) read_question self
      = Ok (with_questions qs' (set_offset (pos + List.length b) self)) /\
      Forall2 same_question qs' qs /\
      table_ok names' (pre ++ b).
Proof.
  induction qs as [|q qs IH]; intros names pos b names' pre rest self Hok Henc Htab Hpos
    Hdata Hlen Hoff.
  - injection Henc as <- <-. exists []. split; [| split].
    + cbn [List.length repeat_n]. rewrite Nat.add_0_r, <- Hoff, set_offset_same,
        with_questions_nil. reflexivity.
    + constructor.
    + rewrite app_nil_r. exact Htab.
  - cbn [forallb] in Hok. apply andb_prop in Hok as [Hq Hok].
    cbn [seq_list] in Henc.
    apply seq_Ok in Henc as (b1 & n1 & b2 & E1 & E2 & ->).
    destruct (read_question_step q names pos b1 n1 pre (b2 ++ rest) self Hq E1 Htab Hpos)
      as (q' & Hr & Heq & Htab1);
      [rewrite Hdata, <- app_assoc; reflexivity | exact Hlen | exact Hoff |].
    destruct (IH n1 (pos + List.length b1) b2 names' (pre ++ b1) rest
                (append_question q' (set_offset (pos + List.length b1) self)) Hok E2 Htab1)
      as (qs' & Hrs & Hall & Htab2).
    { rewrite length_app, Hpos. reflexivity. }
    { change (data (append_question q' (set_offset (pos + List.length b1) self)))
        with (data self). rewrite Hdata, <- !app_assoc. reflexivity. }
    { exact Hlen. }
    { reflexivity. }
    exists (q' :: qs'). split; [| split].
    + cbn [List.length repeat_n]. rewrite Hr. cbn [bind]. rewrite Hrs.
      rewrite with_questions_cons, length_app, Nat.add_assoc. reflexivity.
    + constructor; assumption.
    + rewrite app_assoc. exact Htab2.
Qed.

(** The answers section. *)
Lemma read_others_loop (now : Z) (mc : bool) (rs : list (DNSRecord.t * Z)) :
  forall names pos b names' pre rest (self : DNSIncoming.t),
    forallb answer_ok rs = true ->
    seq_list (fun '(answer, time_) => enc_record mc answer time_) rs names pos
    = Ok (b, names') ->
    table_ok names pre ->
    List.length pre = pos ->
    data self = pre ++ b ++ rest ->
    (Z.of_nat (List.length (data self)) <= 16384)%Z ->
    offset self = pos ->
    exists rs',
      repeat_n (List.length rs) (read_other now) self
      = Ok (with_answers rs' (set_offset (pos + List.length b) self)) /\
      Forall2 same_record rs' rs /\
      table_ok names' (pre ++ b).
Proof.
  induction rs as [|[r time_] rs IH]; intros names pos b names' pre rest self Hok Henc Htab
    Hpos Hdata Hlen Hoff.
  - injection Henc as <- <-. exists []. split; [| split].
    + cbn [List.length repeat_n]. rewrite Nat.add_0_r, <- Hoff, set_offset_same,
        with_answers_nil. reflexivity.
    + constructor.
    + rewrite app_nil_r. exact Htab.
  - cbn [forallb] in Hok. apply andb_prop in Hok as [Hq Hok].
    cbn [seq_list] in Henc.
    apply seq_Ok in Henc as (b1 & n1 & b2 & E1 & E2 & ->).
    destruct (read_other_step now mc r time_ names pos b1 n1 pre (b2 ++ rest) self
                Hq E1 Htab Hpos)
      as (r' & Hr & Hpay & Hent & Htab1);
      [rewrite Hdata, <- app_assoc; reflexivity | exact Hlen | exact Hoff |].
    destruct (IH n1 (pos + List.length b1) b2 names' (pre ++ b1) rest
                (append_answer r' (set_offset (pos + List.length b1) self)) Hok E2 Htab1)
      as (rs' & Hrs & Hall & Htab2).
    { rewrite length_app, Hpos. reflexivity. }
    { change (data (append_answer r' (set_offset (pos + List.length b1) self)))
        with (data self). rewrite Hdata, <- !app_assoc. reflexivity. }
    { exact Hlen. }
    { reflexivity. }
    exists (r' :: rs'). split; [| split].
    + cbn [List.length repeat_n]. rewrite Hr. cbn [bind]. rewrite Hrs.
      rewrite with_answers_cons, length_app, Nat.add_assoc. reflexivity.
    + constructor; [| assumption]. split.
      * apply record_eq_payload. exact Hpay.
      * exact Hent.
    + rewrite app_assoc. exact Htab2.
Qed.

End parse_sections.

(** ** The writer returns on a well-formed message *)

Section totality.

Import Wire.

Lemma table_lt_mono (names : gmap string nat) (pos pos' : nat) :
  table_lt names pos -> pos <= pos' -> table_lt names pos'.
Proof. intros H Hle name index Hi. specialize (H name index Hi). lia. Qed.

Lemma bounded_seq (e1 e2 : enc) (n1 n2 : nat) :
  bounded e1 n1 -> bounded e2 n2 -> bounded (seq e1 e2) (n1 + n2).
Proof.
  intros H1 H2 names pos Ht Hb.
  destruct (H1 names pos Ht) as (b1 & nm1 & E1 & L1 & T1); [lia |].
  destruct (H2 nm1 (pos + List.length b1) T1) as (b2 & nm2 & E2 & L2 & T2); [lia |].
  exists (b1 ++ b2), nm2. unfold seq. rewrite E1. cbn [bind]. rewrite E2. cbn [bind].
  split; [reflexivity |]. rewrite length_app. split; [lia |].
  rewrite Nat.add_assoc. exact T2.
Qed.

Lemma bounded_weaken (e : enc) (n n' : nat) : bounded e n -> n <= n' -> bounded e n'.
Proof.
  intros H Hle names pos Ht Hb.
  destruct (H names pos Ht) as (b & nm & E & L & T); [lia |].
  exists b, nm. split; [exact E | split; [lia | exact T]].
Qed.

Lemma bounded_lift (r : result bytes) (bs : bytes) :
  r = Ok bs -> bounded (lift r) (List.length bs).
Proof.
  intros -> names pos Ht _. exists bs, names.
  split; [reflexivity | split; [lia |]]. eapply table_lt_mono; [exact Ht | lia].
Qed.

Lemma bounded_skip : bounded skip 0.
Proof.
  intros names pos Ht _. exists [], names.
  split; [reflexivity | split; [simpl; lia |]]. eapply table_lt_mono; [exact Ht | lia].
Qed.

Lemma pack_H_total (v : Z) : u16 v = true -> pack_field fmt_H v = Ok (be_encode 2 v).
Proof. unfold u16, pack_field. intros ->. reflexivity. Qed.

Lemma pack_I_total (v : Z) : u32 v = true -> pack_field fmt_I v = Ok (be_encode 4 v).
Proof. unfold u32, pack_field. intros ->. reflexivity. Qed.

Lemma bounded_short (v : Z) : u16 v = true -> bounded (enc_short v) 2.
Proof.
  intros Hv. pose proof (bounded_lift _ _ (pack_H_total v Hv)) as H.
  rewrite length_be_encode in H. exact H.
Qed.

Lemma bounded_int (v : Z) : u32 v = true -> bounded (enc_int v) 4.
Proof.
  intros Hv. pose proof (bounded_lift _ _ (pack_I_total v Hv)) as H.
  rewrite length_be_encode in H. exact H.
Qed.

Lemma string_length_append (s1 s2 : string) :
  String.length (s1 +:+ s2) = String.length s1 + String.length s2.
Proof.
  induction s1 as [|c s1 IH]; [reflexivity |].
  rewrite string_append_cons. cbn [String.length]. rewrite IH. reflexivity.
Qed.

Lemma enc_labels_total (labels : list string) :
  forallb label_ok labels = true ->
  exists ls, enc_labels labels = Ok ls /\
             List.length ls = String.length (join_labels labels).
Proof.
  induction labels as [|label labels IH]; intros Hok.
  - exists []. split; reflexivity.
  - cbn [forallb] in Hok. apply andb_prop in Hok as [Hl Hok].
    destruct (IH Hok) as (ls & E & L).
    exists ((byte_of_Z (Z.of_nat (String.length label)) :: list_byte_of_string label) ++ ls).
    cbn [enc_labels]. rewrite (enc_utf_ok _ Hl). cbn [bind]. rewrite E. cbn [bind].
    split; [reflexivity |].
    cbn [join_labels foldr]. fold (join_labels labels).
    rewrite length_app, !string_length_append, <- L. cbn [List.length String.length].
    rewrite length_list_byte_of_string. lia.
Qed.

Lemma enc_plain_total (name : string) :
  name_ok name = true ->
  exists b, enc_plain name = Ok b /\ List.length b = String.length name + 1.
Proof.
  intros Hn. destruct (name_ok_inv _ Hn) as [Hl Hj].
  destruct (enc_labels_total _ Hl) as (ls & E & L).
  exists (ls ++ [x00]). unfold enc_plain. rewrite E. cbn [bind].
  split; [reflexivity |]. rewrite length_app, L, Hj. reflexivity.
Qed.

Lemma enc_pointer_total (index : nat) :
  (Z.of_nat index < 16384)%Z ->
  exists hi lo, enc_pointer index = Ok [hi; lo].
Proof.
  intros Hi. unfold enc_pointer.
  destruct (pointer_tag (Z.of_nat index)) as [_ Rhi]; [lia |].
  assert (Rlo : (0 <= Z.land (Z.of_nat index) 0xFF < 256)%Z).
  { change 0xFF%Z with (Z.ones 8). rewrite Z.land_ones by lia.
    apply Z.mod_pos_bound. lia. }
  rewrite (proj2 (int2byte_Ok _ _) (conj Rhi eq_refl)). cbn [bind].
  rewrite (proj2 (int2byte_Ok _ _) (conj Rlo eq_refl)). cbn [bind].
  eexists _, _. reflexivity.
Qed.

Lemma bounded_name (name : string) :
  name_ok name = true -> bounded (enc_name name) (name_bound name).
Proof.
  intros Hn names pos Ht Hb. unfold enc_name, name_bound in *.
  destruct (names !! name) as [index|] eqn:Hi.
  - destruct (enc_pointer_total index) as (hi & lo & E).
    { specialize (Ht name index Hi). lia. }
    exists [hi; lo], names. rewrite E. cbn [bind].
    split; [reflexivity | split; [simpl; lia |]].
    eapply table_lt_mono; [exact Ht | lia].
  - destruct (enc_plain_total _ Hn) as (b & E & L).
    exists b, (<[name := pos]> names). rewrite E. cbn [bind].
    split; [reflexivity | split; [lia |]].
    intros name' index'. rewrite lookup_insert. case_decide.
    + intros [= <-]. lia.
    + intros Hi'. specialize (Ht name' index' Hi'). lia.
Qed.

Lemma bounded_question (q : DNSEntry.t) :
  question_ok q = true ->
  bounded (enc_question q) (name_bound (DNSEntry.name q) + 4).
Proof.
  intros Hq. unfold question_ok in Hq.
  apply andb_prop in Hq as [Hq Hc]. apply andb_prop in Hq as [Hn Ht].
  unfold enc_question.
  apply bounded_seq; [apply bounded_name; exact Hn |].
  apply (bounded_seq _ _ 2 2); apply bounded_short; [exact Ht |].
  unfold class_ok in Hc. unfold u16. apply andb_prop in Hc as [H0 H1].
  rewrite H0. apply Z.ltb_lt in H1. apply Z.ltb_lt. lia.
Qed.

Lemma bounded_rdata (type : Z) (payload : rdata) :
  payload_ok type payload = true ->
  match payload with Hinfo _ _ => False | _ => True end ->
  bounded (enc_rdata payload) (payload_bound payload).
Proof.
  destruct payload as [a|cpu os|alias|[text|]|p w q s]; simpl; intros Hp Hh.
  - apply bounded_lift. reflexivity.
  - destruct Hh.
  - apply andb_prop in Hp as [_ Hn]. apply bounded_name. exact Hn.
  - apply bounded_lift. reflexivity.
  - apply andb_prop in Hp as [_ Hp]. discriminate.
  - repeat (apply andb_prop in Hp as [Hp ?]).
    apply (bounded_seq _ _ 2 (4 + name_bound s)); [apply bounded_short; assumption |].
    apply (bounded_seq _ _ 2 (2 + name_bound s)); [apply bounded_short; assumption |].
    apply (bounded_seq _ _ 2 (name_bound s)); [apply bounded_short; assumption |].
    apply bounded_name. assumption.
Qed.

Lemma bounded_rdata_sized (type : Z) (payload : rdata) :
  payload_ok type payload = true ->
  match payload with Hinfo _ _ => False | _ => True end ->
  bounded (enc_rdata_sized payload) (2 + payload_bound payload).
Proof.
  intros Hp Hh names pos Ht Hb.
  destruct (bounded_rdata type payload Hp Hh names (pos + 2)) as (b & nm & E & L & T).
  { eapply table_lt_mono; [exact Ht | lia]. }
  { lia. }
  exists (be_encode 2 (Z.of_nat (List.length b)) ++ b), nm.
  unfold enc_rdata_sized. rewrite E. cbn [bind].
  rewrite pack_H_total; [cbn [bind] |].
  - split; [reflexivity |]. rewrite length_app, length_be_encode.
    split; [lia |]. rewrite Nat.add_assoc. exact T.
  - unfold u16. apply andb_true_intro. split; [apply Z.leb_le | apply Z.ltb_lt]; lia.
Qed.

Lemma payload_ok_type (type : Z) (payload : rdata) :
  payload_ok type payload = true -> u16 type = true.
Proof.
  destruct payload as [a|cpu os|alias|text|p w q s]; simpl; intros Hp;
    repeat match type of Hp with
      | (_ && _) = true => apply andb_prop in Hp as [Hp ?]
      | (_ || _) = true => apply orb_prop in Hp as [Hp|Hp]
      end;
    apply Z.eqb_eq in Hp; subst type; reflexivity.
Qed.

Lemma wire_class_u16 (mc : bool) (r : DNSRecord.t) :
  class_ok (DNSRecord.class_ r) = true -> u16 (wire_class mc r) = true.
Proof.
  intros Hc. pose proof (land_class_mask _ Hc) as Hm.
  unfold class_ok in Hc. apply andb_prop in Hc as [H0 H1].
  apply Z.leb_le in H0. apply Z.ltb_lt in H1.
  unfold wire_class, u16. apply andb_true_intro.
  destruct (DNSRecord.unique r && mc).
  - rewrite <- Z.add_nocarry_lor.
    + change _CLASS_UNIQUE with (2 ^ 15)%Z.
      split; [apply Z.leb_le | apply Z.ltb_lt]; lia.
    + rewrite <- Hm, <- Z.land_assoc.
      change (Z.land _CLASS_MASK _CLASS_UNIQUE) with 0%Z. apply Z.land_0_r.
  - split; [apply Z.leb_le | apply Z.ltb_lt]; lia.
Qed.

Lemma bounded_record (mc : bool) (answer : DNSRecord.t * Z) :
  answer_ok answer = true ->
  match DNSRecord.payload (fst answer) with Hinfo _ _ => False | _ => True end ->
  bounded (let '(r, time_) := answer in enc_record mc r time_)
          (name_bound (DNSRecord.name (fst answer)) + 10
           + payload_bound (DNSRecord.payload (fst answer))).
Proof.
  destruct answer as [r time_]. cbn [fst]. intros Hok Hh. unfold answer_ok in Hok.
  apply andb_prop in Hok as [Hok Httl]. apply andb_prop in Hok as [Hok Hp].
  apply andb_prop in Hok as [Hn Hc].
  unfold enc_record.
  apply (bounded_weaken _
           (name_bound (DNSRecord.name r)
            + (2 + (2 + (4 + (2 + payload_bound (DNSRecord.payload r))))))); [| lia].
  apply bounded_seq; [apply bounded_name; exact Hn |].
  apply bounded_seq; [apply bounded_short; exact (payload_ok_type _ _ Hp) |].
  apply bounded_seq; [apply bounded_short; apply wire_class_u16; exact Hc |].
  apply bounded_seq; [apply bounded_int; exact Httl |].
  exact (bounded_rdata_sized _ _ Hp Hh).
Qed.

Lemma bounded_seq_list {A} (f : A -> enc) (g : A -> nat) (xs : list A) :
  Forall (fun x => bounded (f x) (g x)) xs ->
  bounded (seq_list f xs) (foldr (fun x n => g x + n) 0 xs).
Proof.
  induction 1 as [|x xs Hx _ IH]; cbn [seq_list foldr].
  - exact bounded_skip.
  - apply bounded_seq; assumption.
Qed.

End totality.

(** ** The round trip of a packet *)

Section round_trip.

Import DNSIncoming Wire.

(** The header: the parser stores the identifier, the flags and the four
    counts, the count of the authorities in [num_quthorities]. *)
Lemma read_header_enc (m : DNSOutgoing.t) (h body : bytes) :
  enc_header m = Ok h ->
  List.length h = 12 /\
  read_header (mk 0 (h ++ body) [] [] 0 0 0 0 0 0 0)
  = Ok (mk 12 (h ++ body) [] []
          (if DNSOutgoing.multicast m then 0%Z else DNSOutgoing.id m)
          (DNSOutgoing.flags m)
          (Z.of_nat (List.length (DNSOutgoing.questions m)))
          (Z.of_nat (List.length (DNSOutgoing.answers m)))
          0
          (Z.of_nat (List.length (DNSOutgoing.authorities m)))
          (Z.of_nat (List.length (DNSOutgoing.additionals m)))).
Proof.
  unfold enc_header. intros H.
  apply bind_Ok in H as (h6 & E6 & H). apply bind_Ok in H as (h5 & E5 & H).
  apply bind_Ok in H as (h4 & E4 & H). apply bind_Ok in H as (h3 & E3 & H).
  apply bind_Ok in H as (h2 & E2 & H). apply bind_Ok in H as (h1 & E1 & H).
  injection H as <-.
  apply pack_H_Ok in E1 as [U1 ->]. apply pack_H_Ok in E2 as [U2 ->].
  apply pack_H_Ok in E3 as [U3 ->]. apply pack_H_Ok in E4 as [U4 ->].
  apply pack_H_Ok in E5 as [U5 ->]. apply pack_H_Ok in E6 as [U6 ->].
  set (v1 := if DNSOutgoing.multicast m then 0%Z else DNSOutgoing.id m) in *.
  set (v2 := DNSOutgoing.flags m) in *.
  set (v3 := Z.of_nat (List.length (DNSOutgoing.questions m))) in *.
  set (v4 := Z.of_nat (List.length (DNSOutgoing.answers m))) in *.
  set (v5 := Z.of_nat (List.length (DNSOutgoing.authorities m))) in *.
  set (v6 := Z.of_nat (List.length (DNSOutgoing.additionals m))) in *.
  set (h := be_encode 2 v1 ++ be_encode 2 v2 ++ be_encode 2 v3 ++ be_encode 2 v4 ++
            be_encode 2 v5 ++ be_encode 2 v6).
  assert (Hh : List.length h = 12).
  { unfold h. rewrite !length_app, !length_be_encode. reflexivity. }
  split; [exact Hh |].
  unfold read_header.
  rewrite (unpack_at [fmt_H; fmt_H; fmt_H; fmt_H; fmt_H; fmt_H] [] h body);
    [| reflexivity | reflexivity | exact Hh].
  cbn [bind].
  change (unpack_fields [fmt_H; fmt_H; fmt_H; fmt_H; fmt_H; fmt_H] h)
    with [unpack_field fmt_H (be_encode 2 v1); unpack_field fmt_H (be_encode 2 v2);
          unpack_field fmt_H (be_encode 2 v3); unpack_field fmt_H (be_encode 2 v4);
          unpack_field fmt_H (be_encode 2 v5); unpack_field fmt_H (be_encode 2 v6)].
  rewrite !unpack_H_encode by assumption. rewrite Hh. reflexivity.
Qed.

End round_trip.

(** The parser reads back the packet of a well-formed message. *)
Lemma packet_parsed (now : Z) (m : DNSOutgoing.t) (p : bytes) (m' : DNSOutgoing.t) :
  well_formed m = true ->
  DNSOutgoing.packet m = Ok (p, m') ->
  (Z.of_nat (List.length p) <= 16384)%Z ->
  exists inc : DNSIncoming.t,
    DNSIncoming.__init__ now p = Ok inc /\
    List.length (DNSIncoming.questions inc) = List.length (DNSOutgoing.questions m) /\
    List.length (DNSIncoming.answers inc) = List.length (DNSOutgoing.answers m) /\
    Forall2 same_question (DNSIncoming.questions inc) (DNSOutgoing.questions m) /\
    Forall2 same_record (DNSIncoming.answers inc) (DNSOutgoing.answers m).
Proof.
  intros Hwf Hp Hlen. unfold well_formed in Hwf.
  repeat match type of Hwf with (_ && _) = true => 
    let H := fresh "W" in apply andb_prop in Hwf as [Hwf H] end.
  apply negb_true_iff in Hwf.
  apply bool_decide_eq_true in W6, W4. apply Nat.eqb_eq in W5.
  destruct (DNSOutgoing.authorities m) as [|] eqn:Hauth; [| discriminate].
  destruct (DNSOutgoing.additionals m) as [|] eqn:Hadd; [| discriminate].
  pose proof (packet_enc_packet m Hwf) as He. rewrite Hp in He.
  unfold Wire.enc_packet in He. rewrite W6, W5, W4 in He.
  apply bind_Ok in He as ([body nb] & Eb & He).
  apply bind_Ok in He as (h & Eh & He). injection He as <-.
  cbn [concat app] in Hlen |- *.
  unfold Wire.enc_body in Eb. rewrite Hauth, Hadd in Eb.
  apply seq_Ok in Eb as (bq & n1 & b1 & Eq & Eb & ->).
  apply seq_Ok in Eb as (ba & n2 & b2 & Ea & Eb & ->).
  injection Eb as <- <-.
  destruct (read_header_enc m h (bq ++ ba ++ []) Eh) as [Hh Hhd].
  rewrite Hauth, Hadd in Hhd. cbn [List.length] in Hhd.
  set (self1 := DNSIncoming.mk 12 (h ++ bq ++ ba ++ []) [] [] _ _ _ _ _ _ _) in Hhd.
  destruct (read_questions_loop (DNSOutgoing.questions m) ∅ 12 bq n1 h (ba ++ []) self1 W1 Eq
              (table_ok_empty h) Hh eq_refl Hlen eq_refl) as (qs' & Hq & Fq & Tq).
  destruct (read_others_loop now (DNSOutgoing.multicast m) (DNSOutgoing.answers m) n1
              (12 + List.length bq) ba n2 (h ++ bq) []
              (with_questions qs' (DNSIncoming.set_offset (12 + List.length bq) self1))
              W0 Ea Tq)
    as (rs' & Hr & Fr & _).
  { rewrite length_app, Hh. reflexivity. }
  { cbn [with_questions DNSIncoming.data DNSIncoming.set_offset self1].
    rewrite <- app_assoc. reflexivity. }
  { exact Hlen. }
  { reflexivity. }
  eexists. split; [| split; [| split; [| split]]].
  - unfold DNSIncoming.__init__. cbv zeta. rewrite Hhd. cbn [bind].
    unfold DNSIncoming.read_questions.
    change (DNSIncoming.num_questions self1)
      with (Z.of_nat (List.length (DNSOutgoing.questions m))).
    rewrite Nat2Z.id, Hq. cbn [bind].
    unfold DNSIncoming.read_others.
    change (Z.to_nat _) with
      (Z.to_nat (Z.of_nat (List.length (DNSOutgoing.answers m)) + 0 + Z.of_nat 0)).
    rewrite !Z.add_0_r, Nat2Z.id. exact Hr.
  - cbn. apply Forall2_length in Fq. exact Fq.
  - cbn. apply Forall2_length in Fr. exact Fr.
  - exact Fq.
  - exact Fr.
Qed.


(** [packet()] returns on a well-formed message without host information
    records whose size, every name counted in full, is at most 2^14. *)
Lemma length_le_foldr {A} (g : A -> nat) (xs : list A) :
  (forall x, 1 <= g x) -> List.length xs <= foldr (fun x n => g x + n) 0 xs.
Proof.
  intros Hg. induction xs as [|x xs IH]; cbn [List.length foldr]; [lia |].
  specialize (Hg x). lia.
Qed.

Lemma packet_returns (m : DNSOutgoing.t) :
  well_formed m = true ->
  hinfo_free m = true ->
  (Z.of_nat (wire_bound m) <= 16384)%Z ->
  exists p m', DNSOutgoing.packet m = Ok (p, m') /\ List.length p <= wire_bound m.
Proof.
  intros Hwf Hfree Hbound. unfold well_formed in Hwf.
  repeat match type of Hwf with (_ && _) = true =>
    let H := fresh "W" in apply andb_prop in Hwf as [Hwf H] end.
  apply negb_true_iff in Hwf.
  apply bool_decide_eq_true in W6, W4. apply Nat.eqb_eq in W5.
  destruct (DNSOutgoing.authorities m) as [|] eqn:Hauth; [| discriminate].
  destruct (DNSOutgoing.additionals m) as [|] eqn:Hadd; [| discriminate].
  unfold wire_bound in *.
  set (gq := fun q : DNSEntry.t => name_bound (DNSEntry.name q) + 4).
  set (ga := fun a : DNSRecord.t * Z =>
               name_bound (DNSRecord.name (fst a)) + 10
               + payload_bound (DNSRecord.payload (fst a))).
  change (foldr _ 0 (DNSOutgoing.questions m))
    with (foldr (fun q n => gq q + n) 0 (DNSOutgoing.questions m)) in *.
  change (foldr _ 0 (DNSOutgoing.answers m))
    with (foldr (fun a n => ga a + n) 0 (DNSOutgoing.answers m)) in *.
  set (Q := foldr (fun q n => gq q + n) 0 (DNSOutgoing.questions m)) in *.
  set (A := foldr (fun a n => ga a + n) 0 (DNSOutgoing.answers m)) in *.
  assert (Hq : List.length (DNSOutgoing.questions m) <= Q).
  { apply length_le_foldr. intros q. unfold gq. lia. }
  assert (Ha : List.length (DNSOutgoing.answers m) <= A).
  { apply length_le_foldr. intros a. unfold ga. lia. }
  assert (Bq : bounded (Wire.seq_list Wire.enc_question (DNSOutgoing.questions m)) Q).
  { apply bounded_seq_list. apply List.Forall_forall. intros q Hin.
    apply bounded_question. rewrite forallb_forall in W1. apply W1, Hin. }
  assert (Ba : bounded (Wire.seq_list
                          (fun '(answer, time_) =>
                             Wire.enc_record (DNSOutgoing.multicast m) answer time_)
                          (DNSOutgoing.answers m)) A).
  { apply (bounded_seq_list _ ga). apply List.Forall_forall. intros a Hin.
    apply (bounded_record (DNSOutgoing.multicast m) a).
    - rewrite forallb_forall in W0. apply W0, Hin.
    - unfold hinfo_free in Hfree. rewrite forallb_forall in Hfree.
      specialize (Hfree a Hin). destruct (DNSRecord.payload (fst a)); [| discriminate | | |];
        exact I. }
  pose proof (bounded_seq _ _ _ _ Bq
                (bounded_seq _ _ _ _ Ba (bounded_seq _ _ _ _ bounded_skip bounded_skip)))
    as Bb.
  destruct (Bb ∅ 12) as (body & nb & Eb & Lb & _).
  { intros name index Hi. rewrite lookup_empty in Hi. discriminate. }
  { lia. }
  assert (U : forall n : nat, (Z.of_nat n <= 16384)%Z -> u16 (Z.of_nat n) = true).
  { intros n Hn. unfold u16. apply andb_true_intro.
    split; [apply Z.leb_le | apply Z.ltb_lt]; lia. }
  assert (Eh : exists h, Wire.enc_header m = Ok h /\ List.length h = 12).
  { unfold Wire.enc_header. rewrite Hauth, Hadd. cbn [List.length].
    rewrite !(pack_H_total (Z.of_nat 0)) by reflexivity. cbn [bind].
    rewrite (pack_H_total (Z.of_nat (List.length (DNSOutgoing.answers m)))) by (apply U; lia).
    cbn [bind].
    rewrite (pack_H_total (Z.of_nat (List.length (DNSOutgoing.questions m))))
      by (apply U; lia).
    cbn [bind]. rewrite (pack_H_total _ W3). cbn [bind].
    rewrite (pack_H_total (if DNSOutgoing.multicast m then 0%Z else DNSOutgoing.id m))
      by (destruct (DNSOutgoing.multicast m); [reflexivity | exact W2]).
    cbn [bind]. eexists. split; [reflexivity |].
    rewrite !length_app, !length_be_encode. reflexivity. }
  destruct Eh as (h & Eh & Lh).
  assert (Ep : Wire.enc_packet m = Ok (h ++ body)).
  { unfold Wire.enc_packet. rewrite W6, W5, W4. unfold Wire.enc_body.
    rewrite Hauth, Hadd. cbn [Wire.seq_list]. rewrite Eb. cbn [bind]. rewrite Eh.
    reflexivity. }
  pose proof (packet_enc_packet m Hwf) as Hp. rewrite Ep in Hp.
  destruct (DNSOutgoing.packet m) as [[p m']|x]; [| discriminate].
  injection Hp as <-. exists (h ++ body), m'. split; [reflexivity |].
  rewrite length_app, Lh. lia.
Qed.

(** C1. Round trip of a well-formed outgoing message with questions and
    answers and no authorities or additionals.  [packet()] returns when no
    answer is a host information record and the size of the message, every
    name counted in full, is at most 2^14 bytes; and whenever [packet()]
    returns at most 2^14 bytes (the range of a name pointer), the parser
    returns on them a message with as many questions and as many answers, the
    i-th question equal (the [__eq__] of [DNSEntry]: name, type and class) to
    the i-th question of the message and the i-th answer equal (the [__eq__]
    of its class and the one of [DNSEntry]) to the i-th answer of the
    message. *)
Theorem C1_packet_roundtrip (now : Z) (m : DNSOutgoing.t) :
  well_formed m = true ->
  (hinfo_free m = true ->
   (Z.of_nat (wire_bound m) <= 16384)%Z ->
   exists p m', DNSOutgoing.packet m = Ok (p, m') /\ List.length p <= wire_bound m) /\
  (forall p m',
     DNSOutgoing.packet m = Ok (p, m') ->
     (Z.of_nat (List.length p) <= 16384)%Z ->
     exists inc : DNSIncoming.t,
       DNSIncoming.__init__ now p = Ok inc /\
       List.length (DNSIncoming.questions inc) = List.length (DNSOutgoing.questions m) /\
       List.length (DNSIncoming.answers inc) = List.length (DNSOutgoing.answers m) /\
       Forall2 same_question (DNSIncoming.questions inc) (DNSOutgoing.questions m) /\
       Forall2 same_record (DNSIncoming.answers inc) (DNSOutgoing.answers m)).
Proof.
  intros Hwf. split.
  - intros Hfree Hbound. exact (packet_returns m Hwf Hfree Hbound).
  - intros p m' Hp Hlen. exact (packet_parsed now m p m' Hwf Hp Hlen).
Qed.

Lemma C1_packet_roundtrip_witness :
  let out := DNSOutgoing.__init__ (Z.lor _FLAGS_QR_RESPONSE _FLAGS_AA) true in
  let out := DNSOutgoing.add_question
               (DNSQuestion.__init__ "_http._tcp.local." _TYPE_PTR _CLASS_IN) out in
  let out := DNSOutgoing.add_answer_at_time
               (Some (DNSPointer 1000 "_http._tcp.local." _TYPE_PTR _CLASS_IN _DNS_TTL
                        "Paul's Test Web Site._http._tcp.local.")) 0 out in
  let out := DNSOutgoing.add_answer_at_time
               (Some (DNSService 1000 "Paul's Test Web Site._http._tcp.local." _TYPE_SRV
                        _CLASS_IN _DNS_TTL 0 0 80 "ash-2.local.")) 0 out in
  let out := DNSOutgoing.add_answer_at_time
               (Some (DNSText 1000 "Paul's Test Web Site._http._tcp.local." _TYPE_TXT
                        _CLASS_IN _DNS_TTL (Some [x04; x61; x3d; x62; x00]))) 0 out in
  let out := DNSOutgoing.add_answer_at_time
               (Some (DNSAddress 1000 "ash-2.local." _TYPE_A (Z.lor _CLASS_IN _CLASS_UNIQUE)
                        _DNS_TTL [x0a; x00; x01; x02])) 2000 out in
  exists p m' inc,
    DNSOutgoing.packet out = Ok (p, m') /\
    DNSIncoming.__init__ 5000 p = Ok inc /\
    List.length (DNSIncoming.questions inc) = 1 /\
    List.length (DNSIncoming.answers inc) = 4 /\
    Forall2 same_question (DNSIncoming.questions inc) (DNSOutgoing.questions out) /\
    Forall2 same_record (DNSIncoming.answers inc) (DNSOutgoing.answers out).
Proof.
  intros out0 out1 out2 out3 out4 out.
  destruct (C1_packet_roundtrip 5000 out eq_refl) as [Hret Hparse].
  destruct Hret as (p & m' & E & Hlen); [reflexivity | vm_compute; discriminate |].
  assert (Hb : (Z.of_nat (List.length p) <= 16384)%Z).
  { assert (Hw : (Z.of_nat (wire_bound out) <= 16384)%Z) by (vm_compute; discriminate).
    lia. }
  destruct (Hparse p m' E Hb) as (inc & Hi & Lq & La & Fq & Fa).
  exists p, m', inc. repeat split; assumption.
Defined.

(** * Further properties of the module *)

(** ** Remaining time to live *)

Lemma quot_1000_range (d t : Z) :
  (d <= 1000 * t)%Z -> (0 <= t)%Z -> (0 <= Z.max 0 (Z.quot d 1000) <= t)%Z.
Proof.
  intros Hd Ht. split; [lia |]. apply Z.max_lub; [exact Ht |].
  destruct (Z_le_gt_dec 0 d) as [H0|H0].
  - rewrite Z.quot_div_nonneg by lia. apply Z.div_le_upper_bound; lia.
  - pose proof (Z.quot_le_mono d 0 1000 ltac:(lia) ltac:(lia)) as H.
    rewrite Z.quot_0_l in H by lia. lia.
Qed.

(** X1. For a record with a TTL of 0 to 2^32-1 seconds, from its creation on
    the remaining TTL lies between 0 and the TTL, it is 0 once the record has
    expired, and [write_int] accepts it. *)
Theorem X1_remaining_ttl_range (r : DNSRecord.t) (now : Z) (out : DNSOutgoing.t) :
  (0 <= DNSRecord.ttl r < 2 ^ 32)%Z ->
  (DNSRecord.created r <= now)%Z ->
  (0 <= DNSRecord.get_remaining_ttl r now <= DNSRecord.ttl r)%Z /\
  (DNSRecord.is_expired r now = true -> DNSRecord.get_remaining_ttl r now = 0%Z) /\
  exists out', DNSOutgoing.write_int (DNSRecord.get_remaining_ttl r now) out = Ok out'.
Proof.
  intros Httl Hnow.
  assert (Hr : (0 <= DNSRecord.get_remaining_ttl r now <= DNSRecord.ttl r)%Z).
  { unfold DNSRecord.get_remaining_ttl, DNSRecord.get_expiration_time.
    apply quot_1000_range; lia. }
  split; [exact Hr | split].
  - unfold DNSRecord.is_expired, DNSRecord.get_remaining_ttl. intros He.
    apply Z.leb_le in He.
    set (d := (DNSRecord.get_expiration_time r 100 - now)%Z).
    assert (Hd : (d <= 0)%Z) by (unfold d; lia).
    pose proof (Z.quot_le_mono d 0 1000 ltac:(lia) Hd) as H.
    rewrite Z.quot_0_l in H by lia. lia.
  - unfold DNSOutgoing.write_int, DNSOutgoing.pack.
    rewrite pack_I_total; [cbn [bind]; eexists; reflexivity |].
    unfold u32. apply andb_true_intro. split; [apply Z.leb_le | apply Z.ltb_lt]; lia.
Qed.

Lemma X1_remaining_ttl_range_witness :
  let r := DNSAddress 1000 "ash-2.local." _TYPE_A _CLASS_IN 120 [x0a; x00; x01; x02] in
  (0 <= DNSRecord.get_remaining_ttl r 61500 <= 120)%Z /\
  (DNSRecord.is_expired r 61500 = true -> DNSRecord.get_remaining_ttl r 61500 = 0%Z) /\
  exists out',
    DNSOutgoing.write_int (DNSRecord.get_remaining_ttl r 61500)
                          (DNSOutgoing.__init__ 0 true) = Ok out'.
Proof.
  intros r.
  apply (X1_remaining_ttl_range r 61500 (DNSOutgoing.__init__ 0 true));
    [simpl; lia | simpl; lia].
Defined.

(** X2. A record whose TTL is not negative and that has expired is stale,
    and stays expired and stale at every later time. *)
Theorem X2_expired_is_stale (r : DNSRecord.t) (now now' : Z) :
  (0 <= DNSRecord.ttl r)%Z ->
  DNSRecord.is_expired r now = true ->
  (now <= now')%Z ->
  DNSRecord.is_stale r now = true /\
  DNSRecord.is_expired r now' = true /\
  DNSRecord.is_stale r now' = true.
Proof.
  unfold DNSRecord.is_expired, DNSRecord.is_stale, DNSRecord.get_expiration_time.
  intros Httl He Hle. apply Z.leb_le in He.
  repeat split; apply Z.leb_le; lia.
Qed.

Lemma X2_expired_is_stale_witness :
  let r := DNSAddress 1000 "ash-2.local." _TYPE_A _CLASS_IN 120 [x0a; x00; x01; x02] in
  DNSRecord.is_stale r 121000 = true /\
  DNSRecord.is_expired r 200000 = true /\
  DNSRecord.is_stale r 200000 = true.
Proof.
  intros r. apply (X2_expired_is_stale r 121000 200000); [simpl; lia | reflexivity | lia].
Defined.

(** ** What the parser guarantees on arbitrary bytes *)

(** X3. A packet of fewer than 12 bytes has no header: the constructor of
    [DNSIncoming] raises the error of [struct.unpack]. *)
Theorem X3_short_packet_raises (now : Z) (data : bytes) :
  List.length data < 12 ->
  DNSIncoming.__init__ now data = Raise StructError.
Proof.
  intros Hlen. unfold DNSIncoming.__init__, DNSIncoming.read_header, DNSIncoming.unpack.
  cbv zeta. cbn [DNSIncoming.data DNSIncoming.offset].
  unfold struct_unpack, slice. rewrite drop_0, length_take.
  change (calcsize [fmt_H; fmt_H; fmt_H; fmt_H; fmt_H; fmt_H]) with 12.
  destruct (Nat.eqb_spec (12 `min` List.length data) 12) as [E|E]; [lia | reflexivity].
Qed.

Lemma X3_short_packet_raises_witness :
  DNSIncoming.__init__ 0 [x00; x00; x84; x00; x00; x00; x00; x01; x00; x00; x00]
  = Raise StructError.
Proof. apply X3_short_packet_raises. simpl. lia. Defined.

Lemma land_bit15 (f : Z) :
  Z.land f 0x8000 = 0%Z \/ Z.land f 0x8000 = 0x8000%Z.
Proof.
  change 0x8000%Z with (2 ^ 15)%Z.
  destruct (Z.testbit f 15) eqn:E.
  - right. apply Z.bits_inj'. intros n Hn. rewrite Z.land_spec, Z.pow2_bits_eqb by lia.
    destruct (Z.eqb_spec 15 n) as [<-|]; [rewrite E; reflexivity | apply andb_false_r].
  - left. apply Z.bits_inj'. intros n Hn.
    rewrite Z.land_spec, Z.pow2_bits_eqb, Z.bits_0 by lia.
    destruct (Z.eqb_spec 15 n) as [<-|]; [rewrite E; reflexivity | apply andb_false_r].
Qed.

(** X4. Every message is a query or a response and not both, whatever its
    flags are. *)
Theorem X4_query_xor_response (msg : DNSIncoming.t) :
  DNSIncoming.is_query msg = negb (DNSIncoming.is_response msg).
Proof.
  unfold DNSIncoming.is_query, DNSIncoming.is_response.
  unfold _FLAGS_QR_MASK, _FLAGS_QR_QUERY, _FLAGS_QR_RESPONSE.
  destruct (land_bit15 (DNSIncoming.flags msg)) as [-> | ->]; reflexivity.
Qed.

Section parser_frames.

Import DNSIncoming.

Lemma same_packet_refl (s : DNSIncoming.t) : same_packet s s.
Proof. repeat split. Qed.

Lemma same_packet_trans (s1 s2 s3 : DNSIncoming.t) :
  same_packet s1 s2 -> same_packet s2 s3 -> same_packet s1 s3.
Proof.
  unfold same_packet. intros (A1 & A2 & A3 & A4 & A5 & A6 & A7 & A8)
    (B1 & B2 & B3 & B4 & B5 & B6 & B7 & B8).
  repeat split; congruence.
Qed.

Lemma moved_refl (s : DNSIncoming.t) : moved s s.
Proof. exists (offset s). symmetry. apply set_offset_same. Qed.

Lemma moved_trans (s1 s2 s3 : DNSIncoming.t) : moved s1 s2 -> moved s2 s3 -> moved s1 s3.
Proof. intros [o ->] [o' ->]. exists o'. apply set_offset_set_offset. Qed.

Lemma moved_same_packet (s s' : DNSIncoming.t) :
  moved s s' -> same_packet s s' /\ questions s' = questions s /\ answers s' = answers s.
Proof. intros [o ->]. repeat split. Qed.

Lemma read_name_moved (s s' : DNSIncoming.t) (name : string) :
  read_name s = Ok (name, s') -> moved s s'.
Proof.
  unfold read_name. intros H. apply bind_Ok in H as ([n o] & _ & H).
  injection H as _ <-. eexists. reflexivity.
Qed.

Lemma unpack_moved (format : list field) (s s' : DNSIncoming.t) (info : list Z) :
  unpack format s = Ok (info, s') ->
  moved s s' /\ List.length info = List.length format.
Proof.
  unfold unpack. cbv zeta. intros H. apply bind_Ok in H as (i & Hi & H).
  injection H as -> <-. split; [eexists; reflexivity |].
  unfold struct_unpack in Hi.
  destruct (List.length _ =? calcsize format); [| discriminate].
  injection Hi as <-. clear. generalize (slice (data s) (offset s) (calcsize format)).
  induction format as [|f format IH]; intros bs; [reflexivity |].
  change (unpack_fields (f :: format) bs)
    with (unpack_field f (take (field_size f) bs)
          :: unpack_fields format (drop (field_size f) bs)).
  cbn [List.length]. rewrite IH. reflexivity.
Qed.

Lemma land_mask_range (c : Z) : (0 <= Z.land c _CLASS_MASK < 2 ^ 15)%Z.
Proof.
  change _CLASS_MASK with (Z.ones 15). rewrite Z.land_ones by lia.
  apply Z.mod_pos_bound. lia.
Qed.

Lemma read_question_frame (s s' : DNSIncoming.t) :
  read_question s = Ok s' ->
  same_packet s s' /\ answers s' = answers s /\
  exists q, questions s' = questions s ++ [q] /\ parsed_question q.
Proof.
  unfold read_question. intros H.
  apply bind_Ok in H as ([name s1] & Hn & H).
  apply bind_Ok in H as ([info s2] & Hu & H).
  apply read_name_moved in Hn. apply unpack_moved in Hu as [Hu Hl].
  pose proof (moved_trans _ _ _ Hn Hu) as [o ->].
  destruct info as [|type [|class_ [|]]]; try discriminate.
  injection H as <-. repeat split.
  eexists. split; [reflexivity |]. split; [reflexivity | apply land_mask_range].
Qed.

Lemma read_rdata_frame (now : Z) (domain : string) (type class_ ttl length : Z)
    (s s' : DNSIncoming.t) (rec : option DNSRecord.t) :
  read_rdata now domain type class_ ttl length s = Ok (rec, s') ->
  moved s s' /\
  match rec with
  | Some r =>
      r = DNSRecord.__init__ now domain type class_ ttl (DNSRecord.payload r) /\
      payload_of_type type (DNSRecord.payload r) = true
  | None => True
  end.
Proof.
  unfold read_rdata. intros H.
  destruct (type =? _TYPE_A)%Z eqn:EA.
  { injection H as <- <-. split; [eexists; reflexivity |].
    split; [reflexivity |]. cbn. rewrite EA. reflexivity. }
  destruct ((type =? _TYPE_CNAME)%Z || (type =? _TYPE_PTR)%Z) eqn:EP.
  { apply bind_Ok in H as ([alias s1] & Hn & H). injection H as <- <-.
    split; [exact (read_name_moved _ _ _ Hn) |].
    split; [reflexivity |]. cbn. exact EP. }
  destruct (type =? _TYPE_TXT)%Z eqn:ET.
  { injection H as <- <-. split; [eexists; reflexivity |].
    split; [reflexivity |]. cbn. rewrite ET. reflexivity. }
  destruct (type =? _TYPE_SRV)%Z eqn:ES.
  { apply bind_Ok in H as ([p s1] & H1 & H). apply bind_Ok in H as ([w s2] & H2 & H).
    apply bind_Ok in H as ([q s3] & H3 & H). apply bind_Ok in H as ([sv s4] & H4 & H).
    injection H as <- <-.
    assert (Hm : forall v a b, read_unsigned_short a = Ok (v, b) -> moved a b).
    { intros v a b Hv. unfold read_unsigned_short in Hv.
      apply bind_Ok in Hv as ([i a'] & Hu & Hv). apply unpack_moved in Hu as [Hu _].
      destruct i as [|x [|]]; try discriminate. injection Hv as _ <-. exact Hu. }
    split.
    - eapply moved_trans; [exact (Hm _ _ _ H1) |].
      eapply moved_trans; [exact (Hm _ _ _ H2) |].
      eapply moved_trans; [exact (Hm _ _ _ H3) |]. exact (read_name_moved _ _ _ H4).
    - split; [reflexivity |]. cbn. exact ES. }
  destruct (type =? _TYPE_HINFO)%Z eqn:EH.
  { assert (Hm : forall v a b, read_character_string a = Ok (v, b) -> moved a b).
    { intros v a b Hv. unfold read_character_string in Hv.
      apply bind_Ok in Hv as (l & _ & Hv). cbv zeta in Hv. unfold read_string in Hv.
      injection Hv as _ <-. eexists. apply set_offset_set_offset. }
    apply bind_Ok in H as ([cpu s1] & H1 & H). apply bind_Ok in H as ([os s2] & H2 & H).
    injection H as <- <-. split.
    - eapply moved_trans; [exact (Hm _ _ _ H1) | exact (Hm _ _ _ H2)].
    - split; [reflexivity |]. cbn. exact EH. }
  destruct (type =? _TYPE_AAAA)%Z eqn:E6.
  { injection H as <- <-. split; [eexists; reflexivity |].
    split; [reflexivity |]. cbn. rewrite E6. apply orb_true_r. }
  injection H as <- <-. split; [eexists; reflexivity | exact I].
Qed.

Lemma parsed_record_init (now : Z) (domain : string) (type class_ ttl : Z)
    (payload : rdata) :
  payload_of_type type payload = true ->
  parsed_record now (DNSRecord.__init__ now domain type class_ ttl payload).
Proof.
  intros Hp. split; [reflexivity | split; [reflexivity | split; [| exact Hp]]].
  apply land_mask_range.
Qed.

Lemma read_other_frame (now : Z) (s s' : DNSIncoming.t) :
  read_other now s = Ok s' ->
  same_packet s s' /\ questions s' = questions s /\
  (answers s' = answers s \/
   exists r, answers s' = answers s ++ [r] /\ parsed_record now r).
Proof.
  unfold read_other. intros H.
  apply bind_Ok in H as ([domain s1] & Hn & H).
  apply bind_Ok in H as ([info s2] & Hu & H).
  apply read_name_moved in Hn. apply unpack_moved in Hu as [Hu Hl].
  destruct info as [|type [|class_ [|ttl [|length [|]]]]]; try discriminate.
  apply bind_Ok in H as ([rec s3] & Hr & H).
  apply read_rdata_frame in Hr as [Hr Hrec].
  pose proof (moved_trans _ _ _ (moved_trans _ _ _ Hn Hu) Hr) as [o ->].
  destruct rec as [r|]; injection H as <-.
  - repeat split. right. exists r. split; [reflexivity |].
    destruct Hrec as [-> Hp]. apply parsed_record_init. exact Hp.
  - repeat split. left. reflexivity.
Qed.

Lemma read_questions_frame (n : nat) :
  forall s s' : DNSIncoming.t,
    repeat_n n read_question s = Ok s' ->
    same_packet s s' /\ answers s' = answers s /\
    exists qs, questions s' = questions s ++ qs /\ List.length qs = n /\
               Forall parsed_question qs.
Proof.
  induction n as [|n IH]; intros s s' H.
  - injection H as <-. split; [apply same_packet_refl | split; [reflexivity |]].
    exists []. rewrite app_nil_r. repeat split. constructor.
  - cbn [repeat_n] in H. apply bind_Ok in H as (s1 & H1 & H).
    apply read_question_frame in H1 as (P1 & A1 & q & Q1 & Hq).
    apply IH in H as (P2 & A2 & qs & Q2 & L2 & F2).
    split; [exact (same_packet_trans _ _ _ P1 P2) | split; [congruence |]].
    exists (q :: qs). rewrite Q2, Q1, <- app_assoc. repeat split.
    + cbn. rewrite L2. reflexivity.
    + constructor; assumption.
Qed.

Lemma read_others_frame (now : Z) (n : nat) :
  forall s s' : DNSIncoming.t,
    repeat_n n (read_other now) s = Ok s' ->
    same_packet s s' /\ questions s' = questions s /\
    exists rs, answers s' = answers s ++ rs /\ List.length rs <= n /\
               Forall (parsed_record now) rs.
Proof.
  induction n as [|n IH]; intros s s' H.
  - injection H as <-. split; [apply same_packet_refl | split; [reflexivity |]].
    exists []. rewrite app_nil_r. repeat split; [reflexivity | constructor].
  - cbn [repeat_n] in H. apply bind_Ok in H as (s1 & H1 & H).
    apply read_other_frame in H1 as (P1 & Q1 & A1).
    apply IH in H as (P2 & Q2 & rs & A2 & L2 & F2).
    split; [exact (same_packet_trans _ _ _ P1 P2) | split; [congruence |]].
    destruct A1 as [A1 | (r & A1 & Hr)].
    + exists rs. rewrite A2, A1. repeat split; [lia | exact F2].
    + exists (r :: rs). rewrite A2, A1, <- app_assoc. repeat split.
      * cbn. lia.
      * constructor; assumption.
Qed.

End parser_frames.

(** X5. Whatever the bytes are, a message that the constructor of
    [DNSIncoming] returns holds as many questions as its header counts, at
    most as many records as the header counts answers and additionals (the
    count of the authorities is stored in [num_quthorities], and
    [num_authorities] stays 0), and every record carries the time of parsing
    as its creation time, the lower-case name as its key, a class below 2^15
    and the payload class of its type. *)
Theorem X5_parsed_message_invariants (now : Z) (data : bytes) (msg : DNSIncoming.t) :
  DNSIncoming.__init__ now data = Ok msg ->
  DNSIncoming.data msg = data /\
  DNSIncoming.num_authorities msg = 0%Z /\
  List.length (DNSIncoming.questions msg) = Z.to_nat (DNSIncoming.num_questions msg) /\
  List.length (DNSIncoming.answers msg)
  <= Z.to_nat (DNSIncoming.num_answers msg + DNSIncoming.num_additionals msg) /\
  Forall parsed_question (DNSIncoming.questions msg) /\
  Forall (parsed_record now) (DNSIncoming.answers msg).
Proof.
  unfold DNSIncoming.__init__. cbv zeta. intros H.
  apply bind_Ok in H as (s1 & H1 & H). apply bind_Ok in H as (s2 & H2 & H).
  unfold DNSIncoming.read_header in H1.
  apply bind_Ok in H1 as ([info s0] & Hu & H1).
  apply unpack_moved in Hu as [[o ->] _].
  destruct info as [|i [|f [|nq [|na [|nu [|nd [|]]]]]]]; try discriminate.
  injection H1 as <-.
  unfold DNSIncoming.read_questions in H2. cbn [DNSIncoming.num_questions] in H2.
  apply read_questions_frame in H2 as (P2 & A2 & qs & Q2 & L2 & F2).
  unfold DNSIncoming.read_others in H. cbv zeta in H.
  apply read_others_frame in H as (P3 & Q3 & rs & A3 & L3 & F3).
  destruct (same_packet_trans _ _ _ P2 P3) as (D & _ & _ & Nq & Na & Nu & _ & Nd).
  destruct P2 as (_ & _ & _ & _ & Na2 & Nu2 & _ & Nd2).
  cbn in D, Nq, Na, Nu, Nd, Q2, A2, Na2, Nu2, Nd2. rewrite Na2, Nu2, Nd2 in L3.
  rewrite Q3, Q2, A3, A2, D, Nu, Nq, Na, Nd. cbn [app].
  repeat split; try assumption. rewrite Z.add_0_r in L3. exact L3.
Qed.

Lemma X5_parsed_message_invariants_witness :
  let data := [x00; x00; x84; x00; x00; x00; x00; x01; x00; x00; x00; x00;
               x01; x61; x00; x00; x01; x80; x01; x00; x00; x00; x3c; x00; x04;
               x0a; x00; x01; x02] in
  exists msg,
    DNSIncoming.__init__ 5000 data = Ok msg /\
    List.length (DNSIncoming.answers msg) = 1 /\
    Forall (parsed_record 5000) (DNSIncoming.answers msg).
Proof.
  intros data.
  destruct (DNSIncoming.__init__ 5000 data) as [msg|] eqn:E;
    [| vm_compute in E; discriminate].
  destruct (X5_parsed_message_invariants 5000 data msg E) as (_ & _ & _ & _ & _ & F).
  exists msg. split; [reflexivity | split; [| exact F]].
  vm_compute in E. injection E as <-. reflexivity.
Defined.

(** ** The message received *)

Section message_received.

Import DNSIncoming Wire.

Lemma u32_range (v : Z) : u32 v = true -> (0 <= v < 2 ^ 32)%Z.
Proof. unfold u32. intros H. apply andb_prop in H as [H1 H2]. lia. Qed.

Lemma be_decode_encode_4 (v : Z) :
  (0 <= v < 2 ^ 32)%Z -> be_decode 0 (be_encode 4 v) = v.
Proof.
  intros H. unfold be_encode, be_decode.
  change (256 ^ Z.of_nat 3)%Z with 16777216%Z. change (256 ^ Z.of_nat 2)%Z with 65536%Z.
  change (256 ^ Z.of_nat 1)%Z with 256%Z. change (256 ^ Z.of_nat 0)%Z with 1%Z.
  rewrite Z.div_1_r.
  rewrite !Z_of_byte_of_Z by (apply Z.mod_pos_bound; lia).
  rewrite (Z.mod_small (v / 16777216)) by
    (split; [apply Z.div_pos; lia | apply Z.div_lt_upper_bound; lia]).
  pose proof (Z.div_mod v 256 ltac:(lia)).
  pose proof (Z.div_mod (v / 256) 256 ltac:(lia)).
  pose proof (Z.div_mod (v / 256 / 256) 256 ltac:(lia)).
  rewrite !Z.div_div in * by lia.
  change (256 * 256)%Z with 65536%Z in *. change (65536 * 256)%Z with 16777216%Z in *.
  lia.
Qed.

Lemma unpack_i_encode (v : Z) :
  u32 v = true -> unpack_field fmt_i (be_encode 4 v) = received_ttl v.
Proof.
  intros H. apply u32_range in H. unfold unpack_field, received_ttl.
  cbv zeta. rewrite be_decode_encode_4 by exact H. reflexivity.
Qed.

Lemma read_question_exact (q : DNSEntry.t) names pos b names' pre rest
    (self : DNSIncoming.t) :
  question_ok q = true ->
  enc_question q names pos = Ok (b, names') ->
  table_ok names pre ->
  List.length pre = pos ->
  data self = pre ++ b ++ rest ->
  (Z.of_nat (List.length (data self)) <= 16384)%Z ->
  offset self = pos ->
  read_question self
  = Ok (append_question (received_question q) (set_offset (pos + List.length b) self)) /\
  table_ok names' (pre ++ b).
Proof.
  intros Hq Henc Htab Hpos Hdata Hlen Hoff.
  unfold question_ok in Hq. apply andb_prop in Hq as [Hq Hc].
  apply andb_prop in Hq as [Hn Ht].
  unfold enc_question in Henc.
  apply seq_Ok in Henc as (nb & n1 & b2 & En & E2 & ->).
  apply seq_Ok in E2 as (tb & n2 & cb & Et & Ec & ->).
  apply enc_short_Ok in Et as (_ & -> & ->). apply enc_short_Ok in Ec as (Hc16 & -> & ->).
  destruct (parses_name _ Hn names pos nb n1 pre
              ((be_encode 2 (DNSEntry.type q) ++ be_encode 2 (DNSEntry.class_ q)) ++ rest)
              self En Htab Hpos) as [Hr Htab'];
    [rewrite Hdata, <- !app_assoc; reflexivity | exact Hlen | exact Hoff |].
  split.
  - unfold read_question. rewrite Hr. cbn [bind].
    rewrite (unpack_at [fmt_H; fmt_H] (pre ++ nb)
               (be_encode 2 (DNSEntry.type q) ++ be_encode 2 (DNSEntry.class_ q)) rest).
    + cbn [bind].
      change (unpack_fields [fmt_H; fmt_H]
                (be_encode 2 (DNSEntry.type q) ++ be_encode 2 (DNSEntry.class_ q)))
        with [unpack_field fmt_H (be_encode 2 (DNSEntry.type q));
              unpack_field fmt_H (be_encode 2 (DNSEntry.class_ q))].
      rewrite !unpack_H_encode by assumption.
      rewrite set_offset_set_offset. unfold received_question. do 3 f_equal.
      rewrite !length_app, !length_be_encode. lia.
    + rewrite data_set_offset, Hdata, <- !app_assoc. reflexivity.
    + rewrite offset_set_offset, length_app. lia.
    + reflexivity.
  - rewrite app_assoc. apply table_ok_app. exact Htab'.
Qed.

Lemma read_other_exact (now : Z) (mc : bool) (r : DNSRecord.t) (time_ : Z)
    names pos b names' pre rest (self : DNSIncoming.t) :
  answer_ok (r, time_) = true ->
  enc_record mc r time_ names pos = Ok (b, names') ->
  table_ok names pre ->
  List.length pre = pos ->
  data self = pre ++ b ++ rest ->
  (Z.of_nat (List.length (data self)) <= 16384)%Z ->
  offset self = pos ->
  read_other now self
  = Ok (append_answer (received_record now mc (r, time_))
                      (set_offset (pos + List.length b) self)) /\
  table_ok names' (pre ++ b).
Proof.
  intros Hok Henc Htab Hpos Hdata Hlen Hoff. subst pos.
  unfold answer_ok in Hok.
  apply andb_prop in Hok as [Hok Httl]. apply andb_prop in Hok as [Hok Hp].
  apply andb_prop in Hok as [Hn Hc].
  unfold enc_record in Henc.
  apply seq_Ok in Henc as (nb & n1 & b1 & En & Henc & ->).
  apply seq_Ok in Henc as (tb & n2 & b2 & Et & Henc & ->).
  apply seq_Ok in Henc as (cb & n3 & b3 & Ec & Henc & ->).
  apply seq_Ok in Henc as (ib & n4 & sb & Ei & Es & ->).
  apply enc_short_Ok in Et as (Ht16 & -> & ->).
  apply enc_short_Ok in Ec as (Hc16 & -> & ->).
  apply enc_int_Ok in Ei as (Hi32 & -> & ->).
  unfold enc_rdata_sized in Es.
  apply bind_Ok in Es as ([rd nr] & Erd & Es).
  apply bind_Ok in Es as (lb & El & Es).
  injection Es as <- <-. apply pack_H_Ok in El as (Hl16 & ->).
  rewrite !length_be_encode in Erd.
  set (ty := DNSRecord.type r) in *. set (cl := wire_class mc r) in *.
  set (tl := wire_ttl r time_) in *. set (ln := Z.of_nat (List.length rd)) in *.
  set (info := be_encode 2 ty ++ be_encode 2 cl ++ be_encode 4 tl ++ be_encode 2 ln).
  assert (Hinfo : List.length info = 10).
  { unfold info. rewrite !length_app, !length_be_encode. reflexivity. }
  assert (Hdata' : data self = pre ++ nb ++ info ++ rd ++ rest).
  { rewrite Hdata. unfold info. rewrite <- !app_assoc. reflexivity. }
  destruct (parses_name _ Hn names _ nb n1 pre (info ++ rd ++ rest) self
              En Htab eq_refl Hdata' Hlen Hoff) as [Hr Htab1].
  destruct (read_rdata_step now (DNSRecord.name r) ty cl (received_ttl tl)
              (DNSRecord.payload r) n1 (List.length pre + List.length nb + 2 + 2 + 4 + 2)
              rd nr ((pre ++ nb) ++ info) rest
              (set_offset (List.length pre + List.length nb + 10) self) Hp Erd)
    as (r' & Hrd & Hpay & Hent & Htab2).
  { apply table_ok_app. exact Htab1. }
  { rewrite !length_app, Hinfo. lia. }
  { rewrite data_set_offset, Hdata', <- !app_assoc. reflexivity. }
  { exact Hlen. }
  { rewrite offset_set_offset. lia. }
  destruct (read_rdata_frame _ _ _ _ _ _ _ _ _ Hrd) as [_ [Hr' _]].
  rewrite Hpay in Hr'. subst r'.
  split.
  - unfold read_other. rewrite Hr. cbn [bind].
    rewrite (unpack_at [fmt_H; fmt_H; fmt_i; fmt_H] (pre ++ nb) info (rd ++ rest)).
    + cbn [bind].
      change (unpack_fields [fmt_H; fmt_H; fmt_i; fmt_H] info)
        with [unpack_field fmt_H (be_encode 2 ty); unpack_field fmt_H (be_encode 2 cl);
              unpack_field fmt_i (be_encode 4 tl); unpack_field fmt_H (be_encode 2 ln)].
      rewrite !unpack_H_encode by assumption. rewrite unpack_i_encode by assumption.
      fold ln in Hrd.
      rewrite set_offset_set_offset, length_app, Hinfo, Hrd. cbn [bind].
      rewrite set_offset_set_offset. unfold received_record. cbn [fst snd].
      fold ty cl tl. do 3 f_equal.
      unfold info. rewrite !length_app, !length_be_encode. lia.
    + rewrite data_set_offset, Hdata', <- !app_assoc. reflexivity.
    + rewrite offset_set_offset, length_app. lia.
    + exact Hinfo.
  - unfold info in Htab2. rewrite <- !app_assoc in Htab2. exact Htab2.
Qed.

Lemma read_questions_exact (qs : list DNSEntry.t) :
  forall names pos b names' pre rest (self : DNSIncoming.t),
    forallb question_ok qs = true ->
    seq_list enc_question qs names pos = Ok (b, names') ->
    table_ok names pre ->
    List.length pre = pos ->
    data self = pre ++ b ++ rest ->
    (Z.of_nat (List.length (data self)) <= 16384)%Z ->
    offset self = pos ->
    repeat_n (List.length qs) read_question self
    = Ok (with_questions (map received_question qs)
            (set_offset (pos + List.length b) self)) /\
    table_ok names' (pre ++ b).
Proof.
  induction qs as [|q qs IH]; intros names pos b names' pre rest self Hok Henc Htab Hpos
    Hdata Hlen Hoff.
  - injection Henc as <- <-. split.
    + cbn [List.length repeat_n map]. rewrite Nat.add_0_r, <- Hoff, set_offset_same,
        with_questions_nil. reflexivity.
    + rewrite app_nil_r. exact Htab.
  - cbn [forallb] in Hok. apply andb_prop in Hok as [Hq Hok].
    cbn [seq_list] in Henc.
    apply seq_Ok in Henc as (b1 & n1 & b2 & E1 & E2 & ->).
    destruct (read_question_exact q names pos b1 n1 pre (b2 ++ rest) self Hq E1 Htab Hpos)
      as (Hr & Htab1);
      [rewrite Hdata, <- app_assoc; reflexivity | exact Hlen | exact Hoff |].
    destruct (IH n1 (pos + List.length b1) b2 names' (pre ++ b1) rest
                (append_question (received_question q)
                   (set_offset (pos + List.length b1) self)) Hok E2 Htab1)
      as (Hrs & Htab2).
    { rewrite length_app, Hpos. reflexivity. }
    { change (data (append_question (received_question q)
                      (set_offset (pos + List.length b1) self)))
        with (data self). rewrite Hdata, <- !app_assoc. reflexivity. }
    { exact Hlen. }
    { reflexivity. }
    split.
    + cbn [List.length repeat_n map]. rewrite Hr. cbn [bind]. rewrite Hrs.
      rewrite with_questions_cons, length_app, Nat.add_assoc. reflexivity.
    + rewrite app_assoc. exact Htab2.
Qed.

Lemma read_others_exact (now : Z) (mc : bool) (rs : list (DNSRecord.t * Z)) :
  forall names pos b names' pre rest (self : DNSIncoming.t),
    forallb answer_ok rs = true ->
    seq_list (fun '(answer, time_) => enc_record mc answer time_) rs names pos
    = Ok (b, names') ->
    table_ok names pre ->
    List.length pre = pos ->
    data self = pre ++ b ++ rest ->
    (Z.of_nat (List.length (data self)) <= 16384)%Z ->
    offset self = pos ->
    repeat_n (List.length rs) (read_other now) self
    = Ok (with_answers (map (received_record now mc) rs)
            (set_offset (pos + List.length b) self)) /\
    table_ok names' (pre ++ b).
Proof.
  induction rs as [|[r time_] rs IH]; intros names pos b names' pre rest self Hok Henc Htab
    Hpos Hdata Hlen Hoff.
  - injection Henc as <- <-. split.
    + cbn [List.length repeat_n map]. rewrite Nat.add_0_r, <- Hoff, set_offset_same,
        with_answers_nil. reflexivity.
    + rewrite app_nil_r. exact Htab.
  - cbn [forallb] in Hok. apply andb_prop in Hok as [Hq Hok].
    cbn [seq_list] in Henc.
    apply seq_Ok in Henc as (b1 & n1 & b2 & E1 & E2 & ->).
    destruct (read_other_exact now mc r time_ names pos b1 n1 pre (b2 ++ rest) self
                Hq E1 Htab Hpos)
      as (Hr & Htab1);
      [rewrite Hdata, <- app_assoc; reflexivity | exact Hlen | exact Hoff |].
    destruct (IH n1 (pos + List.length b1) b2 names' (pre ++ b1) rest
                (append_answer (received_record now mc (r, time_))
                   (set_offset (pos + List.length b1) self)) Hok E2 Htab1)
      as (Hrs & Htab2).
    { rewrite length_app, Hpos. reflexivity. }
    { change (data (append_answer (received_record now mc (r, time_))
                      (set_offset (pos + List.length b1) self)))
        with (data self). rewrite Hdata, <- !app_assoc. reflexivity. }
    { exact Hlen. }
    { reflexivity. }
    split.
    + cbn [List.length repeat_n map]. rewrite Hr. cbn [bind]. rewrite Hrs.
      rewrite with_answers_cons, length_app, Nat.add_assoc. reflexivity.
    + rewrite app_assoc. exact Htab2.
Qed.

End message_received.

(** The parser returns exactly the message [received]. *)
Lemma packet_received (now : Z) (m : DNSOutgoing.t) (p : bytes) (m' : DNSOutgoing.t) :
  well_formed m = true ->
  DNSOutgoing.packet m = Ok (p, m') ->
  (Z.of_nat (List.length p) <= 16384)%Z ->
  DNSIncoming.__init__ now p = Ok (received now m p).
Proof.
  intros Hwf Hp Hlen. unfold well_formed in Hwf.
  repeat match type of Hwf with (_ && _) = true =>
    let H := fresh "W" in apply andb_prop in Hwf as [Hwf H] end.
  apply negb_true_iff in Hwf.
  apply bool_decide_eq_true in W6, W4. apply Nat.eqb_eq in W5.
  destruct (DNSOutgoing.authorities m) as [|] eqn:Hauth; [| discriminate].
  destruct (DNSOutgoing.additionals m) as [|] eqn:Hadd; [| discriminate].
  pose proof (packet_enc_packet m Hwf) as He. rewrite Hp in He.
  unfold Wire.enc_packet in He. rewrite W6, W5, W4 in He.
  apply bind_Ok in He as ([body nb] & Eb & He).
  apply bind_Ok in He as (h & Eh & He). injection He as <-.
  cbn [concat app] in Hlen |- *.
  unfold Wire.enc_body in Eb. rewrite Hauth, Hadd in Eb.
  apply seq_Ok in Eb as (bq & n1 & b1 & Eq & Eb & ->).
  apply seq_Ok in Eb as (ba & n2 & b2 & Ea & Eb & ->).
  injection Eb as <- <-.
  destruct (read_header_enc m h (bq ++ ba ++ []) Eh) as [Hh Hhd].
  rewrite Hauth, Hadd in Hhd. cbn [List.length] in Hhd.
  set (self1 := DNSIncoming.mk 12 (h ++ bq ++ ba ++ []) [] [] _ _ _ _ _ _ _) in Hhd.
  destruct (read_questions_exact (DNSOutgoing.questions m) ∅ 12 bq n1 h (ba ++ []) self1 W1 Eq
              (table_ok_empty h) Hh eq_refl Hlen eq_refl) as (Hq & Tq).
  destruct (read_others_exact now (DNSOutgoing.multicast m) (DNSOutgoing.answers m) n1
              (12 + List.length bq) ba n2 (h ++ bq) []
              (with_questions (map received_question (DNSOutgoing.questions m))
                 (DNSIncoming.set_offset (12 + List.length bq) self1))
              W0 Ea Tq)
    as (Hr & _).
  { rewrite length_app, Hh. reflexivity. }
  { cbn [with_questions DNSIncoming.data DNSIncoming.set_offset self1].
    rewrite <- app_assoc. reflexivity. }
  { exact Hlen. }
  { reflexivity. }
  unfold DNSIncoming.__init__. cbv zeta. rewrite Hhd. cbn [bind].
  unfold DNSIncoming.read_questions.
  change (DNSIncoming.num_questions self1)
    with (Z.of_nat (List.length (DNSOutgoing.questions m))).
  rewrite Nat2Z.id, Hq. cbn [bind].
  unfold DNSIncoming.read_others.
  change (Z.to_nat _) with
    (Z.to_nat (Z.of_nat (List.length (DNSOutgoing.answers m)) + 0 + Z.of_nat 0)).
  rewrite !Z.add_0_r, Nat2Z.id, Hr. f_equal.
  unfold received, with_answers, with_questions, DNSIncoming.set_offset, self1.
  cbn [DNSIncoming.offset DNSIncoming.data DNSIncoming.questions DNSIncoming.answers
       DNSIncoming.id DNSIncoming.flags DNSIncoming.num_questions DNSIncoming.num_answers
       DNSIncoming.num_authorities DNSIncoming.num_quthorities DNSIncoming.num_additionals
       app].
  f_equal. rewrite !length_app, Hh. cbn [List.length]. lia.
Qed.

Lemma is_response_testbit (msg : DNSIncoming.t) :
  DNSIncoming.is_response msg = Z.testbit (DNSIncoming.flags msg) 15.
Proof.
  unfold DNSIncoming.is_response, _FLAGS_QR_MASK, _FLAGS_QR_RESPONSE.
  change 0x8000%Z with (2 ^ 15)%Z.
  destruct (Z.testbit (DNSIncoming.flags msg) 15) eqn:E.
  - apply Z.eqb_eq. apply Z.bits_inj'. intros n Hn.
    rewrite Z.land_spec, Z.pow2_bits_eqb by lia.
    destruct (Z.eqb_spec 15 n) as [<-|]; [rewrite E; reflexivity | apply andb_false_r].
  - apply Z.eqb_neq. intros H.
    assert (H15 : Z.testbit (Z.land (DNSIncoming.flags msg) (2 ^ 15)) 15 = true).
    { rewrite H. apply Z.pow2_bits_true. lia. }
    rewrite Z.land_spec, E in H15. discriminate.
Qed.

(** X6. The header of a well-formed message survives the round trip: the
    parser, on a packet of at most 2^14 bytes that [packet()] returns,
    consumes the packet to its last byte and returns a message with the flags
    of the message sent, its identifier (0 for a multicast message) and its
    counts of questions and answers; the message is a response exactly when
    bit 15 of the flags is set, and a query otherwise. *)
Theorem X6_header_roundtrip (now : Z) (m : DNSOutgoing.t) (p : bytes) (m' : DNSOutgoing.t) :
  well_formed m = true ->
  DNSOutgoing.packet m = Ok (p, m') ->
  (Z.of_nat (List.length p) <= 16384)%Z ->
  exists msg : DNSIncoming.t,
    DNSIncoming.__init__ now p = Ok msg /\
    DNSIncoming.offset msg = List.length p /\
    DNSIncoming.flags msg = DNSOutgoing.flags m /\
    DNSIncoming.id msg = (if DNSOutgoing.multicast m then 0%Z else DNSOutgoing.id m) /\
    DNSIncoming.num_questions msg = Z.of_nat (List.length (DNSOutgoing.questions m)) /\
    DNSIncoming.num_answers msg = Z.of_nat (List.length (DNSOutgoing.answers m)) /\
    DNSIncoming.is_response msg = Z.testbit (DNSOutgoing.flags m) 15 /\
    DNSIncoming.is_query msg = negb (Z.testbit (DNSOutgoing.flags m) 15).
Proof.
  intros Hwf Hp Hlen. exists (received now m p).
  split; [exact (packet_received now m p m' Hwf Hp Hlen) |].
  repeat split.
  - apply is_response_testbit.
  - unfold DNSIncoming.is_query, _FLAGS_QR_QUERY.
    pose proof (is_response_testbit (received now m p)) as H.
    unfold DNSIncoming.is_response, _FLAGS_QR_RESPONSE in H.
    cbn [received DNSIncoming.flags] in *.
    destruct (land_bit15 (DNSOutgoing.flags m)) as [E|E];
      unfold _FLAGS_QR_MASK in *; rewrite E in *; rewrite <- H; reflexivity.
Qed.

Lemma X6_header_roundtrip_witness :
  let out := DNSOutgoing.__init__ (Z.lor _FLAGS_QR_RESPONSE _FLAGS_AA) true in
  let out := DNSOutgoing.add_question
               (DNSQuestion.__init__ "_http._tcp.local." _TYPE_PTR _CLASS_IN) out in
  let out := DNSOutgoing.add_answer_at_time
               (Some (DNSPointer 1000 "_http._tcp.local." _TYPE_PTR _CLASS_IN _DNS_TTL
                        "Paul's Test Web Site._http._tcp.local.")) 0 out in
  exists p m' msg,
    DNSOutgoing.packet out = Ok (p, m') /\
    DNSIncoming.__init__ 5000 p = Ok msg /\
    DNSIncoming.offset msg = List.length p /\
    DNSIncoming.flags msg = 0x8400%Z /\
    DNSIncoming.is_response msg = true.
Proof.
  intros out0 out1 out.
  destruct (DNSOutgoing.packet out) as [[p m']|] eqn:E; [| vm_compute in E; discriminate].
  assert (Hlen : (Z.of_nat (List.length p) <= 16384)%Z).
  { vm_compute in E. injection E as <- _. vm_compute. discriminate. }
  destruct (X6_header_roundtrip 5000 out p m' eq_refl E Hlen)
    as (msg & Hi & Ho & Hf & _ & _ & _ & Hr & _).
  exists p, m', msg. repeat split; assumption.
Defined.

Lemma land_unique_class (c : Z) :
  class_ok c = true ->
  Z.land c _CLASS_UNIQUE = 0%Z /\
  Z.land (Z.lor c _CLASS_UNIQUE) _CLASS_UNIQUE = _CLASS_UNIQUE.
Proof.
  intros Hc. pose proof (land_class_mask _ Hc) as Hm.
  assert (H0 : Z.land c _CLASS_UNIQUE = 0%Z).
  { rewrite <- Hm, <- Z.land_assoc.
    change (Z.land _CLASS_MASK _CLASS_UNIQUE) with 0%Z. apply Z.land_0_r. }
  split; [exact H0 |].
  rewrite Z.land_lor_distr_l, H0, Z.land_diag. reflexivity.
Qed.

(** X7. What a receiver holds of an answer of a well-formed message: the
    record is stamped with the time of parsing; its TTL is the TTL written
    (the TTL of the record for an answer added at time 0, the remaining TTL
    otherwise) when that is below 2^31, and that TTL less 2^32 from 2^31 on,
    since it is written unsigned and read signed; its class is the class of
    the record and its unique flag is kept in a multicast message and lost in
    a unicast one; and it is expired on arrival exactly when the TTL read is
    not positive. *)
Theorem X7_received_records (now : Z) (m : DNSOutgoing.t) (p : bytes) (m' : DNSOutgoing.t) :
  well_formed m = true ->
  DNSOutgoing.packet m = Ok (p, m') ->
  (Z.of_nat (List.length p) <= 16384)%Z ->
  exists msg : DNSIncoming.t,
    DNSIncoming.__init__ now p = Ok msg /\
    Forall2
      (fun (r' : DNSRecord.t) (answer : DNSRecord.t * Z) =>
         let r := fst answer in
         let written := if (snd answer =? 0)%Z then DNSRecord.ttl r
                        else DNSRecord.get_remaining_ttl r (snd answer) in
         DNSRecord.created r' = now /\
         DNSRecord.ttl r' = (if (written <? 2 ^ 31)%Z then written
                             else (written - 2 ^ 32)%Z) /\
         DNSRecord.name r' = DNSRecord.name r /\
         DNSRecord.key r' = lower (DNSRecord.name r) /\
         DNSRecord.type r' = DNSRecord.type r /\
         DNSRecord.class_ r' = DNSRecord.class_ r /\
         DNSRecord.unique r' = DNSRecord.unique r && DNSOutgoing.multicast m /\
         DNSRecord.payload r' = DNSRecord.payload r /\
         DNSRecord.is_expired r' now = (DNSRecord.ttl r' <=? 0)%Z)
      (DNSIncoming.answers msg) (DNSOutgoing.answers m).
Proof.
  intros Hwf Hp Hlen. exists (received now m p).
  split; [exact (packet_received now m p m' Hwf Hp Hlen) |].
  cbn [received DNSIncoming.answers].
  assert (Hok : forallb answer_ok (DNSOutgoing.answers m) = true).
  { unfold well_formed in Hwf.
    repeat match type of Hwf with (_ && _) = true =>
      let H := fresh "W" in apply andb_prop in Hwf as [Hwf H] end.
    assumption. }
  rewrite forallb_forall in Hok.
  induction (DNSOutgoing.answers m) as [|[r t] l IH]; [constructor |].
  cbn [map]. constructor; [| apply IH; intros x Hx; apply Hok; right; exact Hx].
  specialize (Hok (r, t) (or_introl eq_refl)). cbn [fst snd]. cbv zeta.
  unfold answer_ok in Hok.
  apply andb_prop in Hok as [Hok _]. apply andb_prop in Hok as [Hok _].
  apply andb_prop in Hok as [_ Hc].
  destruct (land_unique_class _ Hc) as [U0 U1].
  unfold received_record, received_ttl, Wire.wire_ttl. cbn [fst snd].
  unfold DNSRecord.__init__, DNSRecord.name, DNSRecord.key, DNSRecord.type,
    DNSRecord.class_, DNSRecord.unique, DNSRecord.is_expired,
    DNSRecord.get_expiration_time, DNSEntry.__init__.
  cbn [DNSRecord.entry DNSRecord.created DNSRecord.ttl DNSRecord.payload
       DNSEntry.name DNSEntry.key DNSEntry.type DNSEntry.class_ DNSEntry.unique].
  repeat split.
  - unfold Wire.wire_class. fold (DNSRecord.unique r) (DNSRecord.class_ r).
    destruct (DNSRecord.unique r && DNSOutgoing.multicast m);
      [apply land_unique_class_mask | apply land_class_mask]; exact Hc.
  - unfold Wire.wire_class. fold (DNSRecord.unique r) (DNSRecord.class_ r).
    unfold DNSRecord.class_ in U0, U1.
    destruct (DNSEntry.unique (DNSRecord.entry r) && DNSOutgoing.multicast m) eqn:E;
      unfold DNSRecord.unique, DNSRecord.class_; rewrite E;
      [rewrite U1 | rewrite U0]; reflexivity.
  - match goal with |- (?a <=? _)%Z = (?b <=? _)%Z =>
      destruct (Z.leb_spec a now), (Z.leb_spec b 0) end; try reflexivity; lia.
Qed.

Lemma X7_received_records_witness :
  let out := DNSOutgoing.__init__ (Z.lor _FLAGS_QR_RESPONSE _FLAGS_AA) true in
  let out := DNSOutgoing.add_answer_at_time
               (Some (DNSAddress 1000 "ash-2.local." _TYPE_A (Z.lor _CLASS_IN _CLASS_UNIQUE)
                        _DNS_TTL [x0a; x00; x01; x02])) 2000 out in
  let out := DNSOutgoing.add_answer_at_time
               (Some (DNSPointer 1000 "_http._tcp.local." _TYPE_PTR _CLASS_IN 4294967295
                        "Paul's Test Web Site._http._tcp.local.")) 0 out in
  exists p m' msg r1 r2,
    DNSOutgoing.packet out = Ok (p, m') /\
    DNSIncoming.__init__ 5000 p = Ok msg /\
    DNSIncoming.answers msg = [r1; r2] /\
    DNSRecord.ttl r1 = 3599%Z /\ DNSRecord.unique r1 = true /\
    DNSRecord.ttl r2 = (-1)%Z /\ DNSRecord.is_expired r2 5000 = true.
Proof.
  intros out0 out1 out.
  destruct (DNSOutgoing.packet out) as [[p m']|] eqn:E; [| vm_compute in E; discriminate].
  assert (Hlen : (Z.of_nat (List.length p) <= 16384)%Z).
  { vm_compute in E. injection E as <- _. vm_compute. discriminate. }
  destruct (X7_received_records 5000 out p m' eq_refl E Hlen) as (msg & Hi & F).
  remember (DNSOutgoing.answers out) as l eqn:El. vm_compute in El. subst l.
  apply Forall2_cons_inv_r in F as (r1 & l1 & H1 & F & E1).
  apply Forall2_cons_inv_r in F as (r2 & l2 & H2 & F & E2).
  apply Forall2_nil_inv_r in F. subst l2 l1.
  exists p, m', msg, r1, r2.
  destruct H1 as (_ & T1 & _ & _ & _ & _ & U1 & _).
  destruct H2 as (_ & T2 & _ & _ & _ & _ & _ & _ & X2).
  split; [reflexivity | split; [exact Hi | split; [exact E1 |]]].
  split; [rewrite T1; reflexivity | split; [rewrite U1; reflexivity |]].
  split; [rewrite T2; reflexivity | rewrite X2, T2; reflexivity].
Defined.

(** ** Looking records up in the cache *)

Section cache_lookup.

Import DNSCache.

Lemma list_find_None (x : DNSRecord.t) (l : list DNSRecord.t) :
  list_find x l = None <-> list_contains x l = false.
Proof.
  unfold list_contains. induction l as [|y l IH]; cbn; [tauto |].
  destruct (DNSRecord.__eq__ y x); cbn; [split; discriminate | exact IH].
Qed.

Lemma list_find_Some (x found : DNSRecord.t) (l : list DNSRecord.t) :
  list_find x l = Some found -> found ∈ l /\ DNSRecord.__eq__ found x = true.
Proof.
  induction l as [|y l IH]; cbn; [discriminate |].
  destruct (DNSRecord.__eq__ y x) eqn:E.
  - intros [= <-]. split; [left | exact E].
  - intros H. destruct (IH H) as [Hin He]. split; [right; exact Hin | exact He].
Qed.

Lemma list_find_app (x : DNSRecord.t) (l k : list DNSRecord.t) :
  list_find x (l ++ k)
  = match list_find x l with Some y => Some y | None => list_find x k end.
Proof.
  induction l as [|y l IH]; cbn; [reflexivity |].
  destruct (DNSRecord.__eq__ y x); [reflexivity | exact IH].
Qed.

Lemma list_remove_None (x : DNSRecord.t) (l : list DNSRecord.t) :
  list_remove x l = None <-> list_contains x l = false.
Proof.
  unfold list_contains. induction l as [|y l IH]; cbn; [tauto |].
  destruct (DNSRecord.__eq__ y x); cbn; [split; discriminate |].
  destruct (list_remove x l); [split; [discriminate | intros H; apply IH in H; discriminate]
                              | split; [intros _; apply IH; reflexivity | reflexivity]].
Qed.

Lemma get_None (entry : DNSRecord.t) (cache : DNSCache.t) :
  get entry cache = None
  <-> list_contains entry (entries_with_name (DNSRecord.key entry) cache) = false.
Proof.
  unfold get, entries_with_name.
  destruct (cache !! DNSRecord.key entry) as [l|]; cbn; [apply list_find_None | tauto].
Qed.

Lemma elem_of_entries (cache : DNSCache.t) (k : string) (l : list DNSRecord.t)
    (r : DNSRecord.t) :
  cache !! k = Some l -> r ∈ l -> r ∈ entries cache.
Proof.
  intros Hk Hr. rewrite (entries_lookup cache k). unfold entries_with_name.
  rewrite Hk. cbn. apply elem_of_app. left. exact Hr.
Qed.

Lemma list_contains_elem (x y : DNSRecord.t) (l : list DNSRecord.t) :
  y ∈ l -> DNSRecord.__eq__ y x = true -> list_contains x l = true.
Proof.
  intros Hy He. unfold list_contains. apply existsb_exists. exists y.
  split; [apply list_elem_of_In; exact Hy | exact He].
Qed.

End cache_lookup.

(** X8. [DNSCache.get] returns the first entry, in the bucket of the key
    of its argument, that compares equal to the argument, and [None] exactly
    when the bucket holds no such entry; after [add(entry)] it finds an entry
    equal to [entry] (the entry itself when it found none before), and
    [remove] of an entry that [get] does not find leaves the cache as it
    is. *)
Theorem X8_cache_get (entry : DNSRecord.t) (cache : DNSCache.t) :
  (DNSCache.get entry cache = None <->
   DNSCache.list_contains entry
     (DNSCache.entries_with_name (DNSRecord.key entry) cache) = false) /\
  (forall found : DNSRecord.t,
     DNSCache.get entry cache = Some found ->
     DNSRecord.__eq__ found entry = true /\
     exists before after,
       DNSCache.entries_with_name (DNSRecord.key entry) cache = before ++ found :: after /\
       DNSCache.list_contains entry before = false) /\
  (exists found : DNSRecord.t,
     DNSCache.get entry (DNSCache.add entry cache) = Some found /\
     DNSRecord.__eq__ found entry = true) /\
  (DNSCache.get entry cache = None ->
   DNSCache.get entry (DNSCache.add entry cache) = Some entry /\
   DNSCache.remove entry cache = cache).
Proof.
  split; [apply get_None | split; [| split]].
  - intros found. unfold DNSCache.get, DNSCache.entries_with_name.
    destruct (cache !! DNSRecord.key entry) as [l|]; [| discriminate]. cbn.
    induction l as [|y l IH]; cbn; [discriminate |].
    destruct (DNSRecord.__eq__ y entry) eqn:E.
    + intros [= <-]. split; [exact E |]. exists [], l. split; reflexivity.
    + intros H. destruct (IH H) as (He & before & after & -> & Hb).
      split; [exact He |]. exists (y :: before), after.
      split; [reflexivity |]. unfold DNSCache.list_contains in *. cbn.
      rewrite E. exact Hb.
  - unfold DNSCache.get, DNSCache.add. rewrite lookup_insert_eq, list_find_app.
    destruct (DNSCache.list_find entry (default [] (cache !! DNSRecord.key entry)))
      as [y|] eqn:E.
    + exists y. split; [reflexivity |]. apply list_find_Some in E as [_ E]. exact E.
    + exists entry. cbn. rewrite record_eq_refl. split; reflexivity.
  - intros Hg. split.
    + unfold DNSCache.get, DNSCache.add. rewrite lookup_insert_eq, list_find_app.
      unfold DNSCache.get in Hg.
      destruct (cache !! DNSRecord.key entry) as [l|]; cbn.
      * rewrite Hg. cbn. rewrite record_eq_refl. reflexivity.
      * rewrite record_eq_refl. reflexivity.
    + unfold DNSCache.remove. unfold DNSCache.get in Hg.
      destruct (cache !! DNSRecord.key entry) as [l|]; [| reflexivity].
      apply list_find_None, list_remove_None in Hg. rewrite Hg. reflexivity.
Qed.

(** X9. The buckets are keyed by the lower-case name, and
    [entries_with_name] looks its argument up as it is: a record with an
    ASCII name that has an upper-case letter is not among
    [entries_with_name(name)] after [add], and a record with a lower-case
    ASCII name is the last entry of it. *)
Theorem X9_entries_with_name_case (now : Z) (name : string) (type class_ ttl : Z)
    (payload : rdata) (cache : DNSCache.t) :
  is_ascii name = true ->
  let r := DNSRecord.__init__ now name type class_ ttl payload in
  (lower name <> name ->
   DNSCache.entries_with_name name (DNSCache.add r cache)
   = DNSCache.entries_with_name name cache) /\
  (lower name = name ->
   DNSCache.entries_with_name name (DNSCache.add r cache)
   = DNSCache.entries_with_name name cache ++ [r]).
Proof.
  intros _ r. unfold DNSCache.entries_with_name, DNSCache.add.
  change (DNSRecord.key r) with (lower name). split; intros H.
  - rewrite lookup_insert_ne by exact H. reflexivity.
  - rewrite H, lookup_insert_eq. reflexivity.
Qed.

Lemma X9_entries_with_name_case_witness :
  let r := DNSAddress 1000 "Ash-2.local." _TYPE_A _CLASS_IN 120 [x0a; x00; x01; x02] in
  DNSCache.entries_with_name "Ash-2.local." (DNSCache.add r DNSCache.__init__) = [] /\
  DNSCache.entries_with_name "ash-2.local." (DNSCache.add r DNSCache.__init__) = [r].
Proof.
  intros r.
  destruct (X9_entries_with_name_case 1000 "Ash-2.local." _TYPE_A _CLASS_IN 120
              (Address [x0a; x00; x01; x02]) DNSCache.__init__ eq_refl) as [H _].
  split; [apply H; discriminate | reflexivity].
Defined.

(** X10. A record of a response is not put into the cache when the cache
    holds, under any name, a record that compares equal to it (the same class
    and payload) and the bucket of its own key holds none: the test
    [record in self.cache.entries()] succeeds, [self.cache.get(record)]
    returns [None], and the cache is left as it is. *)
Theorem X10_equal_payload_not_cached (now : Z) (msg : DNSIncoming.t)
    (record other : DNSRecord.t) (cache : DNSCache.t) (bucket : list DNSRecord.t) :
  DNSIncoming.answers msg = [record] ->
  cache !! DNSRecord.key other = Some bucket ->
  other ∈ bucket ->
  DNSRecord.__eq__ other record = true ->
  DNSCache.get record cache = None ->
  DNSRecord.is_expired record now = false ->
  Zeroconf.handle_response now msg cache = (cache, [record]).
Proof.
  intros Hm Hk Ho He Hg Hx. unfold Zeroconf.handle_response. rewrite Hm.
  cbn [Zeroconf.handle_records]. unfold Zeroconf.handle_answer.
  rewrite (list_contains_elem record other (DNSCache.entries cache)
             (elem_of_entries cache _ bucket other Hk Ho) He), Hx, Hg.
  reflexivity.
Qed.

Lemma X10_equal_payload_not_cached_witness :
  let a := DNSAddress 1000 "host-a.local." _TYPE_A _CLASS_IN 120 [x0a; x00; x01; x02] in
  let b := DNSAddress 2000 "host-b.local." _TYPE_A _CLASS_IN 120 [x0a; x00; x01; x02] in
  let cache := DNSCache.add a DNSCache.__init__ in
  let msg := DNSIncoming.mk 0 [] [] [b] 0 0x8400 0 1 0 0 0 in
  Zeroconf.handle_response 2000 msg cache = (cache, [b]) /\
  DNSCache.get b (fst (Zeroconf.handle_response 2000 msg cache)) = None.
Proof.
  intros a b cache msg.
  assert (H : Zeroconf.handle_response 2000 msg cache = (cache, [b])).
  { apply (X10_equal_payload_not_cached 2000 msg b a cache [a]);
      [reflexivity | reflexivity | left | reflexivity | reflexivity | reflexivity]. }
  split; [exact H | rewrite H; reflexivity].
Defined.

(** ** The sweep of the Reaper *)

Section reaper.

Import DNSCache.

Lemma elem_of_entries_inv (cache : DNSCache.t) (r : DNSRecord.t) :
  r ∈ entries cache -> exists k l, cache !! k = Some l /\ r ∈ l.
Proof.
  unfold entries. rewrite list_elem_of_In, in_concat.
  intros (l & Hl & Hr). apply in_map_iff in Hl as ([k l'] & <- & Hkl).
  exists k, l'. split; [| apply list_elem_of_In; exact Hr].
  apply elem_of_map_to_list, list_elem_of_In. exact Hkl.
Qed.

Lemma NoDup_payload_eq (l : list DNSRecord.t) (x y : DNSRecord.t) :
  NoDup (map DNSRecord.payload l) -> x ∈ l -> y ∈ l ->
  DNSRecord.payload x = DNSRecord.payload y -> x = y.
Proof.
  induction l as [|z l IH]; intros Hd Hx Hy He; [inversion Hx |].
  cbn in Hd. apply NoDup_cons in Hd as [Hz Hd].
  apply elem_of_cons in Hx as [->|Hx]; apply elem_of_cons in Hy as [->|Hy].
  - reflexivity.
  - exfalso. apply Hz. rewrite He. apply list_elem_of_fmap_2. exact Hy.
  - exfalso. apply Hz. rewrite <- He. apply list_elem_of_fmap_2. exact Hx.
  - exact (IH Hd Hx Hy He).
Qed.

Lemma list_remove_elem (x : DNSRecord.t) (l l' : list DNSRecord.t) (r : DNSRecord.t) :
  list_remove x l = Some l' -> r ∈ l' -> r ∈ l.
Proof.
  intros H Hr. apply list_remove_Permutation in H as (y & _ & Hp).
  rewrite Hp. right. exact Hr.
Qed.

Lemma keyed_remove (r : DNSRecord.t) (cache : DNSCache.t) :
  keyed cache -> keyed (remove r cache).
Proof.
  intros Hk. unfold remove.
  destruct (cache !! DNSRecord.key r) as [l|] eqn:E; [| exact Hk].
  destruct (list_remove r l) as [l'|] eqn:Er; [| exact Hk].
  intros k b x Hb Hx. destruct (decide (DNSRecord.key r = k)) as [<-|Hne].
  - rewrite lookup_insert_eq in Hb. injection Hb as <-.
    apply (Hk _ l x E). exact (list_remove_elem _ _ _ _ Er Hx).
  - rewrite lookup_insert_ne in Hb by exact Hne. exact (Hk k b x Hb Hx).
Qed.

(** Under the two invariants [remove] takes the record itself out. *)
Lemma remove_entries (r : DNSRecord.t) (cache : DNSCache.t) :
  keyed cache -> distinct (entries cache) = true -> r ∈ entries cache ->
  r :: entries (remove r cache) ≡ₚ entries cache.
Proof.
  intros Hk Hd Hr. apply distinct_NoDup in Hd.
  destruct (elem_of_entries_inv _ _ Hr) as (k & l & Hl & Hrl).
  pose proof (Hk k l r Hl Hrl) as <-.
  unfold remove. rewrite Hl.
  destruct (list_remove r l) as [l'|] eqn:Er.
  - pose proof Er as Hp. apply list_remove_Permutation in Hp as (y & Hy & Hp).
    assert (y = r) as ->.
    { apply (NoDup_payload_eq (entries cache)); [exact Hd | | exact Hr |].
      - apply (elem_of_entries cache (DNSRecord.key r) l); [exact Hl |]. rewrite Hp. left.
      - apply record_eq_payload. exact Hy. }
    rewrite entries_insert, (entries_lookup cache (DNSRecord.key r)).
    unfold entries_with_name. rewrite Hl. cbn [default]. rewrite Hp. reflexivity.
  - exfalso. apply list_remove_None in Er.
    rewrite (list_contains_elem r r l Hrl (record_eq_refl r)) in Er. discriminate.
Qed.

Lemma sweep_spec (now : Z) (records : list DNSRecord.t) :
  forall (cache : DNSCache.t) (notified kept : list DNSRecord.t),
    keyed cache -> distinct (entries cache) = true ->
    entries cache ≡ₚ kept ++ records ->
    keyed (fst (Reaper.sweep now records cache notified)) /\
    distinct (entries (fst (Reaper.sweep now records cache notified))) = true /\
    entries (fst (Reaper.sweep now records cache notified))
    ≡ₚ kept ++ List.filter (fun r => negb (DNSRecord.is_expired r now)) records /\
    snd (Reaper.sweep now records cache notified)
    = notified ++ List.filter (fun r => DNSRecord.is_expired r now) records.
Proof.
  induction records as [|record records IH]; intros cache notified kept Hk Hd Hp.
  - cbn [Reaper.sweep fst snd List.filter]. rewrite !app_nil_r. rewrite app_nil_r in Hp.
    repeat split; assumption.
  - cbn [Reaper.sweep List.filter].
    destruct (DNSRecord.is_expired record now) eqn:Ex; cbn [negb].
    + assert (Hr : record ∈ entries cache).
      { rewrite Hp. apply elem_of_app. right. left. }
      pose proof (remove_entries record cache Hk Hd Hr) as He.
      assert (Hp' : entries (remove record cache) ≡ₚ kept ++ records).
      { apply (Permutation_cons_inv (a := record)).
        rewrite He, Hp. symmetry. apply Permutation_middle. }
      assert (Hd' : distinct (entries (remove record cache)) = true).
      { apply distinct_NoDup. apply distinct_NoDup in Hd.
        rewrite <- He in Hd. cbn in Hd. apply NoDup_cons in Hd as [_ Hd]. exact Hd. }
      destruct (IH (remove record cache) (notified ++ [record]) kept
                  (keyed_remove _ _ Hk) Hd' Hp') as (K & D & P & N).
      repeat split; try assumption. rewrite N, <- app_assoc. reflexivity.
    + assert (Hp' : entries cache ≡ₚ (kept ++ [record]) ++ records).
      { rewrite <- app_assoc. exact Hp. }
      destruct (IH cache notified (kept ++ [record]) Hk Hd Hp') as (K & D & P & N).
      repeat split; try assumption. rewrite P, <- app_assoc. reflexivity.
Qed.

Lemma list_contains_app (x : DNSRecord.t) (l k : list DNSRecord.t) :
  list_contains x (l ++ k) = list_contains x l || list_contains x k.
Proof. unfold list_contains. apply existsb_app. Qed.

Lemma list_contains_false (x y : DNSRecord.t) (l : list DNSRecord.t) :
  list_contains x l = false -> y ∈ l -> DNSRecord.__eq__ y x = false.
Proof.
  intros Hc Hy. destruct (DNSRecord.__eq__ y x) eqn:E; [| reflexivity].
  rewrite (list_contains_elem x y l Hy E) in Hc. discriminate.
Qed.

Lemma list_remove_contains (x r : DNSRecord.t) (l l' : list DNSRecord.t) :
  list_remove x l = Some l' -> list_contains r l = false -> list_contains r l' = false.
Proof.
  intros H Hc. destruct (list_contains r l') eqn:E; [| reflexivity].
  unfold list_contains in E. apply existsb_exists in E as (y & Hy & He).
  apply list_elem_of_In in Hy.
  rewrite (list_contains_elem r y l (list_remove_elem _ _ _ _ H Hy) He) in Hc.
  discriminate.
Qed.

Lemma list_remove_length (x : DNSRecord.t) (l l' : list DNSRecord.t) :
  list_remove x l = Some l' -> List.length l = S (List.length l').
Proof.
  intros H. apply list_remove_Permutation in H as (y & _ & Hp).
  rewrite Hp. reflexivity.
Qed.

Lemma sweep_bucket_S (fuel : nat) (now : Z) (name : string) (i : nat)
    (cache : DNSCache.t) (notified : list DNSRecord.t) :
  Reaper.sweep_bucket (S fuel) now name i cache notified
  = match entries_with_name name cache !! i with
    | None => Some (cache, notified)
    | Some record =>
        if DNSRecord.is_expired record now
        then Reaper.sweep_bucket fuel now name (i + 1) (remove record cache)
                                 (notified ++ [record])
        else Reaper.sweep_bucket fuel now name (i + 1) cache notified
    end.
Proof. reflexivity. Qed.

(** The record at the head of the bucket, once the iterator is past it,
    stays where it is. *)
Lemma sweep_bucket_head (now : Z) (name : string) (r2 : DNSRecord.t) :
  forall (fuel i : nat) (cache : DNSCache.t) (notified tl : list DNSRecord.t),
    1 <= i ->
    cache !! name = Some (r2 :: tl) ->
    list_contains r2 tl = false ->
    list_contains r2 notified = false ->
    List.length tl + 1 <= fuel + i ->
    exists cache' notified' tl',
      Reaper.sweep_bucket fuel now name i cache notified = Some (cache', notified') /\
      cache' !! name = Some (r2 :: tl') /\
      list_contains r2 notified' = false.
Proof.
  induction fuel as [|fuel IH]; intros i cache notified tl Hi Hc Ht Hn Hf.
  - exists cache, notified, tl. cbn [Reaper.sweep_bucket].
    unfold entries_with_name. rewrite Hc.
    change (default [] (Some (r2 :: tl))) with (r2 :: tl).
    rewrite (proj2 (lookup_ge_None (r2 :: tl) i)) by (cbn; lia).
    repeat split; assumption.
  - rewrite sweep_bucket_S. unfold entries_with_name at 1. rewrite Hc.
    change (default [] (Some (r2 :: tl))) with (r2 :: tl).
    destruct ((r2 :: tl) !! i) as [record|] eqn:El;
      [| exists cache, notified, tl; repeat split; assumption].
    destruct i as [|i]; [lia |]. cbn in El.
    assert (Hrec : record ∈ tl) by (apply list_elem_of_lookup; eauto).
    pose proof (list_contains_false r2 record tl Ht Hrec) as Hne.
    destruct (DNSRecord.is_expired record now).
    + assert (Hn' : list_contains r2 (notified ++ [record]) = false).
      { rewrite list_contains_app, Hn. unfold list_contains. cbn. rewrite Hne.
        reflexivity. }
      unfold remove.
      destruct (cache !! DNSRecord.key record) as [l|] eqn:Ek;
        [| apply (IH (S i + 1) cache _ tl); try assumption; lia].
      destruct (list_remove record l) as [l'|] eqn:Er;
        [| apply (IH (S i + 1) cache _ tl); try assumption; lia].
      destruct (decide (DNSRecord.key record = name)) as [Hkey|Hkey].
      * rewrite Hkey in Ek. rewrite Hc in Ek. injection Ek as <-.
        cbn in Er. rewrite record_eq_sym, Hne in Er.
        destruct (list_remove record tl) as [t'|] eqn:Et; [| discriminate].
        injection Er as <-.
        apply (IH (S i + 1) _ _ t'); try assumption; try lia.
        -- rewrite Hkey. apply lookup_insert_eq.
        -- exact (list_remove_contains _ _ _ _ Et Ht).
        -- apply list_remove_length in Et. lia.
      * apply (IH (S i + 1) _ _ tl); try assumption; try lia.
        rewrite lookup_insert_ne by exact Hkey. exact Hc.
    + apply (IH (S i + 1) cache notified tl); try assumption; lia.
Qed.

End reaper.

(** X11. The sweep of the Reaper over a cache with more than one name, in
    which every record lies in the bucket of its key and no two records
    compare equal: the records handed to [update_record] are the expired
    records, in the order of [entries()], and the cache afterwards holds
    exactly the records that have not expired, with both invariants kept. *)
Theorem X11_reaper_sweep (now : Z) (cache : DNSCache.t) :
  1 < size cache ->
  keyed cache ->
  distinct (DNSCache.entries cache) = true ->
  exists (cache' : DNSCache.t) (notified : list DNSRecord.t),
    Reaper.run_once now cache = Some (cache', notified) /\
    notified = List.filter (fun r => DNSRecord.is_expired r now) (DNSCache.entries cache) /\
    DNSCache.entries cache'
    ≡ₚ List.filter (fun r => negb (DNSRecord.is_expired r now)) (DNSCache.entries cache) /\
    keyed cache' /\
    distinct (DNSCache.entries cache') = true.
Proof.
  intros Hs Hk Hd. unfold Reaper.run_once.
  pose proof (length_map_to_list cache) as Hl.
  destruct (map_to_list cache) as [|[k1 l1] [|p2 rest]] eqn:E;
    [cbn in Hl; lia | cbn in Hl; lia |].
  destruct (sweep_spec now (DNSCache.entries cache) cache [] [] Hk Hd (reflexivity _))
    as (K & D & P & N).
  destruct (Reaper.sweep now (DNSCache.entries cache) cache []) as [cache' notified].
  exists cache', notified. split; [reflexivity |].
  repeat split; assumption.
Qed.

Lemma X11_reaper_sweep_witness :
  let a := DNSAddress 1000 "host-a.local." _TYPE_A _CLASS_IN 1 [x0a; x00; x01; x02] in
  let b := DNSAddress 1000 "host-b.local." _TYPE_A _CLASS_IN 120 [x0a; x00; x01; x03] in
  let cache := DNSCache.add b (DNSCache.add a DNSCache.__init__) in
  exists cache',
    Reaper.run_once 5000 cache = Some (cache', [a]) /\
    DNSCache.entries cache' ≡ₚ [b].
Proof.
  intros a b cache.
  assert (Hk : keyed cache).
  { intros k l r Hl Hr. unfold cache, DNSCache.add, DNSCache.__init__ in Hl.
    rewrite lookup_insert in Hl. case_decide as H1.
    - injection Hl as <-. apply list_elem_of_In in Hr.
      destruct Hr as [<-|[]]. exact H1.
    - rewrite lookup_insert in Hl. case_decide as H2; [| rewrite lookup_empty in Hl; discriminate].
      injection Hl as <-. apply list_elem_of_In in Hr.
      destruct Hr as [<-|[]]. exact H2. }
  assert (He : DNSCache.entries cache = [a; b]) by (vm_compute; reflexivity).
  destruct (X11_reaper_sweep 5000 cache) as (cache' & notified & Hr & Hn & Hp & _).
  - vm_compute. lia.
  - exact Hk.
  - rewrite He. reflexivity.
  - exists cache'. rewrite He in Hn, Hp. cbn in Hn, Hp. subst notified.
    split; assumption.
Defined.

(** X12. In a cache with a single name, [entries()] returns the list
    object of the bucket, and the sweep removes records from the list it is
    walking: when the first two records of the bucket have both expired (the
    records of the bucket comparing unequal, the first one keyed by the
    name), the first is removed, the iterator steps over the second, and the
    second is still at the head of the bucket when the sweep ends, without
    [update_record] having been called for it. *)
Theorem X12_reaper_single_bucket (now : Z) (name : string) (r1 r2 : DNSRecord.t)
    (rest : list DNSRecord.t) :
  DNSRecord.key r1 = name ->
  distinct (r1 :: r2 :: rest) = true ->
  DNSRecord.is_expired r1 now = true ->
  DNSRecord.is_expired r2 now = true ->
  exists (cache' : DNSCache.t) (notified tl : list DNSRecord.t),
    Reaper.run_once now {[name := r1 :: r2 :: rest]} = Some (cache', notified) /\
    cache' !! name = Some (r2 :: tl) /\
    DNSCache.list_contains r2 notified = false.
Proof.
  intros Hkey Hd H1 H2. unfold Reaper.run_once. rewrite map_to_list_singleton.
  cbn [distinct] in Hd. apply andb_prop in Hd as [Hd1 Hd].
  apply andb_prop in Hd as [Hd2 _]. apply negb_true_iff in Hd1, Hd2.
  cbn [List.length].
  assert (Hstep : Reaper.sweep_bucket (S (S (List.length rest))) now name 0
                    {[name := r1 :: r2 :: rest]} []
                  = Reaper.sweep_bucket (S (List.length rest)) now name (0 + 1)
                      (<[name := r2 :: rest]> {[name := r1 :: r2 :: rest]}) ([] ++ [r1])).
  { rewrite sweep_bucket_S. unfold DNSCache.entries_with_name at 1.
    rewrite lookup_singleton_eq.
    change (default [] (Some (r1 :: r2 :: rest)) !! 0) with (Some r1).
    cbv beta iota. rewrite H1. unfold DNSCache.remove at 1. rewrite Hkey, lookup_singleton_eq.
    cbn [DNSCache.list_remove]. rewrite record_eq_refl. reflexivity. }
  rewrite Hstep.
  apply (sweep_bucket_head now name r2 _ _ _ _ rest).
  - lia.
  - apply lookup_insert_eq.
  - exact Hd2.
  - unfold DNSCache.list_contains in *. cbn in *.
    apply orb_false_iff in Hd1 as [Hd1 _]. rewrite record_eq_sym, Hd1. reflexivity.
  - cbn. lia.
Qed.

Lemma X12_reaper_single_bucket_witness :
  let a := DNSAddress 1000 "host.local." _TYPE_A _CLASS_IN 1 [x0a; x00; x01; x02] in
  let b := DNSText 1000 "host.local." _TYPE_TXT _CLASS_IN 1 (Some [x00]) in
  exists cache' notified tl,
    Reaper.run_once 5000 {[ "host.local." := [a; b] ]} = Some (cache', notified) /\
    cache' !! "host.local." = Some (b :: tl) /\
    DNSCache.list_contains b notified = false /\
    DNSRecord.is_expired b 5000 = true.
Proof.
  intros a b.
  destruct (X12_reaper_single_bucket 5000 "host.local." a b [] eq_refl eq_refl eq_refl eq_refl)
    as (cache' & notified & tl & Hr & Hc & Hn).
  exists cache', notified, tl. repeat split; assumption.
Defined.

(** ** ServiceInfo *)

Section service_info.

Import ServiceInfo.

Lemma substring_all (s : string) : substring 0 (String.length s) s = s.
Proof. induction s as [|c s IH]; cbn; [reflexivity | rewrite IH; reflexivity]. Qed.

Lemma substring_app_l (a b : string) : substring 0 (String.length a) (a +:+ b) = a.
Proof.
  induction a as [|c a IH]; [destruct b; reflexivity |].
  rewrite string_append_cons. cbn. rewrite IH. reflexivity.
Qed.

Lemma substring_app_r (a b : string) :
  substring (String.length a) (String.length b) (a +:+ b) = b.
Proof.
  induction a as [|c a IH]; [apply substring_all |].
  rewrite string_append_cons. cbn. exact IH.
Qed.

Lemma endswith_append (a b : string) : endswith (a +:+ b) b = true.
Proof.
  unfold endswith. cbv zeta. rewrite string_length_append.
  replace (String.length a + String.length b - String.length b) with (String.length a)
    by lia.
  rewrite substring_app_r, String.eqb_refl.
  apply andb_true_intro. split; [apply Nat.leb_le; lia | reflexivity].
Qed.

Lemma get_by_details_None (name : string) (type class_ : Z) (cache : DNSCache.t) :
  DNSCache.get_by_details name type class_ cache = None.
Proof.
  unfold DNSCache.get_by_details, DNSCache.get_entry. cbv zeta.
  destruct (cache !! _) as [l|]; [| reflexivity].
  induction l as [|y l IH]; [reflexivity |].
  cbn [DNSCache.list_find_entry]. unfold DNSCache.record__eq__entry at 1.
  destruct (DNSRecord.payload y); exact IH.
Qed.

Lemma split_strs_total (fuel : nat) (text : bytes) :
  forall (index : nat) (strs : list bytes),
    List.length text <= fuel + index ->
    exists strs', split_strs fuel text index strs = Ok strs'.
Proof.
  induction fuel as [|fuel IH]; intros index strs Hf.
  - cbn [split_strs]. destruct (Nat.ltb_spec index (List.length text)); [lia |].
    eexists. destruct (index <? List.length text); reflexivity.
  - cbn [split_strs]. destruct (Nat.ltb_spec index (List.length text)) as [Hlt|];
      [| eexists; reflexivity].
    unfold indexbytes. destruct (lookup_lt_is_Some_2 text index Hlt) as [b Hb].
    unfold bytes in *. rewrite Hb. cbn [bind]. cbv zeta. apply IH. lia.
Qed.

Lemma dict_get_Some (key : pkey) (value : pvalue) (d : dict) :
  dict_get key d = Some value -> (key, value) ∈ d.
Proof.
  induction d as [|[k v] d IH]; cbn; [discriminate |].
  case_bool_decide as E.
  - intros [= <-]. subst k. left.
  - intros H. right. exact (IH H).
Qed.

Lemma dict_get_None_inv (key : pkey) (d : dict) :
  dict_get key d = None -> key ∉ map fst d.
Proof.
  induction d as [|[k v] d IH]; cbn; [intros _ H; inversion H |].
  case_bool_decide as E; [discriminate |].
  intros H Hin. apply elem_of_cons in Hin as [->|Hin]; [apply E; reflexivity |].
  exact (IH H Hin).
Qed.

Lemma parse_item_invariant (logger : bool) (s : bytes) (result result' : dict) :
  NoDup (map fst result) -> Forall parsed_property result ->
  parse_item logger s result = Ok result' ->
  NoDup (map fst result') /\ Forall parsed_property result'.
Proof.
  intros Hn Hf H. unfold parse_item in H.
  apply bind_Ok in H as ([key value] & Hkv & H).
  assert (Hv : value = VBool true \/ value = VBool false \/
               exists v, value = VBytes v /\ v <> [] /\ v <> b_true /\ v <> b_false).
  { destruct (split_equals s) as [[key' value']|].
    - destruct (bool_decide (value' = b_true)) eqn:E1;
        [injection Hkv as _ <-; left; reflexivity |].
      destruct (bool_decide (value' = b_false)) eqn:E2;
        [injection Hkv as _ <-; right; left; reflexivity |].
      destruct (bool_decide (value' = [])) eqn:E3;
        [injection Hkv as _ <-; right; left; reflexivity |].
      cbn [orb] in Hkv. injection Hkv as _ <-.
      right. right. exists value'. apply bool_decide_eq_false in E1, E2, E3.
      repeat split; assumption.
    - apply bind_Ok in Hkv as (? & _ & Hkv). injection Hkv as _ <-.
      right. left. reflexivity. }
  clear Hkv. revert H.
  case_bool_decide as Ek; cbn [negb andb]; [intros [= <-]; split; assumption |].
  destruct (dict_get (KBytes key) result) as [v|] eqn:Eg.
  - destruct v; try (intros [= <-]; split; assumption).
    exfalso. apply dict_get_Some in Eg.
    rewrite Forall_forall in Hf. destruct (Hf _ Eg) as (k & _ & _ & [H|[H|(v & H & _)]]);
      discriminate.
  - intros [= <-]. rewrite dict_set_fresh by exact Eg. rewrite map_app. split.
    + apply NoDup_app. split; [exact Hn | split].
      * intros x Hx Hx'. apply list_elem_of_In in Hx'. destruct Hx' as [<-|[]].
        exact (dict_get_None_inv _ _ Eg Hx).
      * apply NoDup_singleton.
    + apply Forall_app. split; [exact Hf |]. constructor; [| constructor].
      exists key. repeat split; assumption.
Qed.

(** With its logger [parse_item] returns; without it, it returns the
    same for an item with an equals sign and raises for one without. *)
Lemma parse_item_true (s : bytes) (result : dict) :
  exists result', parse_item true s result = Ok result'.
Proof.
  unfold parse_item. destruct (split_equals s) as [[key value]|]; cbn [log bind];
    repeat (first [ progress cbn [bind]
                  | match goal with
                    | |- context [if ?c then _ else _] => destruct c
                    end ]);
    eexists; reflexivity.
Qed.

Lemma parse_item_false (s : bytes) (result : dict) :
  parse_item false s result
  = if bool_decide (is_Some (split_equals s)) then parse_item true s result
    else Raise AttributeError.
Proof.
  unfold parse_item. destruct (split_equals s) as [[key value]|].
  - rewrite (bool_decide_eq_true_2 (is_Some (Some (key, value))))
      by (eexists; reflexivity).
    reflexivity.
  - rewrite (bool_decide_eq_false_2 (is_Some (@None (bytes * bytes))))
      by (intros [? H]; discriminate).
    reflexivity.
Qed.

Lemma parse_items_logger (strs : list bytes) :
  forall d : dict,
    NoDup (map fst d) -> Forall parsed_property d ->
    exists d' : dict,
      for_each (parse_item true) strs d = Ok d' /\
      NoDup (map fst d') /\ Forall parsed_property d' /\
      for_each (parse_item false) strs d
      = if forallb (fun s => bool_decide (is_Some (split_equals s))) strs
        then Ok d' else Raise AttributeError.
Proof.
  induction strs as [|s strs IH]; intros d Hn Hf; cbn [for_each forallb].
  - exists d. repeat split; assumption.
  - destruct (parse_item_true s d) as [d1 H1].
    destruct (parse_item_invariant true s d d1 Hn Hf H1) as [Hn1 Hf1].
    destruct (IH d1 Hn1 Hf1) as (d' & H' & Hn' & Hf' & Hfalse).
    exists d'. rewrite parse_item_false, H1. cbn [bind].
    split; [exact H' |]. split; [exact Hn' |]. split; [exact Hf' |].
    destruct (bool_decide (is_Some (split_equals s))); cbn [andb].
    + cbn [bind]. exact Hfalse.
    + reflexivity.
Qed.

Lemma join_items_raise (items : list bytes) :
  forall result : bytes,
    Exists (fun item => 255 < List.length item) items ->
    join_items items result = Raise StructError.
Proof.
  induction items as [|item items IH]; intros result H; [inversion H |].
  cbn [join_items]. unfold int2byte.
  destruct (Z.ltb_spec (Z.of_nat (List.length item)) 256) as [Hlt|Hge].
  - replace (0 <=? Z.of_nat (List.length item))%Z with true
      by (symmetry; apply Z.leb_le; lia).
    cbn [andb bind]. apply IH. inversion H as [? ? Hx|? ? Hx]; subst; [lia | exact Hx].
  - rewrite andb_false_r. reflexivity.
Qed.

End service_info.

(** X13. A service whose name is an instance name, a dot and the type is
    accepted by the constructor, and [get_name] returns the instance name;
    the server is the name of the service when none (or an empty one) is
    given. *)
Theorem X13_get_name (type instance : string) (address : option bytes) (port : option Z)
    (weight priority : Z) (text : option bytes) (logger : logger_arg) :
  exists info : ServiceInfo.t,
    ServiceInfo.__init__ type (instance +:+ "." +:+ type) address port weight priority
                         (ServiceInfo.OfText text) None logger = Ok info /\
    ServiceInfo.get_name info = instance /\
    ServiceInfo.get_name info +:+ "." +:+ ServiceInfo.type info = ServiceInfo.name info /\
    ServiceInfo.server info = ServiceInfo.name info /\
    ServiceInfo.text info = text.
Proof.
  eexists. split.
  - unfold ServiceInfo.__init__.
    rewrite <- (string_append_assoc instance "." type), endswith_append.
    cbn [negb ServiceInfo._set_properties bind]. reflexivity.
  - assert (Hg : ServiceInfo.get_name
                   (ServiceInfo.mk type ((instance +:+ ".") +:+ type) address port weight
                      priority ((instance +:+ ".") +:+ type) None text
                      (self_logger logger)) = instance).
    { unfold ServiceInfo.get_name. cbn [ServiceInfo.name ServiceInfo.type].
      rewrite (string_append_assoc instance "." type), endswith_append.
      rewrite !string_length_append. cbn [String.length].
      replace (String.length instance + (1 + String.length type) - String.length type - 1)
        with (String.length instance) by lia.
      apply substring_app_l. }
    rewrite Hg. cbn [ServiceInfo.name ServiceInfo.type ServiceInfo.server ServiceInfo.text].
    rewrite (string_append_assoc instance "." type). repeat split.
Qed.

(** X14. On the object of a constructor called without a logger,
    [_set_text] never leaves the properties [None], whatever the bytes of
    the text are (a length byte that exceeds what is left of the text takes
    what is left): the properties are a dict whose keys are bytes that are
    not empty, no key twice, with the values [True], [False], or bytes that
    are not empty and are neither [b'true'] nor [b'false'].  On the object
    of a constructor called with a logger, which has no [self.logger],
    [_set_text] gives the same properties when every item of the text has an
    equals sign, and raises [AttributeError] when one has none. *)
Theorem X14_set_text_total (text : bytes) :
  exists (strs : list bytes) (d : dict),
    ServiceInfo.split_strs (List.length text) text 0 [] = Ok strs /\
    ServiceInfo._set_text true text = Ok (Some d) /\
    NoDup (map fst d) /\
    Forall parsed_property d /\
    ServiceInfo._set_text false text
    = if forallb (fun s => bool_decide (is_Some (split_equals s))) strs
      then Ok (Some d) else Raise AttributeError.
Proof.
  unfold ServiceInfo._set_text.
  destruct (split_strs_total (List.length text) text 0 []) as [strs Hs]; [lia |].
  destruct (parse_items_logger strs []) as (d & Ht & Hn & Hf & Hfalse);
    [constructor | constructor |].
  exists strs, d. rewrite Hs. cbn [bind]. rewrite Ht, Hfalse.
  split; [reflexivity |]. split; [reflexivity |]. split; [exact Hn |].
  split; [exact Hf |].
  destruct (forallb _ strs); reflexivity.
Qed.

(** X15. [_set_properties] returns exactly when every item [key=value]
    of the dict has at most 255 bytes, with the text that holds every item
    behind its length byte; with a longer item [int2byte] raises. *)
Theorem X15_set_properties_item_size (d : dict) (old : option dict) :
  (Forall (fun item => List.length (ServiceInfo.item_of (fst item) (snd item)) <= 255) d ->
   ServiceInfo._set_properties (ServiceInfo.OfDict d) old
   = Ok (Some d,
         Some (framed (map (fun item => ServiceInfo.item_of (fst item) (snd item)) d)))) /\
  (Exists (fun item => 255 < List.length (ServiceInfo.item_of (fst item) (snd item))) d ->
   ServiceInfo._set_properties (ServiceInfo.OfDict d) old = Raise StructError).
Proof.
  assert (Hm : map (fun '(key, value) => ServiceInfo.item_of key value) d
               = map (fun item => ServiceInfo.item_of (fst item) (snd item)) d).
  { apply map_ext. intros [k v]. reflexivity. }
  unfold ServiceInfo._set_properties. cbv zeta. rewrite Hm. split; intros H.
  - rewrite join_items_framed; [reflexivity |].
    apply List.Forall_map. exact H.
  - rewrite join_items_raise; [reflexivity |].
    apply List.Exists_map. exact H.
Qed.

Lemma update_record_srv (fuel : nat) (cache : DNSCache.t) (now : Z)
    (record : DNSRecord.t) (self : ServiceInfo.t) (priority weight port : Z)
    (server : string) :
  DNSRecord.is_expired record now = false ->
  DNSRecord.type record = _TYPE_SRV ->
  DNSRecord.name record = ServiceInfo.name self ->
  DNSRecord.payload record = Service priority weight port server ->
  ServiceInfo.update_record (S fuel) cache now (Some record) self
  = Ok (ServiceInfo.mk (ServiceInfo.type self) (ServiceInfo.name self)
          (ServiceInfo.address self) (Some port) weight priority server
          (ServiceInfo._properties self) (ServiceInfo.text self)
          (ServiceInfo.logger self)).
Proof.
  intros Hx Ht Hn Hp. cbn [ServiceInfo.update_record].
  rewrite Hx, Ht, Hn, Hp, String.eqb_refl. cbn [negb].
  change (_TYPE_SRV =? _TYPE_A)%Z with false. change (_TYPE_SRV =? _TYPE_SRV)%Z with true.
  cbv beta iota zeta. rewrite get_by_details_None.
  destruct fuel; reflexivity.
Qed.

(** X16. A service record for the name of the info sets its server, port,
    weight and priority; the lookup of the address of the new server in the
    cache, [get_by_details], never finds a record (it compares the records of
    the bucket with a plain [DNSEntry], which no record equals), so the
    address is left as it was whatever the cache holds. *)
Theorem X16_srv_update_ignores_cache (fuel : nat) (cache : DNSCache.t) (now : Z)
    (record : DNSRecord.t) (self : ServiceInfo.t) (priority weight port : Z)
    (server : string) :
  DNSRecord.is_expired record now = false ->
  DNSRecord.type record = _TYPE_SRV ->
  DNSRecord.name record = ServiceInfo.name self ->
  DNSRecord.payload record = Service priority weight port server ->
  ServiceInfo.update_record (S fuel) cache now (Some record) self
  = Ok (ServiceInfo.mk (ServiceInfo.type self) (ServiceInfo.name self)
          (ServiceInfo.address self) (Some port) weight priority server
          (ServiceInfo._properties self) (ServiceInfo.text self)
          (ServiceInfo.logger self)).
Proof.
  exact (update_record_srv fuel cache now record self priority weight port server).
Qed.

Lemma X16_srv_update_ignores_cache_witness :
  let a := DNSAddress 1000 "ash-2.local." _TYPE_A _CLASS_IN 120 [x0a; x00; x01; x02] in
  let srv := DNSService 1000 "web._http._tcp.local." _TYPE_SRV _CLASS_IN 120 0 0 80
               "ash-2.local." in
  let cache := DNSCache.add a DNSCache.__init__ in
  let self := ServiceInfo.mk "_http._tcp.local." "web._http._tcp.local." None None 0 0
                "web._http._tcp.local." None None true in
  exists info,
    ServiceInfo.update_record 1 cache 2000 (Some srv) self = Ok info /\
    ServiceInfo.server info = "ash-2.local." /\
    ServiceInfo.address info = None /\
    DNSCache.entries_with_name "ash-2.local." cache = [a].
Proof.
  intros a srv cache self. eexists. split.
  - apply (X16_srv_update_ignores_cache 0 cache 2000 srv self 0 0 80 "ash-2.local.");
      reflexivity.
  - repeat split.
Defined.

(** X17. The order in which the records arrive matters: an address record
    for a host that is not yet the server of the info is dropped, so an
    address that arrives before the service record naming the host leaves the
    address as it was, while the same two records in the other order set
    it. *)
Theorem X17_address_needs_server_first (cache : DNSCache.t) (now : Z)
    (srv a : DNSRecord.t) (self : ServiceInfo.t) (priority weight port : Z)
    (host : string) (addr : bytes) :
  DNSRecord.is_expired srv now = false ->
  DNSRecord.type srv = _TYPE_SRV ->
  DNSRecord.name srv = ServiceInfo.name self ->
  DNSRecord.payload srv = Service priority weight port host ->
  DNSRecord.is_expired a now = false ->
  DNSRecord.type a = _TYPE_A ->
  DNSRecord.name a = host ->
  DNSRecord.payload a = Address addr ->
  host <> ServiceInfo.server self ->
  (exists info,
     (let* s := ServiceInfo.update_record 1 cache now (Some a) self in
      ServiceInfo.update_record 1 cache now (Some srv) s) = Ok info /\
     ServiceInfo.server info = host /\
     ServiceInfo.address info = ServiceInfo.address self) /\
  (exists info,
     (let* s := ServiceInfo.update_record 1 cache now (Some srv) self in
      ServiceInfo.update_record 1 cache now (Some a) s) = Ok info /\
     ServiceInfo.server info = host /\
     ServiceInfo.address info = Some addr).
Proof.
  intros Sx St Sn Sp Ax At An Ap Hne.
  assert (Ha : ServiceInfo.update_record 1 cache now (Some a) self = Ok self).
  { cbn [ServiceInfo.update_record]. rewrite Ax, At, An. cbn [negb].
    change (_TYPE_A =? _TYPE_A)%Z with true. cbv beta iota.
    destruct (String.eqb_spec host (ServiceInfo.server self)) as [E|_];
      [contradiction | reflexivity]. }
  split.
  - rewrite Ha. cbn [bind].
    rewrite (update_record_srv 0 cache now srv self priority weight port host
               Sx St Sn Sp).
    eexists. split; [reflexivity |]. split; reflexivity.
  - rewrite (update_record_srv 0 cache now srv self priority weight port host
               Sx St Sn Sp).
    cbn [bind ServiceInfo.update_record]. rewrite Ax, At, An, Ap. cbn [negb].
    change (_TYPE_A =? _TYPE_A)%Z with true. cbv beta iota.
    cbn [ServiceInfo.server]. rewrite String.eqb_refl.
    eexists. split; [reflexivity |]. split; reflexivity.
Qed.

Lemma X17_address_needs_server_first_witness :
  let a := DNSAddress 1000 "ash-2.local." _TYPE_A _CLASS_IN 120 [x0a; x00; x01; x02] in
  let srv := DNSService 1000 "web._http._tcp.local." _TYPE_SRV _CLASS_IN 120 0 0 80
               "ash-2.local." in
  let self := ServiceInfo.mk "_http._tcp.local." "web._http._tcp.local." None None 0 0
                "web._http._tcp.local." None None true in
  (exists info,
     (let* s := ServiceInfo.update_record 1 ∅ 2000 (Some a) self in
      ServiceInfo.update_record 1 ∅ 2000 (Some srv) s) = Ok info /\
     ServiceInfo.server info = "ash-2.local." /\
     ServiceInfo.address info = None) /\
  (exists info,
     (let* s := ServiceInfo.update_record 1 ∅ 2000 (Some srv) self in
      ServiceInfo.update_record 1 ∅ 2000 (Some a) s) = Ok info /\
     ServiceInfo.server info = "ash-2.local." /\
     ServiceInfo.address info = Some [x0a; x00; x01; x02]).
Proof.
  intros a srv self.
  apply (X17_address_needs_server_first ∅ 2000 srv a self 0 0 80 "ash-2.local."
           [x0a; x00; x01; x02]); try reflexivity.
  discriminate.
Defined.

(** ** ServiceBrowser *)

Section service_browser.

Import ServiceBrowser (callback, add_service, remove_service, services, set_services,
  append_callback, set_next_time, update_record).

Lemma replay_app (k : string) (l : list callback) (c : callback) :
  forall present : bool,
    replay k present (l ++ [c])
    = match replay k present l with
      | Some present' => replay k present' [c]
      | None => None
      end.
Proof.
  induction l as [|[name|name] l IH]; intros present; cbn [app replay].
  - destruct (replay k present [c]); reflexivity.
  - destruct (String.eqb (lower name) k); [destruct present; [reflexivity | apply IH] |
                                           apply IH].
  - destruct (String.eqb (lower name) k); [destruct present; [apply IH | reflexivity] |
                                           apply IH].
Qed.

Lemma set_next_time_services (record : DNSRecord.t) (self : ServiceBrowser.t) :
  services (set_next_time record self) = services self /\
  ServiceBrowser.list (set_next_time record self) = ServiceBrowser.list self.
Proof. unfold set_next_time. cbv zeta. destruct (_ <? _)%Z; split; reflexivity. Qed.

Lemma in_step_set_next_time (record : DNSRecord.t) (self : ServiceBrowser.t) :
  in_step self -> in_step (set_next_time record self).
Proof.
  intros H k. destruct (set_next_time_services record self) as [-> ->]. apply H.
Qed.

Lemma update_record_in_step (now : Z) (record : DNSRecord.t) (self self' : ServiceBrowser.t) :
  in_step self -> update_record now record self = Ok self' -> in_step self'.
Proof.
  intros Hinv. unfold update_record. cbv zeta.
  destruct (_ && _); [| intros [= <-]; exact Hinv].
  destruct (DNSRecord.payload record) as [| |alias| |]; try discriminate.
  destruct (services self !! lower alias) as [old|] eqn:E;
    [| destruct (ServiceBrowser.logger self); cbn [log bind]; [| discriminate]];
    destruct (DNSRecord.is_expired record now); cbn [negb]; intros [= <-].
  - intros k. cbn [append_callback set_services ServiceBrowser.list services].
    rewrite replay_app, Hinv. cbn [replay].
    destruct (String.eqb_spec (lower alias) k) as [<-|Hne].
    + rewrite E, lookup_delete_eq. reflexivity.
    + rewrite lookup_delete_ne by exact Hne. reflexivity.
  - apply in_step_set_next_time. intros k. cbn [set_services ServiceBrowser.list services].
    rewrite Hinv. f_equal. apply bool_decide_ext.
    destruct (decide (lower alias = k)) as [<-|Hne].
    + rewrite E, lookup_insert_eq. split; intros _; eauto.
    + rewrite lookup_insert_ne by exact Hne. reflexivity.
  - apply in_step_set_next_time. exact Hinv.
  - apply in_step_set_next_time. intros k.
    cbn [append_callback set_services ServiceBrowser.list services].
    rewrite replay_app, Hinv. cbn [replay].
    destruct (String.eqb_spec (lower alias) k) as [<-|Hne].
    + rewrite E, lookup_insert_eq. reflexivity.
    + rewrite lookup_insert_ne by exact Hne. reflexivity.
Qed.

Lemma for_each_in_step {A} (f : A -> ServiceBrowser.t -> result ServiceBrowser.t) (xs : list A) :
  (forall x s s', in_step s -> f x s = Ok s' -> in_step s') ->
  forall s s', in_step s -> for_each f xs s = Ok s' -> in_step s'.
Proof.
  intros Hf. induction xs as [|x xs IH]; intros s s' Hs H.
  - injection H as <-. exact Hs.
  - cbn [for_each] in H. apply bind_Ok in H as (s1 & H1 & H).
    exact (IH _ _ (Hf _ _ _ Hs H1) H).
Qed.

End service_browser.

(** X18. The callbacks of a browser, from its creation on any cache
    through any sequence of calls of [update_record] that return, are in step
    with the services it holds: for every service key, the calls of
    [add_service] and [remove_service] alternate, the first is
    [add_service], and the last is [add_service] exactly when the browser
    holds a record for the key. *)
Theorem X18_browser_callbacks (now now' : Z) (cache : DNSCache.t) (type : string)
    (logger : logger_arg) (updates : list (Z * DNSRecord.t))
    (browser browser' : ServiceBrowser.t) :
  ServiceBrowser.__init__ now now' cache type logger = Ok browser ->
  for_each (fun update => ServiceBrowser.update_record (fst update) (snd update))
           updates browser = Ok browser' ->
  forall k : string,
    replay k false (ServiceBrowser.list browser')
    = Some (bool_decide (is_Some (ServiceBrowser.services browser' !! k))).
Proof.
  intros Hi Hu.
  assert (H0 : in_step browser).
  { unfold ServiceBrowser.__init__, Zeroconf.add_listener in Hi. cbv zeta in Hi.
    refine (for_each_in_step _ _ _ _ _ _ Hi).
    - intros record s s' Hs Hf. destruct (_ && _) in Hf.
      + exact (update_record_in_step _ _ _ _ Hs Hf).
      + injection Hf as <-. exact Hs.
    - intros k. cbn. rewrite lookup_empty. reflexivity. }
  refine (for_each_in_step _ _ _ _ _ H0 Hu).
  intros [t r] s s' Hs Hf. exact (update_record_in_step _ _ _ _ Hs Hf).
Qed.

Lemma X18_browser_callbacks_witness :
  let ptr := DNSPointer 1000 "_http._tcp.local." _TYPE_PTR _CLASS_IN 120
               "Web._http._tcp.local." in
  let bye := DNSPointer 3000 "_http._tcp.local." _TYPE_PTR _CLASS_IN 0
               "Web._http._tcp.local." in
  exists browser browser',
    ServiceBrowser.__init__ 500 600 ∅ "_http._tcp.local." LoggerNone = Ok browser /\
    for_each (fun update => ServiceBrowser.update_record (fst update) (snd update))
             [(1000%Z, ptr); (2000%Z, ptr); (3000%Z, bye)] browser = Ok browser' /\
    ServiceBrowser.list browser'
    = [ServiceBrowser.add_service "Web._http._tcp.local.";
       ServiceBrowser.remove_service "Web._http._tcp.local."] /\
    replay "web._http._tcp.local." false (ServiceBrowser.list browser') = Some false.
Proof.
  intros ptr bye.
  destruct (ServiceBrowser.__init__ 500 600 ∅ "_http._tcp.local." LoggerNone)
    as [browser|] eqn:E;
    [| vm_compute in E; discriminate].
  destruct (for_each (fun update => ServiceBrowser.update_record (fst update) (snd update))
              [(1000%Z, ptr); (2000%Z, ptr); (3000%Z, bye)] browser) as [browser'|] eqn:E';
    [| vm_compute in E; injection E as <-; vm_compute in E'; discriminate].
  pose proof (X18_browser_callbacks 500 600 ∅ "_http._tcp.local." LoggerNone _ browser
                browser' E E'
                "web._http._tcp.local.") as H.
  exists browser, browser'. split; [reflexivity | split; [exact E' |]].
  vm_compute in E. injection E as <-. vm_compute in E'. injection E' as <-.
  split; reflexivity.
Defined.

(** ** The writer after [packet()] *)

Section packet_twice.

Import DNSOutgoing.

Lemma insert_short_finished (i : nat) (v : Z) (s s' : DNSOutgoing.t) :
  insert_short i v s = Ok s' -> finished s' = finished s.
Proof.
  unfold insert_short. intros H. apply bind_Ok in H as (c & _ & H).
  injection H as <-. reflexivity.
Qed.

Lemma write_header_finished (s s' : DNSOutgoing.t) :
  write_header s = Ok s' -> finished s' = finished s.
Proof.
  unfold write_header. intros H.
  apply bind_Ok in H as (s1 & H1 & H). apply bind_Ok in H as (s2 & H2 & H).
  apply bind_Ok in H as (s3 & H3 & H). apply bind_Ok in H as (s4 & H4 & H).
  apply bind_Ok in H as (s5 & H5 & H).
  apply insert_short_finished in H1, H2, H3, H4, H5.
  destruct (multicast s5); apply insert_short_finished in H; congruence.
Qed.

Lemma packet_finished (m m' : DNSOutgoing.t) (p : bytes) :
  packet m = Ok (p, m') -> finished m' = true /\ concat (data m') = p.
Proof.
  unfold packet. intros H. apply bind_Ok in H as (s & Hs & H).
  injection H as <- <-. split; [| reflexivity].
  destruct (finished m) eqn:Hf.
  - injection Hs as <-. exact Hf.
  - cbv zeta in Hs. apply bind_Ok in Hs as (s1 & H1 & Hs).
    apply write_header_finished in Hs. rewrite Hs.
    pose proof (write_sections_spec (set_finished true m)) as Hw.
    destruct (Wire.enc_body _ _ _) as [[b n']|x]; [| congruence].
    destruct Hw as (c & _ & Hw). rewrite Hw in H1. injection H1 as <-. reflexivity.
Qed.

Lemma packet_of_finished (m : DNSOutgoing.t) :
  finished m = true -> packet m = Ok (concat (data m), m).
Proof. intros H. unfold packet. rewrite H. reflexivity. Qed.

End packet_twice.

(** X19. [packet()] writes the sections once: a second call returns the
    same bytes and leaves the writer as it is, and a question or an answer
    added after the first call is stored but never written, so the bytes
    stay those of the first call. *)
Theorem X19_packet_idempotent (m m' : DNSOutgoing.t) (p : bytes) :
  DNSOutgoing.packet m = Ok (p, m') ->
  DNSOutgoing.finished m' = true /\
  DNSOutgoing.packet m' = Ok (p, m') /\
  (forall q : DNSEntry.t,
     DNSOutgoing.packet (DNSOutgoing.add_question q m')
     = Ok (p, DNSOutgoing.add_question q m')) /\
  (forall (r : DNSRecord.t) (now : Z),
     DNSOutgoing.packet (DNSOutgoing.add_answer_at_time (Some r) now m')
     = Ok (p, DNSOutgoing.add_answer_at_time (Some r) now m')).
Proof.
  intros H. apply packet_finished in H as [Hf Hd].
  split; [exact Hf | split; [| split]].
  - rewrite (packet_of_finished m' Hf), Hd. reflexivity.
  - intros q. rewrite packet_of_finished by exact Hf.
    cbn [DNSOutgoing.add_question DNSOutgoing.data]. rewrite Hd. reflexivity.
  - intros r now. unfold DNSOutgoing.add_answer_at_time.
    destruct (_ || _).
    + rewrite packet_of_finished by exact Hf. cbn [DNSOutgoing.data]. rewrite Hd.
      reflexivity.
    + rewrite (packet_of_finished m' Hf), Hd. reflexivity.
Qed.

Lemma X19_packet_idempotent_witness :
  let out := DNSOutgoing.__init__ (Z.lor _FLAGS_QR_RESPONSE _FLAGS_AA) true in
  let out := DNSOutgoing.add_answer_at_time
               (Some (DNSPointer 1000 "_http._tcp.local." _TYPE_PTR _CLASS_IN _DNS_TTL
                        "Paul's Test Web Site._http._tcp.local.")) 0 out in
  exists p m',
    DNSOutgoing.packet out = Ok (p, m') /\
    DNSOutgoing.packet m' = Ok (p, m') /\
    DNSOutgoing.packet
      (DNSOutgoing.add_question (DNSQuestion.__init__ "x.local." _TYPE_A _CLASS_IN) m')
    = Ok (p, DNSOutgoing.add_question (DNSQuestion.__init__ "x.local." _TYPE_A _CLASS_IN) m').
Proof.
  intros out0 out.
  destruct (DNSOutgoing.packet out) as [[p m']|] eqn:E; [| vm_compute in E; discriminate].
  destruct (X19_packet_idempotent out m' p E) as (_ & H2 & Hq & _).
  exists p, m'. split; [reflexivity | split; [exact H2 | apply Hq]].
Defined.

(** ** Known answers *)

Lemma suppressed_by_answers_Exists (record : DNSRecord.t) (answers : list DNSRecord.t) :
  suppressed_by_answers record answers = true
  <-> Exists (fun known => DNSRecord.payload record = DNSRecord.payload known /\
                           (DNSRecord.ttl record < 2 * DNSRecord.ttl known)%Z) answers.
Proof.
  induction answers as [|known answers IH]; cbn [suppressed_by_answers].
  - split; [discriminate | intros H; inversion H].
  - rewrite Exists_cons, <- IH. unfold DNSRecord.suppressed_by_answer.
    destruct (DNSRecord.__eq__ record known) eqn:E; cbn [andb].
    + apply record_eq_payload in E.
      destruct (Z.ltb_spec (DNSRecord.ttl record) (2 * DNSRecord.ttl known)).
      * split; [intros _; left; split; assumption | reflexivity].
      * split; [intros H'; right; exact H' | intros [[_ H']|H']; [lia | exact H']].
    + split; [intros H'; right; exact H' | intros [[H' _]|H']; [| exact H']].
      apply record_eq_payload in H'. congruence.
Qed.

(** X20. Known-answer suppression: [add_answer(inp, record)] leaves the
    message as it is exactly when some answer of [inp] has the class and
    payload of the record (its name, type and class are not compared) and
    more than half of its TTL; otherwise it appends the record with the time
    0, whether or not the record has expired, so that the record is written
    with its full TTL. *)
Theorem X20_known_answer_suppression (inp : DNSIncoming.t) (record : DNSRecord.t)
    (out : DNSOutgoing.t) :
  (Exists (fun known => DNSRecord.payload record = DNSRecord.payload known /\
                        (DNSRecord.ttl record < 2 * DNSRecord.ttl known)%Z)
          (DNSIncoming.answers inp) ->
   add_answer inp record out = out) /\
  (~ Exists (fun known => DNSRecord.payload record = DNSRecord.payload known /\
                          (DNSRecord.ttl record < 2 * DNSRecord.ttl known)%Z)
            (DNSIncoming.answers inp) ->
   DNSOutgoing.answers (add_answer inp record out)
   = DNSOutgoing.answers out ++ [(record, 0%Z)] /\
   DNSOutgoing.questions (add_answer inp record out) = DNSOutgoing.questions out /\
   Wire.wire_ttl record 0 = DNSRecord.ttl record).
Proof.
  unfold add_answer, suppressed_by. split; intros H.
  - apply suppressed_by_answers_Exists in H. rewrite H. reflexivity.
  - destruct (suppressed_by_answers record (DNSIncoming.answers inp)) eqn:E.
    + apply suppressed_by_answers_Exists in E. contradiction.
    + cbn [negb DNSOutgoing.add_answer_at_time]. change (0 =? 0)%Z with true.
      cbn [orb]. repeat split.
Qed.


(** ** Registration *)

Section registration.

Import Zeroconf.

Lemma dict_lookup_store {V} (key : string) (value : V) (d : list (string * V)) :
dict_lookup key (dict_store key value d) = Some value.
Proof.
induction d as [|[k v] d IH]; cbn.
- rewrite String.eqb_refl. reflexivity.
- destruct (String.eqb k key) eqn:E; cbn; rewrite E; [reflexivity | exact IH].
Qed.

Lemma dict_del_store_fresh {V} (key : string) (value : V) (d : list (string * V)) :
dict_lookup key d = None -> dict_del key (dict_store key value d) = Some d.
Proof.
induction d as [|[k v] d IH]; cbn.
- rewrite String.eqb_refl. reflexivity.
- destruct (String.eqb k key) eqn:E; [discriminate |]. intros H. cbn.
  rewrite E, (IH H). reflexivity.
Qed.

Lemma dict_store_back {V} (key : string) (old new : V) (d : list (string * V)) :
dict_lookup key d = Some old -> dict_store key old (dict_store key new d) = d.
Proof.
induction d as [|[k v] d IH]; cbn; [discriminate |].
destruct (String.eqb k key) eqn:E; cbn; rewrite E.
- intros [= ->]. reflexivity.
- intros H. rewrite (IH H). reflexivity.
Qed.

Lemma dict_lookup_In {V} (key : string) (value : V) (d : list (string * V)) :
dict_lookup key d = Some value -> In (key, value) d.
Proof.
induction d as [|[k v] d IH]; cbn; [discriminate |].
destruct (String.eqb_spec k key) as [->|_].
- intros [= ->]. left. reflexivity.
- intros H. right. exact (IH H).
Qed.

Lemma send_loop_length (interval : Z) (build : Z -> DNSOutgoing.t)
  (world : list observation) :
forall (now next_time : Z) (i : nat) (sent sent' : list bytes),
  send_loop interval build world now next_time i sent = Ok sent' ->
  List.length sent' = List.length sent + (3 - i).
Proof.
induction world as [|w world IH]; intros now next_time i sent sent' H;
  cbn [send_loop] in H; destruct (Nat.ltb_spec i 3) as [Hi|Hi];
  try discriminate; try (injection H as <-; lia).
destruct (now <? next_time)%Z.
- apply IH in H. exact H.
- apply bind_Ok in H as (p & _ & H). apply IH in H.
  rewrite length_app in H. cbn in H. lia.
Qed.

Lemma check_service_loop_text
  (format_name : string -> option bytes -> option Z -> string -> string)
  (world : list observation) :
forall (info : ServiceInfo.t) (now next_time : Z) (i : nat) (sent : list bytes),
  ServiceInfo.text (fst (check_service_loop format_name world info now next_time i sent))
  = ServiceInfo.text info.
Proof.
induction world as [|w world IH]; intros info now next_time i sent;
  cbn [check_service_loop]; destruct (i <? 3); try reflexivity.
destruct (scan_records _ _ _) as [[|]|e]; [| | reflexivity].
- rewrite IH. reflexivity.
- destruct (now <? next_time)%Z; [apply IH |].
  destruct (send w (probe now info)); [apply IH | reflexivity].
Qed.

(** A [check_service] that does not rename and returns has sent three
  probes since the counter was 0, each the packet of the probe of some
  round. *)
Lemma check_service_loop_sent
  (format_name : string -> option bytes -> option Z -> string -> string)
  (world : list observation) (info : ServiceInfo.t) :
(0 <= find_dot (ServiceInfo.name info))%Z ->
forall (now next_time : Z) (i : nat) (sent sent' : list bytes) (info' : ServiceInfo.t),
  check_service_loop format_name world info now next_time i sent = (info', Ok sent') ->
  exists probes : list bytes,
    sent' = sent ++ probes /\
    List.length probes = 3 - i /\
    Forall (fun p => exists t m', DNSOutgoing.packet (probe t info) = Ok (p, m')) probes.
Proof.
intros Hdot. induction world as [|w world IH]; intros now next_time i sent sent' info' H;
  cbn [check_service_loop] in H; destruct (Nat.ltb_spec i 3) as [Hi|Hi];
  try discriminate;
  try (injection H as _ <-; exists []; rewrite app_nil_r;
       split; [reflexivity | split; [cbn; lia | constructor]]).
pose proof (scan_records_no_rename info now
              (DNSCache.entries_with_name (ServiceInfo.type info) (seen_cache w)) Hdot)
  as Hs.
destruct (scan_records _ _ _) as [[|]|e]; [congruence | | discriminate].
destruct (now <? next_time)%Z; [exact (IH _ _ _ _ _ _ H) |].
destruct (send w (probe now info)) as [packet|e] eqn:Es; [| discriminate].
destruct (IH _ _ _ _ _ _ H) as (probes & -> & Hl & Hp).
exists (packet :: probes). rewrite <- app_assoc. split; [reflexivity |].
split; [cbn [List.length]; lia |].
constructor; [| exact Hp].
unfold send in Es. apply bind_Ok in Es as ([q m'] & Eq & Es).
destruct (sent_whole w); [| discriminate]. injection Es as ->.
exists now, m'. exact Eq.
Qed.

End registration.

Section writer_exceptions.

Import Wire.

Lemma clean_seq (e1 e2 : enc) : clean e1 -> clean e2 -> clean (seq e1 e2).
Proof.
intros H1 H2 names pos x H. unfold seq in H.
destruct (e1 names pos) as [[b1 n1]|y] eqn:E1; cbn [bind] in H.
- destruct (e2 n1 (pos + List.length b1)) as [[b2 n2]|z] eqn:E2; cbn [bind] in H;
    [discriminate |]. injection H as <-. exact (H2 _ _ _ E2).
- injection H as <-. exact (H1 _ _ _ E1).
Qed.

Lemma clean_lift (r : result bytes) :
(forall x, r = Raise x -> writer_exn x) -> clean (lift r).
Proof.
intros Hr names pos x H. unfold lift in H. destruct r as [b|y]; [discriminate |].
injection H as <-. apply Hr. reflexivity.
Qed.

Lemma pack_field_exn (f : field) (v : Z) (x : exn) :
pack_field f v = Raise x -> writer_exn x.
Proof.
unfold pack_field. destruct f; destruct (_ && _); try discriminate;
  intros [= <-]; right; left; reflexivity.
Qed.

Lemma int2byte_exn (v : Z) (x : exn) : int2byte v = Raise x -> writer_exn x.
Proof.
unfold int2byte. destruct (_ && _); [discriminate |].
intros [= <-]. right. left. reflexivity.
Qed.

Lemma enc_labels_exn (parts : list string) (x : exn) :
enc_labels parts = Raise x -> writer_exn x.
Proof.
induction parts as [|part parts IH]; cbn [enc_labels]; [discriminate |].
destruct (enc_utf part) as [b|y] eqn:E; cbn [bind].
- destruct (enc_labels parts) as [r|z]; cbn [bind]; [discriminate |].
  intros [= <-]. apply IH. reflexivity.
- intros [= <-]. unfold enc_utf in E. cbv zeta in E.
  destruct (64 <? _); [injection E as <-; left; reflexivity |].
  destruct (int2byte _) as [c|z] eqn:Ei; [discriminate |].
  injection E as <-. exact (int2byte_exn _ _ Ei).
Qed.

Lemma clean_name (name : string) : clean (enc_name name).
Proof.
intros names pos x H. unfold enc_name in H. destruct (names !! name) as [index|].
- unfold enc_pointer in H.
  destruct (int2byte (Z.lor _ _)) as [hi|y] eqn:E1; cbn [bind] in H;
    [| injection H as <-; exact (int2byte_exn _ _ E1)].
  destruct (int2byte (Z.land _ _)) as [lo|y] eqn:E2; cbn [bind] in H;
    [discriminate | injection H as <-; exact (int2byte_exn _ _ E2)].
- unfold enc_plain in H.
  destruct (enc_labels (labels_of name)) as [ls|y] eqn:E; cbn [bind] in H;
    [discriminate | injection H as <-; exact (enc_labels_exn _ _ E)].
Qed.

Lemma clean_short (v : Z) : clean (enc_short v).
Proof. apply clean_lift. apply pack_field_exn. Qed.

Lemma clean_int (v : Z) : clean (enc_int v).
Proof. apply clean_lift. apply pack_field_exn. Qed.

Lemma clean_rdata (payload : rdata) : clean (enc_rdata payload).
Proof.
destruct payload as [a|cpu os|alias|[text|]|p w q s]; cbn [enc_rdata].
- apply clean_lift. discriminate.
- apply clean_seq; apply clean_lift; [discriminate |].
  intros x [= <-]. right. right. left. reflexivity.
- apply clean_name.
- apply clean_lift. discriminate.
- apply clean_lift. intros x [= <-]. right. right. right. reflexivity.
- repeat (apply clean_seq; [apply clean_short |]). apply clean_name.
Qed.

Lemma clean_rdata_sized (payload : rdata) : clean (enc_rdata_sized payload).
Proof.
intros names pos x H. unfold enc_rdata_sized in H.
destruct (enc_rdata payload names (pos + 2)) as [[b n]|y] eqn:E; cbn [bind] in H.
- destruct (pack_field fmt_H _) as [l|z] eqn:El; cbn [bind] in H; [discriminate |].
  injection H as <-. exact (pack_field_exn _ _ _ El).
- injection H as <-. exact (clean_rdata _ _ _ _ E).
Qed.

Lemma clean_record (mc : bool) (r : DNSRecord.t) (now : Z) : clean (enc_record mc r now).
Proof.
unfold enc_record.
apply clean_seq; [apply clean_name |].
apply clean_seq; [apply clean_short |].
apply clean_seq; [apply clean_short |].
apply clean_seq; [apply clean_int | apply clean_rdata_sized].
Qed.

Lemma clean_seq_list {A} (f : A -> enc) (xs : list A) :
(forall x, clean (f x)) -> clean (seq_list f xs).
Proof.
intros Hf. induction xs as [|x xs IH]; cbn [seq_list].
- intros names pos y H. discriminate.
- apply clean_seq; [apply Hf | exact IH].
Qed.

Lemma clean_question (q : DNSEntry.t) : clean (enc_question q).
Proof.
unfold enc_question. apply clean_seq; [apply clean_name |].
apply clean_seq; apply clean_short.
Qed.

Lemma enc_packet_exn (m : DNSOutgoing.t) (x : exn) :
enc_packet m = Raise x -> writer_exn x.
Proof.
unfold enc_packet. intros H.
destruct (enc_body m _ _) as [[body n]|y] eqn:Eb; cbn [bind] in H.
- destruct (enc_header m) as [h|z] eqn:Eh; cbn [bind] in H; [discriminate |].
  injection H as <-. unfold enc_header in Eh.
  repeat match type of Eh with
    | bind (pack_field ?f ?v) _ = _ =>
        let E := fresh "E" in
        destruct (pack_field f v) eqn:E; cbn [bind] in Eh;
        [| injection Eh as <-; exact (pack_field_exn _ _ _ E)]
    end.
  discriminate.
- injection H as <-. revert Eb. apply (clean_seq _ _).
  + apply clean_seq_list. apply clean_question.
  + apply clean_seq; [apply clean_seq_list; intros [r t]; apply clean_record |].
    apply clean_seq; apply clean_seq_list; intros r; apply clean_record.
Qed.

(** A message with a text record without text cannot be written. *)
Lemma packet_text_None (m : DNSOutgoing.t) (r : DNSRecord.t) (t : Z) :
DNSOutgoing.finished m = false ->
In (r, t) (DNSOutgoing.answers m) ->
DNSRecord.payload r = Text None ->
exists e, DNSOutgoing.packet m = Raise e /\ writer_exn e.
Proof.
intros Hf Hin Hp. pose proof (packet_enc_packet m Hf) as H.
destruct (DNSOutgoing.packet m) as [[p m']|e].
- exfalso. unfold enc_packet in H.
  apply bind_Ok in H as ([body n] & Eb & _). unfold enc_body in Eb.
  apply seq_Ok in Eb as (bq & n1 & b1 & _ & Eb & _).
  apply seq_Ok in Eb as (ba & n2 & b2 & Ea & _ & _).
  clear - Ea Hin Hp. revert n1 ba Ea.
  generalize (DNSOutgoing.size m + List.length bq). 
  induction (DNSOutgoing.answers m) as [|[r' t'] l IH]; intros pos n1 ba Ea;
    [destruct Hin |].
  cbn [seq_list] in Ea. apply seq_Ok in Ea as (b & n & b' & E1 & E2 & _).
  destruct Hin as [[= -> ->]|Hin]; [| exact (IH Hin _ _ _ E2)].
  unfold enc_record in E1.
  apply seq_Ok in E1 as (? & ? & ? & _ & E1 & _).
  apply seq_Ok in E1 as (? & ? & ? & _ & E1 & _).
  apply seq_Ok in E1 as (? & ? & ? & _ & E1 & _).
  apply seq_Ok in E1 as (? & ? & ? & _ & E1 & _).
  unfold enc_rdata_sized in E1. rewrite Hp in E1. discriminate.
- exists e. split; [reflexivity | exact (enc_packet_exn m e H)].
Qed.

End writer_exceptions.

Section registration_props.

Import Zeroconf.

Lemma dict_del_None {V} (key : string) (d : list (string * V)) :
dict_lookup key d = None -> dict_del key d = None.
Proof.
induction d as [|[k v] d IH]; cbn; [reflexivity |].
destruct (String.eqb k key); [discriminate |]. intros H. rewrite (IH H). reflexivity.
Qed.

Lemma send_loop_packets (interval : Z) (build : Z -> DNSOutgoing.t)
  (world : list observation) :
forall (now next_time : Z) (i : nat) (sent sent' : list bytes),
  send_loop interval build world now next_time i sent = Ok sent' ->
  forall p, In p sent' ->
    In p sent \/ exists t m', DNSOutgoing.packet (build t) = Ok (p, m').
Proof.
induction world as [|w world IH]; intros now next_time i sent sent' H p Hp;
  cbn [send_loop] in H; destruct (i <? 3);
  try discriminate; try (injection H as <-; left; exact Hp).
destruct (now <? next_time)%Z.
- exact (IH _ _ _ _ _ H p Hp).
- apply bind_Ok in H as (q & Hq & H). unfold send in Hq.
  apply bind_Ok in Hq as ([q' m'] & Hq' & Hq).
  destruct (sent_whole w); [| discriminate]. injection Hq as ->.
  destruct (IH _ _ _ _ _ H p Hp) as [Hin|Hex]; [| right; exact Hex].
  apply in_app_or in Hin as [Hin|[<-|[]]]; [left; exact Hin |].
  right. exists now, m'. exact Hq'.
Qed.

Lemma service_message_answers (now ttl : Z) (server : string) (info : ServiceInfo.t) :
exists rest,
  DNSOutgoing.answers (service_message now ttl server info)
  = (DNSPointer now (ServiceInfo.type info) _TYPE_PTR _CLASS_IN ttl
                (ServiceInfo.name info), 0%Z)
    :: (DNSService now (ServiceInfo.name info) _TYPE_SRV _CLASS_IN ttl
                   (ServiceInfo.priority info) (ServiceInfo.weight info)
                   (default (-1)%Z (ServiceInfo.port info)) server, 0%Z)
    :: (DNSText now (ServiceInfo.name info) _TYPE_TXT _CLASS_IN ttl
                (ServiceInfo.text info), 0%Z)
    :: rest /\
  (rest = [] \/
   exists address,
     ServiceInfo.address info = Some address /\ address <> [] /\
     rest = [(DNSAddress now (ServiceInfo.server info) _TYPE_A _CLASS_IN ttl address,
              0%Z)]) /\
  DNSOutgoing.finished (service_message now ttl server info) = false /\
  DNSOutgoing.multicast (service_message now ttl server info) = true /\
  DNSOutgoing.flags (service_message now ttl server info)
  = Z.lor _FLAGS_QR_RESPONSE _FLAGS_AA /\
  DNSOutgoing.questions (service_message now ttl server info) = [].
Proof.
unfold service_message, add_service_answers.
destruct (ServiceInfo.address info) as [address|].
- destruct (bool_decide_reflect (address = [])) as [->|Hne].
  + exists []. repeat split. left. reflexivity.
  + eexists. split; [reflexivity |]. split; [| repeat split].
    right. exists address. repeat split. exact Hne.
- exists []. repeat split. left. reflexivity.
Qed.

End registration_props.

Section packet_exceptions.

(** [packet()] raises the exceptions of the writer only. *)
Lemma packet_exn (m : DNSOutgoing.t) (e : exn) :
  DNSOutgoing.packet m = Raise e -> writer_exn e.
Proof.
  intros H. destruct (DNSOutgoing.finished m) eqn:Hf.
  - rewrite (packet_of_finished m Hf) in H. discriminate.
  - pose proof (packet_enc_packet m Hf) as Hp. rewrite H in Hp.
    exact (enc_packet_exn m e Hp).
Qed.

Lemma send_exn (w : Zeroconf.observation) (out : DNSOutgoing.t) (e : exn) :
  Zeroconf.send w out = Raise e -> writer_exn e \/ e = Error.
Proof.
  unfold Zeroconf.send. destruct (DNSOutgoing.packet out) as [[p m']|x] eqn:E;
    cbn [bind].
  - destruct (Zeroconf.sent_whole w); [discriminate |]. intros [= <-]. right. reflexivity.
  - intros [= <-]. left. exact (packet_exn out x E).
Qed.

End packet_exceptions.

Section registration_tables.

Import Zeroconf.

(** X21: a [register_service] that returns, for an info whose name has
    a dot, has sent six packets, the three probes of [check_service] and
    three announcements, and has entered the info under its name in lower
    case.  When the name was not registered before and every count of
    [servicetypes] is positive, [unregister_service] of the same info gives
    back the tables.  Unregistering a service whose name is not registered
    leaves the tables as they are. *)
Theorem X21_unregister_restores_tables
    (format_name : string -> option bytes -> option Z -> string -> string)
    (world0 : list observation) (now0 : Z) (world : list observation) (now : Z)
    (info : ServiceInfo.t) (ttl : Z) (self : tables)
    (info' : ServiceInfo.t) (self' : tables) (sent : list bytes) :
  register_service format_name world0 now0 world now info ttl self
  = (info', self', Ok sent) ->
  (0 <= find_dot (ServiceInfo.name info))%Z ->
  dict_lookup (lower (ServiceInfo.name info')) (services self) = None ->
  Forall (fun item : string * Z => (1 <= snd item)%Z) (servicetypes self) ->
  List.length sent = 6 /\
  dict_lookup (lower (ServiceInfo.name info')) (services self') = Some info' /\
  (forall world' now', fst (unregister_service world' now' info' self') = self) /\
  (forall world' now', fst (unregister_service world' now' info' self) = self).
Proof.
  intros H Hdot Hfresh Hpos. unfold register_service in H.
  destruct (check_service format_name world0 now0 info) as [info1 [probes|e]] eqn:Ec;
    [| discriminate].
  injection H as -> <- H. apply bind_Ok in H as (announced & Ha & H).
  injection H as <-.
  apply send_loop_length in Ha.
  destruct (check_service_loop_sent format_name world0 info Hdot _ _ _ _ _ _ Ec)
    as (probes' & -> & Hl & _).
  split; [rewrite !length_app, Hl, Ha; reflexivity |].
  split; [apply dict_lookup_store |].
  split; intros world' now'; unfold unregister_service, forget_service;
    cbn [fst services servicetypes].
  - rewrite (dict_del_store_fresh _ _ _ Hfresh). destruct self as [svcs types].
    cbn [services servicetypes] in *.
    destruct (dict_lookup (ServiceInfo.type info') types) as [n|] eqn:E.
    + rewrite dict_lookup_store.
      assert (Hn : (1 <= n)%Z).
      { apply dict_lookup_In in E. rewrite List.Forall_forall in Hpos.
        exact (Hpos _ E). }
      destruct (Z.ltb_spec 1 (n + 1)) as [_|Hlt]; [| lia].
      replace (n + 1 - 1)%Z with n by lia.
      rewrite (dict_store_back _ _ _ _ E). reflexivity.
    + rewrite dict_lookup_store. cbn. rewrite (dict_del_store_fresh _ _ _ E).
      reflexivity.
  - rewrite (dict_del_None _ _ Hfresh). reflexivity.
Qed.

(** X22: a service info without text (the text that [ServiceInfo] keeps
    when its properties are [None]) cannot be announced: when
    [check_service] has sent its probes and returned, [register_service]
    enters the info into the tables and then raises an exception of the
    writer in the first round that announces, before any announcement is
    sent. *)
Theorem X22_register_without_text
    (format_name : string -> option bytes -> option Z -> string -> string)
    (world0 : list observation) (now0 : Z) (w : observation)
    (world : list observation) (now : Z)
    (info : ServiceInfo.t) (ttl : Z) (self : tables)
    (info' : ServiceInfo.t) (probes : list bytes) :
  check_service format_name world0 now0 info = (info', Ok probes) ->
  ServiceInfo.text info = None ->
  exists (self' : tables) (e : exn),
    register_service format_name world0 now0 (w :: world) now info ttl self
    = (info', self', Raise e) /\
    writer_exn e /\
    DNSOutgoing.packet (service_message now ttl (ServiceInfo.server info') info')
    = Raise e /\
    dict_lookup (lower (ServiceInfo.name info')) (services self') = Some info'.
Proof.
  intros Hc Ht. unfold register_service. rewrite Hc.
  assert (Ht' : ServiceInfo.text info' = None).
  { rewrite <- Ht. change info' with (fst (info', Ok probes : result (list bytes))).
    rewrite <- Hc. apply check_service_loop_text. }
  destruct (service_message_answers now ttl (ServiceInfo.server info') info')
    as (rest & Ha & _ & Hf & _).
  destruct (packet_text_None (service_message now ttl (ServiceInfo.server info') info')
              (DNSText now (ServiceInfo.name info') _TYPE_TXT _CLASS_IN ttl
                       (ServiceInfo.text info')) 0%Z Hf) as (e & He & Hw).
  { rewrite Ha. right. right. left. reflexivity. }
  { rewrite Ht'. reflexivity. }
  eexists _, e. split.
  { cbn [send_loop Nat.ltb Nat.leb]. rewrite Z.ltb_irrefl.
    unfold send. rewrite He. reflexivity. }
  split; [exact Hw |]. split; [exact He | apply dict_lookup_store].
Qed.

End registration_tables.

Section announcements.

Import Zeroconf.

Lemma service_message_eq (now ttl : Z) (server : string) (info : ServiceInfo.t) :
exists rest,
  service_message now ttl server info
  = DNSOutgoing.mk false 0%Z true (Z.lor _FLAGS_QR_RESPONSE _FLAGS_AA) ∅ [] 12 []
      ((DNSPointer now (ServiceInfo.type info) _TYPE_PTR _CLASS_IN ttl
                   (ServiceInfo.name info), 0%Z)
       :: (DNSService now (ServiceInfo.name info) _TYPE_SRV _CLASS_IN ttl
                      (ServiceInfo.priority info) (ServiceInfo.weight info)
                      (default (-1)%Z (ServiceInfo.port info)) server, 0%Z)
       :: (DNSText now (ServiceInfo.name info) _TYPE_TXT _CLASS_IN ttl
                   (ServiceInfo.text info), 0%Z)
       :: rest) [] [] /\
  (rest = [] \/
   exists address,
     ServiceInfo.address info = Some address /\ address <> [] /\
     rest = [(DNSAddress now (ServiceInfo.server info) _TYPE_A _CLASS_IN ttl address,
              0%Z)]).
Proof.
unfold service_message, add_service_answers.
destruct (ServiceInfo.address info) as [address|].
- destruct (bool_decide_reflect (address = [])) as [->|Hne].
  + exists []. split; [reflexivity | left; reflexivity].
  + eexists. split; [reflexivity |].
    right. exists address. repeat split. exact Hne.
- exists []. split; [reflexivity | left; reflexivity].
Qed.

Lemma service_message_well_formed (now ttl : Z) (server : string) (info : ServiceInfo.t) :
info_ok info = true -> name_ok server = true -> u32 ttl = true ->
well_formed (service_message now ttl server info) = true.
Proof.
intros Hi Hs Ht. unfold info_ok in Hi.
repeat match type of Hi with (_ && _) = true =>
  let H := fresh "W" in apply andb_prop in Hi as [Hi H] end.
destruct (ServiceInfo.port info) as [port|] eqn:Eport; [| discriminate].
destruct (service_message_eq now ttl server info) as (rest & -> & Hrest).
rewrite Eport. change (default (-1)%Z (Some port)) with port.
unfold well_formed.
cbn [DNSOutgoing.finished DNSOutgoing.data DNSOutgoing.size DNSOutgoing.names
     DNSOutgoing.flags DNSOutgoing.id DNSOutgoing.questions DNSOutgoing.answers
     DNSOutgoing.authorities DNSOutgoing.additionals negb].
assert (Hr : forallb answer_ok rest = true).
{ destruct Hrest as [->|(address & Ea & Hne & ->)]; [reflexivity |].
  rewrite Ea in W. cbn [forallb].
  unfold answer_ok, DNSAddress, DNSRecord.__init__,
    DNSRecord.name, DNSRecord.class_, DNSRecord.type, DNSEntry.__init__,
    Wire.wire_ttl.
  cbn [DNSRecord.entry DNSRecord.payload DNSRecord.ttl DNSEntry.name
       DNSEntry.class_ DNSEntry.type payload_ok Z.eqb].
  rewrite W4, Ht.
  apply orb_true_iff in W as [W|W]; apply Nat.eqb_eq in W;
    [destruct address; [congruence | discriminate] |].
  rewrite W. reflexivity. }
cbn [forallb]. rewrite Hr.
unfold answer_ok, DNSPointer, DNSService, DNSText, DNSRecord.__init__,
  DNSRecord.name, DNSRecord.class_, DNSRecord.type, DNSEntry.__init__,
  Wire.wire_ttl.
cbn [DNSRecord.entry DNSRecord.payload DNSRecord.ttl DNSEntry.name
     DNSEntry.class_ DNSEntry.type payload_ok Z.eqb].
rewrite Hi, W5, W3, W2, W1, Hs, Ht, W0.
rewrite (bool_decide_eq_true_2 _ (eq_refl : @nil bytes = [])).
rewrite (bool_decide_eq_true_2 _ (eq_refl : (∅ : gmap string nat) = ∅)).
reflexivity.
Qed.

End announcements.

Section announcements2.

Import Zeroconf.

(** The packet of a service message, parsed: a response whose first
  answer is the pointer record of the service, and no other pointer. *)
Lemma service_message_parsed (now ttl : Z) (server : string) (info : ServiceInfo.t)
  (p : bytes) (m' : DNSOutgoing.t) (now' : Z) :
info_ok info = true -> name_ok server = true -> u32 ttl = true ->
DNSOutgoing.packet (service_message now ttl server info) = Ok (p, m') ->
(Z.of_nat (List.length p) <= 16384)%Z ->
exists msg ptr rest,
  DNSIncoming.__init__ now' p = Ok msg /\
  DNSIncoming.is_response msg = true /\
  DNSIncoming.answers msg = ptr :: rest /\
  DNSRecord.type ptr = _TYPE_PTR /\
  DNSRecord.name ptr = ServiceInfo.type info /\
  DNSRecord.payload ptr = Pointer (ServiceInfo.name info) /\
  DNSRecord.ttl ptr = received_ttl ttl /\
  DNSRecord.created ptr = now' /\
  Forall (fun r => DNSRecord.type r <> _TYPE_PTR) rest.
Proof.
intros Hi Hs Ht Hp Hlen.
pose proof (service_message_well_formed now ttl server info Hi Hs Ht) as Hwf.
pose proof (packet_received now' _ _ _ Hwf Hp Hlen) as Hr.
destruct (service_message_eq now ttl server info) as (rest & Hm & Hrest).
rewrite Hm in Hr. unfold received in Hr.
cbn [DNSOutgoing.answers DNSOutgoing.questions DNSOutgoing.multicast
     DNSOutgoing.flags DNSOutgoing.id map] in Hr.
eexists _, _, _. split; [exact Hr |].
split; [reflexivity |]. split; [reflexivity |].
split; [reflexivity |]. split; [reflexivity |]. split; [reflexivity |].
split; [reflexivity |]. split; [reflexivity |].
constructor; [discriminate |]. constructor; [discriminate |].
destruct Hrest as [->|(address & _ & _ & ->)]; [constructor |].
constructor; [discriminate | constructor].
Qed.

Lemma browser_skips (now : Z) (rest : list DNSRecord.t) (browser : ServiceBrowser.t) :
Forall (fun r => DNSRecord.type r <> _TYPE_PTR) rest ->
for_each (ServiceBrowser.update_record now) rest browser = Ok browser.
Proof.
induction 1 as [|r rest Hr _ IH]; [reflexivity |].
cbn [for_each]. unfold ServiceBrowser.update_record at 1.
destruct (Z.eqb_spec (DNSRecord.type r) _TYPE_PTR) as [E|_]; [contradiction |].
cbn [andb bind]. exact IH.
Qed.

End announcements2.

Section probes.

Import Zeroconf.

(** The packet of a probe, parsed: a query with the question for the
  type and no answer; the authority record is not read, for
  [read_header] leaves [num_authorities] at 0. *)
Lemma probe_parsed (t : Z) (info : ServiceInfo.t) (p : bytes) (m' : DNSOutgoing.t)
  (now : Z) :
name_ok (ServiceInfo.type info) = true ->
DNSOutgoing.packet (probe t info) = Ok (p, m') ->
(Z.of_nat (List.length p) <= 16384)%Z ->
exists msg : DNSIncoming.t,
  DNSIncoming.__init__ now p = Ok msg /\
  DNSIncoming.is_query msg = true /\
  DNSIncoming.is_response msg = false /\
  map DNSEntry.name (DNSIncoming.questions msg) = [ServiceInfo.type info] /\
  DNSIncoming.answers msg = [].
Proof.
intros Hok Hp Hlen.
pose proof (packet_enc_packet (probe t info) eq_refl) as He. rewrite Hp in He.
unfold Wire.enc_packet in He.
apply bind_Ok in He as ([body nb] & Eb & He).
apply bind_Ok in He as (h & Eh & He). injection He as <-.
change (DNSOutgoing.data (probe t info)) with (@nil bytes) in Hlen |- *.
cbn [concat app] in Hlen |- *.
unfold Wire.enc_body in Eb.
apply seq_Ok in Eb as (bq & n1 & b1 & Eq & _ & ->).
destruct (read_header_enc (probe t info) h (bq ++ b1) Eh) as [Hh Hhd].
change (DNSOutgoing.multicast (probe t info)) with true in Hhd.
change (DNSOutgoing.flags (probe t info)) with (Z.lor _FLAGS_QR_QUERY _FLAGS_AA) in Hhd.
change (DNSOutgoing.questions (probe t info))
  with [DNSQuestion.__init__ (ServiceInfo.type info) _TYPE_PTR _CLASS_IN] in Hhd, Eq.
change (DNSOutgoing.answers (probe t info)) with (@nil (DNSRecord.t * Z)) in Hhd.
change (DNSOutgoing.additionals (probe t info)) with (@nil DNSRecord.t) in Hhd.
cbn [List.length] in Hhd.
set (self1 := DNSIncoming.mk 12 (h ++ bq ++ b1) [] [] _ _ _ _ _ _ _) in Hhd.
destruct (read_questions_exact
            [DNSQuestion.__init__ (ServiceInfo.type info) _TYPE_PTR _CLASS_IN]
            ∅ 12 bq n1 h b1 self1) as (Hq & _).
{ cbn [forallb]. unfold question_ok, DNSQuestion.__init__, DNSEntry.__init__.
  cbn [DNSEntry.name DNSEntry.type DNSEntry.class_]. rewrite Hok. reflexivity. }
{ exact Eq. }
{ apply table_ok_empty. }
{ exact Hh. }
{ reflexivity. }
{ exact Hlen. }
{ reflexivity. }
eexists. split.
- unfold DNSIncoming.__init__. cbv zeta. rewrite Hhd. cbn [bind].
  unfold DNSIncoming.read_questions.
  change (Z.to_nat (DNSIncoming.num_questions self1)) with 1.
  cbn [List.length] in Hq. rewrite Hq. cbn [bind].
  unfold DNSIncoming.read_others. cbv zeta.
  change (Z.to_nat _) with 0. reflexivity.
- repeat split.
Qed.

End probes.

Section announcement_props.

Import Zeroconf.

(** X23: the six packets that a completed [register_service] has sent
    for a well-formed service info, with a TTL between 1 and 2^31 - 1, are
    the three probes of [check_service] and then three announcements.  A
    probe is parsed by [DNSIncoming] as a query without answers.  An
    announcement is parsed as a response, and its answers make a
    [ServiceBrowser] of the type of the service that has its logger and
    does not hold the service queue one [add_service] callback with the
    name of the service and hold the pointer record, with the TTL
    announced. *)
Theorem X23_announcement_reaches_browser
    (format_name : string -> option bytes -> option Z -> string -> string)
    (world0 : list observation) (now0 : Z) (world : list observation) (now : Z)
    (info : ServiceInfo.t) (ttl : Z) (self : tables)
    (info' : ServiceInfo.t) (self' : tables) (sent : list bytes) :
  register_service format_name world0 now0 world now info ttl self
  = (info', self', Ok sent) ->
  (0 <= find_dot (ServiceInfo.name info))%Z ->
  info_ok info' = true ->
  (0 < ttl < 2 ^ 31)%Z ->
  exists probes announced : list bytes,
    sent = probes ++ announced /\
    check_service format_name world0 now0 info = (info', Ok probes) /\
    List.length probes = 3 /\ List.length announced = 3 /\
    (forall (p : bytes) (now' : Z),
       In p probes ->
       (Z.of_nat (List.length p) <= 16384)%Z ->
       exists msg : DNSIncoming.t,
         DNSIncoming.__init__ now' p = Ok msg /\
         DNSIncoming.is_query msg = true /\
         DNSIncoming.answers msg = []) /\
    (forall (p : bytes) (now' : Z) (browser : ServiceBrowser.t),
       In p announced ->
       (Z.of_nat (List.length p) <= 16384)%Z ->
       ServiceBrowser.type browser = ServiceInfo.type info' ->
       ServiceBrowser.logger browser = true ->
       ServiceBrowser.services browser !! lower (ServiceInfo.name info') = None ->
       exists (msg : DNSIncoming.t) (browser' : ServiceBrowser.t) (record : DNSRecord.t),
         DNSIncoming.__init__ now' p = Ok msg /\
         DNSIncoming.is_response msg = true /\
         for_each (ServiceBrowser.update_record now') (DNSIncoming.answers msg) browser
         = Ok browser' /\
         ServiceBrowser.list browser'
         = ServiceBrowser.list browser
           ++ [ServiceBrowser.add_service (ServiceInfo.name info')] /\
         ServiceBrowser.services browser' !! lower (ServiceInfo.name info')
         = Some record /\
         DNSRecord.ttl record = ttl /\ DNSRecord.created record = now').
Proof.
  intros H Hdot Hi Httl. unfold register_service in H.
  destruct (check_service format_name world0 now0 info) as [info1 [probes|e]] eqn:Ec;
    [| discriminate].
  injection H as -> <- H. apply bind_Ok in H as (announced & Ha & H).
  injection H as <-.
  assert (Hinfo : info' = info).
  { change info' with (fst (info', Ok probes : result (list bytes))). rewrite <- Ec.
    apply check_service_loop_info. exact Hdot. }
  destruct (check_service_loop_sent format_name world0 info Hdot _ _ _ _ _ _ Ec)
    as (probes' & Hpr & Hl & Hprobes).
  cbn [app] in Hpr. subst probes'.
  assert (W : name_ok (ServiceInfo.type info') = true /\
              name_ok (ServiceInfo.server info') = true).
  { unfold info_ok in Hi.
    repeat match type of Hi with (_ && _) = true =>
      let H := fresh "W" in apply andb_prop in Hi as [Hi H] end.
    split; assumption. }
  destruct W as [Htype Hs].
  exists probes, announced. split; [reflexivity |]. split; [reflexivity |].
  split; [exact Hl |].
  split; [apply send_loop_length in Ha; exact Ha |]. split.
  - intros p now' Hp Hlen. rewrite List.Forall_forall in Hprobes.
    destruct (Hprobes p Hp) as (t & m' & Hpk). rewrite <- Hinfo in Hpk.
    destruct (probe_parsed t info' p m' now' Htype Hpk Hlen)
      as (msg & Hmsg & Hq & _ & _ & Hans).
    exists msg. repeat split; assumption.
  - intros p now' browser Hp Hlen Hbt Hlog Hnone.
    destruct (send_loop_packets _ _ _ _ _ _ _ _ Ha p Hp) as [[]|(t & m' & Hpk)].
    assert (Hu : u32 ttl = true).
    { unfold u32. apply andb_true_intro.
      split; [apply Z.leb_le | apply Z.ltb_lt]; lia. }
    destruct (service_message_parsed t ttl _ info' p m' now' Hi Hs Hu Hpk Hlen)
      as (msg & ptr & rest & Hmsg & Hresp & Hans & Hty & Hname & Hpay & Hrttl & Hcr
          & Hrest).
    assert (Hrt : DNSRecord.ttl ptr = ttl).
    { rewrite Hrttl. unfold received_ttl.
      destruct (Z.ltb_spec ttl (2 ^ 31)); [reflexivity | lia]. }
    assert (Hexp : DNSRecord.is_expired ptr now' = false).
    { unfold DNSRecord.is_expired, DNSRecord.get_expiration_time.
      rewrite Hrt, Hcr. apply Z.leb_gt. lia. }
    exists msg. eexists. exists ptr.
    split; [exact Hmsg |]. split; [exact Hresp |].
    rewrite Hans. cbn [for_each].
    unfold ServiceBrowser.update_record at 1.
    rewrite Hty, Hname, Hbt, Z.eqb_refl, String.eqb_refl, Hpay, Hnone, Hlog, Hexp.
    cbn [andb negb log bind].
    split; [apply browser_skips; exact Hrest |].
    destruct (set_next_time_services ptr
                (ServiceBrowser.append_callback
                   (ServiceBrowser.add_service (ServiceInfo.name info'))
                   (ServiceBrowser.set_services
                      (<[lower (ServiceInfo.name info') := ptr]>
                         (ServiceBrowser.services browser)) browser)))
      as [-> ->].
    cbn [ServiceBrowser.append_callback ServiceBrowser.set_services
         ServiceBrowser.list ServiceBrowser.services].
    split; [reflexivity |]. split; [apply lookup_insert_eq |].
    split; [exact Hrt | exact Hcr].
Qed.

(** X24: every packet that a completed [unregister_service] has sent
    for a well-formed service info is parsed by [DNSIncoming] as a
    response, and its answers make a [ServiceBrowser] of the type of the
    service that holds the service queue one [remove_service] callback
    with the name of the service and drop the service. *)
Theorem X24_farewell_reaches_browser
    (world : list observation) (now : Z) (info : ServiceInfo.t) (self self' : tables)
    (sent : list bytes) :
  unregister_service world now info self = (self', Ok sent) ->
  info_ok info = true ->
  forall (p : bytes) (now' : Z) (browser : ServiceBrowser.t),
    In p sent ->
    (Z.of_nat (List.length p) <= 16384)%Z ->
    ServiceBrowser.type browser = ServiceInfo.type info ->
    is_Some (ServiceBrowser.services browser !! lower (ServiceInfo.name info)) ->
    exists (msg : DNSIncoming.t) (browser' : ServiceBrowser.t),
      DNSIncoming.__init__ now' p = Ok msg /\
      DNSIncoming.is_response msg = true /\
      for_each (ServiceBrowser.update_record now') (DNSIncoming.answers msg) browser
      = Ok browser' /\
      ServiceBrowser.list browser'
      = ServiceBrowser.list browser
        ++ [ServiceBrowser.remove_service (ServiceInfo.name info)] /\
      ServiceBrowser.services browser' !! lower (ServiceInfo.name info) = None.
Proof.
  intros H Hi p now' browser Hp Hlen Htype [old Hold].
  unfold unregister_service in H. injection H as _ H.
  destruct (send_loop_packets _ _ _ _ _ _ _ _ H p Hp) as [[]|(t & m' & Hpk)].
  assert (Hs : name_ok (ServiceInfo.name info) = true).
  { unfold info_ok in Hi.
    repeat match type of Hi with (_ && _) = true =>
      let H := fresh "W" in apply andb_prop in Hi as [Hi H] end.
    assumption. }
  destruct (service_message_parsed t 0 _ info p m' now' Hi Hs eq_refl Hpk Hlen)
    as (msg & ptr & rest & Hmsg & Hresp & Hans & Hty & Hname & Hpay & Hrttl & Hcr & Hrest).
  assert (Hexp : DNSRecord.is_expired ptr now' = true).
  { unfold DNSRecord.is_expired, DNSRecord.get_expiration_time.
    rewrite Hrttl, Hcr. apply Z.leb_le. change (received_ttl 0) with 0%Z. lia. }
  exists msg. eexists.
  split; [exact Hmsg |]. split; [exact Hresp |].
  rewrite Hans. cbn [for_each].
  unfold ServiceBrowser.update_record at 1.
  rewrite Hty, Hname, Htype, Z.eqb_refl, String.eqb_refl, Hpay, Hold, Hexp.
  cbn [andb negb bind].
  split; [apply browser_skips; exact Hrest |].
  cbn [ServiceBrowser.append_callback ServiceBrowser.set_services
       ServiceBrowser.list ServiceBrowser.services].
  split; [reflexivity | apply lookup_delete_eq].
Qed.

End announcement_props.

Section registration_witnesses.

Import Zeroconf.

Lemma X21_unregister_restores_tables_witness :
  let format_name (n : string) (a : option bytes) (p : option Z) (t : string) :=
    (n +:+ ".[]." +:+ t) in
  let w (t : Z) :=
    {| seen_cache := DNSCache.__init__; clock := t; sent_whole := true |} in
  let info :=
    ServiceInfo.mk "_http._tcp.local." "My Service._http._tcp.local."
      (Some [x7f; x00; x00; x01]) (Some 1234%Z) 0 0 "host.local." None (Some []) true in
  let self := {| services := []; servicetypes := [("_ipp._tcp.local.", 2%Z)] |} in
  exists (self' : tables) (sent : list bytes),
    register_service format_name [w 0; w 175; w 175; w 350; w 350]%Z 0
      [w 1000; w 1225; w 1225; w 1450; w 1450]%Z 1000 info 60 self
    = (info, self', Ok sent) /\
    List.length sent = 6 /\
    dict_lookup (lower (ServiceInfo.name info)) (services self') = Some info /\
    (forall world' now', fst (unregister_service world' now' info self') = self) /\
    (forall world' now', fst (unregister_service world' now' info self) = self).
Proof.
  intros format_name w info self.
  destruct (register_service format_name [w 0; w 175; w 175; w 350; w 350]%Z 0
              [w 1000; w 1225; w 1225; w 1450; w 1450]%Z 1000 info 60 self)
    as [[info' self'] [sent|e]] eqn:E; [| vm_compute in E; discriminate].
  assert (Hi : info' = info) by (vm_compute in E; injection E as <- _ _; reflexivity).
  subst info'. exists self', sent. split; [reflexivity |].
  apply (X21_unregister_restores_tables format_name _ _ _ _ _ _ _ _ _ _ E).
  - vm_compute. discriminate.
  - reflexivity.
  - constructor; [cbn; lia | constructor].
Defined.

Lemma X22_register_without_text_witness :
  let format_name (n : string) (a : option bytes) (p : option Z) (t : string) :=
    (n +:+ ".[]." +:+ t) in
  let w (t : Z) :=
    {| seen_cache := DNSCache.__init__; clock := t; sent_whole := true |} in
  let info :=
    ServiceInfo.mk "_http._tcp.local." "My Service._http._tcp.local."
      (Some [x7f; x00; x00; x01]) (Some 1234%Z) 0 0 "host.local." None None true in
  let self := {| services := []; servicetypes := [] |} in
  exists (self' : tables) (e : exn),
    register_service format_name [w 0; w 175; w 175; w 350; w 350]%Z 0
      [w 1000]%Z 1000 info 60 self
    = (info, self', Raise e) /\
    writer_exn e /\
    DNSOutgoing.packet (service_message 1000 60 (ServiceInfo.server info) info)
    = Raise e /\
    dict_lookup (lower (ServiceInfo.name info)) (services self') = Some info.
Proof.
  intros format_name w info self.
  eapply (X22_register_without_text format_name _ 0%Z (w 1000%Z) [] 1000%Z info 60%Z self
            info).
  - vm_compute. reflexivity.
  - reflexivity.
Defined.

Lemma X23_announcement_reaches_browser_witness :
  let format_name (n : string) (a : option bytes) (p : option Z) (t : string) :=
    (n +:+ ".[]." +:+ t) in
  let w (t : Z) :=
    {| seen_cache := DNSCache.__init__; clock := t; sent_whole := true |} in
  let info :=
    ServiceInfo.mk "_http._tcp.local." "My Service._http._tcp.local."
      (Some [x7f; x00; x00; x01]) (Some 1234%Z) 0 0 "host.local." None (Some []) true in
  let self := {| services := []; servicetypes := [] |} in
  let browser := ServiceBrowser.mk "_http._tcp.local." ∅ 0 _BROWSER_TIME [] false true in
  exists (self' : tables) (probes announced : list bytes) (p q : bytes),
    register_service format_name [w 0; w 175; w 175; w 350; w 350]%Z 0
      [w 1000; w 1225; w 1225; w 1450; w 1450]%Z 1000 info 60 self
    = (info, self', Ok (probes ++ announced)) /\
    List.length probes = 3 /\ List.length announced = 3 /\
    In q probes /\
    (exists msg : DNSIncoming.t,
       DNSIncoming.__init__ 5000 q = Ok msg /\
       DNSIncoming.is_query msg = true /\
       DNSIncoming.answers msg = []) /\
    In p announced /\
    exists (msg : DNSIncoming.t) (browser' : ServiceBrowser.t) (record : DNSRecord.t),
      DNSIncoming.__init__ 5000 p = Ok msg /\
      DNSIncoming.is_response msg = true /\
      for_each (ServiceBrowser.update_record 5000) (DNSIncoming.answers msg) browser
      = Ok browser' /\
      ServiceBrowser.list browser'
      = ServiceBrowser.list browser
        ++ [ServiceBrowser.add_service (ServiceInfo.name info)] /\
      ServiceBrowser.services browser' !! lower (ServiceInfo.name info) = Some record /\
      DNSRecord.ttl record = 60%Z /\ DNSRecord.created record = 5000%Z.
Proof.
  intros format_name w info self browser.
  destruct (register_service format_name [w 0; w 175; w 175; w 350; w 350]%Z 0
              [w 1000; w 1225; w 1225; w 1450; w 1450]%Z 1000 info 60 self)
    as [[info' self'] [sent|e]] eqn:E; [| vm_compute in E; discriminate].
  assert (Hi : info' = info) by (vm_compute in E; injection E as <- _ _; reflexivity).
  subst info'.
  destruct (X23_announcement_reaches_browser format_name _ _ _ _ _ _ _ _ _ _ E)
    as (probes & announced & -> & _ & Hlp & Hla & Hprobes & Hann).
  - vm_compute. discriminate.
  - reflexivity.
  - lia.
  - destruct probes as [|q [|q2 [|q3 [|? ?]]]]; try discriminate Hlp.
    destruct announced as [|p [|p2 [|p3 [|? ?]]]]; try discriminate Hla.
    assert (Hq : (Z.of_nat (List.length q) <= 16384)%Z /\
                 (Z.of_nat (List.length p) <= 16384)%Z).
    { vm_compute in E. injection E as _ Eq _ _ Ep _ _. rewrite <- Eq, <- Ep.
      split; vm_compute; discriminate. }
    destruct Hq as [Hq Hp].
    exists self', [q; q2; q3], [p; p2; p3], p, q.
    split; [reflexivity |]. split; [exact Hlp |]. split; [exact Hla |].
    split; [left; reflexivity |].
    split; [exact (Hprobes q 5000%Z (or_introl eq_refl) Hq) |].
    split; [left; reflexivity |].
    apply (Hann p 5000%Z browser (or_introl eq_refl) Hp); reflexivity.
Defined.

Lemma X24_farewell_reaches_browser_witness :
  let w (t : Z) :=
    {| seen_cache := DNSCache.__init__; clock := t; sent_whole := true |} in
  let info :=
    ServiceInfo.mk "_http._tcp.local." "My Service._http._tcp.local."
      (Some [x7f; x00; x00; x01]) (Some 1234%Z) 0 0 "host.local." None (Some []) true in
  let self := {| services := [(lower "My Service._http._tcp.local.", info)];
                 servicetypes := [("_http._tcp.local.", 1%Z)] |} in
  let old :=
    DNSPointer 4000 "_http._tcp.local." _TYPE_PTR _CLASS_IN 60
               "My Service._http._tcp.local." in
  let browser :=
    ServiceBrowser.mk "_http._tcp.local."
      {[ "my service._http._tcp.local." := old ]} 0 _BROWSER_TIME
      [ServiceBrowser.add_service "My Service._http._tcp.local."] false true in
  exists (self' : tables) (sent : list bytes) (p : bytes),
    unregister_service [w 1000; w 1125; w 1125; w 1250; w 1250]%Z 1000 info self
    = (self', Ok sent) /\
    In p sent /\
    exists (msg : DNSIncoming.t) (browser' : ServiceBrowser.t),
      DNSIncoming.__init__ 5000 p = Ok msg /\
      DNSIncoming.is_response msg = true /\
      for_each (ServiceBrowser.update_record 5000) (DNSIncoming.answers msg) browser
      = Ok browser' /\
      ServiceBrowser.list browser'
      = ServiceBrowser.list browser
        ++ [ServiceBrowser.remove_service (ServiceInfo.name info)] /\
      ServiceBrowser.services browser' !! lower (ServiceInfo.name info) = None.
Proof.
  intros w info self old browser.
  destruct (unregister_service [w 1000; w 1125; w 1125; w 1250; w 1250]%Z 1000 info self)
    as [self' [sent|e]] eqn:E; [| vm_compute in E; discriminate].
  assert (Hs : exists p, In p sent /\ (Z.of_nat (List.length p) <= 16384)%Z).
  { vm_compute in E. injection E as _ <-. eexists. split; [left; reflexivity |].
    vm_compute. discriminate. }
  destruct Hs as (p & Hp & Hlen).
  exists self', sent, p. split; [reflexivity |]. split; [exact Hp |].
  apply (X24_farewell_reaches_browser _ _ _ _ _ _ E).
  - reflexivity.
  - exact Hp.
  - exact Hlen.
  - reflexivity.
  - exists old. vm_compute. reflexivity.
Defined.

End registration_witnesses.

(** ** Names without a final dot *)

Section trailing_dot.

Lemma split_dot_nonempty (s : string) : split_dot s <> [].
Proof.
destruct s as [|c s]; cbn [split_dot]; [discriminate |].
destruct (Ascii.eqb c dot); [discriminate |].
destruct (split_dot s); discriminate.
Qed.

Lemma split_dot_app_dot (s : string) :
split_dot (s +:+ ".") = split_dot s ++ [EmptyString].
Proof.
induction s as [|c s IH]; [reflexivity |].
change (String c s +:+ ".") with (String c (s +:+ ".")).
cbn [split_dot]. rewrite IH.
destruct (Ascii.eqb c dot); [reflexivity |].
destruct (split_dot s) as [|h t] eqn:E; [exfalso; exact (split_dot_nonempty s E) |].
reflexivity.
Qed.

Lemma labels_of_app_dot (s : string) :
last (split_dot s) <> Some EmptyString ->
Wire.labels_of (s +:+ ".") = Wire.labels_of s.
Proof.
intros H. unfold Wire.labels_of. cbv zeta. rewrite split_dot_app_dot.
rewrite last_snoc, bool_decide_eq_true_2 by reflexivity.
rewrite List.removelast_last.
rewrite bool_decide_eq_false_2 by exact H. reflexivity.
Qed.

Lemma enc_packet_question_dot (flags type class_ : Z) (multicast : bool) (name : string) :
last (split_dot name) <> Some EmptyString ->
Wire.enc_packet
  (DNSOutgoing.add_question (DNSQuestion.__init__ name type class_)
     (DNSOutgoing.__init__ flags multicast))
= Wire.enc_packet
    (DNSOutgoing.add_question (DNSQuestion.__init__ (name +:+ ".") type class_)
       (DNSOutgoing.__init__ flags multicast)).
Proof.
intros H. unfold Wire.enc_packet, Wire.enc_body, Wire.enc_header,
  DNSOutgoing.add_question, DNSOutgoing.__init__, DNSQuestion.__init__,
  DNSEntry.__init__.
cbn [DNSOutgoing.questions DNSOutgoing.answers DNSOutgoing.authorities
     DNSOutgoing.additionals DNSOutgoing.names DNSOutgoing.size DNSOutgoing.data
     DNSOutgoing.multicast DNSOutgoing.flags DNSOutgoing.id app Wire.seq_list
     List.length].
cbv beta iota zeta delta
  [Wire.seq Wire.enc_question Wire.enc_name Wire.enc_short Wire.lift Wire.skip
   Wire.enc_plain bind DNSEntry.name DNSEntry.type DNSEntry.class_].
rewrite !lookup_empty, (labels_of_app_dot name H).
destruct (Wire.enc_labels (Wire.labels_of name)) as [ls|e]; [| reflexivity].
destruct (pack_field fmt_H type) as [t|e]; [| reflexivity].
destruct (pack_field fmt_H (Z.land class_ _CLASS_MASK)) as [c|e];
  reflexivity.
Qed.

End trailing_dot.

Section trailing_dot_props.



End trailing_dot_props.

Lemma X20_known_answer_suppression_witness :
  let known := DNSPointer 0 "_ipp._tcp.local." _TYPE_PTR _CLASS_IN 60 "x._http._tcp.local." in
  let inp := DNSIncoming.mk 0 [] [] [known] 0 0 0 1 0 0 0 in
  let out := DNSOutgoing.__init__ _FLAGS_QR_RESPONSE true in
  let fresh := DNSPointer 0 "_http._tcp.local." _TYPE_PTR _CLASS_IN 100 "x._http._tcp.local." in
  let old := DNSPointer 0 "_http._tcp.local." _TYPE_PTR _CLASS_IN 120 "x._http._tcp.local." in
  add_answer inp fresh out = out /\
  DNSOutgoing.answers (add_answer inp old out) = [(old, 0%Z)].
Proof.
  intros known inp out fresh old. split.
  - apply (proj1 (X20_known_answer_suppression inp fresh out)).
    constructor. split; [reflexivity | cbn; lia].
  - apply (proj2 (X20_known_answer_suppression inp old out)).
    intros H. apply Exists_cons in H as [[_ H]|H]; [cbn in H; lia |].
    apply Exists_nil in H. exact H.
Defined.


(** ** [check_service]: every round of the loop *)

Section check_service_rounds.

Import Zeroconf.

Variable format_name : string -> option bytes -> option Z -> string -> string.

Lemma scan_records_exn (info : ServiceInfo.t) (now : Z) (records : list DNSRecord.t)
    (e : exn) :
  scan_records info now records = Raise e ->
  e = AttributeError \/ e = NonUniqueNameException.
Proof.
  induction records as [|r records IH]; cbn [scan_records]; [discriminate |].
  destruct ((DNSRecord.type r =? _TYPE_PTR)%Z && negb (DNSRecord.is_expired r now)).
  - destruct (DNSRecord.payload r); cbn [bind];
      try (intros [= <-]; left; reflexivity).
    destruct (String.eqb alias (ServiceInfo.name info)); [| exact IH].
    destruct (find_dot (ServiceInfo.name info) <? 0)%Z; [discriminate |].
    intros [= <-]. right. reflexivity.
  - cbn [bind]. exact IH.
Qed.

(** A loop that has used up the observations [pre] and is still running
    goes on, with more observations, from a state whose counter is below 3
    and whose clock is the one it started with or one it has met. *)
Lemma check_service_loop_prefix (info : ServiceInfo.t) (pre : list observation) :
  (0 <= find_dot (ServiceInfo.name info))%Z ->
  forall (now next_time : Z) (i : nat) (sent : list bytes),
    check_service_loop format_name pre info now next_time i sent
    = (info, Raise FuelExhausted) ->
    exists (now' next_time' : Z) (i' : nat) (sent' : list bytes),
      i' < 3 /\ In now' (now :: map clock pre) /\
      forall world : list observation,
        check_service_loop format_name (pre ++ world) info now next_time i sent
        = check_service_loop format_name world info now' next_time' i' sent'.
Proof.
  intros Hdot. induction pre as [|w pre IH]; intros now next_time i sent H.
  - cbn [check_service_loop] in H. destruct (Nat.ltb_spec i 3) as [Hi|Hi];
      [| discriminate].
    exists now, next_time, i, sent. split; [exact Hi |].
    split; [left; reflexivity |]. intros world. reflexivity.
  - cbn [check_service_loop] in H. destruct (i <? 3) eqn:Hi; [| discriminate].
    pose proof (scan_records_no_rename info now
                  (DNSCache.entries_with_name (ServiceInfo.type info) (seen_cache w))
                  Hdot) as Hs.
    destruct (scan_records info now
                (DNSCache.entries_with_name (ServiceInfo.type info) (seen_cache w)))
      as [[|]|e] eqn:Es; [congruence | |].
    + destruct (now <? next_time)%Z eqn:Hw.
      * destruct (IH _ _ _ _ H) as (now' & nt' & i' & sent' & Hi' & Hin & Hgo).
        exists now', nt', i', sent'. split; [exact Hi' |].
        split; [right; exact Hin |]. intros world.
        cbn [app check_service_loop]. rewrite Hi, Es, Hw. apply Hgo.
      * destruct (send w (probe now info)) as [packet|e] eqn:Esend.
        -- destruct (IH _ _ _ _ H) as (now' & nt' & i' & sent' & Hi' & Hin & Hgo).
           exists now', nt', i', sent'. split; [exact Hi' |].
           split; [destruct Hin as [<-|Hin]; [left; reflexivity | right; right; exact Hin]
                  |].
           intros world. cbn [app check_service_loop]. rewrite Hi, Es, Hw, Esend.
           apply Hgo.
        -- injection H as ->. apply send_exn in Esend as [Hx|Hx]; [| discriminate].
           destruct Hx as [Hx|[Hx|[Hx|Hx]]]; discriminate.
    + injection H as ->. apply scan_records_exn in Es as [Hx|Hx]; discriminate.
Qed.

End check_service_rounds.

(** C10.  For an info that the constructor has accepted and whose name
    has a dot (as it has whenever the type has one), [check_service] never
    enters its renaming branch: the scan of the cached records never ends
    there, and the info object is left as it was whatever the other threads
    and the clock do.  A cached PTR record for the type, not expired, whose
    alias is the name makes the call raise [NonUniqueNameException] in
    whichever round of the loop it is found: from every state of the loop
    with a counter below 3, and so in the round that follows any
    observations [pre] after which the loop is still running, at the time
    [now'] the loop has then, which is the time of the call or a clock read
    since. *)
Theorem C10_check_service_never_renames
    (format_name : string -> option bytes -> option Z -> string -> string)
    (type name : string) (address : option bytes) (port : option Z) (weight priority : Z)
    (properties : ServiceInfo.properties_arg) (server : option string)
    (logger : logger_arg) (info : ServiceInfo.t) :
  ServiceInfo.__init__ type name address port weight priority properties server logger
  = Ok info ->
  ((0 <= find_dot type)%Z -> (0 <= find_dot (ServiceInfo.name info))%Z) /\
  ((0 <= find_dot (ServiceInfo.name info))%Z ->
   (forall (now : Z) (records : list DNSRecord.t),
      Zeroconf.scan_records info now records <> Ok true) /\
   (forall (world : list Zeroconf.observation) (now : Z),
      fst (Zeroconf.check_service format_name world now info) = info) /\
   (forall (w : Zeroconf.observation) (world : list Zeroconf.observation)
           (now next_time : Z) (i : nat) (sent : list bytes),
      let records :=
        DNSCache.entries_with_name (ServiceInfo.type info) (Zeroconf.seen_cache w) in
      i < 3 ->
      (forall r, In r records -> DNSRecord.type r = _TYPE_PTR ->
                 exists alias, DNSRecord.payload r = Pointer alias) ->
      (exists r, In r records /\ DNSRecord.type r = _TYPE_PTR /\
                 DNSRecord.is_expired r now = false /\
                 DNSRecord.payload r = Pointer (ServiceInfo.name info)) ->
      Zeroconf.check_service_loop format_name (w :: world) info now next_time i sent
      = (info, Raise NonUniqueNameException)) /\
   (forall (pre : list Zeroconf.observation) (now0 : Z),
      Zeroconf.check_service format_name pre now0 info = (info, Raise FuelExhausted) ->
      exists now' : Z,
        In now' (now0 :: map Zeroconf.clock pre) /\
        forall (w : Zeroconf.observation) (world : list Zeroconf.observation),
          let records :=
            DNSCache.entries_with_name (ServiceInfo.type info) (Zeroconf.seen_cache w) in
          (forall r, In r records -> DNSRecord.type r = _TYPE_PTR ->
                     exists alias, DNSRecord.payload r = Pointer alias) ->
          (exists r, In r records /\ DNSRecord.type r = _TYPE_PTR /\
                     DNSRecord.is_expired r now' = false /\
                     DNSRecord.payload r = Pointer (ServiceInfo.name info)) ->
          Zeroconf.check_service format_name (pre ++ w :: world) now0 info
          = (info, Raise NonUniqueNameException))).
Proof.
  intros Hinit. unfold ServiceInfo.__init__ in Hinit.
  destruct (endswith name type) eqn:Hend; simpl in Hinit; [| discriminate].
  apply bind_Ok in Hinit as ([props text] & _ & Hinit). injection Hinit as <-.
  split.
  - apply endswith_find_dot. exact Hend.
  - intros Hdot. split; [| split; [| split]].
    + intros now records. apply scan_records_no_rename. exact Hdot.
    + intros world now. apply check_service_loop_info. exact Hdot.
    + intros w world now next_time i sent records Hi Hptr Hcol.
      apply check_service_collision; assumption.
    + intros pre now0 Hpre.
      destruct (check_service_loop_prefix format_name _ pre Hdot _ _ _ _ Hpre)
        as (now' & nt' & i' & sent' & Hi' & Hin & Hgo).
      exists now'. split; [exact Hin |]. intros w world records Hptr Hcol.
      unfold Zeroconf.check_service. rewrite Hgo.
      apply check_service_collision; assumption.
Qed.

Lemma C10_check_service_never_renames_witness :
  let format_name (n : string) (a : option bytes) (p : option Z) (t : string) :=
    (n +:+ ".[]." +:+ t) in
  let t := "_http._tcp.local." in
  let n := "My Service._http._tcp.local." in
  exists info : ServiceInfo.t,
    ServiceInfo.__init__ t n (Some [x7f; x00; x00; x01]) (Some 1234%Z) 0 0
      (ServiceInfo.OfDict []) None LoggerNone = Ok info /\
    (0 <= find_dot (ServiceInfo.name info))%Z /\
    (forall world now, fst (Zeroconf.check_service format_name world now info) = info) /\
    let quiet (c : Z) :=
      {| Zeroconf.seen_cache := DNSCache.__init__; Zeroconf.clock := c;
         Zeroconf.sent_whole := true |} in
    let w := {| Zeroconf.seen_cache :=
                  DNSCache.add (DNSPointer 1000 t _TYPE_PTR _CLASS_IN 60 n) DNSCache.__init__;
                Zeroconf.clock := 2000%Z;
                Zeroconf.sent_whole := true |} in
    Zeroconf.check_service format_name [w] 2000 info = (info, Raise NonUniqueNameException) /\
    Zeroconf.check_service format_name [quiet 0; quiet 175; w]%Z 0 info
    = (info, Raise NonUniqueNameException).
Proof.
  intros format_name t n.
  destruct (ServiceInfo.__init__ t n (Some [x7f; x00; x00; x01]) (Some 1234%Z) 0 0
              (ServiceInfo.OfDict []) None LoggerNone) as [info|e] eqn:E;
    [| vm_compute in E; discriminate].
  destruct (C10_check_service_never_renames format_name t n _ _ _ _ _ _ _ info E)
    as [Hdot H].
  assert (Hd : (0 <= find_dot (ServiceInfo.name info))%Z)
    by (apply Hdot; vm_compute; discriminate).
  destruct (H Hd) as (_ & Hinfo & Hcol & Hlater).
  exists info. split; [reflexivity |]. split; [exact Hd |]. split; [exact Hinfo |].
  intros quiet w.
  assert (Hptr : forall r,
            In r (DNSCache.entries_with_name (ServiceInfo.type info)
                    (Zeroconf.seen_cache w)) ->
            DNSRecord.type r = _TYPE_PTR -> exists alias, DNSRecord.payload r = Pointer alias).
  { vm_compute in E. injection E as <-. intros r Hin _.
    vm_compute in Hin. destruct Hin as [<-|[]]. eexists. reflexivity. }
  split.
  - apply (Hcol w [] 2000%Z 2000%Z 0 []); [lia | exact Hptr |].
    vm_compute in E. injection E as <-.
    eexists. split; [left; reflexivity |]. vm_compute. repeat split.
  - destruct (Hlater [quiet 0%Z; quiet 175%Z] 0%Z) as (now' & Hin & Hgo).
    { vm_compute in E. injection E as <-. vm_compute. reflexivity. }
    apply (Hgo w []); [exact Hptr |].
    vm_compute in E. injection E as <-.
    eexists. split; [left; reflexivity |].
    destruct Hin as [<-|[<-|[<-|[]]]]; vm_compute; repeat split.
Defined.

(** ** The layout of a packet *)

Section layout.

Import Wire.

Lemma slice_app_inv (p b1 b2 : bytes) (pos : nat) :
  slice p pos (List.length (b1 ++ b2)) = b1 ++ b2 ->
  slice p pos (List.length b1) = b1 /\
  slice p (pos + List.length b1) (List.length b2) = b2.
Proof.
  unfold slice. rewrite length_app. intros H. split.
  - replace (take (List.length b1) (drop pos p))
      with (take (List.length b1)
              (take (List.length b1 + List.length b2) (drop pos p)))
      by (rewrite take_take; f_equal; lia).
    rewrite H. apply take_app_length.
  - rewrite <- drop_drop, take_drop_commute, H. apply drop_app_length.
Qed.

Lemma lays_seq (e1 e2 : enc) (ps1 ps2 : list piece) :
  lays e1 ps1 -> lays e2 ps2 -> lays (seq e1 e2) (ps1 ++ ps2).
Proof.
  intros H1 H2 names pos b names' p rest He Hs Hrest.
  apply seq_Ok in He as (b1 & n1 & b2 & E1 & E2 & ->).
  apply slice_app_inv in Hs as [Hs1 Hs2].
  rewrite <- app_assoc. apply (H1 _ _ _ _ _ _ E1 Hs1).
  apply (H2 _ _ _ _ _ _ E2 Hs2).
  rewrite length_app, Nat.add_assoc in Hrest. exact Hrest.
Qed.

Lemma lays_blind (e : enc) (size : nat) : blind e size -> lays e [Other size].
Proof.
  intros Hb names pos b names' p rest He _ Hrest.
  destruct (Hb _ _ _ _ He) as [-> <-]. exact Hrest.
Qed.

Lemma blind_lift (r : result bytes) (size : nat) :
  (forall b, r = Ok b -> List.length b = size) -> blind (lift r) size.
Proof.
  intros Hr names pos b names' He. apply lift_Ok in He as [E ->].
  split; [reflexivity | exact (Hr b E)].
Qed.

Lemma blind_short (v : Z) : blind (enc_short v) 2.
Proof. apply blind_lift. intros b H. exact (length_pack_field _ _ _ H). Qed.

Lemma blind_int (v : Z) : blind (enc_int v) 4.
Proof. apply blind_lift. intros b H. exact (length_pack_field _ _ _ H). Qed.

Lemma lays_raise (e : enc) (ps : list piece) :
  (forall names pos b names', e names pos <> Ok (b, names')) -> lays e ps.
Proof. intros H names pos b names' p rest He. destruct (H _ _ _ _ He). Qed.

Lemma lays_name (name : string) : lays (enc_name name) [Name name].
Proof.
  intros names pos b names' p rest He Hs Hrest. cbn [app laid_out].
  unfold enc_name in He. destruct (names !! name) as [index|] eqn:E.
  - apply bind_Ok in He as (b' & Eb & He). injection He as <- <-.
    unfold enc_pointer in Eb.
    apply bind_Ok in Eb as (hi & Ehi & Eb). apply bind_Ok in Eb as (lo & Elo & Eb).
    injection Eb as <-.
    apply int2byte_Ok in Ehi as [Rhi ->]. apply int2byte_Ok in Elo as [Rlo ->].
    split; [| exact Hrest].
    eexists _, _. split; [exact Hs |].
    rewrite !Z_of_byte_of_Z by assumption. apply pointer_octets. lia.
  - apply bind_Ok in He as (b' & Eb & He). injection He as <- <-.
    exists b'. split; [exact Eb |]. split; [exact Hs | exact Hrest].
Qed.

Lemma lays_rdata (payload : rdata) : lays (enc_rdata payload) (payload_pieces payload).
Proof.
  destruct payload as [a|cpu os|alias|[text|]|priority weight port server];
    cbn [enc_rdata payload_pieces].
  - apply lays_blind, blind_lift. intros b [= <-]. reflexivity.
  - apply lays_raise. intros names pos b names' H.
    apply seq_Ok in H as (? & ? & ? & _ & H & _). discriminate.
  - apply lays_name.
  - apply lays_blind, blind_lift. intros b [= <-]. reflexivity.
  - apply lays_raise. intros names pos b names' H. discriminate.
  - apply (lays_seq _ _ [Other 2]); [apply lays_blind, blind_short |].
    apply (lays_seq _ _ [Other 2]); [apply lays_blind, blind_short |].
    apply (lays_seq _ _ [Other 2]); [apply lays_blind, blind_short |].
    apply lays_name.
Qed.

(** The payload is laid out two bytes behind the position of its length
    field, as the adjustment of [self.size] in [write_record] has it. *)
Lemma lays_rdata_sized (payload : rdata) :
  lays (enc_rdata_sized payload) (Other 2 :: payload_pieces payload).
Proof.
  intros names pos b names' p rest He Hs Hrest. unfold enc_rdata_sized in He.
  apply bind_Ok in He as ([b0 n0] & E0 & He). apply bind_Ok in He as (len & El & He).
  injection He as <- <-.
  apply length_pack_field in El. cbn [field_size] in El.
  apply slice_app_inv in Hs as [_ Hs]. rewrite El in Hs.
  cbn [app laid_out]. apply (lays_rdata payload _ _ _ _ _ _ E0 Hs).
  rewrite length_app, El, Nat.add_assoc in Hrest. exact Hrest.
Qed.

Lemma lays_record (mc : bool) (r : DNSRecord.t) (now : Z) :
  lays (enc_record mc r now) (record_pieces r).
Proof.
  unfold enc_record, record_pieces.
  apply (lays_seq _ _ [Name (DNSRecord.name r)]); [apply lays_name |].
  apply (lays_seq _ _ [Other 2]); [apply lays_blind, blind_short |].
  apply (lays_seq _ _ [Other 2]); [apply lays_blind, blind_short |].
  apply (lays_seq _ _ [Other 4]); [apply lays_blind, blind_int |].
  apply lays_rdata_sized.
Qed.

Lemma lays_question (q : DNSEntry.t) : lays (enc_question q) (question_pieces q).
Proof.
  unfold enc_question, question_pieces.
  apply (lays_seq _ _ [Name (DNSEntry.name q)]); [apply lays_name |].
  apply (lays_seq _ _ [Other 2]); apply lays_blind, blind_short.
Qed.

Lemma lays_seq_list {A} (f : A -> enc) (g : A -> list piece) (xs : list A) :
  (forall x, lays (f x) (g x)) -> lays (seq_list f xs) (concat (map g xs)).
Proof.
  intros Hf. induction xs as [|x xs IH]; cbn [seq_list map concat].
  - intros names pos b names' p rest He _ Hrest. injection He as <- <-.
    cbn [List.length app] in *. rewrite Nat.add_0_r in Hrest. exact Hrest.
  - apply lays_seq; [apply Hf | exact IH].
Qed.

Lemma lays_body (m : DNSOutgoing.t) : lays (enc_body m) (body_pieces m).
Proof.
  unfold enc_body, body_pieces.
  apply lays_seq; [apply lays_seq_list, lays_question |].
  apply lays_seq; [apply lays_seq_list; intros [r t]; apply lays_record |].
  apply lays_seq; apply lays_seq_list; intros r; apply lays_record.
Qed.

End layout.



(** ** A packet beyond the range of a name pointer *)

Section large_packet.

Import DNSIncoming.

Lemma read_rdata_ptr (now : Z) (domain : string) (class_ ttl length : Z)
    (self : DNSIncoming.t) :
  read_rdata now domain _TYPE_PTR class_ ttl length self
  = let* (alias, self) := read_name self in
    Ok (Some (DNSPointer now domain _TYPE_PTR class_ ttl alias), self).
Proof. reflexivity. Qed.

(** One round of [read_others] on a pointer record, from the runs of the
    loop of [read_name] with any fuel that is enough for them. *)
Lemma read_other_ptr (now : Z) (self : DNSIncoming.t) (fuel : nat)
    (domain alias : string) (off1 off2 : nat) (class_ ttl length : Z)
    (self1 : DNSIncoming.t) :
  read_name_loop fuel (data self) EmptyString (offset self) None (offset self)
  = Ok (domain, off1) ->
  unpack [fmt_H; fmt_H; fmt_i; fmt_H] (set_offset off1 self)
  = Ok ([_TYPE_PTR; class_; ttl; length], self1) ->
  read_name_loop fuel (data self1) EmptyString (offset self1) None (offset self1)
  = Ok (alias, off2) ->
  read_other now self
  = Ok (append_answer (DNSPointer now domain _TYPE_PTR class_ ttl alias)
          (set_offset off2 self1)).
Proof.
  intros H1 H2 H3. unfold read_other.
  rewrite (read_name_of_loop self fuel domain off1 H1). cbn [bind].
  rewrite H2. cbn [bind]. rewrite read_rdata_ptr.
  rewrite (read_name_of_loop self1 fuel alias off2 H3). reflexivity.
Qed.

End large_packet.

(** C1, as stated, fails: beyond 2^14 bytes a name pointer cannot hold the
    offset of the name it stands for, and [write_name] writes one all the
    same.  In this message of 16456 bytes the alias of the second pointer
    record is first written at offset 16438; the alias of the third is
    written as the two bytes 0xC0 0x36, which the parser reads as a pointer
    to offset 54, inside the text of the first answer, where it finds the
    empty name. *)
Lemma C1_large_packet_counterexample :
  let text := repeat x00 (Z.to_nat 16400) in
  let m := DNSOutgoing.__init__ (Z.lor _FLAGS_QR_RESPONSE _FLAGS_AA) true in
  let m := DNSOutgoing.add_answer_at_time
             (Some (DNSText 0 "a." _TYPE_TXT _CLASS_IN 60 (Some text))) 0 m in
  let m := DNSOutgoing.add_answer_at_time
             (Some (DNSPointer 0 "b." _TYPE_PTR _CLASS_IN 60 "c.")) 0 m in
  let m := DNSOutgoing.add_answer_at_time
             (Some (DNSPointer 0 "d." _TYPE_PTR _CLASS_IN 60 "c.")) 0 m in
  well_formed m = true /\
  hinfo_free m = true /\
  exists (p : bytes) (m' : DNSOutgoing.t) (inc : DNSIncoming.t),
    DNSOutgoing.packet m = Ok (p, m') /\
    Z.of_nat (List.length p) = 16456%Z /\
    DNSIncoming.__init__ 0 p = Ok inc /\
    map DNSRecord.payload (DNSIncoming.answers inc)
    = [Text (Some text); Pointer "c."; Pointer ""] /\
    ~ Forall2 same_record (DNSIncoming.answers inc) (DNSOutgoing.answers m).
Proof.
  intros text m0 m1 m2 m.
  split; [vm_compute; reflexivity |]. split; [vm_compute; reflexivity |].
  destruct (DNSOutgoing.packet m) as [[p m']|e] eqn:E; [| vm_compute in E; discriminate].
  assert (Hinc : Z.of_nat (List.length p) = 16456%Z /\
                 exists inc,
                   DNSIncoming.__init__ 0 p = Ok inc /\
                   map DNSRecord.payload (DNSIncoming.answers inc)
                   = [Text (Some text); Pointer "c."; Pointer ""]).
  { vm_compute in E. injection E as <- <-.
    split; [vm_compute; reflexivity |].
    unfold DNSIncoming.__init__. cbv zeta.
    match goal with |- context [DNSIncoming.read_header ?s] =>
      destruct (DNSIncoming.read_header s) as [s1|x] eqn:H1;
        [| vm_compute in H1; discriminate]
    end.
    vm_compute in H1. injection H1 as <-. cbn [bind].
    match goal with |- context [DNSIncoming.read_questions ?s] =>
      assert (Q : DNSIncoming.read_questions s = Ok s) by (vm_compute; reflexivity);
      rewrite Q; clear Q
    end.
    cbn [bind]. unfold DNSIncoming.read_others. cbv zeta.
    match goal with |- context [DNSIncoming.repeat_n ?n] =>
      change n with 3
    end.
    cbn [DNSIncoming.repeat_n].
    match goal with |- context [DNSIncoming.read_other 0 ?s] =>
      destruct (DNSIncoming.read_other 0 s) as [s2|x] eqn:R1;
        [| vm_compute in R1; discriminate]
    end.
    vm_compute in R1. injection R1 as <-. cbn [bind].
    erewrite (read_other_ptr 0 _ 4);
      [| vm_compute; reflexivity | vm_compute; reflexivity | vm_compute; reflexivity].
    cbn [bind].
    erewrite (read_other_ptr 0 _ 4);
      [| vm_compute; reflexivity | vm_compute; reflexivity | vm_compute; reflexivity].
    eexists. split; [reflexivity |]. vm_compute. reflexivity. }
  destruct Hinc as (Hl & inc & Hi & Hpay).
  exists p, m', inc. split; [reflexivity |]. split; [exact Hl |].
  split; [exact Hi |]. split; [exact Hpay |].
  intros F.
  destruct (DNSIncoming.answers inc) as [|r1 [|r2 [|r3 [|? ?]]]]; try discriminate Hpay.
  injection Hpay as _ _ H3.
  apply Forall2_cons_1 in F as [_ F]. apply Forall2_cons_1 in F as [_ F].
  apply Forall2_cons_1 in F as [[F _] _].
  unfold DNSRecord.__eq__ in F. rewrite H3 in F. cbn in F. discriminate.
Qed.
